(** * A shallow embedding of the transaction/KYC cleaning pipeline

    Source files embedded here:
    - [src/data_preprocessing.py]: [file_exists], [clean_transactions],
      [clean_bool_columns], [clean_kyc_data], [clean_kyc_industry_codes],
      [save_cleaned_data] and the [__main__] block;
    - [src/anomaly_detection.py]: [detect_anomalies], [run_anomaly_detection]
      and the file name the [__main__] block computes;
    - [src/embeddings.py]: [load_kyc_data], [preprocess_kyc_data],
      [build_autoencoder], [generate_customer_embeddings];
    - [src/main.py]: [main].

    The Python code is a sequence of pandas statements that mutate a
    DataFrame object in place, many of them wrapped in [try/except] blocks
    that log and continue.  The embedding keeps that shape: a store of
    DataFrame objects addressed by references, a state-and-exception monad,
    and one monadic statement per Python statement.

    Modelling decisions (pandas itself is a library, not part of the
    repository):
    - a column has one of the four dtypes a CSV load followed by the cleaning
      steps can give it: [object] holding text or NaN, numeric (int64 and
      float64 are not distinguished), [bool], [datetime64[ns]];
    - a float is an exact rational or an infinity, with NaN as the missing
      marker; every float operation the sources use on table cells ([abs],
      comparison with a constant, truth value) is exact in IEEE arithmetic;
    - text is ASCII: [str.strip], [str.lower] and [str.upper] are given for
      ASCII characters;
    - what pandas, scikit-learn and Keras compute from the contents of text
      (date parsing, number parsing), from calendars and from model fitting
      is taken through interfaces ([Pandas], [Sklearn], [Keras]) carrying
      only the laws the libraries document;
    - the disk is what [pd.read_csv] can load from it, path by path, and the
      text files the run writes; what writing a CSV file and reading it
      back does to a table, and which paths can be written, is taken
      through the interface [Files]. *)

From Stdlib Require Import ZArith QArith Qcanon Qcabs Qround Qabs String Ascii List Bool Lia.
From stdpp Require Import base tactics decidable option list strings.
Import ListNotations.

#[local] Unset Default Proof Using.
#[local] Open Scope string_scope.
#[local] Open Scope list_scope.

(** ** Text: the three [str] methods the cleaning rules call *)

Module Text.

(** Python's [str.isspace] on the ASCII range: TAB..CR, FS..US and space. *)
Definition isspace (c : ascii) : bool :=
  let n := nat_of_ascii c in
  ((9 <=? n)%nat && (n <=? 13)%nat) || ((28 <=? n)%nat && (n <=? 32)%nat).

Fixpoint lstrip (s : string) : string :=
  match s with
  | EmptyString => EmptyString
  | String c s' => if isspace c then lstrip s' else s
  end.

Fixpoint rstrip (s : string) : string :=
  match s with
  | EmptyString => EmptyString
  | String c s' =>
      match rstrip s' with
      | EmptyString => if isspace c then EmptyString else String c EmptyString
      | r => String c r
      end
  end.

(** [s.strip()] *)
Definition strip (s : string) : string := rstrip (lstrip s).

(** the text begins with a character that is not a blank, or is empty *)
Definition starts_clean (s : string) : Prop :=
  match s with
  | EmptyString => True
  | String c _ => isspace c = false
  end.

Definition lower_char (c : ascii) : ascii :=
  let n := nat_of_ascii c in
  if ((65 <=? n)%nat && (n <=? 90)%nat) then ascii_of_nat (n + 32) else c.

Definition upper_char (c : ascii) : ascii :=
  let n := nat_of_ascii c in
  if ((97 <=? n)%nat && (n <=? 122)%nat) then ascii_of_nat (n - 32) else c.

Fixpoint map_chars (f : ascii -> ascii) (s : string) : string :=
  match s with
  | EmptyString => EmptyString
  | String c s' => String (f c) (map_chars f s')
  end.

(** [s.lower()] and [s.upper()] *)
Definition lower : string -> string := map_chars lower_char.
Definition upper : string -> string := map_chars upper_char.

End Text.

(** ** Cell values *)

(** A float64 that is not NaN. *)
Inductive num : Type :=
| Finite (q : Qc)
| PosInf
| NegInf.

Definition num_of_Z (z : Z) : num := Finite (Q2Qc (inject_Z z)).

Definition num_abs (x : num) : num :=
  match x with
  | Finite q => Finite (Qcabs q)
  | PosInf | NegInf => PosInf
  end.

(** [x >= 0] on a float that is not NaN. *)
Definition num_nonneg (x : num) : Prop :=
  match x with
  | Finite q => (0 <= q)%Qc
  | PosInf => True
  | NegInf => False
  end.

Definition num_is_zero (x : num) : bool :=
  match x with
  | Finite q => Qc_eq_bool q (Q2Qc 0)
  | PosInf | NegInf => false
  end.

#[global] Instance Qc_eq_decision : EqDecision Qc := Qc_eq_dec.
#[global] Instance num_eq_decision : EqDecision num.
Proof. solve_decision. Defined.

(** One cell of a table, as a row sees it.  [SNull] is NaN, None or NaT. *)
Inductive scalar : Type :=
| SNull
| SStr (s : string)
| SNum (x : num)
| SBool (b : bool)
| SDate (t : Z).

#[global] Instance scalar_eq_decision : EqDecision scalar.
Proof. solve_decision. Defined.

Definition is_null (c : scalar) : bool :=
  match c with SNull => true | _ => false end.

(** ** Columns *)

(** A pandas Series without its index: the dtype is the constructor.
    Timestamps are the int64 count of nanoseconds since the epoch that
    [datetime64[ns]] stores. *)
Inductive Series : Type :=
| ObjectS (xs : list (option string))
| NumericS (xs : list (option num))
| BoolS (xs : list bool)
| DatetimeS (xs : list (option Z)).

#[global] Instance Series_eq_decision : EqDecision Series.
Proof. solve_decision. Defined.

Definition cell_of_str (o : option string) : scalar :=
  match o with Some s => SStr s | None => SNull end.
Definition cell_of_num (o : option num) : scalar :=
  match o with Some x => SNum x | None => SNull end.
Definition cell_of_date (o : option Z) : scalar :=
  match o with Some t => SDate t | None => SNull end.

Definition cells (s : Series) : list scalar :=
  match s with
  | ObjectS xs => map cell_of_str xs
  | NumericS xs => map cell_of_num xs
  | BoolS xs => map SBool xs
  | DatetimeS xs => map cell_of_date xs
  end.

Definition series_len (s : Series) : nat :=
  match s with
  | ObjectS xs => length xs
  | NumericS xs => length xs
  | BoolS xs => length xs
  | DatetimeS xs => length xs
  end.

(** Boolean indexing [s[mask]]. *)
Fixpoint take_mask {A : Type} (mask : list bool) (xs : list A) : list A :=
  match mask, xs with
  | b :: mask', x :: xs' => if b then x :: take_mask mask' xs' else take_mask mask' xs'
  | _, _ => []
  end.

Definition series_take (mask : list bool) (s : Series) : Series :=
  match s with
  | ObjectS xs => ObjectS (take_mask mask xs)
  | NumericS xs => NumericS (take_mask mask xs)
  | BoolS xs => BoolS (take_mask mask xs)
  | DatetimeS xs => DatetimeS (take_mask mask xs)
  end.

(** [s.notna()] *)
Definition notna (s : Series) : list bool :=
  map (fun c => negb (is_null c)) (cells s).

(** ** Tables *)

(** A DataFrame: the row index (its name and labels) and the columns in
    order.  [drop_duplicates] compares rows on the columns only, and
    [to_csv(index=False)] writes the columns only. *)
Record DataFrame : Type := mkDF {
  index_name : option string;
  index : Series;
  columns : list (string * Series)
}.

#[global] Instance DataFrame_eq_decision : EqDecision DataFrame.
Proof. solve_decision. Defined.

(** [len(df)] *)
Definition nrows (df : DataFrame) : nat := series_len (index df).

(** [df.columns] *)
Definition column_names (df : DataFrame) : list string := map fst (columns df).

(** [col in df.columns] *)
Definition has_column (col : string) (df : DataFrame) : bool :=
  bool_decide (col ∈ column_names df).

Fixpoint assoc {A : Type} (k : string) (l : list (string * A)) : option A :=
  match l with
  | [] => None
  | (k', v) :: l' => if decide (k = k') then Some v else assoc k l'
  end.

Definition get_col (col : string) (df : DataFrame) : option Series :=
  assoc col (columns df).

Fixpoint assoc_set {A : Type} (k : string) (v : A) (l : list (string * A))
  : list (string * A) :=
  match l with
  | [] => [(k, v)]
  | (k', v') :: l' =>
      if decide (k = k') then (k, v) :: l' else (k', v') :: assoc_set k v l'
  end.

(** [df[col] = s]: an existing column is replaced where it stands, a new one
    is appended. *)
Definition set_col (col : string) (s : Series) (df : DataFrame) : DataFrame :=
  mkDF (index_name df) (index df) (assoc_set col s (columns df)).

(** Labels are unique and every column is as long as the index. *)
Definition wf (df : DataFrame) : Prop :=
  NoDup (column_names df) /\
  Forall (fun c => series_len (snd c) = nrows df) (columns df).

(** The rows of the table, each the list of its cells in column order. *)
Definition row_at (df : DataFrame) (i : nat) : list scalar :=
  map (fun c => nth i (cells (snd c)) SNull) (columns df).

Definition rows (df : DataFrame) : list (list scalar) :=
  map (row_at df) (seq 0 (nrows df)).

(** [df[mask]] *)
Definition filter_rows (mask : list bool) (df : DataFrame) : DataFrame :=
  mkDF (index_name df) (series_take mask (index df))
       (map (fun c => (fst c, series_take mask (snd c))) (columns df)).

(** [~df.duplicated(keep='first')]: a row is kept when no earlier row
    equals it; NaN equals NaN here, as in pandas. *)
Fixpoint first_occurrence (seen : list (list scalar)) (rs : list (list scalar))
  : list bool :=
  match rs with
  | [] => []
  | r :: rs' =>
      if decide (r ∈ seen) then false :: first_occurrence seen rs'
      else true :: first_occurrence (r :: seen) rs'
  end.

(** [df.empty] *)
Definition df_empty (df : DataFrame) : bool :=
  (nrows df =? 0)%nat || (length (columns df) =? 0)%nat.

(** [df.drop_duplicates()]; pandas returns an empty frame (no rows or no
    columns) as it is. *)
Definition drop_duplicates (df : DataFrame) : DataFrame :=
  if df_empty df then df
  else filter_rows (first_occurrence [] (rows df)) df.

(** [RangeIndex(n)] *)
Definition RangeIndex (n : nat) : Series :=
  NumericS (map (fun i => Some (num_of_Z (Z.of_nat i))) (seq 0 n)).

(** ** Exceptions, the log and the state monad *)

Inductive exn : Type :=
| AttributeError
| KeyError (key : string)
| TypeError
| ValueError
| FileNotFoundError
| SystemError.

Inductive outcome (A : Type) : Type :=
| Ok (a : A)
| Raise (e : exn).
Arguments Ok {A} a.
Arguments Raise {A} e.

(** What [logging.error] and [logging.info] record: the fixed text of the
    message, the caught exception, the numbers interpolated into it. *)
Inductive log_record : Type :=
| LogError (msg : string) (e : option exn)
| LogInfo (msg : string) (args : list nat).

Definition is_error (r : log_record) : bool :=
  match r with LogError _ _ => true | LogInfo _ _ => false end.

(** A Python statement: it reads and updates a state and either returns or
    raises; the updates made before a raise stay. *)
Definition M (S A : Type) : Type := S -> outcome A * S.

#[global] Instance M_ret {S} : MRet (M S) := fun A a s => (Ok a, s).
#[global] Instance M_bind {S} : MBind (M S) := fun A B k m s =>
  match m s with
  | (Ok a, s') => k a s'
  | (Raise e, s') => (Raise e, s')
  end.

Definition raise {S A} (e : exn) : M S A := fun s => (Raise e, s).

Definition lift {S A} (r : outcome A) : M S A := fun s => (r, s).

(** [try: body except Exception as e: handler(e)] *)
Definition try_except {S} (body : M S unit) (handler : exn -> M S unit) : M S unit :=
  fun s =>
    match body s with
    | (Ok u, s') => (Ok u, s')
    | (Raise e, s') => handler e s'
    end.

(** [for x in xs: body(x)] *)
Fixpoint for_ {S A} (xs : list A) (body : A -> M S unit) : M S unit :=
  match xs with
  | [] => mret tt
  | x :: xs' => body x ;; for_ xs' body
  end.

(** [if b: body] *)
Definition when_ {S} (b : bool) (body : M S unit) : M S unit :=
  if b then body else mret tt.

(** ** Library interfaces *)

(** The part of pandas whose result depends on how text denotes dates and
    numbers, on the calendar, or on casts this model leaves open. *)
Class Pandas : Type := {
  (** the values of [pd.to_datetime(s, errors='coerce')]: one timestamp or NaT
      per element; on text the format is inferred from the whole column *)
  to_datetime_values : Series -> list (option Z);
  to_datetime_length : forall s, length (to_datetime_values s) = series_len s;
  to_datetime_datetime : forall xs, to_datetime_values (DatetimeS xs) = xs;
  (** what [pd.to_numeric(errors='coerce')] makes of one text cell:
      [None] when the text is not a number *)
  parse_numeric : string -> option num;
  (** [Timestamp.strftime('%Y-%m-%d')] *)
  strftime_ymd : Z -> string;
  (** [astype(bool)] on a datetime column *)
  datetime_astype_bool : list (option Z) -> outcome (list bool);
  (** [str(x)] of a number and of a timestamp *)
  str_of_num : num -> string;
  str_of_timestamp : Z -> string;
  (** [(X - X.min()) / (X.max() - X.min() + 1e-6)] on one float64 column
      without NaN *)
  min_max_scale : list num -> list (option num);
  min_max_scale_length : forall xs, length (min_max_scale xs) = length xs
}.

(** the int64 that [datetime64[ns]] stores for NaT *)
Definition iNaT : Z := (- 2 ^ 63)%Z.

Section SeriesOps.
Context {pd : Pandas}.

(** [s.str.strip()], [s.str.lower()], [s.str.upper()]: the [.str] accessor
    exists on an object column only. *)
Definition str_method (f : string -> string) (s : Series) : outcome Series :=
  match s with
  | ObjectS xs => Ok (ObjectS (map (fmap f) xs))
  | _ => Raise AttributeError
  end.

Definition str_strip := str_method Text.strip.
Definition str_lower := str_method Text.lower.
Definition str_upper := str_method Text.upper.

(** [pd.to_datetime(s, errors='coerce')] *)
Definition to_datetime (s : Series) : Series := DatetimeS (to_datetime_values s).

(** [pd.to_numeric(s, errors='coerce')]: text is parsed cell by cell, a
    numeric or bool column is returned as it is, a datetime column is viewed
    as its int64 nanoseconds. *)
Definition to_numeric (s : Series) : Series :=
  match s with
  | ObjectS xs => NumericS (map (fun o => o ≫= parse_numeric) xs)
  | NumericS _ | BoolS _ => s
  | DatetimeS xs => NumericS (map (fun o => Some (num_of_Z (default iNaT o))) xs)
  end.

(** [s.fillna(v)] with a text value [v].  An object column gets [v] at its
    missing cells.  A numeric column with nothing but NaN becomes an object
    column of [v].  A column with no missing cell is returned as it is.
    A numeric column mixing numbers and NaN, or a datetime column with NaT,
    would become a column mixing text with numbers or dates, which [Series]
    cannot hold: it is returned as it is (the only caller then fails on the
    concatenation, as pandas does on numbers). *)
Definition fillna_str (v : string) (s : Series) : Series :=
  match s with
  | ObjectS xs => ObjectS (map (fun o => Some (default v o)) xs)
  | NumericS xs =>
      if forallb (fun o => bool_decide (o = None)) xs
      then ObjectS (map (fun _ : option num => Some v) xs) else s
  | BoolS _ | DatetimeS _ => s
  end.

(** [s.dt.strftime('%Y-%m-%d')]: NaT gives NaN. *)
Definition dt_strftime (s : Series) : outcome Series :=
  match s with
  | DatetimeS xs => Ok (ObjectS (map (fmap strftime_ymd) xs))
  | _ => Raise AttributeError
  end.

(** [s + v] for a text [v] *)
Definition add_str (s : Series) (v : string) : outcome Series :=
  match s with
  | ObjectS xs => Ok (ObjectS (map (fmap (fun x => String.append x v)) xs))
  | _ => Raise TypeError
  end.

Definition concat_cell (x y : option string) : option string :=
  match x, y with
  | Some a, Some b => Some (String.append a b)
  | _, _ => None
  end.

Fixpoint zip_cells (xs ys : list (option string)) : list (option string) :=
  match xs, ys with
  | x :: xs', y :: ys' => concat_cell x y :: zip_cells xs' ys'
  | _, _ => []
  end.

(** [a + b] for two columns of one table: text joins text, a missing side
    gives NaN, text and a non-text column do not add. *)
Definition add_series (a b : Series) : outcome Series :=
  match a, b with
  | ObjectS xs, ObjectS ys => Ok (ObjectS (zip_cells xs ys))
  | _, _ => Raise TypeError
  end.

(** [s.abs()]: NaN stays NaN; text has no absolute value. *)
Definition series_abs (s : Series) : outcome Series :=
  match s with
  | NumericS xs => Ok (NumericS (map (fmap num_abs) xs))
  | BoolS _ => Ok s
  | ObjectS xs =>
      if forallb (fun o => bool_decide (o = None)) xs then Ok s else Raise TypeError
  | DatetimeS _ => Raise TypeError
  end.

(** Python truth value of a cell of an object column read from CSV:
    [bool(nan)] is [True], [bool("")] is [False]. *)
Definition truth_str (o : option string) : bool :=
  match o with
  | None => true
  | Some s => negb (bool_decide (s = ""))
  end.

Definition truth_num (o : option num) : bool :=
  match o with
  | None => true
  | Some x => negb (num_is_zero x)
  end.

(** [s.astype(bool)] *)
Definition astype_bool (s : Series) : outcome Series :=
  match s with
  | ObjectS xs => Ok (BoolS (map truth_str xs))
  | NumericS xs => Ok (BoolS (map truth_num xs))
  | BoolS _ => Ok s
  | DatetimeS xs =>
      match datetime_astype_bool xs with
      | Ok bs => Ok (BoolS bs)
      | Raise e => Raise e
      end
  end.

(** [s == z] for an integer [z] *)
Definition series_eq_int (s : Series) (z : Z) : Series :=
  match s with
  | NumericS xs => BoolS (map (fun o => bool_decide (o = Some (num_of_Z z))) xs)
  | BoolS xs => BoolS (map (fun b : bool => bool_decide ((if b then 1%Z else 0%Z) = z)) xs)
  | ObjectS xs => BoolS (map (fun _ : option string => false) xs)
  | DatetimeS xs => BoolS (map (fun _ : option Z => false) xs)
  end.

(** [s.astype(str).values] *)
Definition astype_str (s : Series) : list string :=
  match s with
  | ObjectS xs => map (fun o => default "nan" o) xs
  | NumericS xs => map (fun o => from_option str_of_num "nan" o) xs
  | BoolS xs => map (fun b : bool => if b then "True" else "False") xs
  | DatetimeS xs => map (fun o => from_option str_of_timestamp "NaT" o) xs
  end.

End SeriesOps.

(** ** DataFrame methods *)

(** [df.dropna(subset=[col])] *)
Definition dropna (col : string) (df : DataFrame) : outcome DataFrame :=
  match get_col col df with
  | Some s => Ok (filter_rows (notna s) df)
  | None => Raise (KeyError col)
  end.

(** [df.reset_index()]: the index becomes the first column, under its name,
    or under [index] ([level_0] when [index] is taken); a name that is
    already a column is refused. *)
Definition reset_index_name (df : DataFrame) : string :=
  match index_name df with
  | Some n => n
  | None => if has_column "index" df then "level_0" else "index"
  end.

Definition reset_index (df : DataFrame) : outcome DataFrame :=
  let name := reset_index_name df in
  if has_column name df then Raise ValueError
  else Ok (mkDF None (RangeIndex (nrows df)) ((name, index df) :: columns df)).

(** [df.rename(columns={old: new})] *)
Definition rename (old new : string) (df : DataFrame) : DataFrame :=
  mkDF (index_name df) (index df)
       (map (fun c => (if decide (fst c = old) then new else fst c, snd c)) (columns df)).

(** the dtype is [datetime64[ns]] *)
Definition is_datetime (s : Series) : bool :=
  match s with DatetimeS _ => true | _ => false end.

(** [df.select_dtypes(include=['object']).columns] *)
Definition is_object (s : Series) : bool :=
  match s with ObjectS _ => true | _ => false end.

Definition select_dtypes_object (df : DataFrame) : list string :=
  map fst (filter (fun c => is_object (snd c)) (columns df)).

(** [df[cols]] for a list of labels *)
Fixpoint select_columns (cols : list string) (df : DataFrame)
  : outcome (list (string * Series)) :=
  match cols with
  | [] => Ok []
  | c :: cols' =>
      match get_col c df, select_columns cols' df with
      | Some s, Ok r => Ok ((c, s) :: r)
      | None, _ => Raise (KeyError c)
      | _, Raise e => Raise e
      end
  end.

(** ** The store of DataFrame objects and the statements on one of them *)

(** A reference to a DataFrame object. *)
Definition loc : Type := nat.

Record world : Type := mkWorld {
  heap : list DataFrame;             (* the DataFrame objects alive *)
  log : list log_record;             (* what the logging module received *)
  csv_files : list (string * DataFrame);  (* each CSV file, as [pd.read_csv(path)] loads it *)
  text_files : list (string * string)     (* text files written by the run *)
}.

(** The state a method call on one DataFrame works on: the object and the
    process-wide log. *)
Definition fstate : Type := DataFrame * list log_record.

Class Logger (S : Type) : Type := add_log : log_record -> S -> S.
#[global] Instance fstate_logger : Logger fstate :=
  fun r s => (fst s, snd s ++ [r]).
#[global] Instance world_logger : Logger world :=
  fun r w => mkWorld (heap w) (log w ++ [r]) (csv_files w) (text_files w).

(** [logging.error(f"<msg>: {e}")] and [logging.info(f"<msg> ...")] *)
Definition logging_error {S} `{Logger S} (msg : string) (e : option exn) : M S unit :=
  fun s => (Ok tt, add_log (LogError msg e) s).
Definition logging_info {S} `{Logger S} (msg : string) (args : list nat) : M S unit :=
  fun s => (Ok tt, add_log (LogInfo msg args) s).

(** Statements executed on the object behind [l]: every update lands in the
    store cell [l], so every holder of the reference sees it. *)
Definition on {A} (l : loc) (m : M fstate A) : M world A :=
  fun w =>
    match heap w !! l with
    | None => (Raise SystemError, w)
    | Some f =>
        let '(r, (f', lg')) := m (f, log w) in
        (r, mkWorld (<[l := f']> (heap w)) lg' (csv_files w) (text_files w))
    end.

(** a new object *)
Definition alloc (f : DataFrame) : M world loc :=
  fun w => (Ok (length (heap w)),
            mkWorld (heap w ++ [f]) (log w) (csv_files w) (text_files w)).

Definition this : M fstate DataFrame := fun s => (Ok (fst s), s).

(** [df.copy()] *)
Definition copy (l : loc) : M world loc := f ← on l this; alloc f.

(** [len(df)], [df.columns], [col in df.columns] *)
Definition len : M fstate nat := fun s => (Ok (nrows (fst s)), s).
Definition df_columns : M fstate (list string) := fun s => (Ok (column_names (fst s)), s).
Definition contains (col : string) : M fstate bool := fun s => (Ok (has_column col (fst s)), s).

(** [df[col]] *)
Definition getitem (col : string) : M fstate Series :=
  fun s =>
    match get_col col (fst s) with
    | Some c => (Ok c, s)
    | None => (Raise (KeyError col), s)
    end.

(** [df[col] = c] *)
Definition setitem (col : string) (c : Series) : M fstate unit :=
  fun s => (Ok tt, (set_col col c (fst s), snd s)).

(** [df[col] = values] for an array: the length must be that of the index. *)
Definition setitem_array (col : string) (c : Series) : M fstate unit :=
  fun s =>
    if decide (series_len c = nrows (fst s))
    then (Ok tt, (set_col col c (fst s), snd s))
    else (Raise ValueError, s).

(** a method called with [inplace=True] *)
Definition inplace (method : DataFrame -> outcome DataFrame) : M fstate unit :=
  fun s =>
    match method (fst s) with
    | Ok f' => (Ok tt, (f', snd s))
    | Raise e => (Raise e, s)
    end.

(** ** [src/data_preprocessing.py] *)

Section DataPreprocessing.
Context {pd : Pandas}.

Definition clean_transactions (df : loc) (date_cols numeric_cols : list string)
  : M world loc :=
  initial_rows ← on df len;
  df ← copy df;
  on df (
    try_except
      (inplace (fun f => Ok (drop_duplicates f)))
      (fun e => logging_error "Error dropping duplicates" (Some e)) ;;
    try_except
      (cols ← (fun s => (Ok (select_dtypes_object (fst s)), s));
       for_ cols (fun col =>
         c ← getitem col; c ← lift (str_strip c); setitem col c))
      (fun e => logging_error "Error stripping whitespace" (Some e)) ;;
    try_except
      (for_ date_cols (fun col =>
         b ← contains col;
         when_ b (c ← getitem col; setitem col (to_datetime c))))
      (fun e => logging_error "Error converting date columns" (Some e)) ;;
    try_except
      (b1 ← contains "transaction_date";
       b2 ← contains "transaction_time";
       when_ (b1 && b2)
         (t ← getitem "transaction_time";
          setitem "transaction_time" (fillna_str "00:00:00" t) ;;
          d ← getitem "transaction_date";
          d ← lift (dt_strftime d);
          d ← lift (add_str d " ");
          t ← getitem "transaction_time";
          dt ← lift (add_series d t);
          setitem "transaction_datetime" (to_datetime dt)))
      (fun e => logging_error "Error combining date and time" (Some e)) ;;
    try_except
      (for_ numeric_cols (fun col =>
         b ← contains col;
         when_ b (c ← getitem col; setitem col (to_numeric c))))
      (fun e => logging_error "Error converting numeric columns" (Some e)) ;;
    try_except
      (b ← contains "debit_credit";
       when_ b (c ← getitem "debit_credit"; c ← lift (str_lower c);
                setitem "debit_credit" c))
      (fun e => logging_error "Error standardizing 'debit_credit'" (Some e)) ;;
    try_except
      (for_ ["country"; "province"; "city"] (fun col =>
         b ← contains col;
         when_ b (c ← getitem col; c ← lift (str_upper c); setitem col c)))
      (fun e => logging_error "Error standardizing geographic columns" (Some e)) ;;
    try_except
      (b ← contains "customer_id";
       when_ b (inplace (dropna "customer_id")))
      (fun e => logging_error "Error dropping rows missing 'customer_id'" (Some e)) ;;
    final_rows ← len;
    logging_info "Transactions cleaned" [initial_rows; final_rows]) ;;
  mret df.

(** The conversion is made on the object passed in, which is also what is
    returned. *)
Definition clean_bool_columns (df : loc) (bool_columns : list string)
  : M world loc :=
  on df (
    for_ bool_columns (fun col =>
      b ← contains col;
      when_ b
        (try_except
           (c ← getitem col; c ← lift (astype_bool c); setitem col c)
           (fun e => logging_error "Error converting to bool" (Some e))))) ;;
  mret df.

Definition clean_kyc_data (df : loc) : M world loc :=
  initial_rows ← on df len;
  df ← copy df;
  on df (
    try_except
      (inplace reset_index ;;
       inplace (fun f => Ok (drop_duplicates f)))
      (fun e => logging_error "Error resetting index or dropping duplicates in KYC" (Some e)) ;;
    try_except
      (cols ← (fun s => (Ok (select_dtypes_object (fst s)), s));
       for_ cols (fun col =>
         c ← getitem col; c ← lift (str_strip c); setitem col c))
      (fun e => logging_error "Error stripping whitespace in KYC data" (Some e)) ;;
    try_except
      (b ← contains "established_date";
       when_ b (c ← getitem "established_date";
                setitem "established_date" (to_datetime c)) ;;
       b ← contains "onboard_date";
       when_ b (c ← getitem "onboard_date";
                setitem "onboard_date" (to_datetime c)))
      (fun e => logging_error "Error converting date columns in KYC data" (Some e)) ;;
    try_except
      (b ← contains "sales";
       when_ b (c ← getitem "sales"; setitem "sales" (to_numeric c)) ;;
       b ← contains "employee_count";
       when_ b (c ← getitem "employee_count";
                setitem "employee_count" (to_numeric c)))
      (fun e => logging_error "Error converting numeric columns in KYC data" (Some e)) ;;
    try_except
      (for_ ["country"; "province"; "city"; "industry_code"] (fun col =>
         b ← contains col;
         when_ b (c ← getitem col; c ← lift (str_upper c); setitem col c)))
      (fun e => logging_error "Error standardizing columns in KYC data" (Some e)) ;;
    try_except
      (inplace (dropna "customer_id"))
      (fun e => logging_error "Error dropping rows with missing customer_id in KYC" (Some e)) ;;
    final_rows ← len;
    logging_info "KYC data cleaned" [initial_rows; final_rows]) ;;
  mret df.

(** The whole body is one [try] block that starts with [df = df.copy()];
    the copy of a DataFrame does not raise, so the object returned is the
    copy whatever happens after it. *)
Definition clean_kyc_industry_codes (df : loc) : M world loc :=
  df ← copy df;
  on df (
    try_except
      (inplace (fun f => Ok (drop_duplicates f)) ;;
       inplace reset_index ;;
       inplace (fun f => Ok (rename "index" "industry_code" f)) ;;
       cols ← (fun s => (Ok (select_dtypes_object (fst s)), s));
       for_ cols (fun col =>
         c ← getitem col; c ← lift (str_strip c); c ← lift (str_upper c);
         setitem col c))
      (fun e => logging_error "Error cleaning KYC industry codes data" (Some e))) ;;
  mret df.

(** The card branch of the [__main__] block: the card table is cleaned, its
    amounts are replaced by their absolute value (outside any [try]), and
    its e-commerce indicator is made boolean. *)
Definition main_card_data (raw : loc) : M world loc :=
  card_data ← clean_transactions raw ["transaction_date"] ["amount_cad"];
  b ← on card_data (contains "amount_cad");
  when_ b
    (c ← on card_data (getitem "amount_cad");
     c ← lift (series_abs c);
     on card_data (setitem "amount_cad" c) ;;
     logging_info "Converted negative amounts in card_data to absolute values." []) ;;
  card_data ← clean_bool_columns card_data ["ecommerce_ind"];
  mret card_data.

End DataPreprocessing.

(** ** [src/anomaly_detection.py] *)

(** [IsolationForest(contamination=c, random_state=seed).fit_predict(X)]:
    one label per row of the feature matrix, or an exception (no rows, NaN or
    text among the features). *)
Class Sklearn : Type := {
  fit_predict : Qc -> Z -> DataFrame -> outcome (list Z);
  fit_predict_length :
    forall c seed X ys, fit_predict c seed X = Ok ys -> length ys = nrows X
}.

(** an int64 array as a column *)
Definition int_series (ys : list Z) : Series :=
  NumericS (map (fun y => Some (num_of_Z y)) ys).

(** [df[cols]] *)
Definition getitems (cols : list string) : M fstate DataFrame :=
  fun s =>
    match select_columns cols (fst s) with
    | Ok cs => (Ok (mkDF (index_name (fst s)) (index (fst s)) cs), s)
    | Raise e => (Raise e, s)
    end.

(** [df['is_anomaly'].sum()] *)
Definition count_true (s : Series) : nat :=
  match s with
  | BoolS bs => length (filter (fun b => Is_true b) bs)
  | _ => 0
  end.

Section AnomalyDetection.
Context {sk : Sklearn}.

(** No copy is taken: the two columns are written into the table passed
    in, and that same object is returned. *)
Definition detect_anomalies (df : loc) (contamination : Qc)
    (features : option (list string)) : M world loc :=
  let features := default ["amount_cad"] features in
  cols ← on df df_columns;
  let available_features := filter (fun col => col ∈ cols) features in
  if bool_decide (available_features = []) then
    logging_error "No valid features found for anomaly detection." None ;;
    mret df
  else
    X ← on df (getitems available_features);
    scores ← lift (fit_predict contamination 42 X);
    on df (setitem_array "anomaly_score" (int_series scores)) ;;
    c ← on df (getitem "anomaly_score");
    on df (setitem "is_anomaly" (series_eq_int c (-1))) ;;
    a ← on df (getitem "is_anomaly");
    n ← on df len;
    logging_info "Anomaly detection: Found anomalies out of rows" [count_true a; n] ;;
    mret df.

End AnomalyDetection.

(** ** [src/embeddings.py] *)

(** A two-dimensional float array: its shape and its rows. *)
Record ndarray : Type := mkArray {
  shape0 : nat;
  shape1 : nat;
  array_rows : list (list (option num))
}.

Record Dense : Type := mkDense { units : nat; activation : string }.

(** A Keras functional model from one input layer through dense layers. *)
Record Model : Type := mkModel { input_dim_of : nat; layers : list Dense }.

Definition output_dim (m : Model) : nat :=
  List.last (map units (layers m)) (input_dim_of m).

(** [autoencoder.fit(X, X, epochs, batch_size)] followed by
    [encoder.predict(X)] on the encoder sharing the trained layers: one row
    per input row, as wide as the encoder's last layer. *)
Class Keras : Type := {
  fit_then_predict : Model -> Model -> nat -> nat -> ndarray -> outcome (list (list (option num)));
  predict_shape :
    forall autoencoder encoder epochs batch_size X E,
      fit_then_predict autoencoder encoder epochs batch_size X = Ok E ->
      length E = shape0 X /\ Forall (fun r => length r = output_dim encoder) E
}.

Module Format.

Definition digit (n : Z) : ascii := ascii_of_nat (48 + Z.to_nat n).

Definition is_digit (c : ascii) : bool :=
  let n := nat_of_ascii c in (48 <=? n)%nat && (n <=? 57)%nat.

Fixpoint all_digits (s : string) : bool :=
  match s with
  | EmptyString => true
  | String c s' => is_digit c && all_digits s'
  end.

(** the last [k] decimal digits of [n], zero-padded *)
Fixpoint fixed_digits (k : nat) (n : Z) : string :=
  match k with
  | O => EmptyString
  | S k' => String.append (fixed_digits k' (n / 10)) (String (digit (n mod 10)) EmptyString)
  end.

(** decimal digits of a natural number, no leading zero except for 0 *)
Fixpoint decimal (fuel : nat) (n : Z) : string :=
  match fuel with
  | O => EmptyString
  | S fuel' =>
      if (n <? 10)%Z then String (digit n) EmptyString
      else String.append (decimal fuel' (n / 10)) (String (digit (n mod 10)) EmptyString)
  end.

Definition str_of_nonneg (n : Z) : string := decimal (S (Z.to_nat n)) n.

(** round to the nearest integer, ties to even *)
Definition round_half_even (q : Q) : Z :=
  let f := Qfloor q in
  match Qcompare (q - inject_Z f) (1 # 2) with
  | Lt => f
  | Gt => (f + 1)%Z
  | Eq => if Z.even f then f else (f + 1)%Z
  end.

(** [f"{x:.8f}"] *)
Definition format_8f (x : option num) : string :=
  match x with
  | None => "nan"
  | Some PosInf => "inf"
  | Some NegInf => "-inf"
  | Some (Finite q) =>
      let n := round_half_even (Qabs q * inject_Z (10 ^ 8)) in
      String.append (if Qlt_le_dec q 0 then "-" else "")
        (String.append (str_of_nonneg (n / 10 ^ 8))
           (String.append "." (fixed_digits 8 (n mod 10 ^ 8))))
  end.

(** [sep.join(xs)] *)
Fixpoint join (sep : string) (xs : list string) : string :=
  match xs with
  | [] => EmptyString
  | [x] => x
  | x :: xs' => String.append x (String.append sep (join sep xs'))
  end.

End Format.

(** [pd.read_csv(path)] *)
Definition read_csv (path : string) : M world loc :=
  fun w =>
    match assoc path (csv_files w) with
    | Some f => alloc f w
    | None => (Raise FileNotFoundError, w)
    end.

(** [with open(path, "w") as f: ...] leaving [content] in the file *)
Definition write_text (path content : string) : M world unit :=
  fun w => (Ok tt, mkWorld (heap w) (log w) (csv_files w)
                           (assoc_set path content (text_files w))).

(** [try: body except Exception as e: handler(e)] for a body that returns *)
Definition try_return {S A} (body : M S A) (handler : exn -> M S A) : M S A :=
  fun s =>
    match body s with
    | (Ok a, s') => (Ok a, s')
    | (Raise e, s') => handler e s'
    end.

Section Embeddings.
Context {pd : Pandas} {kr : Keras}.

Definition load_kyc_data : M world (option loc) :=
  let kyc_file := "mnt/output/clean/cleaned_kyc.csv" in
  try_return
    (df ← read_csv kyc_file;
     n ← on df len;
     logging_info "Loaded KYC data with rows." [n] ;;
     mret (Some df))
    (fun e => logging_error "Error loading KYC data" (Some e) ;; mret None).

(** [X.fillna(0)] then the min-max scaling, on one feature column;
    arithmetic is defined on numeric columns. *)
Definition scale_column (c : Series) : outcome (list (option num)) :=
  match c with
  | NumericS xs => Ok (min_max_scale (map (default (num_of_Z 0)) xs))
  | _ => Raise TypeError
  end.

Fixpoint scale_columns (cs : list (string * Series))
  : outcome (list (list (option num))) :=
  match cs with
  | [] => Ok []
  | c :: cs' =>
      match scale_column (snd c), scale_columns cs' with
      | Ok x, Ok r => Ok (x :: r)
      | Raise e, _ => Raise e
      | _, Raise e => Raise e
      end
  end.

(** [.values]: the rows of a frame given by its columns *)
Definition to_rows (n : nat) (cols : list (list (option num)))
  : list (list (option num)) :=
  map (fun i => map (fun c => nth i c None) cols) (seq 0 n).

Definition preprocess_kyc_data (feature_cols : list string) : M fstate ndarray :=
  X ← getitems feature_cols;
  X_norm ← lift (scale_columns (columns X));
  mret (mkArray (nrows X) (length feature_cols) (to_rows (nrows X) X_norm)).

Definition build_autoencoder (input_dim embedding_dim : nat) : Model * Model :=
  let encoded := [mkDense 32 "relu"; mkDense embedding_dim "relu"] in
  let decoded := encoded ++ [mkDense 32 "relu"; mkDense input_dim "sigmoid"] in
  (mkModel input_dim decoded, mkModel input_dim encoded).

(** one line of the artifact *)
Definition output_line (cid : string) (emb : list (option num)) : string :=
  String.append cid (String.append ", " (Format.join ", " (map Format.format_8f emb))).

Definition newline : string := String (ascii_of_nat 10) EmptyString.

Definition file_content (output_lines : list string) : string :=
  fold_right (fun line rest => String.append line (String.append newline rest))
             EmptyString output_lines.

Definition generate_customer_embeddings (feature_cols : list string)
    (epochs batch_size : nat) : M world unit :=
  df ← load_kyc_data;
  match df with
  | None =>
      logging_error "Failed to load KYC data. Exiting embedding generation." None
  | Some df =>
      X ← on df (preprocess_kyc_data feature_cols);
      let input_dim := shape1 X in
      logging_info "Building autoencoder with input dimension and embedding dimension 16." [input_dim] ;;
      let '(autoencoder, encoder) := build_autoencoder input_dim 16 in
      logging_info "Training autoencoder..." [] ;;
      embeddings ← lift (fit_then_predict autoencoder encoder epochs batch_size X);
      c ← on df (getitem "customer_id");
      let customer_ids := astype_str c in
      let output_lines :=
        map (fun p => output_line (fst p) (snd p)) (zip customer_ids embeddings) in
      let output_file := "mnt/output/task3/customer_embeddings.txt" in
      try_except
        (write_text output_file (file_content output_lines) ;;
         logging_info "Customer embeddings saved" [])
        (fun e => logging_error "Error saving customer embeddings" (Some e))
  end.

End Embeddings.

(** ** A small concrete library

    An instance of each interface, to run the programs on concrete tables:
    numbers written as an optional sign, digits and an optional fraction;
    dates written [YYYY-MM-DD], optionally followed by [HH:MM:SS]; the
    proleptic Gregorian calendar; an outlier labelling by largest magnitude;
    an encoder that folds the input row. *)

Module Demo.

Definition is_digit : ascii -> bool := Format.is_digit.

Definition digit_val (c : ascii) : Z := Z.of_nat (nat_of_ascii c - 48).

(** the value of a run of digits, [None] when another character occurs *)
Fixpoint digits_val (acc : Z) (s : string) : option Z :=
  match s with
  | EmptyString => Some acc
  | String c s' =>
      if is_digit c then digits_val (acc * 10 + digit_val c) s' else None
  end.

Fixpoint split_at (sep : ascii) (s : string) : string * option string :=
  match s with
  | EmptyString => (EmptyString, None)
  | String c s' =>
      if decide (c = sep) then (EmptyString, Some s')
      else let '(a, b) := split_at sep s' in (String c a, b)
  end.

Definition parse_unsigned (s : string) : option Q :=
  let '(ip, fp) := split_at "."%char s in
  match ip, digits_val 0 ip with
  | EmptyString, _ | _, None => None
  | _, Some i =>
      match fp with
      | None => Some (inject_Z i)
      | Some f =>
          match digits_val 0 f with
          | Some fv =>
              Some (inject_Z i + inject_Z fv / inject_Z (10 ^ Z.of_nat (String.length f)))%Q
          | None => None
          end
      end
  end.

Definition parse_numeric (s : string) : option num :=
  match s with
  | String "-"%char s' => (fun q => Finite (Q2Qc (- q))) <$> parse_unsigned s'
  | _ => (fun q => Finite (Q2Qc q)) <$> parse_unsigned s
  end.

(** days since 1970-01-01 of a civil date *)
Definition days_from_civil (y m d : Z) : Z :=
  let y' := if (m <=? 2)%Z then (y - 1)%Z else y in
  let era := (y' / 400)%Z in
  let yoe := (y' - era * 400)%Z in
  let doy := ((153 * (if (2 <? m)%Z then m - 3 else m + 9) + 2) / 5 + d - 1)%Z in
  let doe := (yoe * 365 + yoe / 4 - yoe / 100 + doy)%Z in
  (era * 146097 + doe - 719468)%Z.

Definition civil_from_days (z : Z) : Z * Z * Z :=
  let z := (z + 719468)%Z in
  let era := (z / 146097)%Z in
  let doe := (z - era * 146097)%Z in
  let yoe := ((doe - doe / 1460 + doe / 36524 - doe / 146096) / 365)%Z in
  let doy := (doe - (365 * yoe + yoe / 4 - yoe / 100))%Z in
  let mp := ((5 * doy + 2) / 153)%Z in
  let d := (doy - (153 * mp + 2) / 5 + 1)%Z in
  let m := if (mp <? 10)%Z then (mp + 3)%Z else (mp - 9)%Z in
  let y := (yoe + era * 400)%Z in
  ((if (m <=? 2)%Z then y + 1 else y)%Z, m, d).

Definition ns_per_second : Z := 1000000000.
Definition ns_per_day : Z := (86400 * ns_per_second)%Z.

Definition field (s : string) (start width : nat) : option Z :=
  let f := String.substring start width s in
  if decide (String.length f = width) then digits_val 0 f else None.

Definition char_at (s : string) (i : nat) (c : ascii) : bool :=
  bool_decide (String.get i s = Some c).

Definition parse_date (s : string) : option Z :=
  y ← field s 0 4; m ← field s 5 2; d ← field s 8 2;
  if char_at s 4 "-" && char_at s 7 "-"
     && (1 <=? m)%Z && (m <=? 12)%Z && (1 <=? d)%Z && (d <=? 31)%Z
  then Some (days_from_civil y m d * ns_per_day)%Z else None.

Definition parse_time (s : string) : option Z :=
  h ← field s 0 2; m ← field s 3 2; sec ← field s 6 2;
  if char_at s 2 ":" && char_at s 5 ":"
     && (h <? 24)%Z && (m <? 60)%Z && (sec <? 60)%Z
  then Some ((h * 3600 + m * 60 + sec) * ns_per_second)%Z else None.

Definition parse_timestamp (s : string) : option Z :=
  if decide (String.length s = 10) then parse_date s
  else if decide (String.length s = 19) then
    d ← parse_date (String.substring 0 10 s);
    t ← parse_time (String.substring 11 8 s);
    if char_at s 10 " " then Some (d + t)%Z else None
  else None.

Definition timestamp_of_num (x : num) : option Z :=
  match x with
  | Finite q => Some (Qfloor q)
  | PosInf | NegInf => None
  end.

Definition to_datetime_values (s : Series) : list (option Z) :=
  match s with
  | ObjectS xs => map (fun o => o ≫= parse_timestamp) xs
  | NumericS xs => map (fun o => o ≫= timestamp_of_num) xs
  | BoolS xs => map (fun _ : bool => None) xs
  | DatetimeS xs => xs
  end.

Definition strftime_ymd (t : Z) : string :=
  let '(y, m, d) := civil_from_days (t / ns_per_day) in
  String.append (Format.fixed_digits 4 y)
    (String.append "-" (String.append (Format.fixed_digits 2 m)
       (String.append "-" (Format.fixed_digits 2 d)))).

Definition datetime_astype_bool (xs : list (option Z)) : outcome (list bool) :=
  Ok (map (fun o => negb (bool_decide (o = Some 0%Z))) xs).

Definition str_of_num (x : num) : string := Format.format_8f (Some x).

Definition finite_of (x : num) : option Qc :=
  match x with Finite q => Some q | _ => None end.

Definition Qc_min (a b : Qc) : Qc := if Qclt_le_dec a b then a else b.
Definition Qc_max (a b : Qc) : Qc := if Qclt_le_dec a b then b else a.

(** exact arithmetic; a column with an infinity scales to NaN *)
Definition min_max_scale (xs : list num) : list (option num) :=
  match mapM finite_of xs with
  | Some (q :: qs) =>
      let lo := fold_right Qc_min q qs in
      let hi := fold_right Qc_max q qs in
      map (fun x => Some (Finite ((x - lo) / (hi - lo + Q2Qc (1 # 1000000)))%Qc)) (q :: qs)
  | _ => map (fun _ : num => None) xs
  end.

#[global] Instance pandas : Pandas.
Proof.
  refine (Build_Pandas to_datetime_values _ _ parse_numeric strftime_ymd
            datetime_astype_bool str_of_num strftime_ymd min_max_scale _).
  - intros []; simpl; rewrite ?length_map; reflexivity.
  - reflexivity.
  - intros xs. unfold min_max_scale.
    destruct (mapM finite_of xs) as [[|q qs]|] eqn:E; rewrite ?length_map; try reflexivity.
    apply length_mapM in E. simpl in *. lia.
Defined.

(** the first feature column decides: the rows of largest magnitude are
    labelled -1, the others 1; no rows, NaN or a non-numeric column raise *)
Definition magnitude (x : num) : option Qc :=
  match x with Finite q => Some (Qcabs q) | _ => None end.

Definition fit_predict (c : Qc) (seed : Z) (X : DataFrame) : outcome (list Z) :=
  match columns X with
  | (_, NumericS xs) :: _ =>
      match mapM (fun o => o ≫= magnitude) xs with
      | Some (q :: qs) =>
          let top := fold_right Qc_max q qs in
          Ok (map (fun i => if decide (nth i (q :: qs) top = top) then (-1)%Z else 1%Z)
                  (seq 0 (nrows X)))
      | _ => Raise ValueError
      end
  | _ => Raise ValueError
  end.

#[global] Instance sklearn : Sklearn.
Proof.
  refine (Build_Sklearn fit_predict _).
  intros c seed X ys. unfold fit_predict.
  destruct (columns X) as [|[? []] ?]; try discriminate.
  destruct (mapM _ xs) as [[|q qs]|]; try discriminate.
  intros [= <-]. rewrite length_map, length_seq. reflexivity.
Defined.

(** component [j] of the code of a row: the sum of the row over [j + 1] *)
Definition row_sum (r : list (option num)) : Qc :=
  fold_right (fun o acc => match o with Some (Finite q) => (q + acc)%Qc | _ => acc end)
             (Q2Qc 0) r.

Definition encode (width : nat) (r : list (option num)) : list (option num) :=
  map (fun j => Some (Finite (row_sum r / Q2Qc (inject_Z (Z.of_nat (S j))))%Qc))
      (seq 0 width).

Definition fit_then_predict (autoencoder encoder : Model) (epochs batch_size : nat)
    (X : ndarray) : outcome (list (list (option num))) :=
  Ok (map (fun i => encode (output_dim encoder) (nth i (array_rows X) []))
          (seq 0 (shape0 X))).

#[global] Instance keras : Keras.
Proof.
  refine (Build_Keras fit_then_predict _).
  intros a e ep bs X E [= <-]. split.
  - rewrite length_map, length_seq. reflexivity.
  - apply Forall_forall. intros r Hr. apply list_elem_of_In, in_map_iff in Hr as [i [<- _]].
    unfold encode. rewrite length_map, length_seq. reflexivity.
Defined.

End Demo.

(** ** The cleaning rules as functions on tables *)

(** [g] on every column *)
Definition map_columns (g : Series -> Series) (f : DataFrame) : DataFrame :=
  mkDF (index_name f) (index f) (map (fun c => (fst c, g (snd c))) (columns f)).

(** [g] on the column [col], when the table has it *)
Definition update_col (g : Series -> Series) (f : DataFrame) (col : string) : DataFrame :=
  match get_col col f with
  | Some c => set_col col (g c) f
  | None => f
  end.

Definition convert_columns (g : Series -> Series) (cols : list string) (f : DataFrame)
  : DataFrame :=
  fold_left (update_col g) cols f.

(** a text method on a text column; other columns are left as they are *)
Definition on_text (g : string -> string) (c : Series) : Series :=
  match c with
  | ObjectS xs => ObjectS (map (fmap g) xs)
  | _ => c
  end.

(** rows whose [col] is missing are dropped, when the table has [col] *)
Definition drop_missing (col : string) (f : DataFrame) : DataFrame :=
  match get_col col f with
  | Some c => filter_rows (notna c) f
  | None => f
  end.

Section Rules.
Context {pd : Pandas}.

(** The text [date + " " + time] of each row; a missing side gives a
    missing text. *)
Definition date_time_text (date time : Series) : option Series :=
  match date, time with
  | DatetimeS ds, ObjectS ts =>
      Some (ObjectS (zip_cells (map (fmap (fun x => String.append x " "))
                                    (map (fmap strftime_ymd) ds)) ts))
  | _, _ => None
  end.

(** Rule 4 as the specification words it: with both columns present, the
    missing times are set to midnight and the timestamp column is read
    from date and time joined. *)
Definition synthesize_timestamp (f : DataFrame) : DataFrame :=
  match get_col "transaction_date" f, get_col "transaction_time" f with
  | Some d, Some t =>
      let t' := fillna_str "00:00:00" t in
      let f' := set_col "transaction_time" t' f in
      match date_time_text d t' with
      | Some dt => set_col "transaction_datetime" (to_datetime dt) f'
      | None => f'
      end
  | _, _ => f
  end.

(** The eight rules of the Normalizer in the order the specification
    gives them. *)
Definition rule1 : DataFrame -> DataFrame := drop_duplicates.
Definition rule2 : DataFrame -> DataFrame := map_columns (on_text Text.strip).
Definition rule3 (date_cols : list string) : DataFrame -> DataFrame :=
  convert_columns to_datetime date_cols.
Definition rule4 : DataFrame -> DataFrame := synthesize_timestamp.
Definition rule5 (numeric_cols : list string) : DataFrame -> DataFrame :=
  convert_columns to_numeric numeric_cols.
Definition rule6 : DataFrame -> DataFrame :=
  convert_columns (on_text Text.lower) ["debit_credit"].
Definition rule7 : DataFrame -> DataFrame :=
  convert_columns (on_text Text.upper) ["country"; "province"; "city"].
Definition rule8 : DataFrame -> DataFrame := drop_missing "customer_id".

Definition normalizer_rules (date_cols numeric_cols : list string) (f : DataFrame)
  : DataFrame :=
  rule8 (rule7 (rule6 (rule5 numeric_cols (rule4 (rule3 date_cols (rule2 (rule1 f))))))).

End Rules.

(** ** What each [try] block of the cleaning functions leaves behind *)

Definition log_exn (msg : string) (e : option exn) : list log_record :=
  match e with
  | Some e => [LogError msg (Some e)]
  | None => []
  end.

(** how a block ended: with the exception it raised, or normally *)
Definition outcome_of (e : option exn) : outcome unit :=
  match e with Some e => Raise e | None => Ok tt end.

(** [update_col] on the list of columns *)
Definition update_list (g : Series -> Series) (l : list (string * Series)) (col : string)
  : list (string * Series) :=
  match assoc col l with
  | Some c => assoc_set col (g c) l
  | None => l
  end.

Section Blocks.
Context {pd : Pandas}.

(** the loop [for col in cols: if col in df.columns: df[col] = df[col].str.g()];
    it stops at the first column that is not text, keeping what it did *)
Fixpoint str_columns (g : string -> string) (cols : list string) (f : DataFrame)
  : DataFrame * option exn :=
  match cols with
  | [] => (f, None)
  | col :: cols' =>
      match get_col col f with
      | None => str_columns g cols' f
      | Some c =>
          match str_method g c with
          | Ok c' => str_columns g cols' (set_col col c' f)
          | Raise e => (f, Some e)
          end
      end
  end.

(** the block combining date and time *)
Definition combine_date_time (f : DataFrame) : DataFrame * option exn :=
  match get_col "transaction_date" f, get_col "transaction_time" f with
  | Some d, Some t =>
      let t' := fillna_str "00:00:00" t in
      let f' := set_col "transaction_time" t' f in
      match dt_strftime d with
      | Raise e => (f', Some e)
      | Ok ds =>
          match add_str ds " " with
          | Raise e => (f', Some e)
          | Ok ds' =>
              match add_series ds' t' with
              | Raise e => (f', Some e)
              | Ok dt => (set_col "transaction_datetime" (to_datetime dt) f', None)
              end
          end
      end
  | _, _ => (f, None)
  end.

(** the table [clean_transactions] returns and the errors it logs *)
Definition transactions_cleaned (date_cols numeric_cols : list string) (f : DataFrame)
  : DataFrame * list log_record :=
  let f1 := drop_duplicates f in
  let f2 := map_columns (on_text Text.strip) f1 in
  let f3 := convert_columns to_datetime date_cols f2 in
  let '(f4, e4) := combine_date_time f3 in
  let f5 := convert_columns to_numeric numeric_cols f4 in
  let '(f6, e6) := str_columns Text.lower ["debit_credit"] f5 in
  let '(f7, e7) := str_columns Text.upper ["country"; "province"; "city"] f6 in
  (drop_missing "customer_id" f7,
   log_exn "Error combining date and time" e4
   ++ log_exn "Error standardizing 'debit_credit'" e6
   ++ log_exn "Error standardizing geographic columns" e7).

(** the first block of [clean_kyc_data] *)
Definition kyc_reset_dedup (f : DataFrame) : DataFrame * option exn :=
  match reset_index f with
  | Ok f' => (drop_duplicates f', None)
  | Raise e => (f, Some e)
  end.

(** its last block *)
Definition kyc_dropna (f : DataFrame) : DataFrame * option exn :=
  match dropna "customer_id" f with
  | Ok f' => (f', None)
  | Raise e => (f, Some e)
  end.

(** the table [clean_kyc_data] returns and the errors it logs *)
Definition kyc_cleaned (f : DataFrame) : DataFrame * list log_record :=
  let '(f1, e1) := kyc_reset_dedup f in
  let f2 := map_columns (on_text Text.strip) f1 in
  let f3 := convert_columns to_datetime ["established_date"; "onboard_date"] f2 in
  let f4 := convert_columns to_numeric ["sales"; "employee_count"] f3 in
  let '(f5, e5) :=
    str_columns Text.upper ["country"; "province"; "city"; "industry_code"] f4 in
  let '(f6, e6) := kyc_dropna f5 in
  (f6,
   log_exn "Error resetting index or dropping duplicates in KYC" e1
   ++ log_exn "Error standardizing columns in KYC data" e5
   ++ log_exn "Error dropping rows with missing customer_id in KYC" e6).

(** The table on which [clean_transactions] applies the key rule. *)
Definition before_key_rule (date_cols numeric_cols : list string) (f : DataFrame)
  : DataFrame :=
  fst (str_columns Text.upper ["country"; "province"; "city"]
    (fst (str_columns Text.lower ["debit_credit"]
      (convert_columns to_numeric numeric_cols
        (fst (combine_date_time
          (convert_columns to_datetime date_cols
            (map_columns (on_text Text.strip) (drop_duplicates f))))))))).

(** the table on which [clean_kyc_data] applies the key rule *)
Definition kyc_before_key_rule (f1 : DataFrame) : DataFrame :=
  fst (str_columns Text.upper ["country"; "province"; "city"; "industry_code"]
    (convert_columns to_numeric ["sales"; "employee_count"]
      (convert_columns to_datetime ["established_date"; "onboard_date"]
        (map_columns (on_text Text.strip) f1)))).

(** [clean_bool_columns] on one table: the loop over the listed columns *)
Fixpoint bool_columns_cleaned (cols : list string) (f : DataFrame)
  : DataFrame * list log_record :=
  match cols with
  | [] => (f, [])
  | col :: cols' =>
      match get_col col f with
      | None => bool_columns_cleaned cols' f
      | Some c =>
          match astype_bool c with
          | Ok c' => bool_columns_cleaned cols' (set_col col c' f)
          | Raise e =>
              let '(f', lg) := bool_columns_cleaned cols' f in
              (f', LogError "Error converting to bool" (Some e) :: lg)
          end
      end
  end.

End Blocks.

(** The column holds numbers or booleans. *)
Definition is_numeric (c : Series) : Prop :=
  match c with NumericS _ | BoolS _ => True | _ => False end.

(** Every text cell is already trimmed. *)
Definition trimmed (c : Series) : Prop :=
  match c with
  | ObjectS xs => Forall (fun o => fmap Text.strip o = o) xs
  | _ => True
  end.

(** Cell [i] of [amount_cad] is missing or not negative. *)
Definition amount_ok (c : Series) : Prop :=
  match c with
  | NumericS xs => Forall (fun o => match o with Some x => num_nonneg x | None => True end) xs
  | BoolS _ => True
  | _ => False
  end.

(** Every cell of [amount_cad] is a number that is not negative. *)
Definition amount_nonneg (c : Series) : Prop :=
  match c with
  | NumericS xs => Forall (fun o => match o with Some x => num_nonneg x | None => False end) xs
  | BoolS _ => True
  | _ => False
  end.

(** No cell of the column is missing. *)
Definition no_null (c : Series) : Prop := Forall (fun x => x <> SNull) (cells c).

(** [Q] holds of the column [col], when the table has it. *)
Definition column_is (col : string) (Q : Series -> Prop) (x : DataFrame) : Prop :=
  forall c, get_col col x = Some c -> Q c.

(** [Q] holds of every column. *)
Definition all_columns (Q : Series -> Prop) (x : DataFrame) : Prop :=
  forall col, column_is col Q x.

(** A text column that the text method [g] leaves as it is. *)
Definition text_fixed (g : string -> string) (c : Series) : Prop :=
  match c with
  | ObjectS xs => Forall (fun o => fmap g o = o) xs
  | _ => False
  end.

(** A text column with no missing cell. *)
Definition filled (c : Series) : Prop :=
  match c with
  | ObjectS xs => Forall (fun o => o <> None) xs
  | _ => False
  end.

(** What a table that went through rules 1 to 7 of [clean_transactions]
    without a failure looks like. *)
Definition shaped (x : DataFrame) : Prop :=
  wf x
  /\ all_columns trimmed x
  /\ column_is "transaction_date" (fun c => is_datetime c = true) x
  /\ (is_Some (get_col "transaction_date" x) -> column_is "transaction_time" filled x)
  /\ column_is "amount_cad" is_numeric x
  /\ column_is "debit_credit" (text_fixed Text.lower) x
  /\ column_is "country" (text_fixed Text.upper) x
  /\ column_is "province" (text_fixed Text.upper) x
  /\ column_is "city" (text_fixed Text.upper) x.

(** ... and through the key rule. *)
Definition settled (x : DataFrame) : Prop :=
  shaped x /\ column_is "customer_id" no_null x.

(** What a table that went through [clean_kyc_data] without a failure looks
    like, as far as its columns go. *)
Definition kyc_shaped (x : DataFrame) : Prop :=
  wf x
  /\ all_columns trimmed x
  /\ column_is "established_date" (fun c => is_datetime c = true) x
  /\ column_is "onboard_date" (fun c => is_datetime c = true) x
  /\ column_is "sales" is_numeric x
  /\ column_is "employee_count" is_numeric x
  /\ column_is "country" (text_fixed Text.upper) x
  /\ column_is "province" (text_fixed Text.upper) x
  /\ column_is "city" (text_fixed Text.upper) x
  /\ column_is "industry_code" (text_fixed Text.upper) x
  /\ is_Some (get_col "customer_id" x)
  /\ column_is "customer_id" no_null x.

(** ... and its row index: the positions left of a [RangeIndex], unnamed. *)
Definition kyc_settled (x : DataFrame) : Prop :=
  kyc_shaped x
  /\ index_name x = None
  /\ is_numeric (index x)
  /\ NoDup (cells (index x)).

(** The table a second [clean_kyc_data] makes of a settled one: the row
    index moved into a first column, unless [reset_index] refuses. *)
Definition index_as_column (x : DataFrame) : DataFrame :=
  match reset_index x with
  | Ok r => r
  | Raise _ => x
  end.

Definition reset_error (x : DataFrame) : option exn :=
  match reset_index x with
  | Ok _ => None
  | Raise e => Some e
  end.


(** The errors among log records. *)
Definition errors (lg : list log_record) : list log_record :=
  List.filter is_error lg.

(** The features of the request that the table has. *)
Definition available (features : option (list string)) (f : DataFrame) : list string :=
  filter (fun col => col ∈ column_names f) (default ["amount_cad"] features).

(** The table with the two anomaly columns written from the labels [ys]. *)
Definition scored (ys : list Z) (f : DataFrame) : DataFrame :=
  set_col "is_anomaly" (series_eq_int (int_series ys) (-1))
    (set_col "anomaly_score" (int_series ys) f).

(** The array [preprocess_kyc_data] returns for the table [f]. *)
Definition feature_array (feature_cols : list string) (f : DataFrame)
    (X_norm : list (list (option num))) : ndarray :=
  mkArray (nrows f) (length feature_cols)
    (map (fun i => map (fun c => nth i c None) X_norm) (seq 0 (nrows f))).

(** What a call added to the log. *)
Definition new_log (before after : world) : list log_record :=
  drop (length (log before)) (log after).

(** Python truth value of a cell: NaN, a non-empty text and a number other
    than zero are true. *)
Definition cell_truth (c : scalar) : bool :=
  match c with
  | SNull => true
  | SStr s => negb (bool_decide (s = ""))
  | SNum x => negb (num_is_zero x)
  | SBool b => b
  | SDate t => negb (bool_decide (t = 0%Z))
  end.

(** The column of the truth values of the cells of [c]. *)
Definition truthiness (c : Series) : Series := BoolS (map cell_truth (cells c)).

(** ** Tables used as examples *)

Module Examples.

Definition world_of (f : DataFrame) : world := mkWorld [f] [] [] [].

(** two rows that differ by a trailing blank only *)
Definition trim_twins : DataFrame :=
  mkDF None (RangeIndex 2)
    [("customer_id", ObjectS [Some "a"; Some "a"]);
     ("note", ObjectS [Some "x "; Some "x"])].

(** an industry-code table, loaded with its first column as index, whose
    second row has no code *)
Definition codes_with_gap : DataFrame :=
  mkDF (Some "industry_code") (ObjectS [Some "A1"; None])
    [("industry", ObjectS [Some "farming"; Some "mining"])].

(** a card table: the second row has no customer, the third an amount that
    is not a number *)
Definition card_table : DataFrame :=
  mkDF None (RangeIndex 3)
    [("customer_id", ObjectS [Some "c1"; None; Some "c3"]);
     ("transaction_date", ObjectS [Some "2024-01-05"; Some "2024-02-10"; Some " 2024-03-01 "]);
     ("transaction_time", ObjectS [Some "12:30:00"; None; None]);
     ("amount_cad", ObjectS [Some "-10.5 "; Some "7"; Some "abc"]);
     ("debit_credit", ObjectS [Some "Debit"; Some "CREDIT"; None]);
     ("country", ObjectS [Some "ca"; Some "Us"; None]);
     ("ecommerce_ind", ObjectS [Some "False"; Some ""; None])].

(** a cleaned table with amounts *)
Definition amounts_table : DataFrame :=
  mkDF None (RangeIndex 3)
    [("customer_id", ObjectS [Some "c1"; Some "c2"; Some "c3"]);
     ("amount_cad",
      NumericS [Some (num_of_Z 1); Some (num_of_Z (-7)); Some (num_of_Z 3)])].

(** a KYC table, loaded with the customer identifier as index *)
Definition kyc_table : DataFrame :=
  mkDF (Some "customer_id") (ObjectS [Some "k1"; None; Some "k3"])
    [("established_date", ObjectS [Some "2001-02-03"; Some "1999-12-31"; Some "n/a"]);
     ("sales", ObjectS [Some "1200.50"; Some "30"; Some "unknown"]);
     ("employee_count", NumericS [Some (num_of_Z 12); None; Some (num_of_Z 3)]);
     ("country", ObjectS [Some " ca"; Some "ca"; Some "us "])].

(** the cleaned KYC file as [pd.read_csv] loads it *)
Definition cleaned_kyc : DataFrame :=
  mkDF None (RangeIndex 2)
    [("customer_id", ObjectS [Some "k1"; Some "k3"]);
     ("sales", NumericS [Some (Finite (Q2Qc (2401 # 2))); None]);
     ("employee_count", NumericS [Some (num_of_Z 12); Some (num_of_Z 3)])].

Definition disk : world :=
  mkWorld [] [] [("mnt/output/clean/cleaned_kyc.csv", cleaned_kyc)] [].

End Examples.

(** ** File names and paths

    The entry points build the names of the files they read and write with
    [str.replace], [str.split] and [os.path.join] (POSIX). *)

Module Str.

(** [s.replace(old, new)] for a non-empty [old]: the occurrences of [old]
    are taken from the left and do not overlap.  [skip] counts the
    characters of the occurrence being replaced that are still to pass. *)
Fixpoint replace_from (skip : nat) (old new s : string) : string :=
  match s with
  | EmptyString => EmptyString
  | String c s' =>
      match skip with
      | S k => replace_from k old new s'
      | O =>
          if String.prefix old s
          then String.append new (replace_from (String.length old - 1) old new s')
          else String c (replace_from 0 old new s')
      end
  end.

(** with an empty [old], [new] goes before every character and at the end *)
Fixpoint replace_empty (new s : string) : string :=
  match s with
  | EmptyString => new
  | String c s' => String.append new (String c (replace_empty new s'))
  end.

Definition replace (old new s : string) : string :=
  match old with
  | EmptyString => replace_empty new s
  | _ => replace_from 0 old new s
  end.

(** the pieces of [s] between the occurrences of a non-empty [sep] *)
Fixpoint split_from (skip : nat) (sep s : string) : list string :=
  match s with
  | EmptyString => [EmptyString]
  | String c s' =>
      match skip with
      | S k => split_from k sep s'
      | O =>
          if String.prefix sep s
          then EmptyString :: split_from (String.length sep - 1) sep s'
          else match split_from 0 sep s' with
               | piece :: pieces => String c piece :: pieces
               | [] => [String c EmptyString]
               end
      end
  end.

(** [s.split(sep)]: an empty separator is refused *)
Definition split (sep s : string) : outcome (list string) :=
  match sep with
  | EmptyString => Raise ValueError
  | _ => Ok (split_from 0 sep s)
  end.

(** the character [c] occurs in [s] *)
Fixpoint has_char (c : ascii) (s : string) : bool :=
  match s with
  | EmptyString => false
  | String c' s' => bool_decide (c' = c) || has_char c s'
  end.

End Str.

Module Path.

Definition sep : ascii := "/"%char.

Definition startswith_sep (s : string) : bool :=
  match s with
  | String c _ => bool_decide (c = sep)
  | EmptyString => false
  end.

Fixpoint endswith_sep (s : string) : bool :=
  match s with
  | EmptyString => false
  | String c EmptyString => bool_decide (c = sep)
  | String _ s' => endswith_sep s'
  end.

(** one step of [posixpath.join]: an absolute component restarts the
    path; otherwise it is appended, after a separator unless the path is
    empty or ends with one *)
Definition join2 (path b : string) : string :=
  if startswith_sep b then b
  else if bool_decide (path = EmptyString) || endswith_sep path
       then String.append path b
       else String.append path (String sep b).

(** [os.path.join(a, *p)] *)
Definition join (a : string) (p : list string) : string := fold_left join2 p a.

End Path.

(** ** Files

    What the run finds on disk and what writing does to it.  A file is told
    from another by the text of its path.  [csv_files] lists the files
    [pd.read_csv] can load; for any other path [pd.read_csv] raises. *)
Class Files : Type := {
  (** the exception that opening the path for writing raises, if any (a
      directory that is not there, a refusal of the system) *)
  write_error : string -> option exn;
  (** the table [pd.read_csv] loads from the file that
      [to_csv(path, index=False)] writes from these columns; [None] when it
      cannot load it *)
  reloaded : list (string * Series) -> option DataFrame;
  (** [os.path.exists] for a path that is neither a loadable CSV file nor a
      text file the run wrote: a directory, a file of another kind *)
  on_disk : string -> bool;
  (** what [pd.read_csv(path, index_col=0)] loads, from what
      [pd.read_csv(path)] loads *)
  index_col0 : DataFrame -> DataFrame
}.

Fixpoint assoc_del {A : Type} (k : string) (l : list (string * A)) : list (string * A) :=
  match l with
  | [] => []
  | (k', v) :: l' => if decide (k = k') then assoc_del k l' else (k', v) :: assoc_del k l'
  end.

(** [for x in xs: acc = body(x, acc)]: a loop that updates a local variable *)
Fixpoint for_fold {S A B} (xs : list A) (acc : B) (body : A -> B -> M S B) : M S B :=
  match xs with
  | [] => mret acc
  | x :: xs' => acc' ← body x acc; for_fold xs' acc' body
  end.

(** [d[key]] on a dict of optional tables, passed to a function that starts
    with [len(df)]: a missing key raises, and so does [len(None)] *)
Definition table_at (d : list (string * option loc)) (key : string) : M world loc :=
  match assoc key d with
  | Some (Some l) => mret l
  | Some None => raise TypeError
  | None => raise (KeyError key)
  end.

Section FileOps.
Context {fs : Files}.

(** [os.path.exists(path)] *)
Definition os_path_exists (path : string) : M world bool :=
  fun w =>
    (Ok (bool_decide (is_Some (assoc path (csv_files w)))
         || bool_decide (is_Some (assoc path (text_files w)))
         || on_disk path), w).

(** [pd.read_csv(path, index_col=0)] *)
Definition read_csv_index0 (path : string) : M world loc :=
  fun w =>
    match assoc path (csv_files w) with
    | Some f => alloc (index_col0 f) w
    | None => (Raise FileNotFoundError, w)
    end.

(** the loadable CSV files once [columns] have been written at [path] *)
Definition store_csv (path : string) (columns : list (string * Series))
    (files : list (string * DataFrame)) : list (string * DataFrame) :=
  match reloaded columns with
  | Some g => assoc_set path g files
  | None => assoc_del path files
  end.

(** [df.to_csv(path, index=False)]: the row index is not written *)
Definition to_csv (df : loc) (path : string) : M world unit :=
  f ← on df this;
  match write_error path with
  | Some e => raise e
  | None =>
      fun w =>
        (Ok tt,
         mkWorld (heap w) (log w) (store_csv path (columns f) (csv_files w))
                 (text_files w))
  end.

End FileOps.

(** ** [src/data_preprocessing.py]: files and the [__main__] block *)

Section PreprocessingScript.
Context {pd : Pandas} {fs : Files}.

Definition RAW_DATA_DIR : string := Path.join "mnt" ["data"].
Definition CLEAN_OUTPUT_DIR : string := Path.join "mnt" ["output"; "clean"].

Definition file_exists (filepath : string) : M world bool :=
  b ← os_path_exists filepath;
  if negb b then
    logging_error "File not found" None ;;
    mret false
  else mret true.

Definition save_cleaned_data (df : loc) (filename : string) : M world unit :=
  let output_path := Path.join CLEAN_OUTPUT_DIR [filename] in
  try_except
    (to_csv df output_path ;;
     logging_info "Saved cleaned data to" [])
    (fun e => logging_error "Error saving file" (Some e)).

(** the body of the loop that loads the transaction files into the dict *)
Definition load_transaction_file (file_name : string)
    (transaction_files : list (string * option loc))
  : M world (list (string * option loc)) :=
  let file_path := Path.join RAW_DATA_DIR [file_name] in
  b ← file_exists file_path;
  if (b : bool) then
    try_return
      (df ← read_csv_index0 file_path;
       logging_info "Loaded" [] ;;
       mret (assoc_set file_name (Some df) transaction_files))
      (fun e => logging_error "Error loading" (Some e) ;; raise e)
  else raise FileNotFoundError.

(** [for file_name in transaction_files.keys(): ...] *)
Definition load_transaction_files (transaction_files : list (string * option loc))
  : M world (list (string * option loc)) :=
  for_fold (map fst transaction_files) transaction_files load_transaction_file.

(** the loading of the two KYC files *)
Definition load_kyc_files : M world (loc * loc) :=
  let kyc_file := Path.join RAW_DATA_DIR ["kyc.csv"] in
  let kyc_industry_codes_file := Path.join RAW_DATA_DIR ["kyc_industry_codes.csv"] in
  b1 ← file_exists kyc_file;
  missing ← (if negb b1 then (mret true : M world bool)
             else b2 ← file_exists kyc_industry_codes_file; mret (negb b2));
  if (missing : bool) then raise FileNotFoundError
  else
    try_return
      (kyc_data ← read_csv_index0 kyc_file;
       kyc_industry_codes ← read_csv_index0 kyc_industry_codes_file;
       logging_info "Loaded KYC data files." [] ;;
       mret (kyc_data, kyc_industry_codes))
      (fun e => logging_error "Error loading KYC data" (Some e) ;; raise e).

(** the [__main__] block *)
Definition preprocessing_main : M world unit :=
  let transaction_files : list (string * option loc) :=
    [("abm.csv", None); ("card.csv", None); ("cheque.csv", None);
     ("eft.csv", None); ("emt.csv", None); ("wire.csv", None)] in
  transaction_files ← load_transaction_files transaction_files;
  '(kyc_data, kyc_industry_codes) ← load_kyc_files;
  df ← table_at transaction_files "abm.csv";
  abm_data ← clean_transactions df ["transaction_date"] ["amount_cad"];
  df ← table_at transaction_files "card.csv";
  card_data ← clean_transactions df ["transaction_date"] ["amount_cad"];
  df ← table_at transaction_files "cheque.csv";
  cheque_data ← clean_transactions df ["transaction_date"] ["amount_cad"];
  df ← table_at transaction_files "eft.csv";
  eft_data ← clean_transactions df ["transaction_date"] ["amount_cad"];
  df ← table_at transaction_files "emt.csv";
  emt_data ← clean_transactions df ["transaction_date"] ["amount_cad"];
  df ← table_at transaction_files "wire.csv";
  wire_data ← clean_transactions df ["transaction_date"] ["amount_cad"];
  b ← on card_data (contains "amount_cad");
  when_ b
    (c ← on card_data (getitem "amount_cad");
     c ← lift (series_abs c);
     on card_data (setitem "amount_cad" c) ;;
     logging_info "Converted negative amounts in card_data to absolute values." []) ;;
  abm_data ← clean_bool_columns abm_data ["cash_indicator"];
  card_data ← clean_bool_columns card_data ["ecommerce_ind"];
  kyc_data ← clean_kyc_data kyc_data;
  kyc_industry_codes ← clean_kyc_industry_codes kyc_industry_codes;
  save_cleaned_data abm_data "cleaned_abm.csv" ;;
  save_cleaned_data card_data "cleaned_card.csv" ;;
  save_cleaned_data cheque_data "cleaned_cheque.csv" ;;
  save_cleaned_data eft_data "cleaned_eft.csv" ;;
  save_cleaned_data emt_data "cleaned_emt.csv" ;;
  save_cleaned_data wire_data "cleaned_wire.csv" ;;
  save_cleaned_data kyc_data "cleaned_kyc.csv" ;;
  save_cleaned_data kyc_industry_codes "cleaned_kyc_industry_codes.csv" ;;
  logging_info "Data cleaning complete. Please review the logs for any issues." [].

End PreprocessingScript.

(** ** [src/anomaly_detection.py]: [run_anomaly_detection] *)

Section RunAnomalyDetection.
Context {sk : Sklearn} {fs : Files}.

Definition TASK1_OUTPUT_DIR : string := Path.join "mnt" ["output"; "task1"].

(** The first [try] returns from the function when the load fails;
    [detect_anomalies] is called outside any [try]. *)
Definition run_anomaly_detection (input_filepath output_filename : string)
    (contamination : Qc) (features : option (list string)) : M world unit :=
  loaded ← try_return
              (df ← read_csv input_filepath;
               n ← on df len;
               logging_info "Loaded data from with rows." [n] ;;
               mret (Some df))
              (fun e => logging_error "Error loading" (Some e) ;; mret None);
  match loaded with
  | None => mret tt
  | Some df =>
      df ← detect_anomalies df contamination features;
      let output_path := Path.join TASK1_OUTPUT_DIR [output_filename] in
      try_except
        (to_csv df output_path ;;
         logging_info "Anomaly detection results saved to." [])
        (fun e => logging_error "Error saving anomaly detection results" (Some e))
  end.

(** The name the [__main__] block of [anomaly_detection.py] gives to the
    output for [file_name]: ["anomaly_detected_" + file_name.split("_")[1]];
    [None] stands for the [IndexError] of a name without [_]. *)
Definition script_output_name (file_name : string) : option string :=
  match Str.split "_" file_name with
  | Ok pieces => String.append "anomaly_detected_" <$> pieces !! 1
  | Raise _ => None
  end.

End RunAnomalyDetection.

(** ** [src/main.py] *)

Section Main.
Context {pd : Pandas} {sk : Sklearn} {kr : Keras} {fs : Files}.

(** the output name of [main] for [file_name] *)
Definition output_name (file_name : string) : string :=
  let base := Str.replace "cleaned_" "" file_name in
  String.append "anomaly_detected_" base.

Definition main : M world unit :=
  logging_info "Starting production pipeline..." [] ;;
  let transaction_files :=
    ["cleaned_abm.csv"; "cleaned_card.csv"; "cleaned_cheque.csv";
     "cleaned_eft.csv"; "cleaned_emt.csv"; "cleaned_wire.csv"] in
  let clean_dir := Path.join "mnt" ["output"; "clean"] in
  for_ transaction_files (fun file_name =>
    let input_path := Path.join clean_dir [file_name] in
    let output_filename := output_name file_name in
    logging_info "Running anomaly detection on" [] ;;
    run_anomaly_detection input_path output_filename (Q2Qc (1 # 100))
      (Some ["amount_cad"])) ;;
  logging_info "Generating customer embeddings from KYC data..." [] ;;
  generate_customer_embeddings ["employee_count"; "sales"] 20 32 ;;
  logging_info "Production pipeline complete." [].

End Main.

(** ** What a statement does to the files *)

(** The statement leaves every file as it is, whatever its outcome. *)
Definition keeps_files {A} (m : M world A) : Prop :=
  forall w, csv_files (snd (m w)) = csv_files w /\ text_files (snd (m w)) = text_files w.

(** Whatever its outcome, the statement leaves as they are the CSV files
    other than those at the paths [csvs] and the text files other than those
    at the paths [texts]. *)
Definition writes_only {A} (csvs texts : list string) (m : M world A) : Prop :=
  forall w,
    (forall p, p ∉ csvs -> assoc p (csv_files (snd (m w))) = assoc p (csv_files w))
    /\ (forall p, p ∉ texts -> assoc p (text_files (snd (m w))) = assoc p (text_files w)).

(** ** [clean_kyc_industry_codes] on one table *)

(** [.str.strip().str.upper()] on one text *)
Definition strip_upper_text (s : string) : string := Text.upper (Text.strip s).

(** The table [clean_kyc_industry_codes] returns, and the exception its
    [try] block caught: duplicates are dropped, the index is moved into a
    column, a column [index] is renamed, every text column is trimmed and
    put in upper case; [reset_index] is the statement that can refuse. *)
Definition codes_cleaned (f : DataFrame) : DataFrame * option exn :=
  match reset_index (drop_duplicates f) with
  | Raise e => (drop_duplicates f, Some e)
  | Ok r =>
      (map_columns (on_text strip_upper_text) (rename "index" "industry_code" r), None)
  end.

(** the name under which the industry-code table gets its index as a column *)
Definition codes_key (f : DataFrame) : string :=
  if decide (reset_index_name f = "index") then "industry_code" else reset_index_name f.

(** ** [clean_bool_columns] column by column *)

Section AsBool.
Context {pd : Pandas}.

(** what the [try] block of one column leaves in it: the converted
    column, or the column as it was when the conversion raised *)
Definition as_bool (c : Series) : Series :=
  match astype_bool c with
  | Ok c' => c'
  | Raise _ => c
  end.

End AsBool.

(** ** Statements that cannot raise *)

(** Whatever the state, the statement returns. *)
Definition returns {S A} (m : M S A) : Prop :=
  forall s, exists a s', m s = (Ok a, s').

(** ** A small file system

    An instance of [Files] to run the entry points on concrete disks: the
    three output directories exist and have no sub-directory, a CSV file is
    loaded back as it was written, under a fresh index, and
    [index_col=0] makes the first column the index. *)

Module DemoFiles.

Definition directories : list string :=
  ["mnt/output/clean/"; "mnt/output/task1/"; "mnt/output/task3/"].

(** [path] names a file directly in the directory [dir] *)
Definition file_in (dir path : string) : bool :=
  String.prefix dir path
  && negb (Str.has_char Path.sep
             (String.substring (String.length dir)
                (String.length path - String.length dir) path)).

Definition write_error (path : string) : option exn :=
  if existsb (fun dir => file_in dir path) directories then None
  else Some FileNotFoundError.

Definition reloaded (columns : list (string * Series)) : option DataFrame :=
  match columns with
  | [] => None
  | (_, c) :: _ => Some (mkDF None (RangeIndex (series_len c)) columns)
  end.

Definition on_disk (path : string) : bool := false.

Definition index_col0 (f : DataFrame) : DataFrame :=
  match columns f with
  | [] => f
  | (k, c) :: cs => mkDF (Some k) c cs
  end.

#[global] Instance files : Files := Build_Files write_error reloaded on_disk index_col0.

End DemoFiles.

(** ** More tables and disks used as examples *)

Module Cases.

(** an industry-code table whose index bears the name of one of its
    columns; the texts are neither trimmed nor in upper case *)
Definition codes_clash : DataFrame :=
  mkDF (Some "industry_code") (ObjectS [Some "A1"; Some "B2"; Some "C3"])
    [("industry_code", ObjectS [Some "a1"; Some "b2"; Some "b2"]);
     ("industry", ObjectS [Some " farming"; Some "mining "; Some "mining "])].

(** a transaction table whose [country] holds numbers *)
Definition numeric_country : DataFrame :=
  mkDF None (RangeIndex 2)
    [("customer_id", ObjectS [Some "c1"; Some "c2"]);
     ("country", NumericS [Some (num_of_Z 1); Some (num_of_Z 2)]);
     ("province", ObjectS [Some " on"; Some "qc "]);
     ("city", ObjectS [Some "Ottawa"; None])].

(** a transaction table with a date and a time column, both text *)
Definition dated : DataFrame :=
  mkDF None (RangeIndex 2)
    [("customer_id", ObjectS [Some "c1"; Some "c2"]);
     ("transaction_date", ObjectS [Some "2024-01-05"; Some "2024-02-10"]);
     ("transaction_time", ObjectS [Some " 12:30:00"; None])].

(** a disk with one cleaned transaction file *)
Definition clean_disk : world :=
  mkWorld [] []
    [("mnt/output/clean/cleaned_abm.csv", Examples.amounts_table)] [].

(** a disk whose cleaned transaction file has amounts that are text *)
Definition dirty_disk : world :=
  mkWorld [] []
    [("mnt/output/clean/cleaned_card.csv", Examples.card_table)] [].

(** a disk whose cleaned file has no amount column *)
Definition plain_disk : world :=
  mkWorld [] []
    [("mnt/output/clean/cleaned_abm.csv", Examples.trim_twins)] [].

(** a disk without any file *)
Definition empty_disk : world := mkWorld [] [] [] [].

(** a cleaned KYC file without the identifier column *)
Definition anonymous_kyc : DataFrame :=
  mkDF None (RangeIndex 2)
    [("sales", NumericS [Some (num_of_Z 10); None]);
     ("employee_count", NumericS [Some (num_of_Z 12); Some (num_of_Z 3)])].

Definition anonymous_disk : world :=
  mkWorld [] [] [("mnt/output/clean/cleaned_kyc.csv", anonymous_kyc)] [].

(** a disk with the eight raw files *)
Definition raw_disk : world :=
  mkWorld [] []
    [("mnt/data/abm.csv", Examples.amounts_table);
     ("mnt/data/card.csv", Examples.card_table);
     ("mnt/data/cheque.csv", dated);
     ("mnt/data/eft.csv", numeric_country);
     ("mnt/data/emt.csv", Examples.trim_twins);
     ("mnt/data/wire.csv", Examples.amounts_table);
     ("mnt/data/kyc.csv", anonymous_kyc);
     ("mnt/data/kyc_industry_codes.csv", codes_clash)] [].

End Cases.

(** * Statements and their runs *)

Lemma bind_run {S A B} (m : M S A) (k : A -> M S B) (s : S) :
  (m ≫= k) s = match m s with
               | (Ok a, s') => k a s'
               | (Raise e, s') => (Raise e, s')
               end.
Proof. reflexivity. Qed.

Lemma try_except_log (body : M fstate unit) msg (f f' : DataFrame) lg e :
  body (f, lg) = (outcome_of e, (f', lg)) ->
  try_except body (fun e => logging_error msg (Some e)) (f, lg)
  = (Ok tt, (f', lg ++ log_exn msg e)).
Proof.
  intros Hb. unfold try_except. rewrite Hb.
  destruct e; simpl.
  - reflexivity.
  - rewrite app_nil_r. reflexivity.
Qed.

(** ** Columns by label *)

Lemma assoc_elem {A} k (l : list (string * A)) :
  k ∈ map fst l <-> is_Some (assoc k l).
Proof.
  induction l as [|[k' v] l IH]; simpl.
  - split; [intros Hin; inversion Hin | intros [? ?]; discriminate].
  - destruct (decide (k = k')) as [->|Hne].
    + split; [eauto | intros _; left].
    + rewrite <- IH. split.
      * intros Hin. inversion Hin; subst; [congruence | assumption].
      * intros Hin. right. assumption.
Qed.

Lemma has_column_true col f : has_column col f = true <-> is_Some (get_col col f).
Proof.
  unfold has_column, get_col, column_names.
  rewrite bool_decide_eq_true. apply assoc_elem.
Qed.

Lemma has_column_false col f : has_column col f = false <-> get_col col f = None.
Proof.
  unfold has_column, get_col, column_names.
  rewrite bool_decide_eq_false, assoc_elem, eq_None_not_Some. reflexivity.
Qed.

Lemma assoc_set_same {A} k (v : A) l : assoc k (assoc_set k v l) = Some v.
Proof.
  induction l as [|[k' v'] l IH]; simpl.
  - rewrite decide_True by reflexivity. reflexivity.
  - destruct (decide (k = k')) as [->|Hne]; simpl.
    + rewrite decide_True by reflexivity. reflexivity.
    + rewrite decide_False by assumption. assumption.
Qed.

Lemma assoc_set_other {A} k k0 (v : A) l :
  k0 <> k -> assoc k0 (assoc_set k v l) = assoc k0 l.
Proof.
  intros Hne. induction l as [|[k' v'] l IH]; simpl.
  - rewrite decide_False by assumption. reflexivity.
  - destruct (decide (k = k')) as [->|Hne']; simpl.
    + rewrite !decide_False by assumption. reflexivity.
    + destruct (decide (k0 = k')); [reflexivity | assumption].
Qed.

Lemma assoc_set_names {A} k (v : A) l :
  is_Some (assoc k l) -> map fst (assoc_set k v l) = map fst l.
Proof.
  induction l as [|[k' v'] l IH]; simpl.
  - intros [? ?]; discriminate.
  - destruct (decide (k = k')) as [->|Hne]; simpl; intros Hs.
    + reflexivity.
    + f_equal. apply IH, Hs.
Qed.

Lemma assoc_set_id {A} k (v : A) l : assoc k l = Some v -> assoc_set k v l = l.
Proof.
  induction l as [|[k' v'] l IH]; simpl.
  - discriminate.
  - destruct (decide (k = k')) as [->|Hne]; simpl.
    + intros [= ->]. reflexivity.
    + intros Hs. f_equal. apply IH, Hs.
Qed.

Lemma get_set_same col c f : get_col col (set_col col c f) = Some c.
Proof. apply assoc_set_same. Qed.

Lemma get_set_other col col0 c f :
  col0 <> col -> get_col col0 (set_col col c f) = get_col col0 f.
Proof. apply assoc_set_other. Qed.

Lemma set_col_id col c f : get_col col f = Some c -> set_col col c f = f.
Proof.
  intros Hg. destruct f as [n i cs]. unfold set_col, get_col in *; simpl in *.
  f_equal. apply assoc_set_id, Hg.
Qed.

Lemma nrows_set_col col c f : nrows (set_col col c f) = nrows f.
Proof. reflexivity. Qed.

(** ** The loops of the cleaning functions *)

Section Loops.
Context {pd : Pandas}.

Lemma convert_loop_run (g : Series -> Series) cols f lg :
  for_ cols (fun col =>
    b ← contains col;
    when_ b (c ← getitem col; setitem col (g c))) (f, lg)
  = (Ok tt, (convert_columns g cols f, lg)).
Proof.
  revert f. induction cols as [|col cols IH]; intros f; simpl.
  - reflexivity.
  - rewrite bind_run, bind_run. unfold contains at 1. simpl.
    unfold convert_columns in *. simpl. unfold update_col at 2.
    destruct (has_column col f) eqn:Hc.
    + apply has_column_true in Hc as [c Hc]. rewrite Hc. simpl.
      rewrite bind_run. unfold getitem at 1. simpl. rewrite Hc.
      unfold setitem at 1. simpl. apply IH.
    + apply has_column_false in Hc. rewrite Hc. simpl. apply IH.
Qed.

Lemma str_step_run (g : string -> string) col f lg :
  (b ← contains col;
   when_ b (c ← getitem col; c ← lift (str_method g c); setitem col c)) (f, lg)
  = (outcome_of (snd (str_columns g [col] f)), (fst (str_columns g [col] f), lg)).
Proof.
  rewrite bind_run. unfold contains at 1. simpl.
  destruct (has_column col f) eqn:Hc.
  - apply has_column_true in Hc as [c Hc]. rewrite Hc. simpl.
    rewrite bind_run. unfold getitem at 1. simpl. rewrite Hc.
    rewrite bind_run. unfold lift at 1.
    destruct (str_method g c); reflexivity.
  - apply has_column_false in Hc. rewrite Hc. reflexivity.
Qed.

Lemma str_columns_cons g col cols f :
  str_columns g (col :: cols) f
  = match str_columns g [col] f with
    | (f', None) => str_columns g cols f'
    | (f', Some e) => (f', Some e)
    end.
Proof.
  simpl. destruct (get_col col f) as [c|]; [|reflexivity].
  destruct (str_method g c); reflexivity.
Qed.

Lemma str_loop_run (g : string -> string) cols f lg :
  for_ cols (fun col =>
    b ← contains col;
    when_ b (c ← getitem col; c ← lift (str_method g c); setitem col c)) (f, lg)
  = (outcome_of (snd (str_columns g cols f)), (fst (str_columns g cols f), lg)).
Proof.
  revert f. induction cols as [|col cols IH]; intros f.
  - reflexivity.
  - cbn [for_]. rewrite bind_run, str_step_run, (str_columns_cons g col cols f).
    destruct (str_columns g [col] f) as [f' [e|]]; simpl.
    + reflexivity.
    + apply IH.
Qed.

End Loops.

(** ** Trimming every text column *)

Lemma convert_columns_list g names f :
  convert_columns g names f
  = mkDF (index_name f) (index f) (fold_left (update_list g) names (columns f)).
Proof.
  revert f. induction names as [|col names IH]; intros f.
  - destruct f; reflexivity.
  - unfold convert_columns in *. simpl. rewrite IH.
    unfold update_col, update_list, get_col.
    destruct (assoc col (columns f)); reflexivity.
Qed.

Lemma update_list_skip g names k v l :
  k ∉ names ->
  fold_left (update_list g) names ((k, v) :: l)
  = (k, v) :: fold_left (update_list g) names l.
Proof.
  revert l. induction names as [|col names IH]; intros l Hk.
  - reflexivity.
  - apply not_elem_of_cons in Hk as [Hne Hk]. simpl.
    unfold update_list at 2 4. simpl.
    rewrite decide_False by congruence.
    destruct (assoc col l) as [c|]; simpl.
    + rewrite decide_False by congruence. apply IH, Hk.
    + apply IH, Hk.
Qed.

Lemma on_text_not_object g c : is_object c = false -> on_text g c = c.
Proof. destruct c; simpl; congruence. Qed.

Lemma update_all_text g l :
  NoDup (map fst l) ->
  fold_left (update_list (on_text g))
            (map fst (filter (fun c => is_object (snd c)) l)) l
  = map (fun c => (fst c, on_text g (snd c))) l.
Proof.
  induction l as [|[k v] l IH]; intros Hnd.
  - reflexivity.
  - simpl in Hnd. apply NoDup_cons in Hnd as [Hk Hnd].
    assert (Hskip : k ∉ map fst (filter (fun c => is_object (snd c)) l)).
    { intros Hin. apply Hk. apply list_elem_of_fmap in Hin as [c [-> Hc]].
      apply list_elem_of_fmap. exists c. split; [reflexivity|].
      apply list_elem_of_filter in Hc. tauto. }
    rewrite filter_cons. simpl. destruct (decide (is_object v)) as [Ho|Ho].
    + simpl. unfold update_list at 2. simpl.
      rewrite decide_True by reflexivity. simpl.
      rewrite decide_True by reflexivity.
      rewrite update_list_skip by assumption. f_equal. apply IH, Hnd.
    + rewrite update_list_skip by assumption.
      rewrite (on_text_not_object g v).
      * f_equal. apply IH, Hnd.
      * destruct (is_object v); [exfalso; apply Ho; exact I | reflexivity].
Qed.

Lemma convert_all_text g f :
  NoDup (column_names f) ->
  convert_columns (on_text g) (select_dtypes_object f) f = map_columns (on_text g) f.
Proof.
  intros Hnd. rewrite convert_columns_list. unfold map_columns, select_dtypes_object.
  f_equal. apply update_all_text, Hnd.
Qed.

Lemma get_col_object_names f col :
  col ∈ select_dtypes_object f -> NoDup (column_names f) ->
  exists xs, get_col col f = Some (ObjectS xs).
Proof.
  unfold select_dtypes_object, get_col, column_names.
  induction (columns f) as [|[k v] l IH]; intros Hin Hnd.
  - rewrite filter_nil in Hin. inversion Hin.
  - simpl in Hnd. apply NoDup_cons in Hnd as [Hk Hnd].
    rewrite filter_cons in Hin. simpl in *.
    destruct (decide (col = k)) as [->|Hne].
    + destruct (decide (is_object v)) as [Ho|Ho].
      * destruct v; simpl in Ho; try contradiction. eauto.
      * exfalso. apply Hk. apply list_elem_of_fmap in Hin as [c [-> Hc]].
        apply list_elem_of_fmap. exists c. split; [reflexivity|].
        apply list_elem_of_filter in Hc. tauto.
    + apply IH; [|assumption].
      destruct (decide (is_object v)); [|assumption].
      simpl in Hin. apply elem_of_cons in Hin as [?|?]; [congruence | assumption].
Qed.

Section Blocks.
Context {pd : Pandas}.

Lemma text_loop_run (g : string -> string) names f lg :
  (forall col, col ∈ names -> exists xs, get_col col f = Some (ObjectS xs)) ->
  for_ names (fun col =>
    c ← getitem col; c ← lift (str_method g c); setitem col c) (f, lg)
  = (Ok tt, (convert_columns (on_text g) names f, lg)).
Proof.
  revert f. induction names as [|col names IH]; intros f Hobj.
  - reflexivity.
  - cbn [for_]. rewrite bind_run, bind_run. unfold getitem at 1. simpl.
    destruct (Hobj col) as [xs Hxs]; [left|]. rewrite Hxs.
    rewrite bind_run. unfold lift at 1. simpl. unfold setitem at 1. simpl.
    unfold convert_columns. simpl. unfold update_col at 2. rewrite Hxs. simpl.
    apply IH. intros col' Hin.
    destruct (decide (col' = col)) as [->|Hne].
    + rewrite get_set_same. eauto.
    + rewrite get_set_other by assumption. apply Hobj. right. assumption.
Qed.

Lemma strip_block_run (g : string -> string) f lg :
  NoDup (column_names f) ->
  (cols ← (fun s : fstate => (Ok (select_dtypes_object (fst s)), s));
   for_ cols (fun col =>
     c ← getitem col; c ← lift (str_method g c); setitem col c)) (f, lg)
  = (Ok tt, (map_columns (on_text g) f, lg)).
Proof.
  intros Hnd. rewrite bind_run. simpl.
  rewrite text_loop_run.
  - rewrite convert_all_text by assumption. reflexivity.
  - intros col Hin. apply get_col_object_names; assumption.
Qed.

Lemma combine_block_run f lg :
  (b1 ← contains "transaction_date";
   b2 ← contains "transaction_time";
   when_ (b1 && b2)
     (t ← getitem "transaction_time";
      setitem "transaction_time" (fillna_str "00:00:00" t) ;;
      d ← getitem "transaction_date";
      d ← lift (dt_strftime d);
      d ← lift (add_str d " ");
      t ← getitem "transaction_time";
      dt ← lift (add_series d t);
      setitem "transaction_datetime" (to_datetime dt))) (f, lg)
  = (outcome_of (snd (combine_date_time f)), (fst (combine_date_time f), lg)).
Proof.
  rewrite bind_run. unfold contains at 1. simpl.
  rewrite bind_run. unfold contains at 1. simpl.
  unfold combine_date_time.
  destruct (has_column "transaction_date" f) eqn:Hd.
  2:{ apply has_column_false in Hd. rewrite Hd. reflexivity. }
  apply has_column_true in Hd as [d Hd]. rewrite Hd.
  destruct (has_column "transaction_time" f) eqn:Ht.
  2:{ apply has_column_false in Ht. rewrite Ht. reflexivity. }
  apply has_column_true in Ht as [t Ht]. rewrite Ht. simpl.
  rewrite bind_run. unfold getitem at 1. simpl. rewrite Ht.
  rewrite bind_run. unfold setitem at 1. simpl.
  rewrite bind_run. unfold getitem at 1. simpl.
  rewrite get_set_other by discriminate. rewrite Hd.
  rewrite bind_run. unfold lift at 1.
  destruct (dt_strftime d) as [ds|e]; [|reflexivity].
  rewrite bind_run. unfold lift at 1.
  destruct (add_str ds " ") as [ds'|e]; [|reflexivity].
  rewrite bind_run. unfold getitem at 1. simpl. rewrite get_set_same.
  rewrite bind_run. unfold lift at 1.
  destruct (add_series ds' (fillna_str "00:00:00" t)) as [dt|e]; reflexivity.
Qed.

Lemma dropna_block_run f lg :
  (b ← contains "customer_id";
   when_ b (inplace (dropna "customer_id"))) (f, lg)
  = (Ok tt, (drop_missing "customer_id" f, lg)).
Proof.
  rewrite bind_run. unfold contains at 1. simpl. unfold drop_missing.
  destruct (has_column "customer_id" f) eqn:Hc.
  - apply has_column_true in Hc as [c Hc]. rewrite Hc. simpl.
    unfold inplace, dropna. simpl. rewrite Hc. reflexivity.
  - apply has_column_false in Hc. rewrite Hc. reflexivity.
Qed.

End Blocks.

(** ** The store *)

Lemma on_run {A} (m : M fstate A) l w f r f' lg' :
  heap w !! l = Some f ->
  m (f, log w) = (r, (f', lg')) ->
  on l m w = (r, mkWorld (<[l := f']> (heap w)) lg' (csv_files w) (text_files w)).
Proof. intros Hl Hm. unfold on. rewrite Hl, Hm. reflexivity. Qed.

Lemma on_read {A} (m : M fstate A) l w f a :
  heap w !! l = Some f ->
  m (f, log w) = (Ok a, (f, log w)) ->
  on l m w = (Ok a, w).
Proof.
  intros Hl Hm. erewrite on_run by eassumption.
  rewrite list_insert_id by assumption. destruct w; reflexivity.
Qed.

Lemma copy_run l w f :
  heap w !! l = Some f ->
  copy l w = (Ok (length (heap w)),
              mkWorld (heap w ++ [f]) (log w) (csv_files w) (text_files w)).
Proof.
  intros Hl. unfold copy. rewrite bind_run.
  erewrite on_read by (try eassumption; reflexivity). reflexivity.
Qed.

Lemma on_fresh {A} (m : M fstate A) h lg cf tf f r f' lg' :
  m (f, lg) = (r, (f', lg')) ->
  on (length h) m (mkWorld (h ++ [f]) lg cf tf) = (r, mkWorld (h ++ [f']) lg' cf tf).
Proof.
  intros Hm. erewrite on_run; simpl.
  - rewrite insert_app_r_alt by reflexivity. rewrite Nat.sub_diag. reflexivity.
  - apply list_lookup_middle. reflexivity.
  - exact Hm.
Qed.

Lemma column_names_filter_rows mask f :
  column_names (filter_rows mask f) = column_names f.
Proof.
  unfold column_names, filter_rows. simpl. rewrite map_map. reflexivity.
Qed.

Lemma column_names_drop_duplicates f :
  column_names (drop_duplicates f) = column_names f.
Proof.
  unfold drop_duplicates. destruct (df_empty f); [reflexivity|].
  apply column_names_filter_rows.
Qed.

Section Runs.
Context {pd : Pandas}.

(** [clean_transactions] allocates one new table, the cleaned copy, and
    appends its messages to the log. *)
Lemma clean_transactions_run l date_cols numeric_cols w f :
  heap w !! l = Some f ->
  NoDup (column_names f) ->
  clean_transactions l date_cols numeric_cols w
  = (Ok (length (heap w)),
     mkWorld (heap w ++ [fst (transactions_cleaned date_cols numeric_cols f)])
             (log w ++ snd (transactions_cleaned date_cols numeric_cols f)
              ++ [LogInfo "Transactions cleaned"
                    [nrows f; nrows (fst (transactions_cleaned date_cols numeric_cols f))]])
             (csv_files w) (text_files w)).
Proof.
  intros Hl Hnd. unfold clean_transactions.
  rewrite bind_run. erewrite on_read by (try eassumption; reflexivity).
  rewrite bind_run. erewrite copy_run by eassumption.
  rewrite bind_run.
  match goal with
  | |- context [on _ ?body _] =>
      assert (Hbody : body (f, log w)
        = (Ok tt, (fst (transactions_cleaned date_cols numeric_cols f),
                   log w ++ snd (transactions_cleaned date_cols numeric_cols f)
                   ++ [LogInfo "Transactions cleaned"
                         [nrows f;
                          nrows (fst (transactions_cleaned date_cols numeric_cols f))]])))
  end.
  { rewrite bind_run.
    rewrite (try_except_log _ _ _ (drop_duplicates f) _ None) by reflexivity.
    rewrite bind_run.
    rewrite (try_except_log _ _ _ (map_columns (on_text Text.strip) (drop_duplicates f)) _ None)
      by (apply strip_block_run; rewrite column_names_drop_duplicates; assumption).
    rewrite bind_run.
    rewrite (try_except_log _ _ _ _ _ None) by apply convert_loop_run.
    rewrite bind_run.
    erewrite try_except_log by apply combine_block_run.
    rewrite bind_run.
    rewrite (try_except_log _ _ _ _ _ None) by apply convert_loop_run.
    rewrite bind_run.
    erewrite try_except_log by apply str_step_run.
    rewrite bind_run.
    erewrite try_except_log by apply str_loop_run.
    rewrite bind_run.
    rewrite (try_except_log _ _ _ _ _ None) by apply dropna_block_run.
    rewrite bind_run. unfold len at 1. cbn [fst snd].
    unfold logging_info, add_log, fstate_logger. cbn [fst snd log_exn].
    unfold transactions_cleaned.
    destruct (combine_date_time _) as [f4 e4]. cbn [fst snd].
    destruct (str_columns Text.lower _ _) as [f6 e6]. cbn [fst snd].
    destruct (str_columns Text.upper _ _) as [f7 e7]. cbn [fst snd].
    rewrite !app_nil_r, <- !app_assoc. reflexivity. }
  erewrite on_fresh by exact Hbody. reflexivity.
Qed.

End Runs.

Lemma reset_index_names f f' :
  reset_index f = Ok f' -> NoDup (column_names f) -> NoDup (column_names f').
Proof.
  unfold reset_index. destruct (has_column _ f) eqn:Hc; [discriminate|].
  intros [= <-] Hnd. unfold column_names. simpl. apply NoDup_cons. split; [|assumption].
  unfold has_column in Hc. apply bool_decide_eq_false in Hc. exact Hc.
Qed.

Section KycRuns.
Context {pd : Pandas}.

Lemma when_convert_run (g : Series -> Series) col f lg :
  when_ (has_column col f) (c ← getitem col; setitem col (g c)) (f, lg)
  = (Ok tt, (update_col g f col, lg)).
Proof.
  unfold update_col. destruct (has_column col f) eqn:Hc.
  - apply has_column_true in Hc as [c Hc]. rewrite Hc. cbn [when_].
    rewrite bind_run. unfold getitem at 1. cbn [fst]. rewrite Hc. reflexivity.
  - apply has_column_false in Hc. rewrite Hc. reflexivity.
Qed.

Lemma convert_pair_run (g : Series -> Series) a b f lg :
  (x ← contains a;
   when_ x (c ← getitem a; setitem a (g c)) ;;
   y ← contains b;
   when_ y (c ← getitem b; setitem b (g c))) (f, lg)
  = (Ok tt, (convert_columns g [a; b] f, lg)).
Proof.
  rewrite bind_run. unfold contains at 1. cbn [fst].
  rewrite bind_run, when_convert_run.
  rewrite bind_run. unfold contains at 1. cbn [fst].
  rewrite when_convert_run. reflexivity.
Qed.

Lemma kyc_reset_dedup_run f lg :
  (inplace reset_index ;; inplace (fun f => Ok (drop_duplicates f))) (f, lg)
  = (outcome_of (snd (kyc_reset_dedup f)), (fst (kyc_reset_dedup f), lg)).
Proof.
  rewrite bind_run. unfold inplace at 1, kyc_reset_dedup. cbn [fst snd].
  destruct (reset_index f); reflexivity.
Qed.

Lemma kyc_dropna_run f lg :
  inplace (dropna "customer_id") (f, lg)
  = (outcome_of (snd (kyc_dropna f)), (fst (kyc_dropna f), lg)).
Proof.
  unfold inplace, kyc_dropna. cbn [fst snd].
  destruct (dropna "customer_id" f); reflexivity.
Qed.

Lemma kyc_reset_dedup_names f :
  NoDup (column_names f) -> NoDup (column_names (fst (kyc_reset_dedup f))).
Proof.
  intros Hnd. unfold kyc_reset_dedup.
  destruct (reset_index f) as [f'|e] eqn:Hr; cbn [fst]; [|assumption].
  rewrite column_names_drop_duplicates. eapply reset_index_names; eassumption.
Qed.

Lemma clean_kyc_data_run l w f :
  heap w !! l = Some f ->
  NoDup (column_names f) ->
  clean_kyc_data l w
  = (Ok (length (heap w)),
     mkWorld (heap w ++ [fst (kyc_cleaned f)])
             (log w ++ snd (kyc_cleaned f)
              ++ [LogInfo "KYC data cleaned" [nrows f; nrows (fst (kyc_cleaned f))]])
             (csv_files w) (text_files w)).
Proof.
  intros Hl Hnd. unfold clean_kyc_data.
  rewrite bind_run. erewrite on_read by (try eassumption; reflexivity).
  rewrite bind_run. erewrite copy_run by eassumption.
  rewrite bind_run.
  match goal with
  | |- context [on _ ?body _] =>
      assert (Hbody : body (f, log w)
        = (Ok tt, (fst (kyc_cleaned f),
                   log w ++ snd (kyc_cleaned f)
                   ++ [LogInfo "KYC data cleaned" [nrows f; nrows (fst (kyc_cleaned f))]])))
  end.
  { rewrite bind_run.
    erewrite try_except_log by apply kyc_reset_dedup_run.
    rewrite bind_run.
    rewrite (try_except_log _ _ _ _ _ None)
      by (apply strip_block_run, kyc_reset_dedup_names; assumption).
    rewrite bind_run.
    rewrite (try_except_log _ _ _ _ _ None) by apply convert_pair_run.
    rewrite bind_run.
    rewrite (try_except_log _ _ _ _ _ None) by apply convert_pair_run.
    rewrite bind_run.
    erewrite try_except_log by apply str_loop_run.
    rewrite bind_run.
    erewrite try_except_log by apply kyc_dropna_run.
    rewrite bind_run. unfold len at 1. cbn [fst snd].
    unfold logging_info, add_log, fstate_logger. cbn [fst snd log_exn].
    unfold kyc_cleaned.
    destruct (kyc_reset_dedup f) as [f1 e1]. cbn [fst snd].
    destruct (str_columns Text.upper _ _) as [f5 e5]. cbn [fst snd].
    destruct (kyc_dropna f5) as [f6 e6]. cbn [fst snd].
    rewrite !app_nil_r, <- !app_assoc. reflexivity. }
  erewrite on_fresh by exact Hbody. reflexivity.
Qed.

Lemma bool_loop_run cols f lg :
  for_ cols (fun col =>
    b ← contains col;
    when_ b
      (try_except
         (c ← getitem col; c ← lift (astype_bool c); setitem col c)
         (fun e => logging_error "Error converting to bool" (Some e)))) (f, lg)
  = (Ok tt, (fst (bool_columns_cleaned cols f), lg ++ snd (bool_columns_cleaned cols f))).
Proof.
  revert f lg. induction cols as [|col cols IH]; intros f lg.
  - cbn. rewrite app_nil_r. reflexivity.
  - cbn [for_ bool_columns_cleaned]. rewrite !bind_run. unfold contains at 1. cbn [fst].
    destruct (has_column col f) eqn:Hc.
    + apply has_column_true in Hc as [c Hc]. rewrite Hc. cbn [when_].
      unfold try_except at 1. rewrite bind_run. unfold getitem at 1. cbn [fst].
      rewrite Hc. rewrite bind_run. unfold lift at 1.
      destruct (astype_bool c) as [c'|e].
      * unfold setitem at 1. cbn [fst snd]. apply IH.
      * unfold logging_error at 1, add_log, fstate_logger. cbn [fst snd].
        rewrite IH. destruct (bool_columns_cleaned cols f) as [f' lg']. cbn [fst snd].
        rewrite <- app_assoc. reflexivity.
    + apply has_column_false in Hc. rewrite Hc. cbn [when_]. apply IH.
Qed.

Lemma clean_bool_columns_run l cols w f :
  heap w !! l = Some f ->
  clean_bool_columns l cols w
  = (Ok l, mkWorld (<[l := fst (bool_columns_cleaned cols f)]> (heap w))
                   (log w ++ snd (bool_columns_cleaned cols f))
                   (csv_files w) (text_files w)).
Proof.
  intros Hl. unfold clean_bool_columns. rewrite bind_run.
  erewrite on_run by (try eassumption; apply bool_loop_run). reflexivity.
Qed.

End KycRuns.

(** ** Rows kept and rows dropped *)

Lemma take_mask_length_le {A} mask (xs : list A) :
  length (take_mask mask xs) <= length xs.
Proof.
  revert xs. induction mask as [|b mask IH]; intros [|x xs]; simpl; try lia.
  specialize (IH xs). destruct b; simpl; lia.
Qed.

Lemma take_mask_length_eq {A B} mask (xs : list A) (ys : list B) :
  length xs = length ys ->
  length (take_mask mask xs) = length (take_mask mask ys).
Proof.
  revert xs ys. induction mask as [|b mask IH]; intros [|x xs] [|y ys] Hlen;
    simpl in *; try lia.
  destruct b; simpl; auto.
Qed.

Lemma take_mask_map {A B} (g : A -> B) mask (xs : list A) :
  take_mask mask (map g xs) = map g (take_mask mask xs).
Proof.
  revert xs. induction mask as [|b mask IH]; intros [|x xs]; simpl; try reflexivity.
  destruct b; simpl; rewrite IH; reflexivity.
Qed.

Lemma cells_series_take mask c :
  cells (series_take mask c) = take_mask mask (cells c).
Proof. destruct c; simpl; rewrite take_mask_map; reflexivity. Qed.

Lemma series_len_cells c : series_len c = length (cells c).
Proof. destruct c; simpl; rewrite length_map; reflexivity. Qed.

Lemma series_take_len_le mask c : series_len (series_take mask c) <= series_len c.
Proof.
  rewrite !series_len_cells, cells_series_take. apply take_mask_length_le.
Qed.

Lemma take_mask_notna (cs : list scalar) :
  Forall (fun x => x <> SNull)
         (take_mask (map (fun c => negb (is_null c)) cs) cs).
Proof.
  induction cs as [|c cs IH]; simpl.
  - constructor.
  - destruct c; simpl; try assumption; constructor; try assumption; discriminate.
Qed.

Lemma get_col_filter_rows col mask f :
  get_col col (filter_rows mask f) = series_take mask <$> get_col col f.
Proof.
  unfold get_col, filter_rows. simpl.
  induction (columns f) as [|[k v] l IH]; simpl.
  - reflexivity.
  - destruct (decide (col = k)); [reflexivity | assumption].
Qed.

Lemma drop_missing_no_null col f c :
  get_col col (drop_missing col f) = Some c -> no_null c.
Proof.
  unfold drop_missing. destruct (get_col col f) as [c0|] eqn:Hc.
  - rewrite get_col_filter_rows, Hc. intros [= <-].
    unfold no_null, notna. rewrite cells_series_take. apply take_mask_notna.
  - rewrite Hc. discriminate.
Qed.

Lemma nrows_filter_rows_le mask f : nrows (filter_rows mask f) <= nrows f.
Proof. unfold nrows, filter_rows. simpl. apply series_take_len_le. Qed.

Lemma nrows_drop_missing_le col f : nrows (drop_missing col f) <= nrows f.
Proof.
  unfold drop_missing. destruct (get_col col f); [apply nrows_filter_rows_le | lia].
Qed.

(** *** The first occurrences are the distinct rows *)

Lemma first_occurrence_spec (seen rs : list (list scalar)) :
  let kept := take_mask (first_occurrence seen rs) rs in
  NoDup kept
  /\ (forall r, r ∈ kept <-> r ∈ rs /\ r ∉ seen).
Proof.
  revert seen. induction rs as [|r rs IH]; intros seen; simpl.
  - split; [constructor|]. intros r. split; [intros Hin; inversion Hin | intros [Hin _]; inversion Hin].
  - destruct (decide (r ∈ seen)) as [Hs|Hs]; simpl.
    + destruct (IH seen) as [Hnd Hin]. split; [assumption|].
      intros r'. rewrite Hin. split.
      * intros [? ?]. split; [right|]; assumption.
      * intros [Hr Hn]. split; [|assumption].
        apply elem_of_cons in Hr as [->|?]; [contradiction | assumption].
    + destruct (IH (r :: seen)) as [Hnd Hin]. split.
      * apply NoDup_cons. split; [|assumption].
        rewrite Hin. intros [_ Hn]. apply Hn. left.
      * intros r'. rewrite elem_of_cons, Hin. split.
        -- intros [->|[Hr Hn]].
           ++ split; [left | assumption].
           ++ split; [right; assumption|]. intros Hs'. apply Hn. right. assumption.
        -- intros [Hr Hn]. apply elem_of_cons in Hr as [->|Hr]; [left; reflexivity|].
           destruct (decide (r' = r)) as [->|Hne]; [left; reflexivity|].
           right. split; [assumption|]. intros Hs'.
           apply elem_of_cons in Hs' as [?|?]; [congruence | contradiction].
Qed.

Lemma first_occurrence_count (rs : list (list scalar)) :
  length (take_mask (first_occurrence [] rs) rs) = length (remove_dups rs).
Proof.
  apply Permutation_length, NoDup_Permutation.
  - apply (first_occurrence_spec [] rs).
  - apply NoDup_remove_dups.
  - intros r. rewrite (proj2 (first_occurrence_spec [] rs)), elem_of_remove_dups.
    split; [tauto|]. intros Hr. split; [assumption|]. apply not_elem_of_nil.
Qed.

Lemma length_rows f : length (rows f) = nrows f.
Proof. unfold rows. rewrite length_map, length_seq. reflexivity. Qed.

(** Exact duplicates are removed: as many rows stay as there are distinct
    rows. *)
Lemma nrows_drop_duplicates f :
  columns f <> [] ->
  nrows (drop_duplicates f) = length (remove_dups (rows f)).
Proof.
  intros Hc. unfold drop_duplicates, df_empty.
  destruct (nrows f =? 0)%nat eqn:Hn; simpl.
  - apply Nat.eqb_eq in Hn. rewrite Hn.
    assert (Hr : rows f = []) by (apply length_zero_iff_nil; rewrite length_rows; assumption).
    rewrite Hr. reflexivity.
  - destruct (length (columns f) =? 0)%nat eqn:Hl.
    + apply Nat.eqb_eq, length_zero_iff_nil in Hl. contradiction.
    + rewrite <- first_occurrence_count.
      unfold nrows, filter_rows. simpl.
      rewrite series_len_cells, cells_series_take.
      apply take_mask_length_eq.
      rewrite length_rows. unfold nrows. symmetry. apply series_len_cells.
Qed.

(** *** The steps between the first and the last keep the index *)

Lemma index_convert_columns g cols f : index (convert_columns g cols f) = index f.
Proof. rewrite convert_columns_list. reflexivity. Qed.

Section Index.
Context {pd : Pandas}.

Lemma index_combine_date_time f : index (fst (combine_date_time f)) = index f.
Proof.
  unfold combine_date_time.
  destruct (get_col "transaction_date" f) as [d|]; [|reflexivity].
  destruct (get_col "transaction_time" f) as [t|]; [|reflexivity].
  destruct (dt_strftime d) as [ds|]; [|reflexivity].
  destruct (add_str ds " ") as [ds'|]; [|reflexivity].
  destruct (add_series ds' _); reflexivity.
Qed.

Lemma index_str_columns g cols f : index (fst (str_columns g cols f)) = index f.
Proof.
  revert f. induction cols as [|col cols IH]; intros f; simpl.
  - reflexivity.
  - destruct (get_col col f) as [c|]; [|apply IH].
    destruct (str_method g c); [|reflexivity].
    rewrite IH. reflexivity.
Qed.

Lemma nrows_transactions_before_key date_cols numeric_cols f :
  nrows (fst (transactions_cleaned date_cols numeric_cols f))
  <= nrows (drop_duplicates f).
Proof.
  unfold transactions_cleaned.
  destruct (combine_date_time _) as [f4 e4] eqn:H4.
  destruct (str_columns Text.lower _ _) as [f6 e6] eqn:H6.
  destruct (str_columns Text.upper _ _) as [f7 e7] eqn:H7.
  cbn [fst]. etransitivity; [apply nrows_drop_missing_le|].
  unfold nrows.
  replace f7 with (fst (str_columns Text.upper ["country"; "province"; "city"] f6))
    by (rewrite H7; reflexivity).
  rewrite index_str_columns.
  replace f6 with (fst (str_columns Text.lower ["debit_credit"]
                          (convert_columns to_numeric numeric_cols f4)))
    by (rewrite H6; reflexivity).
  rewrite index_str_columns, index_convert_columns.
  replace f4 with (fst (combine_date_time
                          (convert_columns to_datetime date_cols
                             (map_columns (on_text Text.strip) (drop_duplicates f)))))
    by (rewrite H4; reflexivity).
  rewrite index_combine_date_time, index_convert_columns. reflexivity.
Qed.

Lemma transactions_cleaned_key date_cols numeric_cols f c :
  get_col "customer_id" (fst (transactions_cleaned date_cols numeric_cols f)) = Some c ->
  no_null c.
Proof.
  unfold transactions_cleaned.
  destruct (combine_date_time _) as [f4 e4].
  destruct (str_columns Text.lower _ _) as [f6 e6].
  destruct (str_columns Text.upper _ _) as [f7 e7].
  cbn [fst]. apply drop_missing_no_null.
Qed.

Lemma kyc_cleaned_key f c :
  get_col "customer_id" (fst (kyc_cleaned f)) = Some c -> no_null c.
Proof.
  unfold kyc_cleaned.
  destruct (kyc_reset_dedup f) as [f1 e1].
  destruct (str_columns Text.upper _ _) as [f5 e5].
  unfold kyc_dropna, dropna.
  destruct (get_col "customer_id" f5) as [c0|] eqn:Hc; cbn [fst].
  - rewrite get_col_filter_rows, Hc. intros [= <-].
    unfold no_null, notna. rewrite cells_series_take. apply take_mask_notna.
  - rewrite Hc. discriminate.
Qed.

End Index.

(** * The claims *)

(** ** Key invariant *)




(** ** Rule order *)

Lemma log_exn_no_error msg e : errors (log_exn msg e) = [] -> e = None.
Proof. destruct e; [discriminate | reflexivity]. Qed.

Lemma errors_app lg1 lg2 : errors (lg1 ++ lg2) = errors lg1 ++ errors lg2.
Proof. unfold errors. apply List.filter_app. Qed.

Lemma str_columns_no_error {pd : Pandas} g cols f f' :
  str_columns g cols f = (f', None) -> f' = convert_columns (on_text g) cols f.
Proof.
  revert f. induction cols as [|col cols IH]; intros f; simpl.
  - intros [= <-]. reflexivity.
  - unfold convert_columns in *. simpl. unfold update_col at 2.
    destruct (get_col col f) as [c|]; [|apply IH].
    destruct c; simpl; try discriminate. apply IH.
Qed.

Lemma combine_no_error {pd : Pandas} f f' :
  combine_date_time f = (f', None) -> f' = synthesize_timestamp f.
Proof.
  unfold combine_date_time, synthesize_timestamp.
  destruct (get_col "transaction_date" f) as [d|]; [|intros [= <-]; reflexivity].
  destruct (get_col "transaction_time" f) as [t|]; [|intros [= <-]; reflexivity].
  destruct d; simpl; try discriminate.
  destruct (fillna_str "00:00:00" t); simpl; try discriminate.
  intros [= <-]. reflexivity.
Qed.

Lemma new_log_app w lg1 w' :
  log w' = log w ++ lg1 -> new_log w w' = lg1.
Proof. unfold new_log. intros ->. rewrite drop_app_length. reflexivity. Qed.

(** When no rule failed, the table returned is the eight rules applied in
    order. *)
Lemma transactions_cleaned_rules {pd : Pandas} date_cols numeric_cols f :
  errors (snd (transactions_cleaned date_cols numeric_cols f)) = [] ->
  fst (transactions_cleaned date_cols numeric_cols f)
  = normalizer_rules date_cols numeric_cols f.
Proof.
  unfold transactions_cleaned, normalizer_rules, rule8, rule7, rule6, rule5, rule4,
    rule3, rule2, rule1.
  destruct (combine_date_time _) as [f4 e4] eqn:H4.
  destruct (str_columns Text.lower _ _) as [f6 e6] eqn:H6.
  destruct (str_columns Text.upper _ _) as [f7 e7] eqn:H7.
  cbn [fst snd]. rewrite !errors_app. intros He.
  apply app_eq_nil in He as [He4 He]. apply app_eq_nil in He as [He6 He7].
  apply log_exn_no_error in He4, He6, He7. subst e4 e6 e7.
  apply combine_no_error in H4. apply str_columns_no_error in H6, H7.
  subst. reflexivity.
Qed.



(** ** Coercion failures *)

Lemma get_col_map_columns g col f :
  get_col col (map_columns g f) = g <$> get_col col f.
Proof.
  unfold get_col, map_columns. simpl.
  induction (columns f) as [|[k v] l IH]; simpl.
  - reflexivity.
  - destruct (decide (col = k)); [reflexivity | assumption].
Qed.

Lemma get_col_update_other g col col0 f :
  col0 <> col -> get_col col0 (update_col g f col) = get_col col0 f.
Proof.
  intros Hne. unfold update_col. destruct (get_col col f); [|reflexivity].
  apply get_set_other, Hne.
Qed.

Lemma get_col_convert_other g cols col f :
  col ∉ cols -> get_col col (convert_columns g cols f) = get_col col f.
Proof.
  revert f. unfold convert_columns.
  induction cols as [|c cols IH]; intros f Hn; simpl.
  - reflexivity.
  - apply not_elem_of_cons in Hn as [Hne Hn].
    rewrite IH by assumption. apply get_col_update_other, Hne.
Qed.

Lemma notna_on_text g c : notna (on_text g c) = notna c.
Proof.
  destruct c; try reflexivity. unfold notna. simpl. rewrite !map_map.
  apply map_ext. intros [s|]; reflexivity.
Qed.

Section Coercion.
Context {pd : Pandas}.

Lemma get_col_combine_other col f :
  col <> "transaction_time" -> col <> "transaction_datetime" ->
  get_col col (fst (combine_date_time f)) = get_col col f.
Proof.
  intros Ht Hdt. unfold combine_date_time.
  destruct (get_col "transaction_date" f) as [d|]; [|reflexivity].
  destruct (get_col "transaction_time" f) as [t|]; [|reflexivity].
  destruct (dt_strftime d) as [ds|]; cbn [fst]; [|apply get_set_other, Ht].
  destruct (add_str ds " ") as [ds'|]; cbn [fst]; [|apply get_set_other, Ht].
  destruct (add_series ds' _); cbn [fst]; rewrite ?get_set_other by assumption;
    reflexivity.
Qed.

Lemma get_col_str_columns_other g cols col f :
  col ∉ cols -> get_col col (fst (str_columns g cols f)) = get_col col f.
Proof.
  revert f. induction cols as [|c cols IH]; intros f Hn; simpl.
  - reflexivity.
  - apply not_elem_of_cons in Hn as [Hne Hn].
    destruct (get_col c f) as [s|]; [|apply IH, Hn].
    destruct (str_method g s); cbn [fst]; [|reflexivity].
    rewrite IH by assumption. apply get_set_other, Hne.
Qed.

Lemma transactions_cleaned_key_rule date_cols numeric_cols f :
  fst (transactions_cleaned date_cols numeric_cols f)
  = drop_missing "customer_id" (before_key_rule date_cols numeric_cols f).
Proof.
  unfold transactions_cleaned, before_key_rule.
  destruct (combine_date_time _) as [f4 e4]. cbn [fst].
  destruct (str_columns Text.lower _ _) as [f6 e6]. cbn [fst].
  destruct (str_columns Text.upper _ _) as [f7 e7]. reflexivity.
Qed.

Lemma index_before_key_rule date_cols numeric_cols f :
  index (before_key_rule date_cols numeric_cols f) = index (drop_duplicates f).
Proof.
  unfold before_key_rule.
  rewrite !index_str_columns, index_convert_columns, index_combine_date_time,
    index_convert_columns. reflexivity.
Qed.

Lemma key_before_key_rule date_cols numeric_cols f :
  "customer_id" ∉ date_cols -> "customer_id" ∉ numeric_cols ->
  get_col "customer_id" (before_key_rule date_cols numeric_cols f)
  = on_text Text.strip <$> get_col "customer_id" (drop_duplicates f).
Proof.
  intros Hd Hn. unfold before_key_rule.
  rewrite !get_col_str_columns_other
    by (rewrite !not_elem_of_cons; repeat split; try discriminate; apply not_elem_of_nil).
  rewrite get_col_convert_other by assumption.
  rewrite get_col_combine_other by discriminate.
  rewrite get_col_convert_other by assumption.
  apply get_col_map_columns.
Qed.

Lemma index_drop_missing_same col f g :
  index f = index g ->
  notna <$> get_col col f = notna <$> get_col col g ->
  index (drop_missing col f) = index (drop_missing col g).
Proof.
  unfold drop_missing. intros Hi Hn.
  destruct (get_col col f) as [c|], (get_col col g) as [c'|]; try discriminate.
  - injection Hn as Hn. simpl. rewrite Hn, Hi. reflexivity.
  - assumption.
Qed.

Lemma to_numeric_unparseable xs i s :
  xs !! i = Some (Some s) -> parse_numeric s = None ->
  cells (to_numeric (ObjectS xs)) !! i = Some SNull.
Proof.
  intros Hi Hp. simpl. rewrite !list_lookup_fmap, Hi. simpl. rewrite Hp. reflexivity.
Qed.

Lemma to_numeric_len c : series_len (to_numeric c) = series_len c.
Proof. destruct c; simpl; rewrite ?length_map; reflexivity. Qed.

Lemma to_datetime_len c : series_len (to_datetime c) = series_len c.
Proof. apply to_datetime_length. Qed.

Lemma kyc_cleaned_key_rule f :
  fst (kyc_cleaned f)
  = drop_missing "customer_id" (kyc_before_key_rule (fst (kyc_reset_dedup f))).
Proof.
  unfold kyc_cleaned, kyc_before_key_rule.
  destruct (kyc_reset_dedup f) as [f1 e1]. cbn [fst].
  destruct (str_columns Text.upper _ _) as [f5 e5]. cbn [fst].
  unfold kyc_dropna, dropna, drop_missing.
  destruct (get_col "customer_id" f5); reflexivity.
Qed.

Lemma kyc_index_out f f0 :
  reset_index f = Ok f0 ->
  index (fst (kyc_cleaned f))
  = index (drop_missing "customer_id" (drop_duplicates f0)).
Proof.
  intros Hr. rewrite kyc_cleaned_key_rule. unfold kyc_reset_dedup. rewrite Hr. cbn [fst].
  apply index_drop_missing_same.
  - unfold kyc_before_key_rule.
    rewrite index_str_columns, !index_convert_columns. reflexivity.
  - unfold kyc_before_key_rule.
    rewrite get_col_str_columns_other
      by (rewrite !not_elem_of_cons; repeat split; try discriminate; apply not_elem_of_nil).
    rewrite !get_col_convert_other
      by (rewrite !not_elem_of_cons; repeat split; try discriminate; apply not_elem_of_nil).
    rewrite get_col_map_columns.
    destruct (get_col "customer_id" (drop_duplicates f0)); [|reflexivity].
    simpl. rewrite notna_on_text. reflexivity.
Qed.

End Coercion.



(** ** Card amounts *)

Lemma is_numeric_take mask c : is_numeric c -> is_numeric (series_take mask c).
Proof. destruct c; simpl; auto. Qed.

Lemma num_abs_nonneg x : num_nonneg (num_abs x).
Proof. destruct x; simpl; try exact I. apply Qcabs_nonneg. Qed.

Lemma series_abs_numeric c :
  is_numeric c -> exists c', series_abs c = Ok c' /\ amount_ok c'.
Proof.
  destruct c as [xs|xs|xs|xs]; simpl; try contradiction; intros _.
  - eexists. split; [reflexivity|]. simpl.
    apply Forall_forall. intros o Ho. apply list_elem_of_fmap in Ho as [[x|] [-> _]]; simpl.
    + apply num_abs_nonneg.
    + exact I.
  - eexists. split; [reflexivity|]. exact I.
Qed.

Lemma get_col_update_same g col f :
  get_col col (update_col g f col) = g <$> get_col col f.
Proof.
  unfold update_col. destruct (get_col col f) as [c|] eqn:Hc.
  - apply get_set_same.
  - rewrite Hc. reflexivity.
Qed.

Section Card.
Context {pd : Pandas}.

Lemma to_numeric_is_numeric c : is_numeric (to_numeric c).
Proof. destruct c; exact I. Qed.

Lemma amount_after_cleaning date_cols f c :
  get_col "amount_cad" (fst (transactions_cleaned date_cols ["amount_cad"] f)) = Some c ->
  is_numeric c.
Proof.
  rewrite transactions_cleaned_key_rule. unfold drop_missing.
  assert (Hb : forall c0,
    get_col "amount_cad" (before_key_rule date_cols ["amount_cad"] f) = Some c0 ->
    is_numeric c0).
  { intros c0. unfold before_key_rule.
    rewrite !get_col_str_columns_other
      by (rewrite !not_elem_of_cons; repeat split; try discriminate; apply not_elem_of_nil).
    change (convert_columns to_numeric ["amount_cad"] ?g)
      with (update_col to_numeric g "amount_cad").
    rewrite get_col_update_same.
    destruct (get_col "amount_cad" _) as [c1|]; [|discriminate].
    intros [= <-]. apply to_numeric_is_numeric. }
  destruct (get_col "customer_id" _) as [k|]; [|apply Hb].
  rewrite get_col_filter_rows.
  destruct (get_col "amount_cad" _) as [c0|]; [|discriminate].
  intros [= <-]. apply is_numeric_take, Hb. reflexivity.
Qed.

Lemma get_col_bool_columns_other cols col f :
  col ∉ cols -> get_col col (fst (bool_columns_cleaned cols f)) = get_col col f.
Proof.
  revert f. induction cols as [|c cols IH]; intros f Hn; simpl.
  - reflexivity.
  - apply not_elem_of_cons in Hn as [Hne Hn].
    destruct (get_col c f) as [s|]; [|apply IH, Hn].
    destruct (astype_bool s).
    + rewrite IH by assumption. apply get_set_other, Hne.
    + specialize (IH f Hn). destruct (bool_columns_cleaned cols f). exact IH.
Qed.

(** the card table after cleaning and the two card steps *)
Lemma main_card_data_run l w f :
  heap w !! l = Some f ->
  NoDup (column_names f) ->
  exists w' out,
    main_card_data l w = (Ok (length (heap w)), w')
    /\ heap w' !! length (heap w) = Some out
    /\ (forall c, get_col "amount_cad" out = Some c -> amount_ok c).
Proof.
  intros Hl Hnd. unfold main_card_data.
  rewrite bind_run, (clean_transactions_run l _ _ w f Hl Hnd).
  set (out1 := fst (transactions_cleaned ["transaction_date"] ["amount_cad"] f)).
  set (lg1 := log w ++ _).
  rewrite bind_run. erewrite on_fresh by reflexivity. cbn [fst].
  destruct (has_column "amount_cad" out1) eqn:Hc.
  - apply has_column_true in Hc as [c Hc].
    destruct (series_abs_numeric c) as [c' [Habs Hok]].
    { eapply amount_after_cleaning. exact Hc. }
    cbn [when_]. rewrite bind_run, bind_run.
    erewrite on_fresh by (unfold getitem; cbn [fst]; rewrite Hc; reflexivity).
    cbn beta iota.
    rewrite bind_run. unfold lift at 1. rewrite Habs. cbn beta iota.
    rewrite bind_run. erewrite on_fresh by reflexivity. cbn beta iota.
    unfold logging_info at 1, add_log, world_logger. cbn [heap log csv_files text_files].
    rewrite bind_run.
    erewrite clean_bool_columns_run by (apply list_lookup_middle; reflexivity).
    cbn [heap]. eexists _, _. split; [reflexivity|].
    rewrite insert_app_r_alt by reflexivity. rewrite Nat.sub_diag. cbn [heap].
    split; [apply list_lookup_middle; reflexivity|].
    intros c0. rewrite get_col_bool_columns_other
      by (rewrite not_elem_of_cons; split; [discriminate | apply not_elem_of_nil]).
    rewrite get_set_same. intros [= <-]. exact Hok.
  - apply has_column_false in Hc. cbn [when_].
    rewrite bind_run. unfold mret at 1, M_ret. cbn beta iota. rewrite bind_run.
    erewrite clean_bool_columns_run by (apply list_lookup_middle; reflexivity).
    cbn [heap]. eexists _, _. split; [reflexivity|].
    rewrite insert_app_r_alt by reflexivity. rewrite Nat.sub_diag. cbn [heap].
    split; [apply list_lookup_middle; reflexivity|].
    intros c0. rewrite get_col_bool_columns_other
      by (rewrite not_elem_of_cons; split; [discriminate | apply not_elem_of_nil]).
    rewrite Hc. discriminate.
Qed.

End Card.




(** ** The outlier scorer *)

Lemma num_of_Z_inj y z : num_of_Z y = num_of_Z z -> y = z.
Proof.
  unfold num_of_Z. intros Hq.
  assert (Hq' : Q2Qc (inject_Z y) = Q2Qc (inject_Z z)) by congruence.
  apply Q2Qc_eq_iff in Hq'. unfold Qeq in Hq'. simpl in Hq'. lia.
Qed.

Lemma is_anomaly_flags ys :
  series_eq_int (int_series ys) (-1)
  = BoolS (map (fun y => bool_decide (y = (-1)%Z)) ys).
Proof.
  unfold series_eq_int, int_series. f_equal. rewrite map_map.
  apply map_ext. intros y. apply bool_decide_ext. split.
  - intros Hy. apply num_of_Z_inj. congruence.
  - intros ->. reflexivity.
Qed.

Section Anomaly.
Context {sk : Sklearn}.

(** no requested feature exists: an error is logged, nothing else happens *)
Lemma detect_anomalies_none l w f contamination features :
  heap w !! l = Some f ->
  available features f = [] ->
  detect_anomalies l contamination features w
  = (Ok l, mkWorld (heap w)
             (log w ++ [LogError "No valid features found for anomaly detection." None])
             (csv_files w) (text_files w)).
Proof.
  intros Hl Ha. unfold detect_anomalies. cbv zeta.
  rewrite bind_run. erewrite on_read by (try eassumption; reflexivity).
  cbn beta iota.
  change (filter _ (default ["amount_cad"] features)) with (available features f).
  rewrite Ha.
  rewrite bool_decide_eq_true_2 by reflexivity. reflexivity.
Qed.

(** the model gives its labels: the two columns are written into the
    table behind [l] *)
Lemma detect_anomalies_scored l w f contamination features cs ys :
  heap w !! l = Some f ->
  available features f <> [] ->
  select_columns (available features f) f = Ok cs ->
  fit_predict contamination 42 (mkDF (index_name f) (index f) cs) = Ok ys ->
  detect_anomalies l contamination features w
  = (Ok l, mkWorld (<[l := scored ys f]> (heap w))
             (log w ++ [LogInfo "Anomaly detection: Found anomalies out of rows"
                          [count_true (series_eq_int (int_series ys) (-1)); nrows f]])
             (csv_files w) (text_files w)).
Proof.
  intros Hl Ha Hcs Hfit. unfold detect_anomalies. cbv zeta.
  assert (Hlen : l < length (heap w)) by (eapply lookup_lt_Some; eassumption).
  rewrite bind_run. erewrite on_read by (try eassumption; reflexivity).
  cbn beta iota.
  change (filter _ (default ["amount_cad"] features)) with (available features f).
  rewrite bool_decide_eq_false_2 by assumption.
  rewrite bind_run.
  erewrite on_read; [| eassumption | unfold getitems; cbn [fst]; rewrite Hcs; reflexivity].
  cbn beta iota. rewrite bind_run. unfold lift at 1. rewrite Hfit. cbn beta iota.
  rewrite bind_run.
  erewrite on_run; [| eassumption |].
  2:{ unfold setitem_array. cbn [fst snd].
      rewrite decide_True; [reflexivity|].
      apply fit_predict_length in Hfit. unfold int_series. simpl.
      rewrite length_map. exact Hfit. }
  cbn beta iota. rewrite bind_run.
  erewrite on_run;
    [| cbn [heap]; apply list_lookup_insert_eq; assumption
     | unfold getitem; cbn [fst log]; rewrite get_set_same; reflexivity].
  cbn beta iota. cbn [heap log csv_files text_files].
  rewrite list_insert_insert_eq.
  rewrite bind_run.
  erewrite on_run;
    [| cbn [heap]; apply list_lookup_insert_eq; assumption | reflexivity].
  cbn beta iota. cbn [heap log csv_files text_files fst snd].
  rewrite list_insert_insert_eq.
  rewrite bind_run.
  erewrite on_run;
    [| cbn [heap]; apply list_lookup_insert_eq; assumption
     | unfold getitem; cbn [fst log]; rewrite get_set_same; reflexivity].
  cbn beta iota. cbn [heap log csv_files text_files].
  rewrite list_insert_insert_eq.
  rewrite bind_run.
  erewrite on_run;
    [| cbn [heap]; apply list_lookup_insert_eq; assumption | reflexivity].
  cbn beta iota. cbn [heap log csv_files text_files].
  rewrite list_insert_insert_eq.
  reflexivity.
Qed.

Lemma get_col_scored_other ys f col :
  col <> "anomaly_score" -> col <> "is_anomaly" ->
  get_col col (scored ys f) = get_col col f.
Proof.
  intros H1 H2. unfold scored. rewrite !get_set_other by assumption. reflexivity.
Qed.

End Anomaly.

(** C4.  When the model returns its labels, [detect_anomalies] returns the
    table it was given with the same index, so the same rows in the same
    number, with every column other than the two anomaly columns as it was;
    [anomaly_score] holds the labels, and [is_anomaly] is true in a row
    exactly when the label of that row is -1. *)
Theorem anomaly_additive {sk : Sklearn} (l : loc) (w : world) (f : DataFrame)
    (contamination : Qc) (features : option (list string))
    (cs : list (string * Series)) (ys : list Z) :
  heap w !! l = Some f ->
  available features f <> [] ->
  select_columns (available features f) f = Ok cs ->
  fit_predict contamination 42 (mkDF (index_name f) (index f) cs) = Ok ys ->
  exists w' out flags,
    detect_anomalies l contamination features w = (Ok l, w')
    /\ heap w' !! l = Some out
    /\ index out = index f
    /\ nrows out = nrows f
    /\ (forall col, col <> "anomaly_score" -> col <> "is_anomaly" ->
          get_col col out = get_col col f)
    /\ get_col "anomaly_score" out = Some (int_series ys)
    /\ get_col "is_anomaly" out = Some (BoolS flags)
    /\ length ys = nrows f
    /\ length flags = nrows f
    /\ (forall i y b, ys !! i = Some y -> flags !! i = Some b ->
          (b = true <-> y = (-1)%Z)).
Proof.
  intros Hl Ha Hcs Hfit.
  assert (Hlen : l < length (heap w)) by (eapply lookup_lt_Some; eassumption).
  assert (Hys : length ys = nrows f) by (apply fit_predict_length in Hfit; exact Hfit).
  eexists _, (scored ys f), (map (fun y => bool_decide (y = (-1)%Z)) ys).
  split; [eapply detect_anomalies_scored; eassumption|].
  split; [cbn [heap]; apply list_lookup_insert_eq; assumption|].
  split; [reflexivity|]. split; [reflexivity|].
  split; [intros col; apply get_col_scored_other|].
  split; [unfold scored; rewrite get_set_other by discriminate; apply get_set_same|].
  split; [unfold scored; rewrite get_set_same; f_equal; apply is_anomaly_flags|].
  split; [exact Hys|].
  split; [rewrite length_map; exact Hys|].
  intros i y b Hy Hb. rewrite list_lookup_fmap, Hy in Hb. injection Hb as <-.
  apply bool_decide_eq_true.
Qed.

Lemma anomaly_additive_witness :
  exists cs ys,
    heap (Examples.world_of Examples.amounts_table) !! 0 = Some Examples.amounts_table
    /\ available None Examples.amounts_table <> []
    /\ select_columns (available None Examples.amounts_table) Examples.amounts_table = Ok cs
    /\ fit_predict (Sklearn := Demo.sklearn) (Q2Qc (1 # 100)) 42
         (mkDF None (index Examples.amounts_table) cs) = Ok ys
    /\ exists w' out flags,
        detect_anomalies (sk := Demo.sklearn) 0 (Q2Qc (1 # 100)) None
          (Examples.world_of Examples.amounts_table) = (Ok 0, w')
        /\ heap w' !! 0 = Some out
        /\ index out = index Examples.amounts_table
        /\ nrows out = 3
        /\ (forall col, col <> "anomaly_score" -> col <> "is_anomaly" ->
              get_col col out = get_col col Examples.amounts_table)
        /\ get_col "anomaly_score" out = Some (int_series ys)
        /\ get_col "is_anomaly" out = Some (BoolS flags)
        /\ length ys = 3
        /\ length flags = 3
        /\ (forall i y b, ys !! i = Some y -> flags !! i = Some b ->
              (b = true <-> y = (-1)%Z)).
Proof.
  eexists _, _.
  assert (Hl : heap (Examples.world_of Examples.amounts_table) !! 0
               = Some Examples.amounts_table) by reflexivity.
  assert (Ha : available None Examples.amounts_table <> []) by (vm_compute; discriminate).
  assert (Hcs : select_columns (available None Examples.amounts_table) Examples.amounts_table
                = Ok [("amount_cad",
                       NumericS [Some (num_of_Z 1); Some (num_of_Z (-7)); Some (num_of_Z 3)])])
    by reflexivity.
  assert (Hfit : fit_predict (Sklearn := Demo.sklearn) (Q2Qc (1 # 100)) 42
                   (mkDF None (index Examples.amounts_table)
                      [("amount_cad",
                        NumericS [Some (num_of_Z 1); Some (num_of_Z (-7)); Some (num_of_Z 3)])])
                 = Ok [1; -1; 1]%Z) by (vm_compute; reflexivity).
  split; [exact Hl|]. split; [exact Ha|]. split; [exact Hcs|]. split; [exact Hfit|].
  exact (anomaly_additive (sk := Demo.sklearn) 0 _ _
           (Q2Qc (1 # 100)) None _ _ Hl Ha Hcs Hfit).
Defined.

(** C6.  When the table has none of the requested feature columns,
    [detect_anomalies] does not fail and returns the table it was given; the
    store is left as it was, so no column is added ([anomaly_score] and
    [is_anomaly] included) and no row is modified; the omission is logged. *)
Theorem no_feature_no_change {sk : Sklearn} (l : loc) (w : world) (f : DataFrame)
    (contamination : Qc) (features : option (list string)) :
  heap w !! l = Some f ->
  (forall col, col ∈ default ["amount_cad"] features -> col ∉ column_names f) ->
  exists w',
    detect_anomalies l contamination features w = (Ok l, w')
    /\ heap w' = heap w
    /\ heap w' !! l = Some f
    /\ new_log w w' = [LogError "No valid features found for anomaly detection." None].
Proof.
  intros Hl Hnone.
  assert (Ha : available features f = []).
  { unfold available. induction (default ["amount_cad"] features) as [|col cols IH].
    - reflexivity.
    - rewrite filter_cons, decide_False by (apply Hnone; left).
      apply IH. intros col' Hin. apply Hnone. right. exact Hin. }
  eexists. split; [eapply detect_anomalies_none; eassumption|].
  cbn [heap]. split; [reflexivity|]. split; [exact Hl|].
  apply new_log_app. reflexivity.
Qed.

Lemma no_feature_no_change_witness :
  heap (Examples.world_of Examples.amounts_table) !! 0 = Some Examples.amounts_table
  /\ (forall col, col ∈ default ["amount_cad"] (Some ["no_such_column"]) ->
       col ∉ column_names Examples.amounts_table)
  /\ exists w',
      detect_anomalies (sk := Demo.sklearn) 0 (Q2Qc (1 # 100))
        (Some ["no_such_column"]) (Examples.world_of Examples.amounts_table) = (Ok 0, w')
      /\ heap w' = [Examples.amounts_table]
      /\ heap w' !! 0 = Some Examples.amounts_table
      /\ new_log (Examples.world_of Examples.amounts_table) w'
         = [LogError "No valid features found for anomaly detection." None].
Proof.
  assert (Hl : heap (Examples.world_of Examples.amounts_table) !! 0
               = Some Examples.amounts_table) by reflexivity.
  assert (Hn : forall col, col ∈ default ["amount_cad"] (Some ["no_such_column"]) ->
                 col ∉ column_names Examples.amounts_table).
  { intros col Hin. apply list_elem_of_singleton in Hin. subst col.
    apply (bool_decide_unpack _). vm_compute. exact I. }
  split; [exact Hl|]. split; [exact Hn|].
  exact (no_feature_no_change (sk := Demo.sklearn) 0 _ _
           (Q2Qc (1 # 100)) (Some ["no_such_column"]) Hl Hn).
Defined.

(** ** Who owns the table *)

Lemma select_columns_present cols f :
  Forall (fun col => col ∈ column_names f) cols ->
  exists cs, select_columns cols f = Ok cs.
Proof.
  induction cols as [|col cols IH]; intros Hall.
  - exists []. reflexivity.
  - apply Forall_cons in Hall as [Hin Hall]. destruct (IH Hall) as [cs Hcs].
    apply assoc_elem in Hin as [c Hc]. exists ((col, c) :: cs).
    simpl. unfold get_col. rewrite Hc, Hcs. reflexivity.
Qed.

Lemma select_available features f :
  exists cs, select_columns (available features f) f = Ok cs.
Proof.
  apply select_columns_present. unfold available.
  apply Forall_forall. intros col Hin. apply list_elem_of_filter in Hin. tauto.
Qed.

Section Ownership.
Context {sk : Sklearn}.

(** the model raises: so does [detect_anomalies], before it wrote anything *)
Lemma detect_anomalies_raise l w f contamination features cs e :
  heap w !! l = Some f ->
  available features f <> [] ->
  select_columns (available features f) f = Ok cs ->
  fit_predict contamination 42 (mkDF (index_name f) (index f) cs) = Raise e ->
  detect_anomalies l contamination features w = (Raise e, w).
Proof.
  intros Hl Ha Hcs Hfit. unfold detect_anomalies. cbv zeta.
  rewrite bind_run. erewrite on_read by (try eassumption; reflexivity).
  cbn beta iota.
  change (filter _ (default ["amount_cad"] features)) with (available features f).
  rewrite bool_decide_eq_false_2 by assumption.
  rewrite bind_run.
  erewrite on_read; [| eassumption | unfold getitems; cbn [fst]; rewrite Hcs; reflexivity].
  cbn beta iota. rewrite bind_run. unfold lift at 1. rewrite Hfit. reflexivity.
Qed.

Lemma detect_anomalies_same_object l w f contamination features l' w' :
  heap w !! l = Some f ->
  detect_anomalies l contamination features w = (Ok l', w') ->
  l' = l
  /\ length (heap w') = length (heap w)
  /\ (forall k, k <> l -> heap w' !! k = heap w !! k).
Proof.
  intros Hl Hrun.
  destruct (decide (available features f = [])) as [Ha|Ha].
  - rewrite (detect_anomalies_none l w f contamination features Hl Ha) in Hrun.
    injection Hrun as <- <-. cbn [heap]. auto.
  - destruct (select_available features f) as [cs Hcs].
    destruct (fit_predict contamination 42 (mkDF (index_name f) (index f) cs))
      as [ys|e] eqn:Hfit.
    + rewrite (detect_anomalies_scored l w f contamination features cs ys Hl Ha Hcs Hfit)
        in Hrun.
      injection Hrun as <- <-. cbn [heap].
      split; [reflexivity|]. split; [apply length_insert|].
      intros k Hk. apply list_lookup_insert_ne. congruence.
    + rewrite (detect_anomalies_raise l w f contamination features cs e Hl Ha Hcs Hfit)
        in Hrun.
      discriminate.
Qed.

End Ownership.

(** C8, counterexample.  [detect_anomalies] writes its two columns into the
    table it is given: after the call the caller's table is no longer what it
    was, and the table returned is that same object. *)
Lemma immutable_input_counterexample :
  exists l w',
    detect_anomalies (sk := Demo.sklearn) 0 (Q2Qc (1 # 100)) None
      (Examples.world_of Examples.amounts_table) = (Ok l, w')
    /\ l = 0
    /\ heap w' !! 0 <> Some Examples.amounts_table.
Proof.
  eexists _, _. split; [vm_compute; reflexivity|]. split; [reflexivity|].
  intros Heq. apply (f_equal (fmap (fun f => length (columns f)))) in Heq.
  vm_compute in Heq. discriminate.
Qed.

(** C8, amended.  [clean_transactions] and [clean_kyc_data] work on a copy:
    they return a new table and leave every table of the caller, the input
    included, as it was.  [detect_anomalies] returns the table it was given,
    updated in place, and leaves every other table as it was. *)
Theorem input_ownership {pd : Pandas} {sk : Sklearn} (l : loc) (w : world) (f : DataFrame) :
  heap w !! l = Some f ->
  NoDup (column_names f) ->
  (forall date_cols numeric_cols, exists w',
      clean_transactions l date_cols numeric_cols w = (Ok (length (heap w)), w')
      /\ length (heap w) <> l
      /\ (forall k g, heap w !! k = Some g -> heap w' !! k = Some g))
  /\ (exists w',
      clean_kyc_data l w = (Ok (length (heap w)), w')
      /\ length (heap w) <> l
      /\ (forall k g, heap w !! k = Some g -> heap w' !! k = Some g))
  /\ (forall contamination features l' w',
      detect_anomalies l contamination features w = (Ok l', w') ->
      l' = l
      /\ length (heap w') = length (heap w)
      /\ (forall k, k <> l -> heap w' !! k = heap w !! k)).
Proof.
  intros Hl Hnd.
  assert (Hlen : l < length (heap w)) by (eapply lookup_lt_Some; eassumption).
  split; [|split].
  - intros date_cols numeric_cols. eexists.
    split; [apply clean_transactions_run; eassumption|].
    split; [lia|]. cbn [heap]. intros k g Hk. apply lookup_app_l_Some. exact Hk.
  - eexists. split; [apply clean_kyc_data_run; eassumption|].
    split; [lia|]. cbn [heap]. intros k g Hk. apply lookup_app_l_Some. exact Hk.
  - intros contamination features l' w'. eapply detect_anomalies_same_object. exact Hl.
Qed.

Lemma input_ownership_witness :
  heap (Examples.world_of Examples.amounts_table) !! 0 = Some Examples.amounts_table
  /\ NoDup (column_names Examples.amounts_table)
  /\ exists w',
      clean_kyc_data (pd := Demo.pandas) 0 (Examples.world_of Examples.amounts_table)
      = (Ok 1, w')
      /\ 1 <> 0
      /\ (forall k g, heap (Examples.world_of Examples.amounts_table) !! k = Some g ->
            heap w' !! k = Some g).
Proof.
  assert (Hl : heap (Examples.world_of Examples.amounts_table) !! 0
               = Some Examples.amounts_table) by reflexivity.
  assert (Hnd : NoDup (column_names Examples.amounts_table))
    by (apply (bool_decide_unpack _); vm_compute; exact I).
  split; [exact Hl|]. split; [exact Hnd|].
  exact (proj1 (proj2 (input_ownership (pd := Demo.pandas) (sk := Demo.sklearn) 0 _ _ Hl Hnd))).
Defined.

(** ** Boolean indicator columns *)

Lemma truthiness_idem c : truthiness (truthiness c) = truthiness c.
Proof.
  unfold truthiness. simpl. rewrite map_map. f_equal. apply map_id.
Qed.

Lemma cell_truth_false c :
  (forall t, c <> SDate t) ->
  cell_truth c = false
  <-> c = SStr "" \/ c = SNum (Finite (Q2Qc 0)) \/ c = SBool false.
Proof.
  intros Hd. destruct c as [|s|x|b|t]; simpl.
  - split; [discriminate | intros [?|[?|?]]; discriminate].
  - rewrite negb_false_iff, bool_decide_eq_true. split.
    + intros ->. left. reflexivity.
    + intros [[= ->]|[?|?]]; [reflexivity | discriminate | discriminate].
  - rewrite negb_false_iff. split.
    + destruct x as [q| |]; simpl; try discriminate.
      intros Hq. apply Qc_eq_bool_correct in Hq. subst q. right. left. reflexivity.
    + intros [?|[[= ->]|?]]; [discriminate | | discriminate].
      simpl. unfold Qc_eq_bool.
      destruct (Qc_eq_dec (Q2Qc 0) (Q2Qc 0)); [reflexivity | congruence].
  - split.
    + intros ->. right. right. reflexivity.
    + intros [?|[?|[= ->]]]; [discriminate | discriminate | reflexivity].
  - exfalso. apply (Hd t). reflexivity.
Qed.

Section BoolColumns.
Context {pd : Pandas}.

Lemma astype_bool_truthiness c :
  is_datetime c = false -> astype_bool c = Ok (truthiness c).
Proof.
  destruct c as [xs|xs|xs|xs]; simpl; try discriminate; intros _;
    unfold truthiness; simpl; rewrite map_map; do 2 f_equal.
  - apply map_ext. intros [s|]; reflexivity.
  - apply map_ext. intros [x|]; reflexivity.
  - symmetry. apply map_id.
Qed.

Lemma bool_columns_cleaned_spec cols f :
  (forall col c, col ∈ cols -> get_col col f = Some c -> is_datetime c = false) ->
  snd (bool_columns_cleaned cols f) = []
  /\ forall col,
      get_col col (fst (bool_columns_cleaned cols f))
      = if decide (col ∈ cols) then truthiness <$> get_col col f else get_col col f.
Proof.
  revert f. induction cols as [|c0 cols IH]; intros f Hty.
  - split; [reflexivity|]. intros col.
    rewrite decide_False by apply not_elem_of_nil. reflexivity.
  - cbn [bool_columns_cleaned].
    destruct (get_col c0 f) as [s|] eqn:Hs.
    + rewrite (astype_bool_truthiness s) by (eapply Hty; [left | exact Hs]).
      destruct (IH (set_col c0 (truthiness s) f)) as [Hlog Hget].
      { intros col c Hin. destruct (decide (col = c0)) as [->|Hne].
        - rewrite get_set_same. intros [= <-]. reflexivity.
        - rewrite get_set_other by assumption. apply Hty. right. exact Hin. }
      split; [exact Hlog|]. intros col. rewrite Hget.
      destruct (decide (col = c0)) as [->|Hne].
      * rewrite get_set_same, Hs, (decide_True (P := c0 ∈ c0 :: cols)) by left.
        simpl. rewrite truthiness_idem. destruct (decide (c0 ∈ cols)); reflexivity.
      * rewrite get_set_other by assumption.
        destruct (decide (col ∈ cols)) as [Hin|Hin].
        -- rewrite decide_True by (right; exact Hin). reflexivity.
        -- rewrite decide_False; [reflexivity|].
           rewrite not_elem_of_cons. split; assumption.
    + destruct (IH f) as [Hlog Hget].
      { intros col c Hin. apply Hty. right. exact Hin. }
      split; [exact Hlog|]. intros col. rewrite Hget.
      destruct (decide (col = c0)) as [->|Hne].
      * rewrite Hs, (decide_True (P := c0 ∈ c0 :: cols)) by left.
        destruct (decide (c0 ∈ cols)); reflexivity.
      * destruct (decide (col ∈ cols)) as [Hin|Hin].
        -- rewrite decide_True by (right; exact Hin). reflexivity.
        -- rewrite decide_False; [reflexivity|].
           rewrite not_elem_of_cons. split; assumption.
Qed.

End BoolColumns.



(** ** The embeddings artifact *)

Lemma string_length_append (s1 s2 : string) :
  String.length (String.append s1 s2) = String.length s1 + String.length s2.
Proof. induction s1 as [|c s1 IH]; simpl; [reflexivity | rewrite IH; reflexivity]. Qed.

Lemma all_digits_append (s1 s2 : string) :
  Format.all_digits (String.append s1 s2)
  = Format.all_digits s1 && Format.all_digits s2.
Proof.
  induction s1 as [|c s1 IH]; simpl; [reflexivity|].
  rewrite IH, andb_assoc. reflexivity.
Qed.

Lemma is_digit_small (n : Z) : (n < 10)%Z -> Format.is_digit (Format.digit n) = true.
Proof.
  intros Hn. unfold Format.is_digit, Format.digit.
  rewrite nat_ascii_embedding by lia.
  apply andb_true_iff. split; apply Nat.leb_le; lia.
Qed.

Lemma is_digit_mod (n : Z) : Format.is_digit (Format.digit (n mod 10)) = true.
Proof. apply is_digit_small. apply Z.mod_pos_bound. lia. Qed.

Lemma fixed_digits_shape k n :
  String.length (Format.fixed_digits k n) = k
  /\ Format.all_digits (Format.fixed_digits k n) = true.
Proof.
  revert n. induction k as [|k IH]; intros n; cbn [Format.fixed_digits].
  - split; reflexivity.
  - destruct (IH (n / 10)%Z) as [Hlen Hdig]. split.
    + rewrite string_length_append, Hlen. cbn [String.length]. lia.
    + rewrite all_digits_append, Hdig. cbn [Format.all_digits andb].
      rewrite is_digit_mod. reflexivity.
Qed.

Lemma decimal_digits fuel n : Format.all_digits (Format.decimal fuel n) = true.
Proof.
  revert n. induction fuel as [|fuel IH]; intros n; cbn [Format.decimal].
  - reflexivity.
  - destruct (n <? 10)%Z eqn:Hn.
    + cbn [Format.all_digits].
      rewrite is_digit_small by (apply Z.ltb_lt; exact Hn). reflexivity.
    + rewrite all_digits_append, IH. cbn [Format.all_digits andb].
      rewrite is_digit_mod. reflexivity.
Qed.

(** A finite number is written with exactly eight digits after the point. *)
Lemma format_8f_shape q :
  exists sign int_part frac,
    Format.format_8f (Some (Finite q))
    = String.append sign (String.append int_part (String.append "." frac))
    /\ (sign = "" \/ sign = "-")
    /\ Format.all_digits int_part = true
    /\ String.length frac = 8
    /\ Format.all_digits frac = true.
Proof.
  unfold Format.format_8f.
  eexists _, _, _. split; [reflexivity|].
  split; [destruct (Qlt_le_dec q 0); auto|].
  split; [apply decimal_digits|].
  apply fixed_digits_shape.
Qed.

Section Artifact.
Context {pd : Pandas} {kr : Keras}.

Lemma load_kyc_data_run w f :
  assoc "mnt/output/clean/cleaned_kyc.csv" (csv_files w) = Some f ->
  load_kyc_data w
  = (Ok (Some (length (heap w))),
     mkWorld (heap w ++ [f]) (log w ++ [LogInfo "Loaded KYC data with rows." [nrows f]])
             (csv_files w) (text_files w)).
Proof.
  intros Hf. unfold load_kyc_data, try_return. cbv zeta.
  rewrite bind_run. unfold read_csv at 1. rewrite Hf. unfold alloc at 1.
  cbn beta iota. rewrite bind_run. erewrite on_fresh by reflexivity.
  reflexivity.
Qed.

Lemma preprocess_kyc_data_run feature_cols f lg cs X_norm :
  select_columns feature_cols f = Ok cs ->
  scale_columns cs = Ok X_norm ->
  preprocess_kyc_data feature_cols (f, lg)
  = (Ok (feature_array feature_cols f X_norm), (f, lg)).
Proof.
  intros Hcs Hx. unfold preprocess_kyc_data.
  rewrite bind_run. unfold getitems at 1. cbn [fst]. rewrite Hcs.
  cbn beta iota. rewrite bind_run. unfold lift at 1. cbn [columns]. rewrite Hx.
  reflexivity.
Qed.

(** a run in which the file loads, the features are numeric columns of
    the table, the model returns and the table has a [customer_id] *)
Lemma generate_customer_embeddings_run feature_cols epochs batch_size w f cs X_norm E c :
  assoc "mnt/output/clean/cleaned_kyc.csv" (csv_files w) = Some f ->
  select_columns feature_cols f = Ok cs ->
  scale_columns cs = Ok X_norm ->
  fit_then_predict (fst (build_autoencoder (length feature_cols) 16))
    (snd (build_autoencoder (length feature_cols) 16)) epochs batch_size
    (feature_array feature_cols f X_norm) = Ok E ->
  get_col "customer_id" f = Some c ->
  exists lg,
    generate_customer_embeddings feature_cols epochs batch_size w
    = (Ok tt,
       mkWorld (heap w ++ [f]) lg (csv_files w)
         (assoc_set "mnt/output/task3/customer_embeddings.txt"
            (file_content (map (fun p => output_line (fst p) (snd p))
                               (zip (astype_str c) E)))
            (text_files w))).
Proof.
  intros Hf Hcs Hx Hfit Hc. unfold generate_customer_embeddings.
  rewrite bind_run, (load_kyc_data_run w f Hf). cbn beta iota.
  rewrite bind_run.
  erewrite on_fresh by (eapply preprocess_kyc_data_run; eassumption).
  cbn beta iota zeta.
  change (shape1 (feature_array feature_cols f X_norm)) with (length feature_cols).
  rewrite bind_run. unfold logging_info at 1, add_log, world_logger.
  cbn [heap log csv_files text_files]. cbn beta iota.
  unfold build_autoencoder in Hfit |- *. cbn [fst snd] in Hfit. cbn beta iota zeta.
  rewrite bind_run. unfold logging_info at 1, add_log, world_logger.
  cbn [heap log csv_files text_files]. cbn beta iota.
  rewrite bind_run. unfold lift at 1. rewrite Hfit. cbn beta iota.
  rewrite bind_run.
  erewrite on_fresh by (unfold getitem; cbn [fst]; rewrite Hc; reflexivity).
  cbn beta iota.
  eexists. reflexivity.
Qed.

End Artifact.

Lemma zip_lookup_both {A B} (xs : list A) (ys : list B) i p :
  zip xs ys !! i = Some p -> xs !! i = Some (fst p) /\ ys !! i = Some (snd p).
Proof.
  revert ys i. induction xs as [|x xs IH]; intros [|y ys] [|i]; simpl; try discriminate.
  - intros [= <-]. split; reflexivity.
  - apply IH.
Qed.

Lemma astype_str_length {pd : Pandas} c : length (astype_str c) = series_len c.
Proof. destruct c; simpl; apply length_map. Qed.



(** ** Text methods applied twice *)

Lemma rstrip_idem s : Text.rstrip (Text.rstrip s) = Text.rstrip s.
Proof.
  induction s as [|c s IH]; [reflexivity|]. cbn [Text.rstrip].
  destruct (Text.rstrip s) as [|c' r] eqn:Hr.
  - destruct (Text.isspace c) eqn:Hc; [reflexivity|].
    cbn [Text.rstrip]. rewrite Hc. reflexivity.
  - cbn [Text.rstrip] in *. rewrite IH. reflexivity.
Qed.

Lemma lstrip_starts_clean s : Text.starts_clean (Text.lstrip s).
Proof.
  induction s as [|c s IH]; [exact I|]. cbn [Text.lstrip].
  destruct (Text.isspace c) eqn:Hc; [exact IH | exact Hc].
Qed.

Lemma lstrip_rstrip_clean s :
  Text.starts_clean s -> Text.lstrip (Text.rstrip s) = Text.rstrip s.
Proof.
  destruct s as [|c s]; [reflexivity|]. cbn [Text.starts_clean]. intros Hc.
  cbn [Text.rstrip]. destruct (Text.rstrip s); rewrite ?Hc; cbn [Text.lstrip];
    rewrite Hc; reflexivity.
Qed.

Lemma strip_idem s : Text.strip (Text.strip s) = Text.strip s.
Proof.
  unfold Text.strip.
  rewrite (lstrip_rstrip_clean (Text.lstrip s)) by apply lstrip_starts_clean.
  apply rstrip_idem.
Qed.

Lemma lstrip_map_chars f s :
  (forall c, Text.isspace (f c) = Text.isspace c) ->
  Text.lstrip (Text.map_chars f s) = Text.map_chars f (Text.lstrip s).
Proof.
  intros Hf. induction s as [|c s IH]; [reflexivity|].
  cbn [Text.map_chars Text.lstrip]. rewrite Hf.
  destruct (Text.isspace c); [exact IH | reflexivity].
Qed.

Lemma rstrip_map_chars f s :
  (forall c, Text.isspace (f c) = Text.isspace c) ->
  Text.rstrip (Text.map_chars f s) = Text.map_chars f (Text.rstrip s).
Proof.
  intros Hf. induction s as [|c s IH]; [reflexivity|].
  cbn [Text.map_chars Text.rstrip]. rewrite IH, Hf.
  destruct (Text.rstrip s); cbn [Text.map_chars]; [|reflexivity].
  destruct (Text.isspace c); reflexivity.
Qed.

Lemma strip_map_chars f s :
  (forall c, Text.isspace (f c) = Text.isspace c) ->
  Text.strip (Text.map_chars f s) = Text.map_chars f (Text.strip s).
Proof.
  intros Hf. unfold Text.strip.
  rewrite lstrip_map_chars, rstrip_map_chars by assumption. reflexivity.
Qed.

Lemma isspace_lower_char c : Text.isspace (Text.lower_char c) = Text.isspace c.
Proof. destruct c as [[] [] [] [] [] [] [] []]; reflexivity. Qed.

Lemma isspace_upper_char c : Text.isspace (Text.upper_char c) = Text.isspace c.
Proof. destruct c as [[] [] [] [] [] [] [] []]; reflexivity. Qed.

Lemma lower_char_idem c : Text.lower_char (Text.lower_char c) = Text.lower_char c.
Proof. destruct c as [[] [] [] [] [] [] [] []]; reflexivity. Qed.

Lemma upper_char_idem c : Text.upper_char (Text.upper_char c) = Text.upper_char c.
Proof. destruct c as [[] [] [] [] [] [] [] []]; reflexivity. Qed.

Lemma map_chars_idem f s :
  (forall c, f (f c) = f c) -> Text.map_chars f (Text.map_chars f s) = Text.map_chars f s.
Proof.
  intros Hf. induction s as [|c s IH]; [reflexivity|].
  cbn [Text.map_chars]. rewrite Hf, IH. reflexivity.
Qed.

Lemma lower_idem s : Text.lower (Text.lower s) = Text.lower s.
Proof. apply map_chars_idem, lower_char_idem. Qed.

Lemma upper_idem s : Text.upper (Text.upper s) = Text.upper s.
Proof. apply map_chars_idem, upper_char_idem. Qed.

Lemma strip_lower s : Text.strip s = s -> Text.strip (Text.lower s) = Text.lower s.
Proof.
  intros Hs. unfold Text.lower. rewrite strip_map_chars by apply isspace_lower_char.
  rewrite Hs. reflexivity.
Qed.

Lemma strip_upper s : Text.strip s = s -> Text.strip (Text.upper s) = Text.upper s.
Proof.
  intros Hs. unfold Text.upper. rewrite strip_map_chars by apply isspace_upper_char.
  rewrite Hs. reflexivity.
Qed.

(** ** Tables that a second cleaning leaves alone *)

Lemma Forall_take_mask {A} (P : A -> Prop) mask (xs : list A) :
  Forall P xs -> Forall P (take_mask mask xs).
Proof.
  revert xs. induction mask as [|b mask IH]; intros [|x xs] Hall; simpl;
    try constructor.
  apply Forall_cons in Hall as [Hx Hall].
  destruct b; [constructor; [exact Hx|]|]; apply IH, Hall.
Qed.

Lemma trimmed_take m c : trimmed c -> trimmed (series_take m c).
Proof. destruct c; simpl; auto. apply Forall_take_mask. Qed.

Lemma is_datetime_take m c : is_datetime c = true -> is_datetime (series_take m c) = true.
Proof. destruct c; simpl; auto. Qed.

Lemma filled_take m c : filled c -> filled (series_take m c).
Proof. destruct c; simpl; auto. apply Forall_take_mask. Qed.

Lemma text_fixed_take g m c : text_fixed g c -> text_fixed g (series_take m c).
Proof. destruct c; simpl; auto. apply Forall_take_mask. Qed.

Lemma no_null_take m c : no_null c -> no_null (series_take m c).
Proof. unfold no_null. rewrite cells_series_take. apply Forall_take_mask. Qed.

Lemma series_take_len_eq m c c' :
  series_len c = series_len c' ->
  series_len (series_take m c) = series_len (series_take m c').
Proof.
  rewrite !series_len_cells, !cells_series_take. apply take_mask_length_eq.
Qed.

Lemma wf_filter_rows m x : wf x -> wf (filter_rows m x).
Proof.
  intros [Hnd Hlen]. split.
  - rewrite column_names_filter_rows. exact Hnd.
  - unfold filter_rows, nrows. simpl. apply Forall_map.
    eapply Forall_impl; [exact Hlen|]. intros [k v] Hv. simpl in *.
    apply series_take_len_eq. exact Hv.
Qed.

Lemma wf_drop_duplicates x : wf x -> wf (drop_duplicates x).
Proof.
  intros Hwf. unfold drop_duplicates. destruct (df_empty x); [exact Hwf|].
  apply wf_filter_rows, Hwf.
Qed.

Lemma column_is_filter_rows col (Q : Series -> Prop) m x :
  (forall c, Q c -> Q (series_take m c)) ->
  column_is col Q x -> column_is col Q (filter_rows m x).
Proof.
  intros Hq Hx c. rewrite get_col_filter_rows.
  destruct (get_col col x) as [c0|] eqn:Hc; [|discriminate].
  intros [= <-]. apply Hq, Hx. exact Hc.
Qed.

Lemma shaped_filter_rows m x : shaped x -> shaped (filter_rows m x).
Proof.
  intros (Hwf & Htrim & Hdate & Htime & Hamt & Hdc & Hco & Hpr & Hci).
  split; [apply wf_filter_rows, Hwf|].
  split; [intros col; apply column_is_filter_rows; [apply trimmed_take | apply Htrim]|].
  split; [apply column_is_filter_rows; [apply is_datetime_take | exact Hdate]|].
  split.
  { intros Hs. apply column_is_filter_rows; [apply filled_take|]. apply Htime.
    rewrite get_col_filter_rows in Hs. destruct (get_col "transaction_date" x); [eauto|].
    destruct Hs as [? Hs]. discriminate. }
  split; [apply column_is_filter_rows; [apply is_numeric_take | exact Hamt]|].
  split; [apply column_is_filter_rows; [apply text_fixed_take | exact Hdc]|].
  split; [apply column_is_filter_rows; [apply text_fixed_take | exact Hco]|].
  split; [apply column_is_filter_rows; [apply text_fixed_take | exact Hpr]|].
  apply column_is_filter_rows; [apply text_fixed_take | exact Hci].
Qed.

Lemma settled_filter_rows m x : settled x -> settled (filter_rows m x).
Proof.
  intros [Hs Hkey]. split; [apply shaped_filter_rows, Hs|].
  apply column_is_filter_rows; [apply no_null_take | exact Hkey].
Qed.

Lemma shaped_drop_missing col x : shaped x -> shaped (drop_missing col x).
Proof.
  intros Hs. unfold drop_missing. destruct (get_col col x); [|exact Hs].
  apply shaped_filter_rows, Hs.
Qed.

Lemma settled_drop_duplicates x : settled x -> settled (drop_duplicates x).
Proof.
  intros Hs. unfold drop_duplicates. destruct (df_empty x); [exact Hs|].
  apply settled_filter_rows, Hs.
Qed.

(** *** Each rule on a settled table *)

Lemma assoc_lookup_NoDup {A} k (v : A) l :
  NoDup (map fst l) -> (k, v) ∈ l -> assoc k l = Some v.
Proof.
  induction l as [|[k' v'] l IH]; intros Hnd Hin; [inversion Hin|].
  simpl in Hnd. apply NoDup_cons in Hnd as [Hk Hnd]. simpl.
  apply elem_of_cons in Hin as [[= -> ->]|Hin].
  - rewrite decide_True by reflexivity. reflexivity.
  - destruct (decide (k = k')) as [->|Hne]; [|apply IH; assumption].
    exfalso. apply Hk. apply list_elem_of_fmap. exists (k', v). split; [reflexivity | exact Hin].
Qed.

Lemma assoc_elem_of {A} k (v : A) l : assoc k l = Some v -> (k, v) ∈ l.
Proof.
  induction l as [|[k' v'] l IH]; simpl; [discriminate|].
  destruct (decide (k = k')) as [->|Hne].
  - intros [= ->]. left.
  - intros Hs. right. apply IH, Hs.
Qed.

Lemma map_columns_id g x :
  wf x -> all_columns (fun c => g c = c) x -> map_columns g x = x.
Proof.
  intros [Hnd _] Hall. destruct x as [n i cs]. unfold map_columns. simpl. f_equal.
  unfold all_columns, column_is, get_col, column_names in *. simpl in *.
  rewrite <- (map_id cs) at 2. apply map_ext_in. intros [k v] Hin. simpl. f_equal.
  apply (Hall k). apply assoc_lookup_NoDup; [exact Hnd|]. apply list_elem_of_In, Hin.
Qed.

Lemma update_col_id g x col :
  column_is col (fun c => g c = c) x -> update_col g x col = x.
Proof.
  intros Hc. unfold update_col. destruct (get_col col x) as [c|] eqn:Hg; [|reflexivity].
  rewrite (Hc c Hg). apply set_col_id, Hg.
Qed.

Lemma trimmed_fixed c : trimmed c -> on_text Text.strip c = c.
Proof.
  destruct c as [xs| | |]; simpl; try reflexivity. intros Hall. f_equal.
  induction Hall as [|o xs Ho _ IH]; simpl; [reflexivity|]. rewrite Ho, IH. reflexivity.
Qed.

Lemma is_numeric_fixed {pd : Pandas} c : is_numeric c -> to_numeric c = c.
Proof. destruct c; simpl; try contradiction; reflexivity. Qed.

Lemma is_datetime_fixed {pd : Pandas} c : is_datetime c = true -> to_datetime c = c.
Proof.
  destruct c as [| | |xs]; simpl; try discriminate. intros _.
  unfold to_datetime. rewrite to_datetime_datetime. reflexivity.
Qed.

Lemma text_fixed_method g c : text_fixed g c -> str_method g c = Ok c.
Proof.
  destruct c as [xs| | |]; simpl; try contradiction. intros Hall. do 2 f_equal.
  induction Hall as [|o xs Ho _ IH]; simpl; [reflexivity|]. rewrite Ho, IH. reflexivity.
Qed.

Lemma str_columns_fixed {pd : Pandas} g cols x :
  (forall col, col ∈ cols -> column_is col (text_fixed g) x) ->
  str_columns g cols x = (x, None).
Proof.
  induction cols as [|col cols IH]; intros Hfix; simpl; [reflexivity|].
  destruct (get_col col x) as [c|] eqn:Hc.
  - rewrite (text_fixed_method g c) by (apply (Hfix col); [left | exact Hc]).
    rewrite (set_col_id col c x Hc). apply IH. intros col' Hin. apply Hfix. right. exact Hin.
  - apply IH. intros col' Hin. apply Hfix. right. exact Hin.
Qed.

Lemma take_mask_all {A} (xs : list A) (mask : list bool) :
  Forall (fun b => b = true) mask -> length xs <= length mask ->
  take_mask mask xs = xs.
Proof.
  revert xs. induction mask as [|b mask IH]; intros [|x xs] Hall Hlen; simpl in *;
    try reflexivity; try lia.
  apply Forall_cons in Hall as [-> Hall]. f_equal. apply IH; [exact Hall | lia].
Qed.

Lemma series_take_all c mask :
  Forall (fun b => b = true) mask -> series_len c <= length mask ->
  series_take mask c = c.
Proof.
  intros Hall Hlen. destruct c; simpl in *; f_equal; apply take_mask_all; assumption.
Qed.

Lemma filter_rows_all x mask :
  wf x -> Forall (fun b => b = true) mask -> length mask = nrows x ->
  filter_rows mask x = x.
Proof.
  intros [_ Hlen] Hall Hm. destruct x as [n i cs]. unfold filter_rows, nrows in *.
  simpl in *. f_equal.
  - apply series_take_all; [exact Hall | lia].
  - rewrite <- (map_id cs) at 2. apply map_ext_in. intros [k v] Hin. simpl. f_equal.
    apply series_take_all; [exact Hall|].
    rewrite Forall_forall in Hlen. specialize (Hlen (k, v)). simpl in Hlen.
    rewrite Hlen by (apply list_elem_of_In, Hin). lia.
Qed.

Lemma notna_no_null c : no_null c -> Forall (fun b => b = true) (notna c).
Proof.
  unfold no_null, notna. intros Hall. apply Forall_map.
  eapply Forall_impl; [exact Hall|]. intros [] Hx; simpl; congruence.
Qed.

Lemma wf_get_col_len col c x : wf x -> get_col col x = Some c -> series_len c = nrows x.
Proof.
  intros [_ Hlen] Hc. rewrite Forall_forall in Hlen.
  apply (Hlen (col, c)). apply assoc_elem_of, Hc.
Qed.

Lemma drop_missing_id col x :
  wf x -> column_is col no_null x -> drop_missing col x = x.
Proof.
  intros Hwf Hn. unfold drop_missing. destruct (get_col col x) as [c|] eqn:Hc; [|reflexivity].
  apply filter_rows_all; [exact Hwf | apply notna_no_null, (Hn c Hc) |].
  unfold notna. rewrite length_map, <- series_len_cells. eapply wf_get_col_len; eassumption.
Qed.

(** *** The timestamp block on a table of the right shape *)

Lemma zip_cells_length {pd : Pandas} xs ys :
  length (zip_cells xs ys) = Nat.min (length xs) (length ys).
Proof.
  revert ys. induction xs as [|x xs IH]; intros [|y ys]; simpl; try reflexivity.
  rewrite IH. reflexivity.
Qed.

Lemma assoc_set_NoDup {A} k (v : A) l :
  NoDup (map fst l) -> NoDup (map fst (assoc_set k v l)).
Proof.
  induction l as [|[k' v'] l IH]; intros Hnd; simpl.
  - apply NoDup_singleton.
  - simpl in Hnd. apply NoDup_cons in Hnd as [Hk Hnd].
    destruct (decide (k = k')) as [->|Hne]; simpl.
    + apply NoDup_cons. split; assumption.
    + apply NoDup_cons. split; [|apply IH, Hnd].
      intros Hin. apply assoc_elem in Hin as [v0 Hv0].
      rewrite assoc_set_other in Hv0 by congruence.
      apply Hk, assoc_elem. eauto.
Qed.

Lemma assoc_set_Forall {A} (P : string * A -> Prop) k v l :
  P (k, v) -> Forall P l -> Forall P (assoc_set k v l).
Proof.
  intros Hkv. induction l as [|[k' v'] l IH]; intros Hall; simpl.
  - constructor; [exact Hkv | constructor].
  - apply Forall_cons in Hall as [Hh Hall].
    destruct (decide (k = k')); constructor; auto.
Qed.

Lemma wf_set_col col c x : series_len c = nrows x -> wf x -> wf (set_col col c x).
Proof.
  intros Hc [Hnd Hlen]. split.
  - apply assoc_set_NoDup, Hnd.
  - apply assoc_set_Forall; [exact Hc | exact Hlen].
Qed.

Lemma wf_update_col g x col :
  (forall c, series_len (g c) = series_len c) -> wf x -> wf (update_col g x col).
Proof.
  intros Hg Hwf. unfold update_col. destruct (get_col col x) as [c|] eqn:Hc; [|exact Hwf].
  apply wf_set_col; [|exact Hwf]. rewrite Hg. eapply wf_get_col_len; eassumption.
Qed.

Lemma wf_map_columns g x :
  (forall c, series_len (g c) = series_len c) -> wf x -> wf (map_columns g x).
Proof.
  intros Hg [Hnd Hlen]. split.
  - unfold column_names, map_columns. simpl. rewrite map_map. exact Hnd.
  - unfold map_columns, nrows. simpl. apply Forall_map.
    eapply Forall_impl; [exact Hlen|]. intros [k v] Hv. simpl in *. rewrite Hg. exact Hv.
Qed.

Lemma on_text_len g c : series_len (on_text g c) = series_len c.
Proof. destruct c; simpl; rewrite ?length_map; reflexivity. Qed.

Lemma column_is_set_same col (Q : Series -> Prop) c x :
  Q c -> column_is col Q (set_col col c x).
Proof. intros Hq c'. rewrite get_set_same. intros [= <-]. exact Hq. Qed.

Lemma column_is_frame col (Q : Series -> Prop) x x' :
  get_col col x' = get_col col x -> column_is col Q x -> column_is col Q x'.
Proof. intros Heq Hx c. rewrite Heq. apply Hx. Qed.

Lemma all_columns_set col (Q : Series -> Prop) c x :
  Q c -> all_columns Q x -> all_columns Q (set_col col c x).
Proof.
  intros Hq Hall col'. destruct (decide (col' = col)) as [->|Hne].
  - apply column_is_set_same, Hq.
  - eapply column_is_frame; [apply get_set_other, Hne | apply Hall].
Qed.

Lemma all_columns_update (Q : Series -> Prop) g x col :
  (forall c, Q c -> Q (g c)) -> all_columns Q x -> all_columns Q (update_col g x col).
Proof.
  intros Hg Hall. unfold update_col. destruct (get_col col x) as [c|] eqn:Hc; [|exact Hall].
  apply all_columns_set; [|exact Hall]. apply Hg, (Hall col c Hc).
Qed.

Lemma column_is_update_same col (Q : Series -> Prop) g x :
  (forall c, Q (g c)) -> column_is col Q (update_col g x col).
Proof.
  intros Hq c. rewrite get_col_update_same.
  destruct (get_col col x); [|discriminate]. intros [= <-]. apply Hq.
Qed.

Ltac solve_notin :=
  rewrite ?not_elem_of_cons; repeat split; try discriminate; apply not_elem_of_nil.

Section Rerun.
Context {pd : Pandas}.

Lemma fillna_len v t : series_len (fillna_str v t) = series_len t.
Proof.
  destruct t as [xs|xs| |]; simpl; rewrite ?length_map; try reflexivity.
  destruct (forallb _ xs); simpl; rewrite ?length_map; reflexivity.
Qed.

Lemma fillna_trimmed t : trimmed t -> trimmed (fillna_str "00:00:00" t).
Proof.
  destruct t as [xs|xs| |]; simpl; try exact id.
  - intros Hall. apply Forall_map. eapply Forall_impl; [exact Hall|].
    intros [s|] Hs; simpl in *; [exact Hs | reflexivity].
  - intros _. destruct (forallb _ xs); simpl; [|exact I].
    apply Forall_map. apply Forall_forall. intros o _. reflexivity.
Qed.

Lemma fillna_object_filled t xs :
  fillna_str "00:00:00" t = ObjectS xs -> filled (ObjectS xs).
Proof.
  destruct t as [ys|ys| |]; simpl; try discriminate.
  - intros [= <-]. apply Forall_map. apply Forall_forall. intros o _. discriminate.
  - destruct (forallb _ ys); [|discriminate]. intros [= <-].
    apply Forall_map. apply Forall_forall. intros o _. discriminate.
Qed.

Lemma filled_fillna t : filled t -> fillna_str "00:00:00" t = t.
Proof.
  destruct t as [xs| | |]; simpl; try contradiction. intros Hall. f_equal.
  induction Hall as [|o xs Ho _ IH]; simpl; [reflexivity|].
  rewrite IH. destruct o; [reflexivity | congruence].
Qed.

(** what the block leaves when it did not fail *)
Lemma combine_none_cases f f' :
  combine_date_time f = (f', None) ->
  (f' = f /\ (get_col "transaction_date" f = None \/ get_col "transaction_time" f = None))
  \/ (exists ds t ts,
        get_col "transaction_date" f = Some (DatetimeS ds)
        /\ get_col "transaction_time" f = Some t
        /\ fillna_str "00:00:00" t = ObjectS ts
        /\ f' = set_col "transaction_datetime"
                  (to_datetime (ObjectS (zip_cells
                     (map (fmap (fun x => String.append x " "))
                          (map (fmap strftime_ymd) ds)) ts)))
                  (set_col "transaction_time" (ObjectS ts) f)).
Proof.
  unfold combine_date_time.
  destruct (get_col "transaction_date" f) as [d|]; [|intros [= <-]; left; auto].
  destruct (get_col "transaction_time" f) as [t|]; [|intros [= <-]; left; auto].
  destruct d as [| | |ds]; simpl; try discriminate.
  destruct (fillna_str "00:00:00" t) as [ts| | |] eqn:Hfill; simpl; try discriminate.
  intros [= <-]. right. exists ds, t, ts. auto.
Qed.

Lemma combine_none_shape f f' :
  combine_date_time f = (f', None) ->
  wf f -> all_columns trimmed f ->
  column_is "transaction_date" (fun c => is_datetime c = true) f ->
  wf f'
  /\ all_columns trimmed f'
  /\ column_is "transaction_date" (fun c => is_datetime c = true) f'
  /\ (is_Some (get_col "transaction_date" f') -> column_is "transaction_time" filled f')
  /\ (forall col, col <> "transaction_time" -> col <> "transaction_datetime" ->
        get_col col f' = get_col col f).
Proof.
  intros Hc Hwf Htrim Hdate.
  destruct (combine_none_cases f f' Hc) as [[-> Hnone]|(ds & t & ts & Hd & Ht & Hfill & ->)].
  - split; [exact Hwf|]. split; [exact Htrim|]. split; [exact Hdate|].
    split; [|reflexivity].
    intros [d Hd] c Hc'. destruct Hnone as [Hn|Hn]; congruence.
  - assert (Hlen_t : series_len (ObjectS ts) = nrows f).
    { rewrite <- Hfill, fillna_len. eapply wf_get_col_len; eassumption. }
    assert (Hlen_d : length ds = nrows f).
    { apply (wf_get_col_len _ _ _ Hwf Hd). }
    assert (Hwf1 : wf (set_col "transaction_time" (ObjectS ts) f))
      by (apply wf_set_col; assumption).
    assert (Htr_t : trimmed (ObjectS ts)).
    { rewrite <- Hfill. apply fillna_trimmed. apply (Htrim _ _ Ht). }
    split.
    { apply wf_set_col; [|exact Hwf1].
      rewrite to_datetime_len. simpl in *. rewrite zip_cells_length, !length_map.
      change (nrows (set_col "transaction_time" (ObjectS ts) f)) with (nrows f). lia. }
    split.
    { apply all_columns_set; [exact I|]. apply all_columns_set; assumption. }
    split.
    { eapply column_is_frame; [|exact Hdate].
      rewrite !get_set_other by discriminate. reflexivity. }
    split.
    { intros _. eapply column_is_frame.
      - apply get_set_other. discriminate.
      - apply column_is_set_same. eapply fillna_object_filled. exact Hfill. }
    intros col H1 H2. rewrite !get_set_other by assumption. reflexivity.
Qed.

(** on a table of the right shape the block does not fail and is rule 4 *)
Lemma combine_shaped x :
  column_is "transaction_date" (fun c => is_datetime c = true) x ->
  (is_Some (get_col "transaction_date" x) -> column_is "transaction_time" filled x) ->
  combine_date_time x = (synthesize_timestamp x, None).
Proof.
  intros Hdate Htime. unfold combine_date_time, synthesize_timestamp.
  destruct (get_col "transaction_date" x) as [d|] eqn:Hd; [|reflexivity].
  destruct (get_col "transaction_time" x) as [t|] eqn:Ht; [|reflexivity].
  specialize (Hdate d Hd). specialize (Htime (ex_intro _ d eq_refl) t Ht).
  rewrite (filled_fillna t Htime).
  destruct d as [| | |ds]; simpl in Hdate; try discriminate.
  destruct t as [ts| | |]; simpl in Htime; try contradiction.
  reflexivity.
Qed.

Lemma str_columns_none_shape g cols f f' :
  (forall s, g (g s) = g s) ->
  (forall s, Text.strip s = s -> Text.strip (g s) = g s) ->
  str_columns g cols f = (f', None) ->
  wf f -> all_columns trimmed f ->
  wf f'
  /\ all_columns trimmed f'
  /\ (forall col, col ∈ cols -> column_is col (text_fixed g) f')
  /\ (forall col, col ∉ cols -> get_col col f' = get_col col f).
Proof.
  intros Hidem Hstrip. revert f. induction cols as [|col cols IH]; intros f Hs Hwf Htrim.
  - simpl in Hs. injection Hs as <-. split; [exact Hwf|]. split; [exact Htrim|].
    split; [intros col Hin; inversion Hin | reflexivity].
  - simpl in Hs. destruct (get_col col f) as [c|] eqn:Hc.
    + destruct c as [xs| | |]; simpl in Hs; try discriminate.
      assert (Htr : trimmed (ObjectS (map (fmap g) xs))).
      { simpl. apply Forall_map. specialize (Htrim col _ Hc). simpl in Htrim.
        eapply Forall_impl; [exact Htrim|]. intros [s|] Ho; simpl in *; [|reflexivity].
        f_equal. apply Hstrip. congruence. }
      destruct (IH _ Hs) as (Hwf' & Htrim' & Hfix & Hframe).
      { apply wf_set_col; [|exact Hwf]. simpl. rewrite length_map.
        apply (wf_get_col_len _ _ _ Hwf Hc). }
      { apply all_columns_set; assumption. }
      split; [exact Hwf'|]. split; [exact Htrim'|]. split.
      * intros col' Hin. destruct (decide (col' ∈ cols)) as [Hin'|Hnin]; [apply Hfix, Hin'|].
        apply elem_of_cons in Hin as [->|Hin]; [|contradiction].
        eapply column_is_frame; [apply Hframe, Hnin|].
        apply column_is_set_same. simpl. apply Forall_map. apply Forall_forall.
        intros [s|] _; simpl; [rewrite Hidem|]; reflexivity.
      * intros col' Hnin. apply not_elem_of_cons in Hnin as [Hne Hnin].
        rewrite Hframe by assumption. apply get_set_other, Hne.
    + destruct (IH _ Hs Hwf Htrim) as (Hwf' & Htrim' & Hfix & Hframe).
      split; [exact Hwf'|]. split; [exact Htrim'|]. split.
      * intros col' Hin. destruct (decide (col' ∈ cols)) as [Hin'|Hnin]; [apply Hfix, Hin'|].
        apply elem_of_cons in Hin as [->|Hin]; [|contradiction].
        intros c Hc'. rewrite Hframe, Hc in Hc' by assumption. discriminate.
      * intros col' Hnin. apply not_elem_of_cons in Hnin as [Hne Hnin].
        apply Hframe, Hnin.
Qed.

End Rerun.

Section RerunTransactions.
Context {pd : Pandas}.

(** a run of [clean_transactions] with the pipeline's column roles in
    which no rule failed returns a settled table *)
Lemma first_run_settled f :
  wf f ->
  errors (snd (transactions_cleaned ["transaction_date"] ["amount_cad"] f)) = [] ->
  settled (fst (transactions_cleaned ["transaction_date"] ["amount_cad"] f)).
Proof.
  intros Hwf. unfold transactions_cleaned.
  set (f2 := map_columns (on_text Text.strip) (drop_duplicates f)).
  change (convert_columns to_datetime ["transaction_date"] f2)
    with (update_col to_datetime f2 "transaction_date").
  set (f3 := update_col to_datetime f2 "transaction_date").
  destruct (combine_date_time f3) as [f4 e4] eqn:H4.
  change (convert_columns to_numeric ["amount_cad"] f4)
    with (update_col to_numeric f4 "amount_cad").
  set (f5 := update_col to_numeric f4 "amount_cad").
  destruct (str_columns Text.lower _ f5) as [f6 e6] eqn:H6.
  destruct (str_columns Text.upper _ f6) as [f7 e7] eqn:H7.
  cbn [fst snd]. rewrite !errors_app. intros He.
  apply app_eq_nil in He as [He4 He]. apply app_eq_nil in He as [He6 He7].
  apply log_exn_no_error in He4, He6, He7. subst e4 e6 e7.
  (* after trimming *)
  assert (Hwf2 : wf f2).
  { apply wf_map_columns; [apply on_text_len | apply wf_drop_duplicates, Hwf]. }
  assert (Htr2 : all_columns trimmed f2).
  { intros col c. unfold f2. rewrite get_col_map_columns.
    destruct (get_col col _) as [c0|]; [|discriminate]. intros [= <-].
    destruct c0 as [xs| | |]; simpl; try exact I.
    apply Forall_map. apply Forall_forall. intros [s|] _; simpl; [|reflexivity].
    rewrite strip_idem. reflexivity. }
  (* after the date conversion *)
  assert (Hwf3 : wf f3) by (apply wf_update_col; [apply to_datetime_len | exact Hwf2]).
  assert (Htr3 : all_columns trimmed f3).
  { apply all_columns_update; [|exact Htr2]. intros c _. exact I. }
  assert (Hd3 : column_is "transaction_date" (fun c => is_datetime c = true) f3).
  { apply column_is_update_same. reflexivity. }
  (* after the timestamp block *)
  destruct (combine_none_shape f3 f4 H4 Hwf3 Htr3 Hd3)
    as (Hwf4 & Htr4 & Hd4 & Ht4 & Hfr4).
  (* after the numeric conversion *)
  assert (Hwf5 : wf f5) by (apply wf_update_col; [apply to_numeric_len | exact Hwf4]).
  assert (Htr5 : all_columns trimmed f5).
  { apply all_columns_update; [|exact Htr4]. intros c _.
    destruct c; simpl; exact I. }
  assert (Hfr5 : forall col, col <> "amount_cad" -> get_col col f5 = get_col col f4).
  { intros col Hne. apply get_col_update_other, Hne. }
  assert (Ha5 : column_is "amount_cad" is_numeric f5).
  { apply column_is_update_same, to_numeric_is_numeric. }
  (* after the two text blocks *)
  destruct (str_columns_none_shape _ _ f5 f6 lower_idem strip_lower H6 Hwf5 Htr5)
    as (Hwf6 & Htr6 & Hfix6 & Hfr6).
  destruct (str_columns_none_shape _ _ f6 f7 upper_idem strip_upper H7 Hwf6 Htr6)
    as (Hwf7 & Htr7 & Hfix7 & Hfr7).
  assert (Hdate7 : get_col "transaction_date" f7 = get_col "transaction_date" f4).
  { rewrite Hfr7, Hfr6, Hfr5 by (try discriminate; solve_notin). reflexivity. }
  assert (Hshaped : shaped f7).
  { split; [exact Hwf7|]. split; [exact Htr7|].
    split; [eapply column_is_frame; [exact Hdate7 | exact Hd4]|].
    split.
    { rewrite Hdate7. intros Hs. eapply column_is_frame; [|apply Ht4, Hs].
      rewrite Hfr7, Hfr6, Hfr5 by (try discriminate; solve_notin). reflexivity. }
    split.
    { eapply column_is_frame; [|exact Ha5].
      rewrite Hfr7, Hfr6 by solve_notin. reflexivity. }
    split.
    { eapply column_is_frame; [apply Hfr7; solve_notin|]. apply Hfix6. left. }
    split; [apply Hfix7; left|].
    split; [apply Hfix7; right; left|].
    apply Hfix7. right. right. left. }
  split; [apply shaped_drop_missing, Hshaped|].
  intros c. apply drop_missing_no_null.
Qed.

(** cleaning a settled table again is rule 1 and rule 4, and nothing
    fails *)
Lemma settled_rerun x :
  settled x ->
  transactions_cleaned ["transaction_date"] ["amount_cad"] x
  = (rule4 (rule1 x), []).
Proof.
  intros Hs. apply settled_drop_duplicates in Hs.
  unfold rule4, rule1. set (g := drop_duplicates x) in *.
  destruct Hs as [(Hwf & Htrim & Hdate & Htime & Hamt & Hdc & Hco & Hpr & Hci) Hkey].
  unfold transactions_cleaned. fold g.
  rewrite (map_columns_id (on_text Text.strip) g Hwf)
    by (intros col c Hc; apply trimmed_fixed, (Htrim col c Hc)).
  change (convert_columns to_datetime ["transaction_date"] g)
    with (update_col to_datetime g "transaction_date").
  rewrite (update_col_id to_datetime g)
    by (intros c Hc; apply is_datetime_fixed, (Hdate c Hc)).
  rewrite (combine_shaped g Hdate Htime).
  set (g4 := synthesize_timestamp g).
  destruct (combine_none_shape g g4 (combine_shaped g Hdate Htime) Hwf Htrim Hdate)
    as (Hwf4 & _ & _ & _ & Hfr4).
  change (convert_columns to_numeric ["amount_cad"] g4)
    with (update_col to_numeric g4 "amount_cad").
  rewrite (update_col_id to_numeric g4).
  2:{ intros c Hc. apply is_numeric_fixed. rewrite Hfr4 in Hc by discriminate.
      apply (Hamt c Hc). }
  rewrite (str_columns_fixed Text.lower _ g4).
  2:{ intros col Hin. apply list_elem_of_singleton in Hin. subst col.
      eapply column_is_frame; [apply Hfr4; discriminate | exact Hdc]. }
  rewrite (str_columns_fixed Text.upper _ g4).
  2:{ intros col Hin. rewrite !elem_of_cons in Hin.
      destruct Hin as [->|[->|[->|Hin]]]; [| | |inversion Hin];
        (eapply column_is_frame; [apply Hfr4; discriminate | assumption]). }
  rewrite (drop_missing_id "customer_id" g4 Hwf4).
  2:{ eapply column_is_frame; [apply Hfr4; discriminate | exact Hkey]. }
  reflexivity.
Qed.

(** rule 4 touches the two time columns only *)
Lemma synthesize_frame x col :
  col <> "transaction_time" -> col <> "transaction_datetime" ->
  get_col col (synthesize_timestamp x) = get_col col x.
Proof.
  intros H1 H2. unfold synthesize_timestamp.
  destruct (get_col "transaction_date" x) as [d|]; [|reflexivity].
  destruct (get_col "transaction_time" x) as [t|]; [|reflexivity].
  destruct (date_time_text d _); rewrite ?get_set_other by assumption; reflexivity.
Qed.

Lemma synthesize_index x : index (synthesize_timestamp x) = index x.
Proof.
  unfold synthesize_timestamp.
  destruct (get_col "transaction_date" x) as [d|]; [|reflexivity].
  destruct (get_col "transaction_time" x) as [t|]; [|reflexivity].
  destruct (date_time_text d _); reflexivity.
Qed.

(** on a settled table rule 4 leaves the time column as it is *)
Lemma synthesize_time_settled x :
  settled x ->
  get_col "transaction_time" (synthesize_timestamp x) = get_col "transaction_time" x.
Proof.
  intros [(_ & _ & _ & Htime & _) _]. unfold synthesize_timestamp.
  destruct (get_col "transaction_date" x) as [d|] eqn:Hd; [|reflexivity].
  destruct (get_col "transaction_time" x) as [t|] eqn:Ht; [|exact Ht].
  rewrite (filled_fillna t) by (apply Htime; [eauto | exact Ht]).
  destruct (date_time_text d t).
  - rewrite get_set_other by discriminate. apply get_set_same.
  - apply get_set_same.
Qed.

End RerunTransactions.

(** without duplicate rows, dropping duplicates changes nothing *)
Lemma first_occurrence_NoDup seen rs :
  NoDup rs -> (forall r, r ∈ rs -> r ∉ seen) ->
  Forall (fun b => b = true) (first_occurrence seen rs).
Proof.
  revert seen. induction rs as [|r rs IH]; intros seen Hnd Hdisj; simpl; [constructor|].
  apply NoDup_cons in Hnd as [Hr Hnd].
  rewrite decide_False by (apply Hdisj; left). constructor; [reflexivity|].
  apply IH; [exact Hnd|]. intros r' Hin Hs. apply elem_of_cons in Hs as [->|Hs].
  - contradiction.
  - apply (Hdisj r'); [right; exact Hin | exact Hs].
Qed.

Lemma first_occurrence_length seen rs : length (first_occurrence seen rs) = length rs.
Proof.
  revert seen. induction rs as [|r rs IH]; intros seen; simpl; [reflexivity|].
  destruct (decide (r ∈ seen)); simpl; rewrite IH; reflexivity.
Qed.

Lemma drop_duplicates_NoDup x : wf x -> NoDup (rows x) -> drop_duplicates x = x.
Proof.
  intros Hwf Hnd. unfold drop_duplicates. destruct (df_empty x); [reflexivity|].
  apply filter_rows_all; [exact Hwf | |].
  - apply first_occurrence_NoDup; [exact Hnd|]. intros r _. apply not_elem_of_nil.
  - rewrite first_occurrence_length. apply length_rows.
Qed.

(** ** A second [clean_kyc_data] *)

Lemma NoDup_take_mask {A} mask (xs : list A) : NoDup xs -> NoDup (take_mask mask xs).
Proof.
  revert xs. induction mask as [|b mask IH]; intros [|x xs] Hnd; simpl;
    try apply NoDup_nil_2.
  apply NoDup_cons in Hnd as [Hx Hnd]. destruct b; [|apply IH, Hnd].
  apply NoDup_cons. split; [|apply IH, Hnd].
  intros Hin. apply Hx. clear -Hin. revert xs Hin.
  induction mask as [|b mask IH]; intros [|y ys] Hin; simpl in *;
    try (inversion Hin; fail).
  destruct b.
  - apply elem_of_cons in Hin as [->|Hin]; [left | right; apply IH, Hin].
  - right. apply IH, Hin.
Qed.

Lemma NoDup_cells_RangeIndex n : NoDup (cells (RangeIndex n)).
Proof.
  unfold RangeIndex. simpl. rewrite map_map.
  apply NoDup_fmap_2_strong; [|apply NoDup_seq].
  intros i j _ _ Heq. simpl in Heq.
  assert (Hz : num_of_Z (Z.of_nat i) = num_of_Z (Z.of_nat j)) by congruence.
  apply num_of_Z_inj in Hz. lia.
Qed.

Lemma series_len_RangeIndex n : series_len (RangeIndex n) = n.
Proof. unfold RangeIndex. simpl. rewrite length_map, length_seq. reflexivity. Qed.

Lemma reset_index_wf x r : reset_index x = Ok r -> wf x -> wf r.
Proof.
  intros Hr [Hnd Hlen]. split; [eapply reset_index_names; eassumption|].
  unfold reset_index in Hr. destruct (has_column _ x); [discriminate|].
  injection Hr as <-. unfold nrows in *. cbn [index columns].
  rewrite series_len_RangeIndex. constructor; [reflexivity | exact Hlen].
Qed.

(** the rows of a table with a column of distinct values are distinct *)
Lemma rows_NoDup_first k c cs x :
  columns x = (k, c) :: cs -> NoDup (cells c) -> series_len c = nrows x ->
  NoDup (rows x).
Proof.
  intros Hcols Hnd Hlen. unfold rows.
  apply NoDup_fmap_2_strong; [|apply NoDup_seq].
  intros a b Ha Hb Heq. unfold row_at in Heq. rewrite Hcols in Heq. simpl in Heq.
  injection Heq as Heq _.
  apply elem_of_seq in Ha, Hb. rewrite series_len_cells in Hlen.
  destruct (lookup_lt_is_Some_2 (cells c) a) as [xa Hxa]; [lia|].
  destruct (lookup_lt_is_Some_2 (cells c) b) as [xb Hxb]; [lia|].
  rewrite (nth_lookup_Some _ _ _ _ Hxa), (nth_lookup_Some _ _ _ _ Hxb) in Heq. subst xb.
  exact (proj1 (NoDup_alt _) Hnd a b xa Hxa Hxb).
Qed.

Section RerunKyc.
Context {pd : Pandas}.

Lemma index_name_str_columns g cols f :
  index_name (fst (str_columns g cols f)) = index_name f.
Proof.
  revert f. induction cols as [|col cols IH]; intros f; simpl.
  - reflexivity.
  - destruct (get_col col f) as [c|]; [|apply IH].
    destruct (str_method g c); [|reflexivity].
    rewrite IH. reflexivity.
Qed.

Lemma index_name_convert_columns g cols f :
  index_name (convert_columns g cols f) = index_name f.
Proof. rewrite convert_columns_list. reflexivity. Qed.

(** the steps of [clean_kyc_data] after the first block, on a table of
    the right shape: nothing changes and nothing fails *)
Lemma kyc_shaped_steps y :
  kyc_shaped y ->
  convert_columns to_numeric ["sales"; "employee_count"]
    (convert_columns to_datetime ["established_date"; "onboard_date"]
       (map_columns (on_text Text.strip) y)) = y
  /\ str_columns Text.upper ["country"; "province"; "city"; "industry_code"] y = (y, None)
  /\ kyc_dropna y = (y, None).
Proof.
  intros (Hwf & Htrim & He & Ho & Hsa & Hem & Hco & Hpr & Hci & Hin & Hsome & Hkey).
  assert (Hup : str_columns Text.upper ["country"; "province"; "city"; "industry_code"] y
                = (y, None)).
  { apply str_columns_fixed. intros col Hcol. rewrite !elem_of_cons in Hcol.
    destruct Hcol as [->|[->|[->|[->|Hcol]]]]; [| | | |inversion Hcol]; assumption. }
  assert (Hconv : convert_columns to_numeric ["sales"; "employee_count"]
                    (convert_columns to_datetime ["established_date"; "onboard_date"]
                       (map_columns (on_text Text.strip) y)) = y).
  { rewrite (map_columns_id (on_text Text.strip) y Hwf)
      by (intros col c Hc; apply trimmed_fixed, (Htrim col c Hc)).
    unfold convert_columns. cbn [fold_left].
    rewrite (update_col_id to_datetime y "established_date")
      by (intros c Hc; apply is_datetime_fixed, (He c Hc)).
    rewrite (update_col_id to_datetime y "onboard_date")
      by (intros c Hc; apply is_datetime_fixed, (Ho c Hc)).
    rewrite (update_col_id to_numeric y "sales")
      by (intros c Hc; apply is_numeric_fixed, (Hsa c Hc)).
    rewrite (update_col_id to_numeric y "employee_count")
      by (intros c Hc; apply is_numeric_fixed, (Hem c Hc)).
    reflexivity. }
  split; [exact Hconv|].
  split; [exact Hup|].
  unfold kyc_dropna, dropna. destruct Hsome as [c Hc]. rewrite Hc.
  pose proof (drop_missing_id "customer_id" y Hwf Hkey) as Hid.
  unfold drop_missing in Hid. rewrite Hc in Hid. rewrite Hid. reflexivity.
Qed.

Lemma kyc_cleaned_steps f :
  kyc_cleaned f
  = (let '(f1, e1) := kyc_reset_dedup f in
     let '(f5, e5) :=
       str_columns Text.upper ["country"; "province"; "city"; "industry_code"]
         (convert_columns to_numeric ["sales"; "employee_count"]
            (convert_columns to_datetime ["established_date"; "onboard_date"]
               (map_columns (on_text Text.strip) f1))) in
     let '(f6, e6) := kyc_dropna f5 in
     (f6,
      log_exn "Error resetting index or dropping duplicates in KYC" e1
      ++ log_exn "Error standardizing columns in KYC data" e5
      ++ log_exn "Error dropping rows with missing customer_id in KYC" e6)).
Proof. reflexivity. Qed.

(** the table with its index moved into a column is of the right shape,
    and has no two equal rows *)
Lemma reset_index_shaped x r :
  kyc_settled x -> reset_index x = Ok r ->
  kyc_shaped r /\ NoDup (rows r).
Proof.
  intros [(Hwf & Htrim & He & Ho & Hsa & Hem & Hco & Hpr & Hci & Hin & Hsome & Hkey)
          (Hname & Hnum & Hnd)] Hr.
  pose proof (reset_index_wf x r Hr Hwf) as Hwfr.
  unfold reset_index, reset_index_name in Hr. rewrite Hname in Hr.
  set (name := if has_column "index" x then "level_0" else "index") in *.
  assert (Hcases : name = "index" \/ name = "level_0")
    by (unfold name; destruct (has_column "index" x); auto).
  destruct (has_column name x) eqn:Hhas; [discriminate|]. injection Hr as <-.
  assert (Hget : forall col, col <> name ->
    get_col col (mkDF None (RangeIndex (nrows x)) ((name, index x) :: columns x))
    = get_col col x).
  { intros col Hne. unfold get_col. simpl. rewrite decide_False by exact Hne. reflexivity. }
  assert (Hother : forall col (Q : Series -> Prop),
    col <> "index" -> col <> "level_0" -> column_is col Q x ->
    column_is col Q (mkDF None (RangeIndex (nrows x)) ((name, index x) :: columns x))).
  { intros col Q H1 H2 Hq. eapply column_is_frame; [|exact Hq].
    apply Hget. destruct Hcases as [-> | ->]; assumption. }
  split.
  - split; [exact Hwfr|]. split.
    { intros col. destruct (decide (col = name)) as [->|Hne].
      - intros c. unfold get_col. simpl. rewrite decide_True by reflexivity.
        intros [= <-]. destruct (index x); simpl in *; try contradiction; exact I.
      - eapply column_is_frame; [apply Hget, Hne | apply Htrim]. }
    split; [apply Hother; [discriminate | discriminate | exact He]|].
    split; [apply Hother; [discriminate | discriminate | exact Ho]|].
    split; [apply Hother; [discriminate | discriminate | exact Hsa]|].
    split; [apply Hother; [discriminate | discriminate | exact Hem]|].
    split; [apply Hother; [discriminate | discriminate | exact Hco]|].
    split; [apply Hother; [discriminate | discriminate | exact Hpr]|].
    split; [apply Hother; [discriminate | discriminate | exact Hci]|].
    split; [apply Hother; [discriminate | discriminate | exact Hin]|].
    split.
    { rewrite Hget; [exact Hsome|]. destruct Hcases as [-> | ->]; discriminate. }
    apply Hother; [discriminate | discriminate | exact Hkey].
  - eapply (rows_NoDup_first name (index x)); [reflexivity | exact Hnd |].
    unfold nrows. cbn [index]. rewrite series_len_RangeIndex. reflexivity.
Qed.

(** cleaning a settled KYC table again moves its row index into a column
    and does nothing else *)
Lemma kyc_settled_rerun x :
  kyc_settled x ->
  kyc_cleaned x
  = (index_as_column x,
     log_exn "Error resetting index or dropping duplicates in KYC" (reset_error x)).
Proof.
  intros Hs. rewrite kyc_cleaned_steps.
  unfold kyc_reset_dedup, index_as_column, reset_error.
  destruct (reset_index x) as [r|e] eqn:Hr.
  - destruct (reset_index_shaped x r Hs Hr) as [Hshape Hnd].
    rewrite (drop_duplicates_NoDup r (proj1 Hshape) Hnd).
    destruct (kyc_shaped_steps r Hshape) as (Hid & Hup & Hdrop).
    rewrite Hid, Hup, Hdrop. reflexivity.
  - destruct (kyc_shaped_steps x (proj1 Hs)) as (Hid & Hup & Hdrop).
    rewrite Hid, Hup, Hdrop. cbn [log_exn]. rewrite app_nil_r. reflexivity.
Qed.

(** a run of [clean_kyc_data] in which nothing failed returns a settled
    table *)
Lemma kyc_first_run_settled f :
  wf f ->
  errors (snd (kyc_cleaned f)) = [] ->
  kyc_settled (fst (kyc_cleaned f)).
Proof.
  intros Hwf. rewrite kyc_cleaned_steps.
  destruct (kyc_reset_dedup f) as [f1 e1] eqn:H1.
  set (f2 := map_columns (on_text Text.strip) f1).
  set (f3 := convert_columns to_datetime ["established_date"; "onboard_date"] f2).
  set (f4 := convert_columns to_numeric ["sales"; "employee_count"] f3).
  destruct (str_columns Text.upper _ f4) as [f5 e5] eqn:H5.
  destruct (kyc_dropna f5) as [f6 e6] eqn:H6.
  cbn [fst snd]. rewrite !errors_app. intros He.
  apply app_eq_nil in He as [He1 He]. apply app_eq_nil in He as [He5 He6].
  apply log_exn_no_error in He1, He5, He6. subst e1 e5 e6.
  (* the first block *)
  unfold kyc_reset_dedup in H1.
  destruct (reset_index f) as [f0|] eqn:Hr; [|discriminate]. injection H1 as <-.
  pose proof (reset_index_wf f f0 Hr Hwf) as Hwf0.
  assert (Hidx0 : index_name f0 = None /\ index f0 = RangeIndex (nrows f)).
  { unfold reset_index in Hr. destruct (has_column _ f); [discriminate|].
    injection Hr as <-. auto. }
  destruct Hidx0 as [Hn0 Hi0].
  assert (Hwf1 : wf (drop_duplicates f0)) by (apply wf_drop_duplicates, Hwf0).
  assert (Hidx1 : index_name (drop_duplicates f0) = None
                  /\ is_numeric (index (drop_duplicates f0))
                  /\ NoDup (cells (index (drop_duplicates f0)))).
  { unfold drop_duplicates. destruct (df_empty f0).
    - rewrite Hn0, Hi0. split; [reflexivity|]. split; [exact I|].
      apply NoDup_cells_RangeIndex.
    - unfold filter_rows. cbn [index_name index]. rewrite Hn0, Hi0.
      split; [reflexivity|]. split; [exact I|].
      rewrite cells_series_take. apply NoDup_take_mask, NoDup_cells_RangeIndex. }
  (* trimming and the conversions *)
  assert (Hwf2 : wf f2) by (apply wf_map_columns; [apply on_text_len | exact Hwf1]).
  assert (Htr2 : all_columns trimmed f2).
  { intros col c. unfold f2. rewrite get_col_map_columns.
    destruct (get_col col _) as [c0|]; [|discriminate]. intros [= <-].
    destruct c0 as [xs| | |]; simpl; try exact I.
    apply Forall_map. apply Forall_forall. intros [s|] _; simpl; [|reflexivity].
    rewrite strip_idem. reflexivity. }
  set (f3a := update_col to_datetime f2 "established_date").
  assert (Hf3 : f3 = update_col to_datetime f3a "onboard_date") by reflexivity.
  assert (Hwf3 : wf f3).
  { rewrite Hf3. apply wf_update_col; [apply to_datetime_len|].
    apply wf_update_col; [apply to_datetime_len | exact Hwf2]. }
  assert (Htr3 : all_columns trimmed f3).
  { rewrite Hf3. apply all_columns_update; [intros c _; exact I|].
    apply all_columns_update; [intros c _; exact I | exact Htr2]. }
  assert (He3 : column_is "established_date" (fun c => is_datetime c = true) f3).
  { rewrite Hf3. eapply column_is_frame; [apply get_col_update_other; discriminate|].
    apply column_is_update_same. reflexivity. }
  assert (Ho3 : column_is "onboard_date" (fun c => is_datetime c = true) f3).
  { rewrite Hf3. apply column_is_update_same. reflexivity. }
  set (f4a := update_col to_numeric f3 "sales").
  assert (Hf4 : f4 = update_col to_numeric f4a "employee_count") by reflexivity.
  assert (Hwf4 : wf f4).
  { rewrite Hf4. apply wf_update_col; [apply to_numeric_len|].
    apply wf_update_col; [apply to_numeric_len | exact Hwf3]. }
  assert (Hnum_tr : forall c, trimmed c -> trimmed (to_numeric c)).
  { intros c _. destruct c; simpl; exact I. }
  assert (Htr4 : all_columns trimmed f4).
  { rewrite Hf4. apply all_columns_update; [exact Hnum_tr|].
    apply all_columns_update; [exact Hnum_tr | exact Htr3]. }
  assert (Hfr4 : forall col, col <> "sales" -> col <> "employee_count" ->
            get_col col f4 = get_col col f3).
  { intros col Ha Hb. rewrite Hf4. unfold f4a.
    rewrite !get_col_update_other by assumption. reflexivity. }
  assert (Hsa4 : column_is "sales" is_numeric f4).
  { rewrite Hf4. eapply column_is_frame; [apply get_col_update_other; discriminate|].
    apply column_is_update_same, to_numeric_is_numeric. }
  assert (Hem4 : column_is "employee_count" is_numeric f4).
  { rewrite Hf4. apply column_is_update_same, to_numeric_is_numeric. }
  (* the text block and the key rule *)
  destruct (str_columns_none_shape _ _ f4 f5 upper_idem strip_upper H5 Hwf4 Htr4)
    as (Hwf5 & Htr5 & Hfix5 & Hfr5).
  assert (Hshape5 : forall c, get_col "customer_id" f5 = Some c ->
            kyc_shaped (filter_rows (notna c) f5)
            /\ no_null (series_take (notna c) c)).
  { intros c Hc.
    assert (Hpre : forall col (Q : Series -> Prop) m,
      (forall s, Q s -> Q (series_take m s)) -> column_is col Q f5 ->
      column_is col Q (filter_rows m f5))
      by (intros; apply column_is_filter_rows; assumption).
    split.
    - split; [apply wf_filter_rows, Hwf5|].
      split; [intros col; apply Hpre; [apply trimmed_take | apply Htr5]|].
      split.
      { apply Hpre; [apply is_datetime_take|].
        eapply column_is_frame; [|exact He3].
        rewrite Hfr5, Hfr4 by (try discriminate; solve_notin). reflexivity. }
      split.
      { apply Hpre; [apply is_datetime_take|].
        eapply column_is_frame; [|exact Ho3].
        rewrite Hfr5, Hfr4 by (try discriminate; solve_notin). reflexivity. }
      split.
      { apply Hpre; [apply is_numeric_take|].
        eapply column_is_frame; [apply Hfr5; solve_notin | exact Hsa4]. }
      split.
      { apply Hpre; [apply is_numeric_take|].
        eapply column_is_frame; [apply Hfr5; solve_notin | exact Hem4]. }
      split; [apply Hpre; [apply text_fixed_take | apply Hfix5; left]|].
      split; [apply Hpre; [apply text_fixed_take | apply Hfix5; right; left]|].
      split; [apply Hpre; [apply text_fixed_take | apply Hfix5; right; right; left]|].
      split; [apply Hpre; [apply text_fixed_take
                          | apply Hfix5; right; right; right; left]|].
      split; [rewrite get_col_filter_rows, Hc; eauto|].
      intros c'. rewrite get_col_filter_rows, Hc. intros [= <-].
      unfold no_null, notna. rewrite cells_series_take. apply take_mask_notna.
    - unfold no_null, notna. rewrite cells_series_take. apply take_mask_notna. }
  unfold kyc_dropna, dropna in H6.
  destruct (get_col "customer_id" f5) as [c|] eqn:Hc; [|discriminate].
  injection H6 as <-.
  split; [apply (Hshape5 c eq_refl)|].
  assert (Hi5 : index f5 = index (drop_duplicates f0)).
  { replace f5 with (fst (str_columns Text.upper
                            ["country"; "province"; "city"; "industry_code"] f4))
      by (rewrite H5; reflexivity).
    rewrite index_str_columns. unfold f4, f3.
    rewrite !index_convert_columns. reflexivity. }
  assert (Hn5 : index_name f5 = index_name (drop_duplicates f0)).
  { replace f5 with (fst (str_columns Text.upper
                            ["country"; "province"; "city"; "industry_code"] f4))
      by (rewrite H5; reflexivity).
    rewrite index_name_str_columns. unfold f4, f3.
    rewrite !index_name_convert_columns. reflexivity. }
  destruct Hidx1 as (Hn1 & Hnum1 & Hnd1).
  unfold filter_rows. cbn [index_name index]. rewrite Hn5, Hi5.
  split; [exact Hn1|]. split; [apply is_numeric_take, Hnum1|].
  rewrite cells_series_take. apply NoDup_take_mask, Hnd1.
Qed.

End RerunKyc.

(** ** Cleaning twice *)

(** C3, counterexample.  Cleaning the output of a cleaning again is not a
    no-op.  The two rows of the first output of [clean_transactions] that
    trimming made equal are one row in the second output.  The second output
    of [clean_kyc_data] has one column more than the first: the row index
    left by the first run, moved into a column [index]. *)
Lemma idempotence_counterexample :
  (exists l1 w1 l2 w2 out1 out2,
      clean_transactions 0 ["transaction_date"] ["amount_cad"]
        (Examples.world_of Examples.trim_twins) = (Ok l1, w1)
      /\ clean_transactions l1 ["transaction_date"] ["amount_cad"] w1 = (Ok l2, w2)
      /\ heap w1 !! l1 = Some out1
      /\ heap w2 !! l2 = Some out2
      /\ nrows out1 = 2
      /\ nrows out2 = 1)
  /\ (exists l1 w1 l2 w2 out1 out2,
      clean_kyc_data 0 (Examples.world_of Examples.kyc_table) = (Ok l1, w1)
      /\ clean_kyc_data l1 w1 = (Ok l2, w2)
      /\ heap w1 !! l1 = Some out1
      /\ heap w2 !! l2 = Some out2
      /\ column_names out1
         = ["customer_id"; "established_date"; "sales"; "employee_count"; "country"]
      /\ column_names out2
         = ["index"; "customer_id"; "established_date"; "sales"; "employee_count";
            "country"]).
Proof.
  split.
  - eexists _, _, _, _, _, _.
    split; [vm_compute; reflexivity|]. split; [vm_compute; reflexivity|].
    split; [reflexivity|]. split; [reflexivity|]. split; reflexivity.
  - eexists _, _, _, _, _, _.
    split; [vm_compute; reflexivity|]. split; [vm_compute; reflexivity|].
    split; [reflexivity|]. split; [reflexivity|]. split; reflexivity.
Qed.

(** A run of [clean_transactions] with the pipeline's column roles in which
    no rule failed, followed by a second run on its output: the second run
    fails nowhere and does what rule 1 and rule 4 do. *)
Lemma transactions_second_run {pd : Pandas} (l : loc) (w : world) (f : DataFrame)
    (l1 : loc) (w1 : world) (l2 : loc) (w2 : world) :
  heap w !! l = Some f ->
  wf f ->
  clean_transactions l ["transaction_date"] ["amount_cad"] w = (Ok l1, w1) ->
  errors (new_log w w1) = [] ->
  clean_transactions l1 ["transaction_date"] ["amount_cad"] w1 = (Ok l2, w2) ->
  exists out1 out2,
    heap w1 !! l1 = Some out1
    /\ heap w2 !! l2 = Some out2
    /\ out2 = rule4 (rule1 out1)
    /\ errors (new_log w1 w2) = []
    /\ index out2 = index (rule1 out1)
    /\ (forall col, col <> "transaction_datetime" ->
          get_col col out2 = get_col col (rule1 out1))
    /\ (NoDup (rows out1) ->
          index out2 = index out1
          /\ forall col, col <> "transaction_datetime" ->
               get_col col out2 = get_col col out1).
Proof.
  intros Hl Hwf Hrun1 Herr Hrun2.
  rewrite (clean_transactions_run l _ _ w f Hl (proj1 Hwf)) in Hrun1.
  injection Hrun1 as <- <-.
  erewrite new_log_app in Herr by reflexivity.
  rewrite errors_app in Herr. apply app_eq_nil in Herr as [Herr _].
  pose proof (first_run_settled f Hwf Herr) as Hs.
  set (out1 := fst (transactions_cleaned ["transaction_date"] ["amount_cad"] f)) in *.
  assert (Hl1 : forall lg cf tf,
    heap (mkWorld (heap w ++ [out1]) lg cf tf) !! length (heap w) = Some out1)
    by (intros; apply list_lookup_middle; reflexivity).
  rewrite (clean_transactions_run _ _ _ _ out1 (Hl1 _ _ _) (proj1 (proj1 (proj1 Hs))))
    in Hrun2.
  injection Hrun2 as <- <-.
  rewrite (settled_rerun out1 Hs). cbn [fst snd heap].
  assert (Htime : forall col, col <> "transaction_datetime" ->
    get_col col (rule4 (rule1 out1)) = get_col col (rule1 out1)).
  { intros col Hne. unfold rule4.
    destruct (decide (col = "transaction_time")) as [->|Hnt].
    - apply synthesize_time_settled, settled_drop_duplicates, Hs.
    - apply synthesize_frame; assumption. }
  exists out1, (rule4 (rule1 out1)).
  split; [apply list_lookup_middle; reflexivity|].
  split; [rewrite length_app; simpl; apply list_lookup_middle; rewrite length_app; reflexivity|].
  split; [reflexivity|].
  split; [erewrite new_log_app by reflexivity; reflexivity|].
  split; [apply synthesize_index|].
  split; [exact Htime|].
  intros Hnd. unfold rule1 in *.
  rewrite (drop_duplicates_NoDup out1 (proj1 (proj1 Hs)) Hnd) in *.
  split; [apply synthesize_index | exact Htime].
Qed.


(** A run of [clean_kyc_data] in which no block failed, followed by a second
    run on its output: the second run moves the row index of the first
    output into a new first column and does nothing else. *)
Lemma kyc_second_run {pd : Pandas} (l : loc) (w : world) (f : DataFrame)
    (l1 : loc) (w1 : world) (l2 : loc) (w2 : world) :
  heap w !! l = Some f ->
  wf f ->
  clean_kyc_data l w = (Ok l1, w1) ->
  errors (new_log w w1) = [] ->
  clean_kyc_data l1 w1 = (Ok l2, w2) ->
  exists out1 out2,
    heap w1 !! l1 = Some out1
    /\ heap w2 !! l2 = Some out2
    /\ out2 = index_as_column out1
    /\ new_log w1 w2
       = log_exn "Error resetting index or dropping duplicates in KYC" (reset_error out1)
         ++ [LogInfo "KYC data cleaned" [nrows out1; nrows out2]]
    /\ nrows out2 = nrows out1
    /\ (forall col, col <> "index" -> col <> "level_0" ->
          get_col col out2 = get_col col out1)
    /\ (reset_error out1 = None ->
          column_names out2 = reset_index_name out1 :: column_names out1
          /\ get_col (reset_index_name out1) out2 = Some (index out1)
          /\ index out2 = RangeIndex (nrows out1))
    /\ (reset_error out1 <> None -> out2 = out1).
Proof.
  intros Hl Hwf Hrun1 Herr Hrun2.
  rewrite (clean_kyc_data_run l w f Hl (proj1 Hwf)) in Hrun1.
  injection Hrun1 as <- <-.
  erewrite new_log_app in Herr by reflexivity.
  rewrite errors_app in Herr. apply app_eq_nil in Herr as [Herr _].
  pose proof (kyc_first_run_settled f Hwf Herr) as Hs.
  set (out1 := fst (kyc_cleaned f)) in *.
  assert (Hl1 : forall lg cf tf,
    heap (mkWorld (heap w ++ [out1]) lg cf tf) !! length (heap w) = Some out1)
    by (intros; apply list_lookup_middle; reflexivity).
  rewrite (clean_kyc_data_run _ _ out1 (Hl1 _ _ _) (proj1 (proj1 (proj1 Hs)))) in Hrun2.
  injection Hrun2 as <- <-.
  rewrite (kyc_settled_rerun out1 Hs). cbn [fst snd heap].
  exists out1, (index_as_column out1).
  split; [apply list_lookup_middle; reflexivity|].
  split; [rewrite length_app; simpl; apply list_lookup_middle; rewrite length_app; reflexivity|].
  split; [reflexivity|].
  split; [erewrite new_log_app by reflexivity; reflexivity|].
  destruct Hs as [_ (Hname & _ & _)].
  unfold index_as_column, reset_error, reset_index.
  destruct (has_column (reset_index_name out1) out1) eqn:Hhas.
  - split; [reflexivity|]. split; [reflexivity|].
    split; [discriminate | reflexivity].
  - split; [unfold nrows; cbn [index]; apply series_len_RangeIndex|].
    split.
    { intros col H1 H2. unfold get_col. cbn [columns assoc].
      rewrite decide_False; [reflexivity|].
      unfold reset_index_name. rewrite Hname.
      destruct (has_column "index" out1); congruence. }
    split; [|intros Hne; contradiction Hne; reflexivity].
    intros _. split; [reflexivity|]. split; [|reflexivity].
    unfold get_col. cbn [columns assoc]. rewrite decide_True by reflexivity. reflexivity.
Qed.

(** C3, amended.  Take a run of the cleaner in which nothing failed, and
    clean its output again.

    For [clean_transactions], with the pipeline's column roles, the second
    run fails nowhere and does only what rule 1 and rule 4 do: it removes the
    rows that are exact duplicates within the first output and recomputes the
    combined timestamp from the date and time columns.  No row is dropped by
    the key rule, and every column other than the combined timestamp keeps
    its values and its format; when the first output has no two equal rows,
    no row is removed at all.

    For [clean_kyc_data], the second run removes no row and changes no
    column of the first output; it moves the row index left by the first run
    into a new first column ([index], or [level_0] when [index] is taken) and
    numbers the rows afresh.  When both names are taken the move is refused,
    the refusal is logged, and the table comes back as it was. *)
Theorem rerun_cleaning {pd : Pandas} :
  (forall (l : loc) (w : world) (f : DataFrame) (l1 : loc) (w1 : world)
          (l2 : loc) (w2 : world),
      heap w !! l = Some f ->
      wf f ->
      clean_transactions l ["transaction_date"] ["amount_cad"] w = (Ok l1, w1) ->
      errors (new_log w w1) = [] ->
      clean_transactions l1 ["transaction_date"] ["amount_cad"] w1 = (Ok l2, w2) ->
      exists out1 out2,
        heap w1 !! l1 = Some out1
        /\ heap w2 !! l2 = Some out2
        /\ out2 = rule4 (rule1 out1)
        /\ errors (new_log w1 w2) = []
        /\ index out2 = index (rule1 out1)
        /\ (forall col, col <> "transaction_datetime" ->
              get_col col out2 = get_col col (rule1 out1))
        /\ (NoDup (rows out1) ->
              index out2 = index out1
              /\ forall col, col <> "transaction_datetime" ->
                   get_col col out2 = get_col col out1))
  /\ (forall (l : loc) (w : world) (f : DataFrame) (l1 : loc) (w1 : world)
             (l2 : loc) (w2 : world),
      heap w !! l = Some f ->
      wf f ->
      clean_kyc_data l w = (Ok l1, w1) ->
      errors (new_log w w1) = [] ->
      clean_kyc_data l1 w1 = (Ok l2, w2) ->
      exists out1 out2,
        heap w1 !! l1 = Some out1
        /\ heap w2 !! l2 = Some out2
        /\ out2 = index_as_column out1
        /\ new_log w1 w2
           = log_exn "Error resetting index or dropping duplicates in KYC"
               (reset_error out1)
             ++ [LogInfo "KYC data cleaned" [nrows out1; nrows out2]]
        /\ nrows out2 = nrows out1
        /\ (forall col, col <> "index" -> col <> "level_0" ->
              get_col col out2 = get_col col out1)
        /\ (reset_error out1 = None ->
              column_names out2 = reset_index_name out1 :: column_names out1
              /\ get_col (reset_index_name out1) out2 = Some (index out1)
              /\ index out2 = RangeIndex (nrows out1))
        /\ (reset_error out1 <> None -> out2 = out1)).
Proof.
  split.
  - intros l w f l1 w1 l2 w2. apply transactions_second_run.
  - intros l w f l1 w1 l2 w2. apply kyc_second_run.
Qed.

Lemma rerun_cleaning_witness :
  (exists w1 w2,
    heap (Examples.world_of Examples.card_table) !! 0 = Some Examples.card_table
    /\ wf Examples.card_table
    /\ clean_transactions (pd := Demo.pandas) 0 ["transaction_date"] ["amount_cad"]
         (Examples.world_of Examples.card_table) = (Ok 1, w1)
    /\ errors (new_log (Examples.world_of Examples.card_table) w1) = []
    /\ clean_transactions (pd := Demo.pandas) 1 ["transaction_date"] ["amount_cad"] w1
       = (Ok 2, w2)
    /\ exists out1 out2,
        heap w1 !! 1 = Some out1
        /\ heap w2 !! 2 = Some out2
        /\ out2 = rule4 (pd := Demo.pandas) (rule1 out1)
        /\ errors (new_log w1 w2) = []
        /\ index out2 = index (rule1 out1)
        /\ (forall col, col <> "transaction_datetime" ->
              get_col col out2 = get_col col (rule1 out1))
        /\ (NoDup (rows out1) ->
              index out2 = index out1
              /\ forall col, col <> "transaction_datetime" ->
                   get_col col out2 = get_col col out1))
  /\ (exists w1 w2,
    heap (Examples.world_of Examples.kyc_table) !! 0 = Some Examples.kyc_table
    /\ wf Examples.kyc_table
    /\ clean_kyc_data (pd := Demo.pandas) 0 (Examples.world_of Examples.kyc_table)
       = (Ok 1, w1)
    /\ errors (new_log (Examples.world_of Examples.kyc_table) w1) = []
    /\ clean_kyc_data (pd := Demo.pandas) 1 w1 = (Ok 2, w2)
    /\ exists out1 out2,
        heap w1 !! 1 = Some out1
        /\ heap w2 !! 2 = Some out2
        /\ out2 = index_as_column out1
        /\ new_log w1 w2
           = log_exn "Error resetting index or dropping duplicates in KYC"
               (reset_error out1)
             ++ [LogInfo "KYC data cleaned" [nrows out1; nrows out2]]
        /\ nrows out2 = nrows out1
        /\ (forall col, col <> "index" -> col <> "level_0" ->
              get_col col out2 = get_col col out1)
        /\ (reset_error out1 = None ->
              column_names out2 = reset_index_name out1 :: column_names out1
              /\ get_col (reset_index_name out1) out2 = Some (index out1)
              /\ index out2 = RangeIndex (nrows out1))
        /\ (reset_error out1 <> None -> out2 = out1)).
Proof.
  split.
  - set (w0 := Examples.world_of Examples.card_table).
    set (w1 := snd (clean_transactions (pd := Demo.pandas) 0
                      ["transaction_date"] ["amount_cad"] w0)).
    set (w2 := snd (clean_transactions (pd := Demo.pandas) 1
                      ["transaction_date"] ["amount_cad"] w1)).
    assert (Hl : heap w0 !! 0 = Some Examples.card_table) by reflexivity.
    assert (Hwf : wf Examples.card_table).
    { split; [apply (bool_decide_unpack _); vm_compute; exact I|].
      repeat constructor. }
    assert (Hrun1 : clean_transactions (pd := Demo.pandas) 0
                      ["transaction_date"] ["amount_cad"] w0 = (Ok 1, w1))
      by (vm_compute; reflexivity).
    assert (Herr : errors (new_log w0 w1) = []) by (vm_compute; reflexivity).
    assert (Hrun2 : clean_transactions (pd := Demo.pandas) 1
                      ["transaction_date"] ["amount_cad"] w1 = (Ok 2, w2))
      by (vm_compute; reflexivity).
    exists w1, w2.
    split; [exact Hl|]. split; [exact Hwf|]. split; [exact Hrun1|]. split; [exact Herr|].
    split; [exact Hrun2|].
    exact (proj1 (rerun_cleaning (pd := Demo.pandas))
             0 w0 _ 1 w1 2 w2 Hl Hwf Hrun1 Herr Hrun2).
  - set (w0 := Examples.world_of Examples.kyc_table).
    set (w1 := snd (clean_kyc_data (pd := Demo.pandas) 0 w0)).
    set (w2 := snd (clean_kyc_data (pd := Demo.pandas) 1 w1)).
    assert (Hl : heap w0 !! 0 = Some Examples.kyc_table) by reflexivity.
    assert (Hwf : wf Examples.kyc_table).
    { split; [apply (bool_decide_unpack _); vm_compute; exact I|].
      repeat constructor. }
    assert (Hrun1 : clean_kyc_data (pd := Demo.pandas) 0 w0 = (Ok 1, w1))
      by (vm_compute; reflexivity).
    assert (Herr : errors (new_log w0 w1) = []) by (vm_compute; reflexivity).
    assert (Hrun2 : clean_kyc_data (pd := Demo.pandas) 1 w1 = (Ok 2, w2))
      by (vm_compute; reflexivity).
    exists w1, w2.
    split; [exact Hl|]. split; [exact Hwf|]. split; [exact Hrun1|]. split; [exact Herr|].
    split; [exact Hrun2|].
    exact (proj2 (rerun_cleaning (pd := Demo.pandas))
             0 w0 _ 1 w1 2 w2 Hl Hwf Hrun1 Herr Hrun2).
Defined.

(** * Further properties of the code *)

(** ** Files are touched by the entry points only *)

Lemma assoc_del_other {A} k k0 (l : list (string * A)) :
  k0 <> k -> assoc k0 (assoc_del k l) = assoc k0 l.
Proof.
  intros Hne. induction l as [|[k' v'] l IH]; simpl; [reflexivity|].
  destruct (decide (k = k')) as [->|Hne']; simpl.
  - rewrite decide_False by assumption. exact IH.
  - destruct (decide (k0 = k')); [reflexivity | exact IH].
Qed.

Lemma assoc_del_same {A} k (l : list (string * A)) : assoc k (assoc_del k l) = None.
Proof.
  induction l as [|[k' v'] l IH]; simpl; [reflexivity|].
  destruct (decide (k = k')) as [->|Hne']; simpl; [exact IH|].
  rewrite decide_False by assumption. exact IH.
Qed.

Lemma keeps_files_ret {A} (a : A) : keeps_files (mret a).
Proof. intros w. split; reflexivity. Qed.

Lemma keeps_files_raise {A} e : keeps_files (raise e : M world A).
Proof. intros w. split; reflexivity. Qed.

Lemma keeps_files_lift {A} (r : outcome A) : keeps_files (lift r : M world A).
Proof. intros w. split; reflexivity. Qed.

Lemma keeps_files_bind {A B} (m : M world A) (k : A -> M world B) :
  keeps_files m -> (forall a, keeps_files (k a)) -> keeps_files (m ≫= k).
Proof.
  intros Hm Hk w. rewrite bind_run. specialize (Hm w).
  destruct (m w) as [[a|e] w1]; cbn [snd] in *.
  - destruct (Hk a w1) as [H1 H2]. rewrite H1, H2. exact Hm.
  - exact Hm.
Qed.

Lemma keeps_files_on {A} l (m : M fstate A) : keeps_files (on l m).
Proof.
  intros w. unfold on. destruct (heap w !! l) as [f|]; [|split; reflexivity].
  destruct (m (f, log w)) as [r [f' lg']]. split; reflexivity.
Qed.

Lemma keeps_files_alloc f : keeps_files (alloc f).
Proof. intros w. split; reflexivity. Qed.

Lemma keeps_files_copy l : keeps_files (copy l).
Proof.
  unfold copy. apply keeps_files_bind; [apply keeps_files_on | intros; apply keeps_files_alloc].
Qed.

Lemma keeps_files_logging_error msg e : keeps_files (logging_error (S := world) msg e).
Proof. intros w. split; reflexivity. Qed.

Lemma keeps_files_logging_info msg args : keeps_files (logging_info (S := world) msg args).
Proof. intros w. split; reflexivity. Qed.

Lemma keeps_files_try_except (body : M world unit) handler :
  keeps_files body -> (forall e, keeps_files (handler e)) ->
  keeps_files (try_except body handler).
Proof.
  intros Hb Hh w. unfold try_except. specialize (Hb w).
  destruct (body w) as [[u|e] w1]; cbn [snd] in *; [exact Hb|].
  destruct (Hh e w1) as [H1 H2]. rewrite H1, H2. exact Hb.
Qed.

Lemma keeps_files_try_return {A} (body : M world A) handler :
  keeps_files body -> (forall e, keeps_files (handler e)) ->
  keeps_files (try_return body handler).
Proof.
  intros Hb Hh w. unfold try_return. specialize (Hb w).
  destruct (body w) as [[u|e] w1]; cbn [snd] in *; [exact Hb|].
  destruct (Hh e w1) as [H1 H2]. rewrite H1, H2. exact Hb.
Qed.

Lemma keeps_files_when b (body : M world unit) :
  keeps_files body -> keeps_files (when_ b body).
Proof. intros Hb. destruct b; [exact Hb | apply keeps_files_ret]. Qed.

Lemma keeps_files_for {A} (xs : list A) (body : A -> M world unit) :
  (forall x, keeps_files (body x)) -> keeps_files (for_ xs body).
Proof.
  intros Hb. induction xs as [|x xs IH]; cbn [for_]; [apply keeps_files_ret|].
  apply keeps_files_bind; [apply Hb | intros _; exact IH].
Qed.

Lemma keeps_files_read_csv path : keeps_files (read_csv path).
Proof.
  intros w. unfold read_csv. destruct (assoc path (csv_files w)); split; reflexivity.
Qed.


Ltac keeps_files :=
  repeat first
    [ apply keeps_files_on
    | apply keeps_files_copy
    | apply keeps_files_ret
    | apply keeps_files_raise
    | apply keeps_files_lift
    | apply keeps_files_logging_error
    | apply keeps_files_logging_info
    | apply keeps_files_read_csv
    | apply keeps_files_bind; [|intros]
    | apply keeps_files_try_except; [|intros]
    | apply keeps_files_try_return; [|intros]
    | apply keeps_files_when
    | apply keeps_files_for; intros
    | match goal with
      | |- keeps_files (if ?b then _ else _) => destruct b
      | |- keeps_files (match ?x with _ => _ end) => destruct x
      end ].

Section CleanersKeepFiles.
Context {pd : Pandas} {sk : Sklearn}.

Lemma keeps_files_clean_transactions l date_cols numeric_cols :
  keeps_files (clean_transactions l date_cols numeric_cols).
Proof. unfold clean_transactions. keeps_files. Qed.

Lemma keeps_files_clean_bool_columns l cols : keeps_files (clean_bool_columns l cols).
Proof. unfold clean_bool_columns. keeps_files. Qed.

Lemma keeps_files_clean_kyc_data l : keeps_files (clean_kyc_data l).
Proof. unfold clean_kyc_data. keeps_files. Qed.

Lemma keeps_files_clean_kyc_industry_codes l : keeps_files (clean_kyc_industry_codes l).
Proof. unfold clean_kyc_industry_codes. keeps_files. Qed.

Lemma keeps_files_detect_anomalies l c features :
  keeps_files (detect_anomalies l c features).
Proof. unfold detect_anomalies. cbv zeta. keeps_files. Qed.

End CleanersKeepFiles.

(** X1.  The cleaning functions and the outlier scoring work in memory only:
    whatever table they are given and however the call ends, by a return or
    by an exception, every file is left as it was. *)
Theorem stages_keep_files {pd : Pandas} {sk : Sklearn} (l : loc) :
  (forall date_cols numeric_cols, keeps_files (clean_transactions l date_cols numeric_cols))
  /\ (forall bool_columns, keeps_files (clean_bool_columns l bool_columns))
  /\ keeps_files (clean_kyc_data l)
  /\ keeps_files (clean_kyc_industry_codes l)
  /\ (forall contamination features,
        keeps_files (detect_anomalies l contamination features)).
Proof.
  split; [intros; apply keeps_files_clean_transactions|].
  split; [intros; apply keeps_files_clean_bool_columns|].
  split; [apply keeps_files_clean_kyc_data|].
  split; [apply keeps_files_clean_kyc_industry_codes|].
  intros. apply keeps_files_detect_anomalies.
Qed.

(** ** [clean_kyc_industry_codes] *)

Lemma convert_columns_ext g g' names f :
  (forall c, g c = g' c) -> convert_columns g names f = convert_columns g' names f.
Proof.
  intros Hg. unfold convert_columns. revert f.
  induction names as [|col names IH]; intros f; simpl; [reflexivity|].
  replace (update_col g f col) with (update_col g' f col); [apply IH|].
  unfold update_col. destruct (get_col col f); [rewrite Hg|]; reflexivity.
Qed.

Lemma on_text_compose g h c : on_text g (on_text h c) = on_text (fun s => g (h s)) c.
Proof.
  destruct c as [xs| | |]; simpl; try reflexivity.
  rewrite map_map. f_equal. apply map_ext. intros [s|]; reflexivity.
Qed.

Lemma column_names_rename old new f :
  column_names (rename old new f)
  = map (fun k => if decide (k = old) then new else k) (column_names f).
Proof. unfold column_names, rename. simpl. rewrite !map_map. reflexivity. Qed.

Lemma index_name_drop_duplicates f : index_name (drop_duplicates f) = index_name f.
Proof. unfold drop_duplicates. destruct (df_empty f); reflexivity. Qed.

Lemma has_column_drop_duplicates col f :
  has_column col (drop_duplicates f) = has_column col f.
Proof. unfold has_column. rewrite column_names_drop_duplicates. reflexivity. Qed.

Lemma reset_index_name_drop_duplicates f :
  reset_index_name (drop_duplicates f) = reset_index_name f.
Proof.
  unfold reset_index_name. rewrite index_name_drop_duplicates, has_column_drop_duplicates.
  reflexivity.
Qed.

Section IndustryCodes.
Context {pd : Pandas}.

(** the loop of a text block leaves the number of rows and the log as
    they are, however it ends *)
Lemma strip_upper_loop_rows names f lg :
  exists r f',
    for_ names (fun col =>
      c ← getitem col; c ← lift (str_strip c); c ← lift (str_upper c);
      setitem col c) (f, lg) = (r, (f', lg))
    /\ index f' = index f /\ index_name f' = index_name f.
Proof.
  revert f. induction names as [|col names IH]; intros f.
  - exists (Ok tt), f. repeat split.
  - cbn [for_]. rewrite bind_run, bind_run. unfold getitem at 1. cbn [fst].
    destruct (get_col col f) as [c|]; [|exists (Raise (KeyError col)), f; repeat split].
    cbn beta iota. rewrite bind_run. unfold lift at 1.
    destruct (str_strip c) as [c1|e]; [|exists (Raise e), f; repeat split].
    cbn beta iota. rewrite bind_run. unfold lift at 1.
    destruct (str_upper c1) as [c2|e]; [|exists (Raise e), f; repeat split].
    cbn beta iota. unfold setitem at 1. cbn [fst snd].
    destruct (IH (set_col col c2 f)) as (r & f' & Hrun & Hi & Hn).
    exists r, f'. split; [exact Hrun|]. split; assumption.
Qed.

Lemma strip_upper_loop_run names f lg :
  (forall col, col ∈ names -> exists xs, get_col col f = Some (ObjectS xs)) ->
  for_ names (fun col =>
    c ← getitem col; c ← lift (str_strip c); c ← lift (str_upper c);
    setitem col c) (f, lg)
  = (Ok tt, (convert_columns (on_text strip_upper_text) names f, lg)).
Proof.
  revert f. induction names as [|col names IH]; intros f Hobj.
  - reflexivity.
  - cbn [for_]. rewrite bind_run, bind_run. unfold getitem at 1. cbn [fst].
    destruct (Hobj col) as [xs Hxs]; [left|]. rewrite Hxs. cbn beta iota.
    rewrite bind_run. unfold lift at 1. cbn [str_strip str_method]. cbn beta iota.
    rewrite bind_run. unfold lift at 1. cbn [str_upper str_method]. cbn beta iota.
    unfold setitem at 1. cbn [fst snd].
    unfold convert_columns. cbn [fold_left]. unfold update_col at 2. rewrite Hxs.
    cbn [on_text]. rewrite map_map.
    replace (map (fun x => Text.upper <$> (Text.strip <$> x)) xs)
      with (map (fmap strip_upper_text) xs)
      by (apply map_ext; intros [s|]; reflexivity).
    apply IH. intros col' Hin.
    destruct (decide (col' = col)) as [->|Hne].
    + rewrite get_set_same. eauto.
    + rewrite get_set_other by assumption. apply Hobj. right. assumption.
Qed.

(** the [try] block of [clean_kyc_industry_codes] on a table whose column
    names stay distinct *)
Lemma codes_block_run f lg :
  (forall r, reset_index (drop_duplicates f) = Ok r ->
             NoDup (column_names (rename "index" "industry_code" r))) ->
  (inplace (fun f => Ok (drop_duplicates f)) ;;
   inplace reset_index ;;
   inplace (fun f => Ok (rename "index" "industry_code" f)) ;;
   cols ← (fun s : fstate => (Ok (select_dtypes_object (fst s)), s));
   for_ cols (fun col =>
     c ← getitem col; c ← lift (str_strip c); c ← lift (str_upper c);
     setitem col c)) (f, lg)
  = (outcome_of (snd (codes_cleaned f)), (fst (codes_cleaned f), lg)).
Proof.
  intros Hnd. unfold codes_cleaned.
  rewrite bind_run. unfold inplace at 1. cbn [fst snd]. cbn beta iota.
  rewrite bind_run. unfold inplace at 1. cbn [fst snd].
  destruct (reset_index (drop_duplicates f)) as [r|e] eqn:Hr; [|reflexivity].
  cbn beta iota. rewrite bind_run. unfold inplace at 1. cbn [fst snd]. cbn beta iota.
  rewrite bind_run. cbn beta iota. cbn [fst snd].
  rewrite strip_upper_loop_run.
  - rewrite convert_all_text by (apply Hnd; reflexivity). reflexivity.
  - intros col Hin. apply get_col_object_names; [exact Hin | apply Hnd; reflexivity].
Qed.

Lemma clean_kyc_industry_codes_run l w f :
  heap w !! l = Some f ->
  (forall r, reset_index (drop_duplicates f) = Ok r ->
             NoDup (column_names (rename "index" "industry_code" r))) ->
  clean_kyc_industry_codes l w
  = (Ok (length (heap w)),
     mkWorld (heap w ++ [fst (codes_cleaned f)])
             (log w ++ log_exn "Error cleaning KYC industry codes data"
                         (snd (codes_cleaned f)))
             (csv_files w) (text_files w)).
Proof.
  intros Hl Hnd. unfold clean_kyc_industry_codes.
  rewrite bind_run. erewrite copy_run by eassumption. cbn beta iota.
  rewrite bind_run.
  erewrite on_fresh
    by (erewrite try_except_log by (apply codes_block_run, Hnd); reflexivity).
  reflexivity.
Qed.

(** whatever the table, the function returns a new object that has the
    rows left by the removal of duplicates *)
Lemma clean_kyc_industry_codes_total l w f :
  heap w !! l = Some f ->
  exists out lg,
    clean_kyc_industry_codes l w
    = (Ok (length (heap w)),
       mkWorld (heap w ++ [out]) (log w ++ lg) (csv_files w) (text_files w))
    /\ nrows out = nrows (drop_duplicates f).
Proof.
  intros Hl. unfold clean_kyc_industry_codes.
  rewrite bind_run. erewrite copy_run by eassumption. cbn beta iota.
  rewrite bind_run.
  match goal with
  | |- context [on _ (try_except ?body ?h)] =>
      assert (Hbody : exists r f',
                body (f, log w) = (r, (f', log w)) /\ nrows f' = nrows (drop_duplicates f))
  end.
  { rewrite bind_run. unfold inplace at 1. cbn [fst snd]. cbn beta iota.
    rewrite bind_run. unfold inplace at 1. cbn [fst snd].
    destruct (reset_index (drop_duplicates f)) as [r|e] eqn:Hr;
      [|exists (Raise e), (drop_duplicates f); split; reflexivity].
    cbn beta iota. rewrite bind_run. unfold inplace at 1. cbn [fst snd]. cbn beta iota.
    rewrite bind_run. cbn beta iota. cbn [fst snd].
    destruct (strip_upper_loop_rows
                (select_dtypes_object (rename "index" "industry_code" r))
                (rename "index" "industry_code" r) (log w))
      as (res & f' & Hrun & Hi & _).
    exists res, f'. split; [exact Hrun|].
    unfold nrows. rewrite Hi. cbn [rename index].
    unfold reset_index in Hr. destruct (has_column _ _); [discriminate|].
    injection Hr as <-. cbn [index]. apply series_len_RangeIndex. }
  destruct Hbody as (r & f' & Hbody & Hrows).
  destruct r as [[]|e].
  - exists f', []. split; [|exact Hrows].
    erewrite on_fresh by (unfold try_except; rewrite Hbody; reflexivity).
    rewrite app_nil_r. reflexivity.
  - exists f', [LogError "Error cleaning KYC industry codes data" (Some e)].
    split; [|exact Hrows].
    erewrite on_fresh by (unfold try_except; rewrite Hbody; reflexivity).
    reflexivity.
Qed.

End IndustryCodes.

Lemma strip_upper_text_fixed s :
  Text.strip (strip_upper_text s) = strip_upper_text s
  /\ Text.upper (strip_upper_text s) = strip_upper_text s.
Proof.
  unfold strip_upper_text. split; [|apply upper_idem].
  apply strip_upper, strip_idem.
Qed.

Lemma column_names_map_columns g x : column_names (map_columns g x) = column_names x.
Proof. unfold column_names, map_columns. cbn [columns]. rewrite map_map. reflexivity. Qed.

Lemma codes_key_fresh f :
  "index" ∉ column_names f -> codes_key f ∉ column_names f ->
  has_column (reset_index_name f) f = false.
Proof.
  intros Hi Hk. unfold has_column. apply bool_decide_eq_false.
  unfold codes_key in Hk. destruct (decide (reset_index_name f = "index")) as [->|_]; assumption.
Qed.

(** X2.  [clean_kyc_industry_codes] never raises and works on a copy: it
    returns a new table and leaves every table of the caller, the input
    included, as it was.  Whatever happens inside its [try] block, the table
    returned has the rows that the removal of duplicates left: as many as
    the input has distinct rows, compared on the columns without the index.
    No row leaves for a missing code. *)
Theorem industry_codes_ownership {pd : Pandas} (l : loc) (w : world) (f : DataFrame) :
  heap w !! l = Some f ->
  exists w' out,
    clean_kyc_industry_codes l w = (Ok (length (heap w)), w')
    /\ heap w' = heap w ++ [out]
    /\ (forall k g, heap w !! k = Some g -> heap w' !! k = Some g)
    /\ nrows out = nrows (drop_duplicates f)
    /\ (columns f <> [] -> nrows out = length (remove_dups (rows f))).
Proof.
  intros Hl. destruct (clean_kyc_industry_codes_total l w f Hl) as (out & lg & Hrun & Hrows).
  eexists _, out. split; [exact Hrun|]. cbn [heap].
  split; [reflexivity|].
  split; [intros k g Hk; apply lookup_app_l_Some, Hk|].
  split; [exact Hrows|].
  intros Hc. rewrite Hrows. apply nrows_drop_duplicates, Hc.
Qed.

Lemma industry_codes_ownership_witness :
  heap (Examples.world_of Examples.codes_with_gap) !! 0 = Some Examples.codes_with_gap
  /\ exists w' out,
    clean_kyc_industry_codes 0 (Examples.world_of Examples.codes_with_gap) = (Ok 1, w')
    /\ heap w' = [Examples.codes_with_gap] ++ [out]
    /\ (forall k g, heap (Examples.world_of Examples.codes_with_gap) !! k = Some g ->
                    heap w' !! k = Some g)
    /\ nrows out = nrows (drop_duplicates Examples.codes_with_gap)
    /\ (columns Examples.codes_with_gap <> [] ->
        nrows out = length (remove_dups (rows Examples.codes_with_gap))).
Proof.
  split; [reflexivity|].
  exact (industry_codes_ownership 0 (Examples.world_of Examples.codes_with_gap)
           Examples.codes_with_gap eq_refl).
Defined.



(** X4.  When the name the index takes as a column is already the name of a
    column, [reset_index] refuses and the one [try] block of
    [clean_kyc_industry_codes] ends there: the refusal is logged and the
    table returned is the input without its duplicate rows and nothing more;
    the index stays where it was and no text is trimmed or put in upper
    case. *)
Theorem industry_codes_refused {pd : Pandas} (l : loc) (w : world) (f : DataFrame) :
  heap w !! l = Some f ->
  reset_index_name f ∈ column_names f ->
  exists w',
    clean_kyc_industry_codes l w = (Ok (length (heap w)), w')
    /\ heap w' !! length (heap w) = Some (drop_duplicates f)
    /\ new_log w w'
       = [LogError "Error cleaning KYC industry codes data" (Some ValueError)].
Proof.
  intros Hl Hin.
  assert (Hr : reset_index (drop_duplicates f) = Raise ValueError).
  { unfold reset_index.
    rewrite reset_index_name_drop_duplicates, has_column_drop_duplicates.
    unfold has_column. rewrite bool_decide_eq_true_2 by exact Hin. reflexivity. }
  rewrite (clean_kyc_industry_codes_run l w f Hl)
    by (intros r Hr'; rewrite Hr in Hr'; discriminate).
  unfold codes_cleaned. rewrite Hr. cbn [fst snd log_exn].
  eexists. split; [reflexivity|]. cbn [heap].
  split; [apply list_lookup_middle; reflexivity|].
  erewrite new_log_app by (cbn [log]; reflexivity). reflexivity.
Qed.

Lemma industry_codes_refused_witness :
  heap (Examples.world_of Cases.codes_clash) !! 0 = Some Cases.codes_clash
  /\ reset_index_name Cases.codes_clash ∈ column_names Cases.codes_clash
  /\ exists w',
    clean_kyc_industry_codes 0 (Examples.world_of Cases.codes_clash) = (Ok 1, w')
    /\ heap w' !! 1 = Some (drop_duplicates Cases.codes_clash)
    /\ new_log (Examples.world_of Cases.codes_clash) w'
       = [LogError "Error cleaning KYC industry codes data" (Some ValueError)].
Proof.
  assert (Hin : reset_index_name Cases.codes_clash ∈ column_names Cases.codes_clash)
    by (apply (bool_decide_unpack _); vm_compute; exact I).
  split; [reflexivity|]. split; [exact Hin|].
  exact (industry_codes_refused 0 (Examples.world_of Cases.codes_clash)
           Cases.codes_clash eq_refl Hin).
Defined.

(** ** [clean_bool_columns], one [try] per column *)

Section BoolIsolation.
Context {pd : Pandas}.

Lemma astype_bool_again c c' : astype_bool c = Ok c' -> astype_bool c' = Ok c'.
Proof.
  destruct c as [xs|xs|xs|xs]; cbn [astype_bool]; try (intros [= <-]; reflexivity).
  destruct (datetime_astype_bool xs); [intros [= <-]; reflexivity | discriminate].
Qed.

Lemma bool_columns_cleaned_cases cols f :
  (forall col,
      get_col col (fst (bool_columns_cleaned cols f))
      = if decide (col ∈ cols) then as_bool <$> get_col col f else get_col col f)
  /\ (forall r, r ∈ snd (bool_columns_cleaned cols f)
        <-> exists col c e,
              col ∈ cols /\ get_col col f = Some c /\ astype_bool c = Raise e
              /\ r = LogError "Error converting to bool" (Some e))
  /\ index (fst (bool_columns_cleaned cols f)) = index f.
Proof.
  revert f. induction cols as [|c0 cols IH]; intros f.
  - split; [|split; [|reflexivity]].
    + intros col. rewrite decide_False by apply not_elem_of_nil. reflexivity.
    + intros r. cbn. split; [intros Hr; inversion Hr|].
      intros (col & c & e & Hin & _). inversion Hin.
  - cbn [bool_columns_cleaned]. destruct (get_col c0 f) as [s|] eqn:Hs.
    + destruct (astype_bool s) as [s'|e] eqn:Has.
      * destruct (IH (set_col c0 s' f)) as (Hget & Hlog & Hidx).
        split; [|split; [|exact Hidx]].
        -- intros col. rewrite Hget. destruct (decide (col = c0)) as [->|Hne].
           ++ rewrite get_set_same, Hs. rewrite (decide_True (P := c0 ∈ c0 :: cols)) by left.
              cbn. unfold as_bool at 2. rewrite Has.
              destruct (decide (c0 ∈ cols)); [|reflexivity].
              unfold as_bool. rewrite (astype_bool_again _ _ Has). reflexivity.
           ++ rewrite get_set_other by exact Hne.
              destruct (decide (col ∈ cols)) as [Hin|Hin].
              ** rewrite decide_True by (right; exact Hin). reflexivity.
              ** rewrite decide_False; [reflexivity|].
                 intros Hc. apply elem_of_cons in Hc as [?|?]; [congruence | contradiction].
        -- intros r. rewrite Hlog. split.
           ++ intros (col & c & e & Hin & Hc & He & ->).
              assert (Hne : col <> c0).
              { intros ->. rewrite get_set_same in Hc. injection Hc as <-.
                rewrite (astype_bool_again _ _ Has) in He. discriminate. }
              rewrite get_set_other in Hc by exact Hne.
              exists col, c, e. split; [right; exact Hin|]. repeat split; assumption.
           ++ intros (col & c & e & Hin & Hc & He & ->).
              assert (Hne : col <> c0) by (intros ->; congruence).
              apply elem_of_cons in Hin as [?|Hin]; [contradiction|].
              exists col, c, e. rewrite get_set_other by exact Hne.
              repeat split; assumption.
      * destruct (IH f) as (Hget & Hlog & Hidx).
        destruct (bool_columns_cleaned cols f) as [f' lg]. cbn [fst snd] in *.
        split; [|split; [|exact Hidx]].
        -- intros col. rewrite Hget. destruct (decide (col = c0)) as [->|Hne].
           ++ rewrite Hs. rewrite (decide_True (P := c0 ∈ c0 :: cols)) by left.
              cbn. unfold as_bool. rewrite Has.
              destruct (decide (c0 ∈ cols)); reflexivity.
           ++ destruct (decide (col ∈ cols)) as [Hin|Hin].
              ** rewrite decide_True by (right; exact Hin). reflexivity.
              ** rewrite decide_False; [reflexivity|].
                 intros Hc. apply elem_of_cons in Hc as [?|?]; [congruence | contradiction].
        -- intros r. rewrite elem_of_cons, Hlog. split.
           ++ intros [->|(col & c & e' & Hin & Hc & He & ->)].
              ** exists c0, s, e. split; [left|]. repeat split; assumption.
              ** exists col, c, e'. split; [right; exact Hin|]. repeat split; assumption.
           ++ intros (col & c & e' & Hin & Hc & He & ->).
              apply elem_of_cons in Hin as [->|Hin].
              ** left. congruence.
              ** right. exists col, c, e'. repeat split; assumption.
    + destruct (IH f) as (Hget & Hlog & Hidx).
      split; [|split; [|exact Hidx]].
      * intros col. rewrite Hget. destruct (decide (col = c0)) as [->|Hne].
        -- rewrite Hs. rewrite (decide_True (P := c0 ∈ c0 :: cols)) by left.
           destruct (decide (c0 ∈ cols)); reflexivity.
        -- destruct (decide (col ∈ cols)) as [Hin|Hin].
           ++ rewrite decide_True by (right; exact Hin). reflexivity.
           ++ rewrite decide_False; [reflexivity|].
              intros Hc. apply elem_of_cons in Hc as [?|?]; [congruence | contradiction].
      * intros r. rewrite Hlog. split.
        -- intros (col & c & e & Hin & Hrest). exists col, c, e.
           split; [right; exact Hin | exact Hrest].
        -- intros (col & c & e & Hin & Hc & Hrest).
           apply elem_of_cons in Hin as [->|Hin]; [congruence|].
           exists col, c, e. repeat split; tauto.
Qed.

End BoolIsolation.

(** X5.  [clean_bool_columns] never raises and converts column by column,
    each in a [try] block of its own.  Every listed column the table has is
    replaced by its conversion to [bool] when the conversion succeeds and is
    left as it was when it raises, whatever happens to the other listed
    columns; one error is logged for each conversion that raised and
    nothing else is logged; the columns that are not listed and the row
    index are as they were. *)
Theorem bool_columns_isolated {pd : Pandas} (l : loc) (w : world) (f : DataFrame)
    (bool_columns : list string) :
  heap w !! l = Some f ->
  exists w' out,
    clean_bool_columns l bool_columns w = (Ok l, w')
    /\ heap w' = <[l := out]> (heap w)
    /\ index out = index f
    /\ (forall col,
          get_col col out
          = if decide (col ∈ bool_columns) then as_bool <$> get_col col f
            else get_col col f)
    /\ (forall r, r ∈ new_log w w'
          <-> exists col c e,
                col ∈ bool_columns /\ get_col col f = Some c
                /\ astype_bool c = Raise e
                /\ r = LogError "Error converting to bool" (Some e)).
Proof.
  intros Hl. rewrite (clean_bool_columns_run l bool_columns w f Hl).
  destruct (bool_columns_cleaned_cases bool_columns f) as (Hget & Hlog & Hidx).
  eexists _, _. split; [reflexivity|]. cbn [heap].
  split; [reflexivity|]. split; [exact Hidx|]. split; [exact Hget|].
  intros r. erewrite new_log_app by (cbn [log]; reflexivity). apply Hlog.
Qed.

Lemma bool_columns_isolated_witness :
  heap (Examples.world_of Examples.card_table) !! 0 = Some Examples.card_table
  /\ exists w' out,
    clean_bool_columns 0 ["ecommerce_ind"; "cash_indicator"]
      (Examples.world_of Examples.card_table) = (Ok 0, w')
    /\ heap w' = <[0 := out]> (heap (Examples.world_of Examples.card_table))
    /\ index out = index Examples.card_table
    /\ (forall col,
          get_col col out
          = if decide (col ∈ ["ecommerce_ind"; "cash_indicator"])
            then as_bool <$> get_col col Examples.card_table
            else get_col col Examples.card_table)
    /\ (forall r, r ∈ new_log (Examples.world_of Examples.card_table) w'
          <-> exists col c e,
                col ∈ ["ecommerce_ind"; "cash_indicator"]
                /\ get_col col Examples.card_table = Some c
                /\ astype_bool c = Raise e
                /\ r = LogError "Error converting to bool" (Some e)).
Proof.
  split; [reflexivity|].
  exact (bool_columns_isolated 0 (Examples.world_of Examples.card_table)
           Examples.card_table ["ecommerce_ind"; "cash_indicator"] eq_refl).
Defined.

(** ** The formats [clean_transactions] leaves, rule by rule *)

Lemma is_object_take m c : is_object c = true -> is_object (series_take m c) = true.
Proof. destruct c; simpl; auto. Qed.

Lemma not_datetime_take m c : is_datetime c = false -> is_datetime (series_take m c) = false.
Proof. destruct c; simpl; auto. Qed.

Lemma get_col_drop_duplicates col f :
  exists m, get_col col (drop_duplicates f)
            = (fun c => if df_empty f then c else series_take m c) <$> get_col col f.
Proof.
  unfold drop_duplicates. exists (first_occurrence [] (rows f)).
  destruct (df_empty f).
  - destruct (get_col col f); reflexivity.
  - apply get_col_filter_rows.
Qed.

(** a property of columns that selecting rows keeps *)
Lemma column_is_drop_duplicates col (Q : Series -> Prop) f :
  (forall m c, Q c -> Q (series_take m c)) ->
  column_is col Q f -> column_is col Q (drop_duplicates f).
Proof.
  intros Hq Hf. unfold drop_duplicates. destruct (df_empty f); [exact Hf|].
  apply column_is_filter_rows; [apply Hq | exact Hf].
Qed.

Lemma column_is_drop_missing col k (Q : Series -> Prop) f :
  (forall m c, Q c -> Q (series_take m c)) ->
  column_is col Q f -> column_is col Q (drop_missing k f).
Proof.
  intros Hq Hf. unfold drop_missing. destruct (get_col k f); [|exact Hf].
  apply column_is_filter_rows; [apply Hq | exact Hf].
Qed.

Lemma column_is_map_columns col (Q : Series -> Prop) g f :
  (forall c, Q c -> Q (g c)) -> column_is col Q f -> column_is col Q (map_columns g f).
Proof.
  intros Hq Hf c. rewrite get_col_map_columns.
  destruct (get_col col f) as [c0|] eqn:Hc; [|discriminate].
  intros [= <-]. apply Hq, Hf, Hc.
Qed.

Lemma column_is_update col col0 (Q : Series -> Prop) g f :
  (forall c, Q c -> Q (g c)) -> column_is col Q f -> column_is col Q (update_col g f col0).
Proof.
  intros Hq Hf. destruct (decide (col = col0)) as [->|Hne].
  - intros c. rewrite get_col_update_same.
    destruct (get_col col0 f) as [c0|] eqn:Hc; [|discriminate].
    intros [= <-]. apply Hq, Hf, Hc.
  - eapply column_is_frame; [apply get_col_update_other, Hne | exact Hf].
Qed.

Lemma column_is_convert col (Q : Series -> Prop) g cols f :
  (forall c, Q c -> Q (g c)) ->
  column_is col Q f -> column_is col Q (convert_columns g cols f).
Proof.
  intros Hq. unfold convert_columns. revert f.
  induction cols as [|c0 cols IH]; intros f Hf; cbn [fold_left]; [exact Hf|].
  apply IH, column_is_update; assumption.
Qed.

Lemma column_is_convert_in col (Q : Series -> Prop) g cols f :
  (forall c, Q (g c)) -> col ∈ cols -> column_is col Q (convert_columns g cols f).
Proof.
  intros Hq. unfold convert_columns. revert f.
  induction cols as [|c0 cols IH]; intros f Hin; [inversion Hin|].
  cbn [fold_left]. destruct (decide (col = c0)) as [->|Hne].
  - apply (column_is_convert c0 Q g cols); [intros c _; apply Hq|].
    apply column_is_update_same, Hq.
  - apply IH. apply elem_of_cons in Hin as [?|?]; [contradiction | assumption].
Qed.

Lemma all_columns_map_strip f : all_columns trimmed (map_columns (on_text Text.strip) f).
Proof.
  intros col c. rewrite get_col_map_columns.
  destruct (get_col col f) as [c0|]; [|discriminate]. intros [= <-].
  destruct c0 as [xs| | |]; simpl; try exact I.
  apply Forall_map, Forall_forall. intros [s|] _; simpl; [|reflexivity].
  rewrite strip_idem. reflexivity.
Qed.

Section Formats.
Context {pd : Pandas}.

Lemma trimmed_to_datetime c : trimmed (to_datetime c).
Proof. exact I. Qed.

Lemma trimmed_to_numeric c : trimmed c -> trimmed (to_numeric c).
Proof. destruct c; simpl; intros; exact I. Qed.

Lemma column_is_str_columns g cols col (Q : Series -> Prop) f :
  (forall xs, Q (ObjectS xs) -> Q (ObjectS (map (fmap g) xs))) ->
  column_is col Q f -> column_is col Q (fst (str_columns g cols f)).
Proof.
  intros Hq. revert f. induction cols as [|c0 cols IH]; intros f Hf; [exact Hf|].
  cbn [str_columns]. destruct (get_col c0 f) as [c|] eqn:Hc; [|apply IH, Hf].
  destruct c as [xs| | |]; cbn [str_method]; try exact Hf.
  apply IH. destruct (decide (col = c0)) as [->|Hne].
  - apply column_is_set_same, Hq, Hf, Hc.
  - eapply column_is_frame; [apply get_set_other, Hne | exact Hf].
Qed.

Lemma trimmed_str_method g xs :
  (forall s, Text.strip s = s -> Text.strip (g s) = g s) ->
  trimmed (ObjectS xs) -> trimmed (ObjectS (map (fmap g) xs)).
Proof.
  intros Hg Ht. simpl in *. apply Forall_map.
  eapply Forall_impl; [exact Ht|]. intros [s|] Ho; simpl in *; [|reflexivity].
  f_equal. apply Hg. congruence.
Qed.

Lemma column_is_combine col (Q : Series -> Prop) f :
  (forall c, Q c -> Q (fillna_str "00:00:00" c)) ->
  (forall c, Q (to_datetime c)) ->
  column_is col Q f -> column_is col Q (fst (combine_date_time f)).
Proof.
  intros Hfill Hdt Hf. unfold combine_date_time.
  destruct (get_col "transaction_date" f) as [d|]; [|exact Hf].
  destruct (get_col "transaction_time" f) as [t|] eqn:Ht; [|exact Hf].
  cbv zeta.
  assert (Hf' : column_is col Q (set_col "transaction_time" (fillna_str "00:00:00" t) f)).
  { destruct (decide (col = "transaction_time")) as [->|Hne].
    - apply column_is_set_same, Hfill, Hf, Ht.
    - eapply column_is_frame; [apply get_set_other, Hne | exact Hf]. }
  destruct (dt_strftime d) as [ds|]; [|exact Hf'].
  destruct (add_str ds " ") as [ds'|]; [|exact Hf'].
  destruct (add_series ds' _) as [dt|]; [|exact Hf'].
  cbn [fst]. destruct (decide (col = "transaction_datetime")) as [->|Hne].
  - apply column_is_set_same, Hdt.
  - eapply column_is_frame; [apply get_set_other, Hne | exact Hf'].
Qed.

Lemma fillna_datetime c :
  is_datetime c = true -> is_datetime (fillna_str "00:00:00" c) = true.
Proof. destruct c; simpl; auto; discriminate. Qed.

(** the text block on columns that are all text or absent *)
Lemma str_columns_text g cols f :
  (forall col, col ∈ cols -> column_is col (fun c => is_object c = true) f) ->
  str_columns g cols f = (convert_columns (on_text g) cols f, None).
Proof.
  revert f. induction cols as [|c0 cols IH]; intros f Hobj; [reflexivity|].
  cbn [str_columns]. unfold convert_columns. cbn [fold_left]. unfold update_col at 2.
  destruct (get_col c0 f) as [c|] eqn:Hc.
  - pose proof (Hobj c0 (list_elem_of_here _ _) c Hc) as Ho.
    destruct c as [xs| | |]; try discriminate. cbn [str_method on_text].
    apply IH. intros col Hin. destruct (decide (col = c0)) as [->|Hne].
    + apply column_is_set_same. reflexivity.
    + eapply column_is_frame; [apply get_set_other, Hne|].
      apply Hobj. right. exact Hin.
  - apply IH. intros col Hin. apply Hobj. right. exact Hin.
Qed.

Lemma text_fixed_on_text g c :
  (forall s, g (g s) = g s) -> is_object c = true -> text_fixed g (on_text g c).
Proof.
  intros Hg. destruct c as [xs| | |]; try discriminate. intros _. simpl.
  apply Forall_map, Forall_forall. intros [s|] _; simpl; [|reflexivity].
  rewrite Hg. reflexivity.
Qed.

Lemma text_fixed_again g c : text_fixed g c -> text_fixed g (on_text g c).
Proof.
  destruct c as [xs| | |]; simpl; try contradiction. intros Hall.
  apply Forall_map. eapply Forall_impl; [exact Hall|].
  intros o Ho. simpl. rewrite Ho. exact Ho.
Qed.

Lemma text_fixed_convert g cols col f :
  (forall s, g (g s) = g s) ->
  col ∈ cols ->
  column_is col (fun c => is_object c = true) f ->
  column_is col (text_fixed g) (convert_columns (on_text g) cols f).
Proof.
  intros Hg. unfold convert_columns. revert f.
  induction cols as [|c0 cols IH]; intros f Hin Hobj; [inversion Hin|].
  cbn [fold_left]. destruct (decide (col = c0)) as [->|Hne].
  - apply (column_is_convert c0 (text_fixed g) (on_text g) cols);
      [apply text_fixed_again|].
    intros c. rewrite get_col_update_same.
    destruct (get_col c0 f) as [c1|] eqn:Hc; [|discriminate].
    intros [= <-]. apply text_fixed_on_text; [exact Hg | apply (Hobj c1 Hc)].
  - apply IH.
    + apply elem_of_cons in Hin as [?|?]; [contradiction | assumption].
    + eapply column_is_frame; [apply get_col_update_other, Hne | exact Hobj].
Qed.

(** a column that no conversion is asked for and that the date and time
    block does not write has, before the two text blocks, the type it had *)
Lemma column_is_before_text col (Q : Series -> Prop) date_cols numeric_cols f :
  (forall m c, Q c -> Q (series_take m c)) ->
  (forall c, Q c -> Q (on_text Text.strip c)) ->
  col ∉ date_cols -> col ∉ numeric_cols ->
  col <> "transaction_time" -> col <> "transaction_datetime" ->
  column_is col Q f ->
  column_is col Q
    (convert_columns to_numeric numeric_cols
       (fst (combine_date_time
          (convert_columns to_datetime date_cols
             (map_columns (on_text Text.strip) (drop_duplicates f)))))).
Proof.
  intros Htake Hstrip Hd Hn Ht Hdt Hf.
  eapply column_is_frame; [apply get_col_convert_other, Hn|].
  eapply column_is_frame; [apply get_col_combine_other; assumption|].
  eapply column_is_frame; [apply get_col_convert_other, Hd|].
  apply column_is_map_columns; [exact Hstrip|].
  apply column_is_drop_duplicates; assumption.
Qed.

Lemma is_object_on_text g c : is_object c = true -> is_object (on_text g c) = true.
Proof. destruct c; simpl; auto. Qed.

(** every text column is trimmed before the key rule, whatever failed *)
Lemma before_key_rule_trimmed date_cols numeric_cols f :
  all_columns trimmed (before_key_rule date_cols numeric_cols f).
Proof.
  intros col. unfold before_key_rule.
  apply column_is_str_columns; [intros xs; apply trimmed_str_method, strip_upper|].
  apply column_is_str_columns; [intros xs; apply trimmed_str_method, strip_lower|].
  apply column_is_convert; [apply trimmed_to_numeric|].
  apply column_is_combine; [apply fillna_trimmed | apply trimmed_to_datetime|].
  apply column_is_convert; [intros c _; apply trimmed_to_datetime|].
  apply all_columns_map_strip.
Qed.

Lemma before_key_rule_datetime date_cols numeric_cols f col :
  col ∈ date_cols -> col ∉ numeric_cols ->
  column_is col (fun c => is_datetime c = true) (before_key_rule date_cols numeric_cols f).
Proof.
  intros Hd Hn. unfold before_key_rule.
  apply column_is_str_columns; [intros xs; discriminate|].
  apply column_is_str_columns; [intros xs; discriminate|].
  eapply column_is_frame; [apply get_col_convert_other, Hn|].
  apply column_is_combine; [apply fillna_datetime | reflexivity|].
  apply column_is_convert_in; [reflexivity | exact Hd].
Qed.

Lemma before_key_rule_numeric date_cols numeric_cols f col :
  col ∈ numeric_cols ->
  column_is col is_numeric (before_key_rule date_cols numeric_cols f).
Proof.
  intros Hn. unfold before_key_rule.
  apply column_is_str_columns; [intros xs []|].
  apply column_is_str_columns; [intros xs []|].
  apply column_is_convert_in; [apply to_numeric_is_numeric | exact Hn].
Qed.

Lemma before_key_rule_lower date_cols numeric_cols f :
  "debit_credit" ∉ date_cols -> "debit_credit" ∉ numeric_cols ->
  column_is "debit_credit" (fun c => is_object c = true) f ->
  column_is "debit_credit" (text_fixed Text.lower)
    (before_key_rule date_cols numeric_cols f).
Proof.
  intros Hd Hn Hobj. unfold before_key_rule.
  eapply column_is_frame;
    [apply get_col_str_columns_other; apply (bool_decide_unpack _); vm_compute; exact I|].
  match goal with
  | |- column_is _ _ (fst (str_columns _ _ ?f5)) =>
      assert (H5 : column_is "debit_credit" (fun c => is_object c = true) f5)
  end.
  { apply column_is_before_text; try assumption; try discriminate.
    - intros m c. apply is_object_take.
    - intros c. apply is_object_on_text. }
  rewrite str_columns_text
    by (intros col Hin; apply list_elem_of_singleton in Hin as ->; exact H5).
  cbn [fst]. apply text_fixed_convert; [apply lower_idem | left | exact H5].
Qed.

Lemma before_key_rule_upper date_cols numeric_cols f :
  (forall col, col ∈ ["country"; "province"; "city"] ->
     (col ∉ date_cols) /\ (col ∉ numeric_cols)
     /\ column_is col (fun c => is_object c = true) f) ->
  forall col, col ∈ ["country"; "province"; "city"] ->
    column_is col (text_fixed Text.upper) (before_key_rule date_cols numeric_cols f).
Proof.
  intros Hgeo col Hin. unfold before_key_rule.
  match goal with
  | |- column_is _ _ (fst (str_columns _ _ ?f6)) =>
      assert (H6 : forall col, col ∈ ["country"; "province"; "city"] ->
                     column_is col (fun c => is_object c = true) f6)
  end.
  { intros col' Hin'. destruct (Hgeo col' Hin') as (Hd & Hn & Hobj).
    assert (Hne : col' <> "transaction_time" /\ col' <> "transaction_datetime"
                  /\ col' ∉ ["debit_credit"]).
    { rewrite !elem_of_cons in Hin'.
      destruct Hin' as [->|[->|[->|Hin']]]; [| | |inversion Hin'];
        (split; [discriminate|]; split; [discriminate|]);
        apply (bool_decide_unpack _); vm_compute; exact I. }
    destruct Hne as (Ht & Hdt & Hdc).
    eapply column_is_frame; [apply get_col_str_columns_other, Hdc|].
    apply column_is_before_text; try assumption.
    - intros m c. apply is_object_take.
    - intros c. apply is_object_on_text. }
  rewrite str_columns_text by exact H6.
  cbn [fst]. apply text_fixed_convert; [apply upper_idem | exact Hin | apply H6, Hin].
Qed.

End Formats.

(** ** Where a failing block of [clean_transactions] leaves the table *)

Lemma get_col_convert_fmap col (Q : Series -> Prop) g cols f :
  (col ∈ cols -> forall c, Q c -> Q (g c)) ->
  exists h, (forall c, Q c -> Q (h c))
            /\ get_col col (convert_columns g cols f) = h <$> get_col col f.
Proof.
  unfold convert_columns. revert f.
  induction cols as [|c0 cols IH]; intros f Hq; cbn [fold_left].
  - exists (fun c => c). split; [auto|]. destruct (get_col col f); reflexivity.
  - destruct (IH (update_col g f c0)) as (h & Hh & Hget).
    { intros Hin. apply Hq. right. exact Hin. }
    rewrite Hget. destruct (decide (col = c0)) as [->|Hne].
    + rewrite get_col_update_same. exists (fun c => h (g c)). split.
      * intros c Hc. apply Hh, Hq; [left | exact Hc].
      * destruct (get_col c0 f); reflexivity.
    + rewrite get_col_update_other by exact Hne. exists h. split; [exact Hh | reflexivity].
Qed.

Section Tracking.
Context {pd : Pandas}.

(** a column through the removal of duplicates, the trimming and the
    conversion of the date columns *)
Lemma get_col_after_dates col (Q : Series -> Prop) date_cols f :
  (forall m c, Q c -> Q (series_take m c)) ->
  (forall c, Q c -> Q (on_text Text.strip c)) ->
  (col ∈ date_cols -> forall c, Q c -> Q (to_datetime c)) ->
  exists h, (forall c, Q c -> Q (h c))
            /\ get_col col (convert_columns to_datetime date_cols
                              (map_columns (on_text Text.strip) (drop_duplicates f)))
               = h <$> get_col col f.
Proof.
  intros Htake Hstrip Hdate.
  destruct (get_col_convert_fmap col Q to_datetime date_cols
              (map_columns (on_text Text.strip) (drop_duplicates f)) Hdate)
    as (h3 & Hh3 & Hg3).
  destruct (get_col_drop_duplicates col f) as (m & Hg1).
  rewrite Hg3, get_col_map_columns, Hg1.
  exists (fun c => h3 (on_text Text.strip (if df_empty f then c else series_take m c))).
  split.
  - intros c Hc. apply Hh3, Hstrip. destruct (df_empty f); [exact Hc | apply Htake, Hc].
  - destruct (get_col col f); reflexivity.
Qed.

(** ... and further through the date and time block and the conversion of
    the numeric columns, for a column that block does not write *)
Lemma get_col_before_text col (Q : Series -> Prop) date_cols numeric_cols f :
  (forall m c, Q c -> Q (series_take m c)) ->
  (forall c, Q c -> Q (on_text Text.strip c)) ->
  (col ∈ date_cols -> forall c, Q c -> Q (to_datetime c)) ->
  (col ∈ numeric_cols -> forall c, Q c -> Q (to_numeric c)) ->
  col <> "transaction_time" -> col <> "transaction_datetime" ->
  exists h, (forall c, Q c -> Q (h c))
            /\ get_col col
                 (convert_columns to_numeric numeric_cols
                    (fst (combine_date_time
                       (convert_columns to_datetime date_cols
                          (map_columns (on_text Text.strip) (drop_duplicates f))))))
               = h <$> get_col col f.
Proof.
  intros Htake Hstrip Hdate Hnum Ht Hdt.
  destruct (get_col_after_dates col Q date_cols f Htake Hstrip Hdate) as (h3 & Hh3 & Hg3).
  match goal with
  | |- context [convert_columns to_numeric numeric_cols ?f4] =>
      destruct (get_col_convert_fmap col Q to_numeric numeric_cols f4 Hnum)
        as (h5 & Hh5 & Hg5)
  end.
  rewrite Hg5, get_col_combine_other, Hg3 by assumption.
  exists (fun c => h5 (h3 c)). split; [intros c Hc; apply Hh5, Hh3, Hc|].
  destruct (get_col col f); reflexivity.
Qed.

Lemma transactions_cleaned_log date_cols numeric_cols f :
  snd (transactions_cleaned date_cols numeric_cols f)
  = (let f3 := convert_columns to_datetime date_cols
                 (map_columns (on_text Text.strip) (drop_duplicates f)) in
     let f5 := convert_columns to_numeric numeric_cols (fst (combine_date_time f3)) in
     let f6 := fst (str_columns Text.lower ["debit_credit"] f5) in
     log_exn "Error combining date and time" (snd (combine_date_time f3))
     ++ log_exn "Error standardizing 'debit_credit'"
          (snd (str_columns Text.lower ["debit_credit"] f5))
     ++ log_exn "Error standardizing geographic columns"
          (snd (str_columns Text.upper ["country"; "province"; "city"] f6))).
Proof.
  unfold transactions_cleaned. cbv zeta.
  destruct (combine_date_time _) as [f4 e4]. cbn [fst snd].
  destruct (str_columns Text.lower _ _) as [f6 e6]. cbn [fst snd].
  destruct (str_columns Text.upper _ _) as [f7 e7]. reflexivity.
Qed.

Lemma not_object_to_datetime c : is_object (to_datetime c) = false.
Proof. reflexivity. Qed.

Lemma not_object_to_numeric c : is_object c = false -> is_object (to_numeric c) = false.
Proof. destruct c; simpl; auto. Qed.

Lemma not_object_take m c : is_object c = false -> is_object (series_take m c) = false.
Proof. destruct c; simpl; auto. Qed.

Lemma not_object_on_text g c : is_object c = false -> is_object (on_text g c) = false.
Proof. destruct c; simpl; auto. Qed.

Lemma str_method_not_object g c : is_object c = false -> str_method g c = Raise AttributeError.
Proof. destruct c; simpl; try reflexivity; discriminate. Qed.

Lemma dt_strftime_not_datetime c :
  is_datetime c = false -> dt_strftime c = Raise AttributeError.
Proof. destruct c; simpl; try reflexivity; discriminate. Qed.

End Tracking.



(** X7.  A run of [clean_kyc_data] in which no block failed returns a table
    that has a [customer_id] column without missing value, trimmed text,
    datetime [established_date] and [onboard_date], numeric [sales] and
    [employee_count], upper-case [country], [province], [city] and
    [industry_code], as far as it has these columns; its rows carry the
    distinct positions they had after the index was reset, under an index
    without a name; its columns have distinct names and the length of the
    index. *)
Theorem kyc_formats {pd : Pandas} (l : loc) (w : world) (f : DataFrame)
    (l' : loc) (w' : world) :
  heap w !! l = Some f ->
  wf f ->
  clean_kyc_data l w = (Ok l', w') ->
  errors (new_log w w') = [] ->
  exists out,
    heap w' !! l' = Some out
    /\ wf out
    /\ all_columns trimmed out
    /\ column_is "established_date" (fun c => is_datetime c = true) out
    /\ column_is "onboard_date" (fun c => is_datetime c = true) out
    /\ column_is "sales" is_numeric out
    /\ column_is "employee_count" is_numeric out
    /\ column_is "country" (text_fixed Text.upper) out
    /\ column_is "province" (text_fixed Text.upper) out
    /\ column_is "city" (text_fixed Text.upper) out
    /\ column_is "industry_code" (text_fixed Text.upper) out
    /\ is_Some (get_col "customer_id" out)
    /\ column_is "customer_id" no_null out
    /\ index_name out = None
    /\ is_numeric (index out)
    /\ NoDup (cells (index out)).
Proof.
  intros Hl Hwf Hrun Herr.
  rewrite (clean_kyc_data_run l w f Hl (proj1 Hwf)) in Hrun.
  injection Hrun as <- <-.
  erewrite new_log_app in Herr by reflexivity.
  rewrite errors_app in Herr. apply app_eq_nil in Herr as [Herr _].
  pose proof (kyc_first_run_settled f Hwf Herr) as Hs.
  exists (fst (kyc_cleaned f)). cbn [heap].
  split; [apply list_lookup_middle; reflexivity|].
  destruct Hs as [(H1 & H2 & H3 & H4 & H5 & H6 & H7 & H8 & H9 & H10 & H11 & H12)
                  (H13 & H14 & H15)].
  repeat (split; [assumption|]). assumption.
Qed.

Lemma kyc_formats_witness :
  exists w',
    heap (Examples.world_of Examples.kyc_table) !! 0 = Some Examples.kyc_table
    /\ wf Examples.kyc_table
    /\ clean_kyc_data 0 (Examples.world_of Examples.kyc_table) = (Ok 1, w')
    /\ errors (new_log (Examples.world_of Examples.kyc_table) w') = []
    /\ exists out,
        heap w' !! 1 = Some out
        /\ wf out
        /\ all_columns trimmed out
        /\ column_is "established_date" (fun c => is_datetime c = true) out
        /\ column_is "onboard_date" (fun c => is_datetime c = true) out
        /\ column_is "sales" is_numeric out
        /\ column_is "employee_count" is_numeric out
        /\ column_is "country" (text_fixed Text.upper) out
        /\ column_is "province" (text_fixed Text.upper) out
        /\ column_is "city" (text_fixed Text.upper) out
        /\ column_is "industry_code" (text_fixed Text.upper) out
        /\ is_Some (get_col "customer_id" out)
        /\ column_is "customer_id" no_null out
        /\ index_name out = None
        /\ is_numeric (index out)
        /\ NoDup (cells (index out)).
Proof.
  set (w0 := Examples.world_of Examples.kyc_table).
  set (w1 := snd (clean_kyc_data 0 w0)).
  assert (Hwf : wf Examples.kyc_table).
  { split; [apply (bool_decide_unpack _); vm_compute; exact I|]. repeat constructor. }
  assert (Hrun : clean_kyc_data 0 w0 = (Ok 1, w1)) by (vm_compute; reflexivity).
  assert (Herr : errors (new_log w0 w1) = []) by (vm_compute; reflexivity).
  exists w1. split; [reflexivity|]. split; [exact Hwf|]. split; [exact Hrun|].
  split; [exact Herr|].
  exact (kyc_formats 0 w0 Examples.kyc_table 1 w1 eq_refl Hwf Hrun Herr).
Defined.



(** X9.  The statements of a [try] block that ran before the one that
    raised keep their effect.  When the table has a [transaction_date] that
    is not a datetime column (it is no declared date column) and a text
    [transaction_time], the date and time block fills the missing times
    with midnight and then fails on the date: the failure is logged, the
    table returned has a [transaction_time] without missing value, and no
    [transaction_datetime] column is made. *)
Theorem combine_block_half_done {pd : Pandas} (l : loc) (w : world) (f : DataFrame)
    (date_cols numeric_cols : list string) (d : Series) (ts : list (option string)) :
  heap w !! l = Some f ->
  NoDup (column_names f) ->
  get_col "transaction_date" f = Some d ->
  is_datetime d = false ->
  "transaction_date" ∉ date_cols ->
  get_col "transaction_time" f = Some (ObjectS ts) ->
  "transaction_time" ∉ date_cols ->
  "transaction_time" ∉ numeric_cols ->
  exists w' out ts',
    clean_transactions l date_cols numeric_cols w = (Ok (length (heap w)), w')
    /\ heap w' !! length (heap w) = Some out
    /\ LogError "Error combining date and time" (Some AttributeError) ∈ new_log w w'
    /\ get_col "transaction_time" out = Some (ObjectS ts')
    /\ Forall (fun o => o <> None) ts'
    /\ (get_col "transaction_datetime" f = None ->
        get_col "transaction_datetime" out = None).
Proof.
  intros Hl Hnd Hd Hnot Hdc Ht Htd Htn.
  rewrite (clean_transactions_run l _ _ w f Hl Hnd).
  set (f3 := convert_columns to_datetime date_cols
               (map_columns (on_text Text.strip) (drop_duplicates f))).
  (* the date is not a datetime column when the block starts; the time is text *)
  assert (H3d : exists d3, get_col "transaction_date" f3 = Some d3 /\ is_datetime d3 = false).
  { destruct (get_col_after_dates "transaction_date" (fun c => is_datetime c = false)
                date_cols f) as (h & Hh & Hget).
    - intros m c. apply not_datetime_take.
    - intros c. destruct c; simpl; auto.
    - intros Hin. contradiction.
    - exists (h d). split; [|apply Hh, Hnot]. unfold f3. rewrite Hget, Hd. reflexivity. }
  assert (H3t : exists t3, get_col "transaction_time" f3 = Some (ObjectS t3)).
  { destruct (get_col_after_dates "transaction_time" (fun c => is_object c = true)
                date_cols f) as (h & Hh & Hget).
    - intros m c. apply is_object_take.
    - intros c. apply is_object_on_text.
    - intros Hin. contradiction.
    - pose proof (Hh (ObjectS ts) eq_refl) as Ho.
      destruct (h (ObjectS ts)) as [t3| | |] eqn:Hh3; try discriminate.
      exists t3. unfold f3. rewrite Hget, Ht. cbn. rewrite Hh3. reflexivity. }
  destruct H3d as (d3 & Hd3 & Hnot3). destruct H3t as (t3 & Ht3).
  set (filled3 := ObjectS (map (fun o : option string => Some (default "00:00:00" o)) t3)).
  assert (H4 : combine_date_time f3
               = (set_col "transaction_time" filled3 f3, Some AttributeError)).
  { unfold combine_date_time. rewrite Hd3, Ht3. cbv zeta.
    rewrite (dt_strftime_not_datetime _ Hnot3). reflexivity. }
  set (f4 := set_col "transaction_time" filled3 f3).
  set (out := fst (transactions_cleaned date_cols numeric_cols f)).
  assert (Hout : forall col, col <> "country" -> col <> "province" -> col <> "city" ->
            col <> "debit_credit" -> col ∉ numeric_cols ->
            exists m, get_col col out
                      = (fun c => if m is Some m then series_take m c else c) <$> get_col col f4).
  { intros col H1 H2 H3 H4' H5. unfold out. rewrite transactions_cleaned_key_rule.
    assert (Hb : get_col col (before_key_rule date_cols numeric_cols f) = get_col col f4).
    { unfold before_key_rule. fold f3. rewrite H4. cbn [fst]. fold f4.
      rewrite get_col_str_columns_other
        by (rewrite !elem_of_cons; intros [?|[?|[?|Hx]]]; try contradiction; inversion Hx).
      rewrite get_col_str_columns_other
        by (rewrite !elem_of_cons; intros [?|Hx]; try contradiction; inversion Hx).
      apply get_col_convert_other, H5. }
    unfold drop_missing. destruct (get_col "customer_id" _) as [k|].
    - exists (Some (notna k)). rewrite get_col_filter_rows, Hb. reflexivity.
    - exists None. rewrite Hb. destruct (get_col col f4); reflexivity. }
  destruct (Hout "transaction_time") as (m & Hm); try discriminate; [exact Htn|].
  exists (mkWorld (heap w ++ [out])
            (log w ++ snd (transactions_cleaned date_cols numeric_cols f)
             ++ [LogInfo "Transactions cleaned" [nrows f; nrows out]])
            (csv_files w) (text_files w)),
         out,
         (match m with
          | Some m => take_mask m (map (fun o : option string => Some (default "00:00:00" o)) t3)
          | None => map (fun o : option string => Some (default "00:00:00" o)) t3
          end).
  split; [reflexivity|]. cbn [heap].
  split; [apply list_lookup_middle; reflexivity|].
  split.
  { erewrite new_log_app by (cbn [log]; reflexivity).
    rewrite transactions_cleaned_log. cbv zeta. fold f3. rewrite H4.
    cbn [snd log_exn]. rewrite !elem_of_app. left. left. left. }
  split.
  { rewrite Hm. unfold f4. rewrite get_set_same. unfold filled3. destruct m; reflexivity. }
  split.
  { assert (Hall : Forall (fun o : option string => o <> None)
                     (map (fun o : option string => Some (default "00:00:00" o)) t3)).
    { apply Forall_map, Forall_forall. intros o _. discriminate. }
    destruct m; [apply Forall_take_mask|]; exact Hall. }
  intros Hnone. unfold out. rewrite transactions_cleaned_key_rule.
  assert (Hb : get_col "transaction_datetime" (before_key_rule date_cols numeric_cols f)
               = None).
  { unfold before_key_rule. fold f3. rewrite H4. cbn [fst]. fold f4.
    rewrite !get_col_str_columns_other
      by (apply (bool_decide_unpack _); vm_compute; exact I).
    destruct (get_col_convert_fmap "transaction_datetime" (fun _ => True)
                to_numeric numeric_cols f4) as (h & _ & Hg); [auto|].
    rewrite Hg. unfold f4. rewrite get_set_other by discriminate.
    destruct (get_col_after_dates "transaction_datetime" (fun _ => True) date_cols f)
      as (h' & _ & Hg'); auto.
    unfold f3. rewrite Hg', Hnone. reflexivity. }
  unfold drop_missing. destruct (get_col "customer_id" _);
    [rewrite get_col_filter_rows, Hb|rewrite Hb]; reflexivity.
Qed.

Lemma combine_block_half_done_witness :
  heap (Examples.world_of Cases.dated) !! 0 = Some Cases.dated
  /\ NoDup (column_names Cases.dated)
  /\ get_col "transaction_date" Cases.dated
     = Some (ObjectS [Some "2024-01-05"; Some "2024-02-10"])
  /\ is_datetime (ObjectS [Some "2024-01-05"; Some "2024-02-10"]) = false
  /\ ("transaction_date" ∉ ["posting_date"])
  /\ get_col "transaction_time" Cases.dated = Some (ObjectS [Some " 12:30:00"; None])
  /\ ("transaction_time" ∉ ["posting_date"])
  /\ ("transaction_time" ∉ ["amount_cad"])
  /\ exists w' out ts',
    clean_transactions 0 ["posting_date"] ["amount_cad"]
      (Examples.world_of Cases.dated) = (Ok 1, w')
    /\ heap w' !! 1 = Some out
    /\ LogError "Error combining date and time" (Some AttributeError)
       ∈ new_log (Examples.world_of Cases.dated) w'
    /\ get_col "transaction_time" out = Some (ObjectS ts')
    /\ Forall (fun o => o <> None) ts'
    /\ (get_col "transaction_datetime" Cases.dated = None ->
        get_col "transaction_datetime" out = None).
Proof.
  assert (Hnd : NoDup (column_names Cases.dated))
    by (apply (bool_decide_unpack _); vm_compute; exact I).
  assert (H1 : "transaction_date" ∉ ["posting_date"])
    by (apply (bool_decide_unpack _); vm_compute; exact I).
  assert (H2 : "transaction_time" ∉ ["posting_date"])
    by (apply (bool_decide_unpack _); vm_compute; exact I).
  assert (H3 : "transaction_time" ∉ ["amount_cad"])
    by (apply (bool_decide_unpack _); vm_compute; exact I).
  split; [reflexivity|]. split; [exact Hnd|]. split; [reflexivity|]. split; [reflexivity|].
  split; [exact H1|]. split; [reflexivity|]. split; [exact H2|]. split; [exact H3|].
  exact (combine_block_half_done 0 (Examples.world_of Cases.dated) Cases.dated
           ["posting_date"] ["amount_cad"] _ _ eq_refl Hnd eq_refl eq_refl H1 eq_refl H2 H3).
Defined.

(** ** [detect_anomalies]: failure and repetition *)

Lemma scored_twice ys f : scored ys (scored ys f) = scored ys f.
Proof.
  unfold scored.
  rewrite (set_col_id "anomaly_score" (int_series ys)
             (set_col "is_anomaly" _ (set_col "anomaly_score" (int_series ys) f)))
    by (rewrite get_set_other by discriminate; apply get_set_same).
  apply set_col_id, get_set_same.
Qed.

Lemma has_scored_other col ys f :
  col <> "anomaly_score" -> col <> "is_anomaly" ->
  (col ∈ column_names (scored ys f) <-> col ∈ column_names f).
Proof.
  intros H1 H2. unfold column_names. rewrite !assoc_elem.
  change (assoc col (columns (scored ys f))) with (get_col col (scored ys f)).
  unfold scored. rewrite !get_set_other by assumption. reflexivity.
Qed.

Lemma available_scored features ys f :
  "anomaly_score" ∉ default ["amount_cad"] features ->
  "is_anomaly" ∉ default ["amount_cad"] features ->
  available features (scored ys f) = available features f.
Proof.
  unfold available. induction (default ["amount_cad"] features) as [|col cols IH];
    intros H1 H2; [reflexivity|].
  apply not_elem_of_cons in H1 as [Hn1 H1]. apply not_elem_of_cons in H2 as [Hn2 H2].
  rewrite !filter_cons, (IH H1 H2).
  destruct (decide (col ∈ column_names (scored ys f))) as [Hin|Hin];
    destruct (decide (col ∈ column_names f)) as [Hin'|Hin']; try reflexivity.
  - exfalso. apply Hin'. apply (has_scored_other col ys f); congruence.
  - exfalso. apply Hin. apply (has_scored_other col ys f); congruence.
Qed.

Lemma select_columns_scored cols ys f :
  "anomaly_score" ∉ cols -> "is_anomaly" ∉ cols ->
  select_columns cols (scored ys f) = select_columns cols f.
Proof.
  induction cols as [|col cols IH]; intros H1 H2; [reflexivity|].
  apply not_elem_of_cons in H1 as [Hn1 H1]. apply not_elem_of_cons in H2 as [Hn2 H2].
  cbn [select_columns]. rewrite (IH H1 H2).
  unfold scored. rewrite !get_set_other by congruence. reflexivity.
Qed.

Lemma available_subset features f col :
  col ∉ default ["amount_cad"] features -> col ∉ available features f.
Proof.
  intros Hn Hin. apply Hn. unfold available in Hin.
  apply list_elem_of_filter in Hin. tauto.
Qed.

(** X10.  An exception of the model is not caught by [detect_anomalies]: it
    reaches the caller, and the table is then as it was; no column has been
    added and nothing has been logged. *)
Theorem scoring_failure_propagates {sk : Sklearn} (l : loc) (w : world) (f : DataFrame)
    (contamination : Qc) (features : option (list string))
    (cs : list (string * Series)) (e : exn) :
  heap w !! l = Some f ->
  available features f <> [] ->
  select_columns (available features f) f = Ok cs ->
  fit_predict contamination 42 (mkDF (index_name f) (index f) cs) = Raise e ->
  detect_anomalies l contamination features w = (Raise e, w).
Proof. apply detect_anomalies_raise. Qed.

Lemma scoring_failure_propagates_witness :
  heap (Examples.world_of Examples.card_table) !! 0 = Some Examples.card_table
  /\ available None Examples.card_table <> []
  /\ select_columns (available None Examples.card_table) Examples.card_table
     = Ok [("amount_cad", ObjectS [Some "-10.5 "; Some "7"; Some "abc"])]
  /\ fit_predict (Q2Qc (1 # 100)) 42
       (mkDF (index_name Examples.card_table) (index Examples.card_table)
          [("amount_cad", ObjectS [Some "-10.5 "; Some "7"; Some "abc"])])
     = Raise ValueError
  /\ detect_anomalies 0 (Q2Qc (1 # 100)) None (Examples.world_of Examples.card_table)
     = (Raise ValueError, Examples.world_of Examples.card_table).
Proof.
  assert (Ha : available None Examples.card_table <> []) by (vm_compute; discriminate).
  split; [reflexivity|]. split; [exact Ha|]. split; [reflexivity|]. split; [reflexivity|].
  exact (scoring_failure_propagates 0 (Examples.world_of Examples.card_table)
           Examples.card_table (Q2Qc (1 # 100)) None _ ValueError
           eq_refl Ha eq_refl eq_refl).
Defined.

(** X11.  Scoring a table a second time changes nothing in it: when the
    requested features are not the two anomaly columns themselves, a second
    [detect_anomalies] on the table a first one returned succeeds and leaves
    every table as the first call left it. *)
Theorem scoring_twice {sk : Sklearn} (l : loc) (w : world) (f : DataFrame)
    (contamination : Qc) (features : option (list string)) (l1 : loc) (w1 : world) :
  heap w !! l = Some f ->
  "anomaly_score" ∉ default ["amount_cad"] features ->
  "is_anomaly" ∉ default ["amount_cad"] features ->
  detect_anomalies l contamination features w = (Ok l1, w1) ->
  exists w2,
    detect_anomalies l1 contamination features w1 = (Ok l1, w2)
    /\ heap w2 = heap w1.
Proof.
  intros Hl H1 H2 Hrun.
  destruct (decide (available features f = [])) as [Ha|Ha].
  - rewrite (detect_anomalies_none l w f contamination features Hl Ha) in Hrun.
    injection Hrun as <- <-.
    eexists. split; [apply (detect_anomalies_none l _ f); [exact Hl | exact Ha]|].
    reflexivity.
  - destruct (select_available features f) as [cs Hcs].
    destruct (fit_predict contamination 42 (mkDF (index_name f) (index f) cs))
      as [ys|e] eqn:Hfit.
    2:{ rewrite (detect_anomalies_raise l w f contamination features cs e Hl Ha Hcs Hfit)
          in Hrun. discriminate. }
    rewrite (detect_anomalies_scored l w f contamination features cs ys Hl Ha Hcs Hfit)
      in Hrun.
    injection Hrun as <- <-.
    assert (Hlen : l < length (heap w)) by (eapply lookup_lt_Some; eassumption).
    eexists. split.
    + apply (detect_anomalies_scored l _ (scored ys f) contamination features cs ys).
      * cbn [heap]. apply list_lookup_insert_eq. exact Hlen.
      * rewrite available_scored by assumption. exact Ha.
      * rewrite available_scored by assumption.
        rewrite select_columns_scored by (apply available_subset; assumption).
        exact Hcs.
      * exact Hfit.
    + cbn [heap]. rewrite list_insert_insert_eq, scored_twice. reflexivity.
Qed.

Lemma scoring_twice_witness :
  exists w1,
    heap (Examples.world_of Examples.amounts_table) !! 0 = Some Examples.amounts_table
    /\ ("anomaly_score" ∉ default ["amount_cad"] None)
    /\ ("is_anomaly" ∉ default ["amount_cad"] None)
    /\ detect_anomalies 0 (Q2Qc (1 # 100)) None (Examples.world_of Examples.amounts_table)
       = (Ok 0, w1)
    /\ exists w2,
        detect_anomalies 0 (Q2Qc (1 # 100)) None w1 = (Ok 0, w2)
        /\ heap w2 = heap w1.
Proof.
  set (w0 := Examples.world_of Examples.amounts_table).
  set (w1 := snd (detect_anomalies 0 (Q2Qc (1 # 100)) None w0)).
  assert (H1 : "anomaly_score" ∉ default ["amount_cad"] None)
    by (apply (bool_decide_unpack _); vm_compute; exact I).
  assert (H2 : "is_anomaly" ∉ default ["amount_cad"] None)
    by (apply (bool_decide_unpack _); vm_compute; exact I).
  assert (Hrun : detect_anomalies 0 (Q2Qc (1 # 100)) None w0 = (Ok 0, w1))
    by (vm_compute; reflexivity).
  exists w1. split; [reflexivity|]. split; [exact H1|]. split; [exact H2|].
  split; [exact Hrun|].
  exact (scoring_twice 0 w0 Examples.amounts_table (Q2Qc (1 # 100)) None 0 w1
           eq_refl H1 H2 Hrun).
Defined.

(** ** [run_anomaly_detection] *)

Section RunScoring.
Context {sk : Sklearn} {fs : Files}.

Lemma to_csv_run l w f path :
  heap w !! l = Some f ->
  to_csv l path w
  = match write_error path with
    | Some e => (Raise e, w)
    | None => (Ok tt, mkWorld (heap w) (log w) (store_csv path (columns f) (csv_files w))
                              (text_files w))
    end.
Proof.
  intros Hl. unfold to_csv. rewrite bind_run.
  erewrite on_read by (try eassumption; reflexivity). cbn beta iota.
  destruct (write_error path); reflexivity.
Qed.

(** a [try] block that saves a table and says so *)
Lemma save_block_run l w f path msg msg' :
  heap w !! l = Some f ->
  try_except (to_csv l path ;; logging_info msg [])
             (fun e => logging_error msg' (Some e)) w
  = (Ok tt,
     match write_error path with
     | Some e => mkWorld (heap w) (log w ++ [LogError msg' (Some e)])
                         (csv_files w) (text_files w)
     | None => mkWorld (heap w) (log w ++ [LogInfo msg []])
                       (store_csv path (columns f) (csv_files w)) (text_files w)
     end).
Proof.
  intros Hl. unfold try_except. rewrite bind_run, (to_csv_run l w f path Hl).
  destruct (write_error path); reflexivity.
Qed.

(** the table and the log once the input file is loaded *)
Lemma run_anomaly_detection_loaded input_filepath output_filename contamination features
    w f :
  assoc input_filepath (csv_files w) = Some f ->
  run_anomaly_detection input_filepath output_filename contamination features w
  = match detect_anomalies (length (heap w)) contamination features
            (mkWorld (heap w ++ [f])
               (log w ++ [LogInfo "Loaded data from with rows." [nrows f]])
               (csv_files w) (text_files w)) with
    | (Ok df, w2) =>
        try_except
          (to_csv df (Path.join TASK1_OUTPUT_DIR [output_filename]) ;;
           logging_info "Anomaly detection results saved to." [])
          (fun e => logging_error "Error saving anomaly detection results" (Some e)) w2
    | (Raise e, w2) => (Raise e, w2)
    end.
Proof.
  intros Hf. unfold run_anomaly_detection. rewrite bind_run.
  unfold try_return at 1. rewrite bind_run. unfold read_csv at 1. rewrite Hf.
  unfold alloc at 1. cbn beta iota. rewrite bind_run.
  erewrite on_fresh by reflexivity. cbn beta iota.
  rewrite bind_run. unfold logging_info at 1, add_log, world_logger. cbn [heap log csv_files text_files].
  cbn beta iota. unfold mret at 1, M_ret at 1. cbn beta iota.
  rewrite bind_run. reflexivity.
Qed.

Lemma run_anomaly_detection_missing input_filepath output_filename contamination features w :
  assoc input_filepath (csv_files w) = None ->
  run_anomaly_detection input_filepath output_filename contamination features w
  = (Ok tt, mkWorld (heap w) (log w ++ [LogError "Error loading" (Some FileNotFoundError)])
                    (csv_files w) (text_files w)).
Proof.
  intros Hf. unfold run_anomaly_detection. rewrite bind_run.
  unfold try_return at 1. rewrite bind_run. unfold read_csv at 1. rewrite Hf.
  reflexivity.
Qed.

End RunScoring.

Lemma task1_path output_filename :
  Path.join TASK1_OUTPUT_DIR [output_filename]
  = if Path.startswith_sep output_filename then output_filename
    else String.append "mnt/output/task1/" output_filename.
Proof.
  unfold Path.join, TASK1_OUTPUT_DIR, Path.join. cbn [fold_left].
  unfold Path.join2 at 1. destruct (Path.startswith_sep output_filename); reflexivity.
Qed.

Lemma store_csv_same {fs : Files} path cs files :
  assoc path (store_csv path cs files) = reloaded cs.
Proof.
  unfold store_csv. destruct (reloaded cs); [apply assoc_set_same | apply assoc_del_same].
Qed.

Lemma store_csv_other {fs : Files} path p cs files :
  p <> path -> assoc p (store_csv path cs files) = assoc p files.
Proof.
  intros Hne. unfold store_csv.
  destruct (reloaded cs); [apply assoc_set_other | apply assoc_del_other]; exact Hne.
Qed.

(** X12.  When the input file cannot be loaded, [run_anomaly_detection]
    reports it and returns: it raises nothing, logs one error, creates no
    table and writes no file. *)
Theorem scoring_missing_input {sk : Sklearn} {fs : Files}
    (input_filepath output_filename : string) (contamination : Qc)
    (features : option (list string)) (w : world) :
  assoc input_filepath (csv_files w) = None ->
  exists w' e,
    run_anomaly_detection input_filepath output_filename contamination features w
    = (Ok tt, w')
    /\ heap w' = heap w
    /\ csv_files w' = csv_files w
    /\ text_files w' = text_files w
    /\ new_log w w' = [LogError "Error loading" (Some e)].
Proof.
  intros Hf. rewrite (run_anomaly_detection_missing _ _ _ _ w Hf).
  eexists _, _. split; [reflexivity|]. cbn [heap csv_files text_files].
  repeat (split; [reflexivity|]).
  erewrite new_log_app by (cbn [log]; reflexivity). reflexivity.
Qed.

Lemma scoring_missing_input_witness :
  assoc "mnt/output/clean/cleaned_abm.csv" (csv_files Cases.empty_disk) = None
  /\ exists w' e,
    run_anomaly_detection "mnt/output/clean/cleaned_abm.csv" "anomaly_detected_abm.csv"
      (Q2Qc (1 # 100)) (Some ["amount_cad"]) Cases.empty_disk = (Ok tt, w')
    /\ heap w' = heap Cases.empty_disk
    /\ csv_files w' = csv_files Cases.empty_disk
    /\ text_files w' = text_files Cases.empty_disk
    /\ new_log Cases.empty_disk w' = [LogError "Error loading" (Some e)].
Proof.
  split; [reflexivity|].
  exact (scoring_missing_input "mnt/output/clean/cleaned_abm.csv"
           "anomaly_detected_abm.csv" (Q2Qc (1 # 100)) (Some ["amount_cad"])
           Cases.empty_disk eq_refl).
Defined.

(** X13.  When the input loads, the model returns its labels and the output
    file can be written, [run_anomaly_detection] returns without an error in
    the log; the output file holds the input table with the two anomaly
    columns, written without the row index; every other file is as it was,
    the input file included when it is not the output file itself; and the
    tables of the caller are as they were.  The output file is in the
    [task1] directory under the name given, unless that name starts with
    [/]: the file is then written at that absolute path. *)
Theorem scoring_saved {sk : Sklearn} {fs : Files}
    (input_filepath output_filename : string) (contamination : Qc)
    (features : option (list string)) (w : world) (f : DataFrame)
    (cs : list (string * Series)) (ys : list Z) :
  assoc input_filepath (csv_files w) = Some f ->
  available features f <> [] ->
  select_columns (available features f) f = Ok cs ->
  fit_predict contamination 42 (mkDF (index_name f) (index f) cs) = Ok ys ->
  write_error (Path.join TASK1_OUTPUT_DIR [output_filename]) = None ->
  exists w' output_path,
    run_anomaly_detection input_filepath output_filename contamination features w
    = (Ok tt, w')
    /\ output_path
       = (if Path.startswith_sep output_filename then output_filename
          else String.append "mnt/output/task1/" output_filename)
    /\ assoc output_path (csv_files w') = reloaded (columns (scored ys f))
    /\ (forall p, p <> output_path -> assoc p (csv_files w') = assoc p (csv_files w))
    /\ text_files w' = text_files w
    /\ heap w' = heap w ++ [scored ys f]
    /\ errors (new_log w w') = [].
Proof.
  intros Hf Ha Hcs Hfit Hw.
  rewrite (run_anomaly_detection_loaded _ _ _ _ w f Hf).
  erewrite detect_anomalies_scored;
    [| cbn [heap]; apply list_lookup_middle; reflexivity | exact Ha | exact Hcs | exact Hfit].
  cbn [heap log csv_files text_files].
  erewrite save_block_run
    by (cbn [heap]; apply list_lookup_insert_eq; rewrite length_app; cbn; lia).
  rewrite Hw. cbn [heap columns].
  eexists _, (Path.join TASK1_OUTPUT_DIR [output_filename]).
  split; [reflexivity|]. cbn [heap log csv_files text_files].
  split; [apply task1_path|].
  split; [apply store_csv_same|].
  split; [intros p Hp; apply store_csv_other, Hp|].
  split; [reflexivity|].
  split.
  { rewrite insert_app_r_alt by reflexivity. rewrite Nat.sub_diag. reflexivity. }
  erewrite new_log_app by (rewrite <- !app_assoc; reflexivity). reflexivity.
Qed.

Lemma scoring_saved_witness :
  exists cs ys,
    assoc "mnt/output/clean/cleaned_abm.csv" (csv_files Cases.clean_disk)
    = Some Examples.amounts_table
    /\ available (Some ["amount_cad"]) Examples.amounts_table <> []
    /\ select_columns (available (Some ["amount_cad"]) Examples.amounts_table)
         Examples.amounts_table = Ok cs
    /\ fit_predict (Q2Qc (1 # 100)) 42
         (mkDF (index_name Examples.amounts_table) (index Examples.amounts_table) cs)
       = Ok ys
    /\ write_error (Path.join TASK1_OUTPUT_DIR ["anomaly_detected_abm.csv"]) = None
    /\ exists w' output_path,
        run_anomaly_detection "mnt/output/clean/cleaned_abm.csv"
          "anomaly_detected_abm.csv" (Q2Qc (1 # 100)) (Some ["amount_cad"])
          Cases.clean_disk = (Ok tt, w')
        /\ output_path = "mnt/output/task1/anomaly_detected_abm.csv"
        /\ assoc output_path (csv_files w')
           = reloaded (columns (scored ys Examples.amounts_table))
        /\ (forall p, p <> output_path ->
              assoc p (csv_files w') = assoc p (csv_files Cases.clean_disk))
        /\ text_files w' = text_files Cases.clean_disk
        /\ heap w' = heap Cases.clean_disk ++ [scored ys Examples.amounts_table]
        /\ errors (new_log Cases.clean_disk w') = [].
Proof.
  assert (Ha : available (Some ["amount_cad"]) Examples.amounts_table <> [])
    by (vm_compute; discriminate).
  eexists _, _. split; [reflexivity|]. split; [exact Ha|].
  split; [vm_compute; reflexivity|]. split; [vm_compute; reflexivity|].
  split; [reflexivity|].
  exact (scoring_saved "mnt/output/clean/cleaned_abm.csv" "anomaly_detected_abm.csv"
           (Q2Qc (1 # 100)) (Some ["amount_cad"]) Cases.clean_disk Examples.amounts_table
           _ _ eq_refl Ha eq_refl eq_refl eq_refl).
Defined.

(** X14.  When the loaded table has none of the requested features,
    [run_anomaly_detection] still writes the output file: it holds the
    input table as it was loaded, without anomaly columns, and the only
    error logged is the missing features. *)
Theorem scoring_without_features {sk : Sklearn} {fs : Files}
    (input_filepath output_filename : string) (contamination : Qc)
    (features : option (list string)) (w : world) (f : DataFrame) :
  assoc input_filepath (csv_files w) = Some f ->
  available features f = [] ->
  write_error (Path.join TASK1_OUTPUT_DIR [output_filename]) = None ->
  exists w',
    run_anomaly_detection input_filepath output_filename contamination features w
    = (Ok tt, w')
    /\ assoc (Path.join TASK1_OUTPUT_DIR [output_filename]) (csv_files w')
       = reloaded (columns f)
    /\ heap w' = heap w ++ [f]
    /\ errors (new_log w w')
       = [LogError "No valid features found for anomaly detection." None].
Proof.
  intros Hf Ha Hw.
  rewrite (run_anomaly_detection_loaded _ _ _ _ w f Hf).
  erewrite detect_anomalies_none;
    [| cbn [heap]; apply list_lookup_middle; reflexivity | exact Ha].
  cbn [heap log csv_files text_files].
  erewrite save_block_run by (cbn [heap]; apply list_lookup_middle; reflexivity).
  rewrite Hw. cbn [heap columns].
  eexists. split; [reflexivity|]. cbn [heap log csv_files text_files].
  split; [apply store_csv_same|].
  split; [reflexivity|].
  erewrite new_log_app by (rewrite <- !app_assoc; reflexivity). reflexivity.
Qed.

Lemma scoring_without_features_witness :
  assoc "mnt/output/clean/cleaned_abm.csv" (csv_files Cases.plain_disk)
  = Some Examples.trim_twins
  /\ available (Some ["amount_cad"]) Examples.trim_twins = []
  /\ write_error (Path.join TASK1_OUTPUT_DIR ["anomaly_detected_abm.csv"]) = None
  /\ exists w',
      run_anomaly_detection "mnt/output/clean/cleaned_abm.csv" "anomaly_detected_abm.csv"
        (Q2Qc (1 # 100)) (Some ["amount_cad"]) Cases.plain_disk = (Ok tt, w')
      /\ assoc (Path.join TASK1_OUTPUT_DIR ["anomaly_detected_abm.csv"]) (csv_files w')
         = reloaded (columns Examples.trim_twins)
      /\ heap w' = heap Cases.plain_disk ++ [Examples.trim_twins]
      /\ errors (new_log Cases.plain_disk w')
         = [LogError "No valid features found for anomaly detection." None].
Proof.
  split; [reflexivity|]. split; [reflexivity|]. split; [reflexivity|].
  exact (scoring_without_features "mnt/output/clean/cleaned_abm.csv"
           "anomaly_detected_abm.csv" (Q2Qc (1 # 100)) (Some ["amount_cad"])
           Cases.plain_disk Examples.trim_twins eq_refl eq_refl eq_refl).
Defined.

(** X15.  An exception of the model goes through [run_anomaly_detection]:
    neither of its [try] blocks covers the call of [detect_anomalies].  The
    caller gets the exception and no file is written. *)
Theorem scoring_run_aborts {sk : Sklearn} {fs : Files}
    (input_filepath output_filename : string) (contamination : Qc)
    (features : option (list string)) (w : world) (f : DataFrame)
    (cs : list (string * Series)) (e : exn) :
  assoc input_filepath (csv_files w) = Some f ->
  available features f <> [] ->
  select_columns (available features f) f = Ok cs ->
  fit_predict contamination 42 (mkDF (index_name f) (index f) cs) = Raise e ->
  exists w',
    run_anomaly_detection input_filepath output_filename contamination features w
    = (Raise e, w')
    /\ csv_files w' = csv_files w
    /\ text_files w' = text_files w
    /\ errors (new_log w w') = [].
Proof.
  intros Hf Ha Hcs Hfit.
  rewrite (run_anomaly_detection_loaded _ _ _ _ w f Hf).
  erewrite detect_anomalies_raise;
    [| cbn [heap]; apply list_lookup_middle; reflexivity | exact Ha | exact Hcs | exact Hfit].
  eexists. split; [reflexivity|]. cbn [csv_files text_files].
  split; [reflexivity|]. split; [reflexivity|].
  erewrite new_log_app by (cbn [log]; reflexivity). reflexivity.
Qed.

Lemma scoring_run_aborts_witness :
  exists cs,
    assoc "mnt/output/clean/cleaned_card.csv" (csv_files Cases.dirty_disk)
    = Some Examples.card_table
    /\ available (Some ["amount_cad"]) Examples.card_table <> []
    /\ select_columns (available (Some ["amount_cad"]) Examples.card_table)
         Examples.card_table = Ok cs
    /\ fit_predict (Q2Qc (1 # 100)) 42
         (mkDF (index_name Examples.card_table) (index Examples.card_table) cs)
       = Raise ValueError
    /\ exists w',
        run_anomaly_detection "mnt/output/clean/cleaned_card.csv"
          "anomaly_detected_card.csv" (Q2Qc (1 # 100)) (Some ["amount_cad"])
          Cases.dirty_disk = (Raise ValueError, w')
        /\ csv_files w' = csv_files Cases.dirty_disk
        /\ text_files w' = text_files Cases.dirty_disk
        /\ errors (new_log Cases.dirty_disk w') = [].
Proof.
  assert (Ha : available (Some ["amount_cad"]) Examples.card_table <> [])
    by (vm_compute; discriminate).
  eexists. split; [reflexivity|]. split; [exact Ha|].
  split; [vm_compute; reflexivity|]. split; [vm_compute; reflexivity|].
  exact (scoring_run_aborts "mnt/output/clean/cleaned_card.csv"
           "anomaly_detected_card.csv" (Q2Qc (1 # 100)) (Some ["amount_cad"])
           Cases.dirty_disk Examples.card_table _ ValueError eq_refl Ha eq_refl eq_refl).
Defined.

(** X16.  A failure to write the output file is logged and goes no further:
    when the input loads and the call returns, every file is as it was and
    the last record of the log is the error of the save. *)
Theorem scoring_save_failure {sk : Sklearn} {fs : Files}
    (input_filepath output_filename : string) (contamination : Qc)
    (features : option (list string)) (w w' : world) (f : DataFrame) (e : exn) :
  assoc input_filepath (csv_files w) = Some f ->
  write_error (Path.join TASK1_OUTPUT_DIR [output_filename]) = Some e ->
  run_anomaly_detection input_filepath output_filename contamination features w
  = (Ok tt, w') ->
  csv_files w' = csv_files w
  /\ text_files w' = text_files w
  /\ List.last (new_log w w') (LogInfo "" [])
     = LogError "Error saving anomaly detection results" (Some e).
Proof.
  intros Hf Hw Hrun.
  rewrite (run_anomaly_detection_loaded _ _ _ _ w f Hf) in Hrun.
  set (w1 := mkWorld (heap w ++ [f])
               (log w ++ [LogInfo "Loaded data from with rows." [nrows f]])
               (csv_files w) (text_files w)) in *.
  assert (Hl1 : heap w1 !! length (heap w) = Some f)
    by (apply list_lookup_middle; reflexivity).
  destruct (decide (available features f = [])) as [Ha|Ha].
  - rewrite (detect_anomalies_none _ w1 f contamination features Hl1 Ha) in Hrun.
    erewrite save_block_run in Hrun by (cbn [heap]; exact Hl1).
    rewrite Hw in Hrun. injection Hrun as <-. cbn [csv_files text_files].
    split; [reflexivity|]. split; [reflexivity|].
    erewrite new_log_app by (cbn [log]; rewrite <- !app_assoc; reflexivity).
    reflexivity.
  - destruct (select_available features f) as [cs Hcs].
    destruct (fit_predict contamination 42 (mkDF (index_name f) (index f) cs))
      as [ys|e'] eqn:Hfit.
    + rewrite (detect_anomalies_scored _ w1 f contamination features cs ys
                 Hl1 Ha Hcs Hfit) in Hrun.
      erewrite save_block_run in Hrun
        by (cbn [heap]; apply list_lookup_insert_eq; eapply lookup_lt_Some; exact Hl1).
      rewrite Hw in Hrun. injection Hrun as <-. cbn [csv_files text_files].
      split; [reflexivity|]. split; [reflexivity|].
      erewrite new_log_app by (cbn [log]; rewrite <- !app_assoc; reflexivity).
      reflexivity.
    + rewrite (detect_anomalies_raise _ w1 f contamination features cs e'
                 Hl1 Ha Hcs Hfit) in Hrun.
      discriminate.
Qed.

Lemma scoring_save_failure_witness :
  exists w',
    assoc "mnt/output/clean/cleaned_abm.csv" (csv_files Cases.clean_disk)
    = Some Examples.amounts_table
    /\ write_error (Path.join TASK1_OUTPUT_DIR ["2024/abm.csv"]) = Some FileNotFoundError
    /\ run_anomaly_detection "mnt/output/clean/cleaned_abm.csv" "2024/abm.csv"
         (Q2Qc (1 # 100)) (Some ["amount_cad"]) Cases.clean_disk = (Ok tt, w')
    /\ csv_files w' = csv_files Cases.clean_disk
    /\ text_files w' = text_files Cases.clean_disk
    /\ List.last (new_log Cases.clean_disk w') (LogInfo "" [])
       = LogError "Error saving anomaly detection results" (Some FileNotFoundError).
Proof.
  set (w1 := snd (run_anomaly_detection "mnt/output/clean/cleaned_abm.csv" "2024/abm.csv"
                    (Q2Qc (1 # 100)) (Some ["amount_cad"]) Cases.clean_disk)).
  assert (Hrun : run_anomaly_detection "mnt/output/clean/cleaned_abm.csv" "2024/abm.csv"
                   (Q2Qc (1 # 100)) (Some ["amount_cad"]) Cases.clean_disk = (Ok tt, w1))
    by (vm_compute; reflexivity).
  exists w1. split; [reflexivity|]. split; [reflexivity|]. split; [exact Hrun|].
  exact (scoring_save_failure "mnt/output/clean/cleaned_abm.csv" "2024/abm.csv"
           (Q2Qc (1 # 100)) (Some ["amount_cad"]) Cases.clean_disk w1
           Examples.amounts_table FileNotFoundError eq_refl eq_refl Hrun).
Defined.

(** ** The embedding generator: what can go wrong *)

Lemma select_columns_missing cols f :
  (exists col, col ∈ cols /\ get_col col f = None) ->
  exists key, select_columns cols f = Raise (KeyError key)
              /\ key ∈ cols /\ get_col key f = None.
Proof.
  induction cols as [|c cols IH]; intros (col & Hin & Hnone); [inversion Hin|].
  cbn [select_columns]. destruct (get_col c f) as [s|] eqn:Hc.
  - apply elem_of_cons in Hin as [->|Hin]; [congruence|].
    destruct IH as (key & Hsel & Hkey & Hk); [eauto|].
    rewrite Hsel. exists key. split; [reflexivity|]. split; [right; exact Hkey | exact Hk].
  - exists c. split; [reflexivity|]. split; [left | exact Hc].
Qed.

Lemma select_columns_length cols f cs : select_columns cols f = Ok cs -> length cs = length cols.
Proof.
  revert cs. induction cols as [|c cols IH]; intros cs; cbn [select_columns].
  - intros [= <-]. reflexivity.
  - destruct (get_col c f); [|discriminate].
    destruct (select_columns cols f) as [r|]; [|discriminate].
    intros [= <-]. cbn. rewrite (IH r eq_refl). reflexivity.
Qed.

Section EmbeddingFailures.
Context {pd : Pandas} {kr : Keras}.

Lemma scale_columns_length cs X_norm : scale_columns cs = Ok X_norm -> length X_norm = length cs.
Proof.
  revert X_norm. induction cs as [|c cs IH]; intros X_norm; cbn [scale_columns].
  - intros [= <-]. reflexivity.
  - destruct (scale_column (snd c)); [|discriminate].
    destruct (scale_columns cs) as [r|]; [|discriminate].
    intros [= <-]. cbn. rewrite (IH r eq_refl). reflexivity.
Qed.

Lemma load_kyc_data_missing w :
  assoc "mnt/output/clean/cleaned_kyc.csv" (csv_files w) = None ->
  load_kyc_data w
  = (Ok None, mkWorld (heap w)
                (log w ++ [LogError "Error loading KYC data" (Some FileNotFoundError)])
                (csv_files w) (text_files w)).
Proof.
  intros Hf. unfold load_kyc_data, try_return. cbv zeta.
  rewrite bind_run. unfold read_csv at 1. rewrite Hf. reflexivity.
Qed.

Lemma keeps_files_load_kyc_data : keeps_files load_kyc_data.
Proof. unfold load_kyc_data. cbv zeta. keeps_files. Qed.

End EmbeddingFailures.

(** X17.  When the cleaned KYC file cannot be loaded,
    [generate_customer_embeddings] gives up without raising: the failure
    is logged twice, once by the loader and once by the generator, no table
    is created and no file is written. *)
Theorem embeddings_missing_input {pd : Pandas} {kr : Keras} (feature_cols : list string)
    (epochs batch_size : nat) (w : world) :
  assoc "mnt/output/clean/cleaned_kyc.csv" (csv_files w) = None ->
  exists w' e,
    generate_customer_embeddings feature_cols epochs batch_size w = (Ok tt, w')
    /\ heap w' = heap w
    /\ csv_files w' = csv_files w
    /\ text_files w' = text_files w
    /\ new_log w w'
       = [LogError "Error loading KYC data" (Some e);
          LogError "Failed to load KYC data. Exiting embedding generation." None].
Proof.
  intros Hf. unfold generate_customer_embeddings.
  rewrite bind_run, (load_kyc_data_missing w Hf). cbn beta iota.
  unfold logging_error, add_log, world_logger. cbn [heap log csv_files text_files].
  eexists _, _. split; [reflexivity|]. cbn [heap csv_files text_files].
  repeat (split; [reflexivity|]).
  erewrite new_log_app by (cbn [log]; rewrite <- app_assoc; reflexivity). reflexivity.
Qed.

Lemma embeddings_missing_input_witness :
  assoc "mnt/output/clean/cleaned_kyc.csv" (csv_files Cases.empty_disk) = None
  /\ exists w' e,
    generate_customer_embeddings ["employee_count"; "sales"] 20 32 Cases.empty_disk
    = (Ok tt, w')
    /\ heap w' = heap Cases.empty_disk
    /\ csv_files w' = csv_files Cases.empty_disk
    /\ text_files w' = text_files Cases.empty_disk
    /\ new_log Cases.empty_disk w'
       = [LogError "Error loading KYC data" (Some e);
          LogError "Failed to load KYC data. Exiting embedding generation." None].
Proof.
  split; [reflexivity|].
  exact (embeddings_missing_input ["employee_count"; "sales"] 20 32 Cases.empty_disk eq_refl).
Defined.

(** X18.  A requested feature that is no column of the KYC table is fatal:
    [generate_customer_embeddings] raises a [KeyError] for a requested
    feature the table lacks, before any training, and writes no file. *)
Theorem embeddings_missing_feature {pd : Pandas} {kr : Keras} (feature_cols : list string)
    (epochs batch_size : nat) (w : world) (f : DataFrame) (col : string) :
  assoc "mnt/output/clean/cleaned_kyc.csv" (csv_files w) = Some f ->
  col ∈ feature_cols ->
  get_col col f = None ->
  exists w' key,
    generate_customer_embeddings feature_cols epochs batch_size w
    = (Raise (KeyError key), w')
    /\ key ∈ feature_cols
    /\ get_col key f = None
    /\ csv_files w' = csv_files w
    /\ text_files w' = text_files w.
Proof.
  intros Hf Hin Hnone.
  destruct (select_columns_missing feature_cols f) as (key & Hsel & Hkey & Hk); [eauto|].
  unfold generate_customer_embeddings.
  rewrite bind_run, (load_kyc_data_run w f Hf). cbn beta iota.
  rewrite bind_run.
  erewrite on_fresh
    by (unfold preprocess_kyc_data; rewrite bind_run; unfold getitems at 1; cbn [fst];
        rewrite Hsel; reflexivity).
  eexists _, key. split; [reflexivity|]. cbn [csv_files text_files]. auto.
Qed.

Lemma embeddings_missing_feature_witness :
  assoc "mnt/output/clean/cleaned_kyc.csv" (csv_files Examples.disk)
  = Some Examples.cleaned_kyc
  /\ "established_year" ∈ ["sales"; "established_year"]
  /\ get_col "established_year" Examples.cleaned_kyc = None
  /\ exists w' key,
    generate_customer_embeddings ["sales"; "established_year"] 20 32 Examples.disk
    = (Raise (KeyError key), w')
    /\ key ∈ ["sales"; "established_year"]
    /\ get_col key Examples.cleaned_kyc = None
    /\ csv_files w' = csv_files Examples.disk
    /\ text_files w' = text_files Examples.disk.
Proof.
  assert (Hin : "established_year" ∈ ["sales"; "established_year"])
    by (apply (bool_decide_unpack _); vm_compute; exact I).
  split; [reflexivity|]. split; [exact Hin|]. split; [reflexivity|].
  exact (embeddings_missing_feature ["sales"; "established_year"] 20 32 Examples.disk
           Examples.cleaned_kyc "established_year" eq_refl Hin eq_refl).
Defined.

(** X19.  The identifiers are read after the training.  When the KYC table
    has no [customer_id] column, [generate_customer_embeddings] raises a
    [KeyError] once the model has been trained and has produced the
    embeddings, and the artifact is not written. *)
Theorem embeddings_missing_key {pd : Pandas} {kr : Keras} (feature_cols : list string)
    (epochs batch_size : nat) (w : world) (f : DataFrame)
    (cs : list (string * Series)) (X_norm E : list (list (option num))) :
  assoc "mnt/output/clean/cleaned_kyc.csv" (csv_files w) = Some f ->
  select_columns feature_cols f = Ok cs ->
  scale_columns cs = Ok X_norm ->
  fit_then_predict (fst (build_autoencoder (length feature_cols) 16))
    (snd (build_autoencoder (length feature_cols) 16)) epochs batch_size
    (feature_array feature_cols f X_norm) = Ok E ->
  get_col "customer_id" f = None ->
  exists w',
    generate_customer_embeddings feature_cols epochs batch_size w
    = (Raise (KeyError "customer_id"), w')
    /\ csv_files w' = csv_files w
    /\ text_files w' = text_files w.
Proof.
  intros Hf Hcs Hx Hfit Hc. unfold generate_customer_embeddings.
  rewrite bind_run, (load_kyc_data_run w f Hf). cbn beta iota.
  rewrite bind_run.
  erewrite on_fresh by (eapply preprocess_kyc_data_run; eassumption).
  cbn beta iota zeta.
  change (shape1 (feature_array feature_cols f X_norm)) with (length feature_cols).
  rewrite bind_run. unfold logging_info at 1, add_log, world_logger.
  cbn [heap log csv_files text_files]. cbn beta iota.
  unfold build_autoencoder in Hfit |- *. cbn [fst snd] in Hfit. cbn beta iota zeta.
  rewrite bind_run. unfold logging_info at 1, add_log, world_logger.
  cbn [heap log csv_files text_files]. cbn beta iota.
  rewrite bind_run. unfold lift at 1. rewrite Hfit. cbn beta iota.
  rewrite bind_run.
  erewrite on_fresh by (unfold getitem; cbn [fst]; rewrite Hc; reflexivity).
  eexists. split; [reflexivity|]. split; reflexivity.
Qed.

Lemma embeddings_missing_key_witness :
  exists cs X_norm E,
    assoc "mnt/output/clean/cleaned_kyc.csv" (csv_files Cases.anonymous_disk)
    = Some Cases.anonymous_kyc
    /\ select_columns ["employee_count"; "sales"] Cases.anonymous_kyc = Ok cs
    /\ scale_columns cs = Ok X_norm
    /\ fit_then_predict (fst (build_autoencoder (length ["employee_count"; "sales"]) 16))
         (snd (build_autoencoder (length ["employee_count"; "sales"]) 16)) 20 32
         (feature_array ["employee_count"; "sales"] Cases.anonymous_kyc X_norm) = Ok E
    /\ get_col "customer_id" Cases.anonymous_kyc = None
    /\ exists w',
        generate_customer_embeddings ["employee_count"; "sales"] 20 32 Cases.anonymous_disk
        = (Raise (KeyError "customer_id"), w')
        /\ csv_files w' = csv_files Cases.anonymous_disk
        /\ text_files w' = text_files Cases.anonymous_disk.
Proof.
  eexists _, _, _. split; [reflexivity|].
  split; [vm_compute; reflexivity|]. split; [vm_compute; reflexivity|].
  split; [vm_compute; reflexivity|]. split; [reflexivity|].
  exact (embeddings_missing_key ["employee_count"; "sales"] 20 32 Cases.anonymous_disk
           Cases.anonymous_kyc _ _ _ eq_refl eq_refl eq_refl eq_refl eq_refl).
Defined.

(** X20.  [preprocess_kyc_data] reads the table without changing it, and
    when it returns, the array has one row for each row of the table and,
    in every row, one value for each requested feature, in the order of the
    request. *)
Theorem feature_matrix_shape {pd : Pandas} (feature_cols : list string) (f : DataFrame)
    (lg : list log_record) (X : ndarray) (s' : fstate) :
  preprocess_kyc_data feature_cols (f, lg) = (Ok X, s') ->
  s' = (f, lg)
  /\ shape0 X = nrows f
  /\ shape1 X = length feature_cols
  /\ length (array_rows X) = nrows f
  /\ Forall (fun r => length r = length feature_cols) (array_rows X).
Proof.
  unfold preprocess_kyc_data. rewrite bind_run. unfold getitems at 1. cbn [fst].
  destruct (select_columns feature_cols f) as [cs|e] eqn:Hcs; [|discriminate].
  cbn beta iota. rewrite bind_run. unfold lift at 1. cbn [columns].
  destruct (scale_columns cs) as [X_norm|e] eqn:Hx; [|discriminate].
  cbn beta iota. intros [= <- <-]. cbn [shape0 shape1 array_rows].
  split; [reflexivity|]. split; [reflexivity|]. split; [reflexivity|].
  unfold to_rows, nrows. cbn [index].
  split; [rewrite length_map, length_seq; reflexivity|].
  apply Forall_map, Forall_forall. intros i _. rewrite length_map.
  rewrite (scale_columns_length _ _ Hx). apply (select_columns_length _ _ _ Hcs).
Qed.

Lemma feature_matrix_shape_witness :
  exists X,
    preprocess_kyc_data ["employee_count"; "sales"] (Examples.cleaned_kyc, [])
    = (Ok X, (Examples.cleaned_kyc, []))
    /\ (Examples.cleaned_kyc, []) = (Examples.cleaned_kyc, @nil log_record)
    /\ shape0 X = nrows Examples.cleaned_kyc
    /\ shape1 X = length ["employee_count"; "sales"]
    /\ length (array_rows X) = nrows Examples.cleaned_kyc
    /\ Forall (fun r => length r = length ["employee_count"; "sales"]) (array_rows X).
Proof.
  set (X := match fst (preprocess_kyc_data ["employee_count"; "sales"]
                         (Examples.cleaned_kyc, [])) with
            | Ok X => X
            | Raise _ => mkArray 0 0 []
            end).
  assert (Hrun : preprocess_kyc_data ["employee_count"; "sales"] (Examples.cleaned_kyc, [])
                 = (Ok X, (Examples.cleaned_kyc, []))) by (vm_compute; reflexivity).
  exists X. split; [exact Hrun|].
  exact (feature_matrix_shape ["employee_count"; "sales"] Examples.cleaned_kyc [] X
           (Examples.cleaned_kyc, []) Hrun).
Defined.

(** ** The names of the output files *)

Lemma prefix_has_char c p s :
  String.prefix p s = true -> Str.has_char c p = true -> Str.has_char c s = true.
Proof.
  revert s. induction p as [|a p IH]; intros s Hp Hc; [discriminate|].
  destruct s as [|b s]; [discriminate|]. cbn [String.prefix] in Hp.
  destruct (ascii_dec a b) as [->|]; [|discriminate].
  cbn [Str.has_char] in *. apply orb_true_iff in Hc as [Hc|Hc].
  - rewrite Hc. reflexivity.
  - rewrite (IH s Hp Hc). apply orb_true_r.
Qed.

Lemma has_char_tail c a s : Str.has_char c (String a s) = false -> Str.has_char c s = false.
Proof. cbn [Str.has_char]. intros H. apply orb_false_iff in H. tauto. Qed.

Lemma no_prefix_without_char c p s :
  Str.has_char c p = true -> Str.has_char c s = false -> String.prefix p s = false.
Proof.
  intros Hp Hs. destruct (String.prefix p s) eqn:Hpre; [|reflexivity].
  rewrite (prefix_has_char c p s Hpre Hp) in Hs. discriminate.
Qed.

(** no occurrence of [old]: nothing is replaced *)
Lemma replace_from_absent c old new s :
  Str.has_char c old = true -> Str.has_char c s = false ->
  Str.replace_from 0 old new s = s.
Proof.
  intros Hold. induction s as [|a s IH]; intros Hs; [reflexivity|].
  cbn [Str.replace_from]. rewrite (no_prefix_without_char c old _ Hold Hs).
  rewrite IH by (eapply has_char_tail; exact Hs). reflexivity.
Qed.

(** no separator: one piece *)
Lemma split_from_absent c sep s :
  Str.has_char c sep = true -> Str.has_char c s = false ->
  Str.split_from 0 sep s = [s].
Proof.
  intros Hsep. induction s as [|a s IH]; intros Hs; [reflexivity|].
  cbn [Str.split_from]. rewrite (no_prefix_without_char c sep _ Hsep Hs).
  rewrite IH by (eapply has_char_tail; exact Hs). reflexivity.
Qed.

(** the first piece ends at the first separator *)
Lemma split_from_first a b :
  Str.has_char "_" a = false ->
  Str.split_from 0 "_" (String.append a (String "_" b))
  = a :: Str.split_from 0 "_" b.
Proof.
  induction a as [|c a IH]; intros Ha.
  - change (String.append "" (String "_" b)) with (String "_" b).
    cbn [Str.split_from String.prefix].
    destruct (ascii_dec "_" "_") as [_|Hne]; [|contradiction Hne; reflexivity].
    destruct b; reflexivity.
  - change (String.append (String c a) (String "_" b))
      with (String c (String.append a (String "_" b))).
    cbn [Str.split_from].
    assert (Hc : String.prefix "_" (String c (String.append a (String "_" b))) = false).
    { cbn [String.prefix]. cbn [Str.has_char] in Ha. apply orb_false_iff in Ha as [Hc _].
      apply bool_decide_eq_false in Hc.
      destruct (ascii_dec "_" c) as [<-|]; [contradiction Hc; reflexivity | reflexivity]. }
    rewrite Hc, IH by (eapply has_char_tail; exact Ha). reflexivity.
Qed.

Lemma replace_cleaned base :
  Str.replace "cleaned_" "" (String.append "cleaned_" base)
  = Str.replace_from 0 "cleaned_" "" base.
Proof.
  unfold Str.replace.
  change (String.append "cleaned_" base)
    with (String "c" (String "l" (String "e" (String "a" (String "n"
           (String "e" (String "d" (String "_" base)))))))).
  cbn [Str.replace_from String.prefix String.length Nat.sub].
  repeat match goal with
         | |- context [ascii_dec ?a ?b] =>
             destruct (ascii_dec a b) as [_|Hne]; [|contradiction Hne; reflexivity]
         end.
  destruct base; reflexivity.
Qed.

(** X21.  The two entry points name the output of a cleaned file alike as
    long as the name has no underscore after the prefix [cleaned_]:
    [main] removes that prefix, the [__main__] block of
    [anomaly_detection.py] takes what lies between the first and the
    second underscore, and both put [anomaly_detected_] in front. *)
Theorem output_names_agree (base : string) :
  Str.has_char "_" base = false ->
  output_name (String.append "cleaned_" base)
  = String.append "anomaly_detected_" base
  /\ script_output_name (String.append "cleaned_" base)
     = Some (output_name (String.append "cleaned_" base)).
Proof.
  intros Hb.
  assert (Hmain : output_name (String.append "cleaned_" base)
                  = String.append "anomaly_detected_" base).
  { unfold output_name. cbv zeta. rewrite replace_cleaned.
    rewrite (replace_from_absent "_" "cleaned_" "" base eq_refl Hb). reflexivity. }
  split; [exact Hmain|]. rewrite Hmain.
  unfold script_output_name, Str.split.
  change (String.append "cleaned_" base) with (String.append "cleaned" (String "_" base)).
  rewrite split_from_first by reflexivity.
  rewrite (split_from_absent "_" "_" base eq_refl Hb). reflexivity.
Qed.

Lemma output_names_agree_witness :
  Str.has_char "_" "abm.csv" = false
  /\ output_name "cleaned_abm.csv" = "anomaly_detected_abm.csv"
  /\ script_output_name "cleaned_abm.csv" = Some (output_name "cleaned_abm.csv").
Proof.
  split; [reflexivity|].
  exact (output_names_agree "abm.csv" eq_refl).
Defined.

(** X22.  With a further underscore in the name the two entry points part:
    the [__main__] block of [anomaly_detection.py] keeps only what lies
    between the first two underscores, and so loses the rest of the name,
    the extension included. *)
Theorem script_name_truncated (a b : string) :
  Str.has_char "_" a = false ->
  script_output_name (String.append "cleaned_" (String.append a (String "_" b)))
  = Some (String.append "anomaly_detected_" a).
Proof.
  intros Ha. unfold script_output_name, Str.split.
  change (String.append "cleaned_" (String.append a (String "_" b)))
    with (String.append "cleaned" (String "_" (String.append a (String "_" b)))).
  rewrite split_from_first by reflexivity.
  rewrite split_from_first by exact Ha. reflexivity.
Qed.

Lemma script_name_truncated_witness :
  Str.has_char "_" "kyc" = false
  /\ script_output_name "cleaned_kyc_industry_codes.csv" = Some "anomaly_detected_kyc".
Proof.
  split; [reflexivity|].
  exact (script_name_truncated "kyc" "industry_codes.csv" eq_refl).
Defined.

(** ** The footprint of the entry points *)

Lemma writes_only_keeps {A} csvs texts (m : M world A) :
  keeps_files m -> writes_only csvs texts m.
Proof. intros Hk w. destruct (Hk w) as [H1 H2]. rewrite H1, H2. split; reflexivity. Qed.

Lemma writes_only_bind {A B} csvs texts (m : M world A) (k : A -> M world B) :
  writes_only csvs texts m -> (forall a, writes_only csvs texts (k a)) ->
  writes_only csvs texts (m ≫= k).
Proof.
  intros Hm Hk w. rewrite bind_run. specialize (Hm w).
  destruct (m w) as [[a|e] w1]; cbn [snd] in *; [|exact Hm].
  destruct (Hk a w1) as [H1 H2]. destruct Hm as [H3 H4]. split.
  - intros p Hp. rewrite H1, H3 by exact Hp. reflexivity.
  - intros p Hp. rewrite H2, H4 by exact Hp. reflexivity.
Qed.

Lemma writes_only_try_except csvs texts (body : M world unit) handler :
  writes_only csvs texts body -> (forall e, writes_only csvs texts (handler e)) ->
  writes_only csvs texts (try_except body handler).
Proof.
  intros Hb Hh w. unfold try_except. specialize (Hb w).
  destruct (body w) as [[u|e] w1]; cbn [snd] in *; [exact Hb|].
  destruct (Hh e w1) as [H1 H2]. destruct Hb as [H3 H4]. split.
  - intros p Hp. rewrite H1, H3 by exact Hp. reflexivity.
  - intros p Hp. rewrite H2, H4 by exact Hp. reflexivity.
Qed.

Lemma writes_only_weaken {A} csvs texts csvs' texts' (m : M world A) :
  (forall p, p ∈ csvs -> p ∈ csvs') -> (forall p, p ∈ texts -> p ∈ texts') ->
  writes_only csvs texts m -> writes_only csvs' texts' m.
Proof.
  intros Hc Ht Hm w. destruct (Hm w) as [H1 H2]. split.
  - intros p Hp. apply H1. intros Hin. apply Hp, Hc, Hin.
  - intros p Hp. apply H2. intros Hin. apply Hp, Ht, Hin.
Qed.

Lemma writes_only_for {A} csvs texts (xs : list A) (body : A -> M world unit) :
  (forall x, x ∈ xs -> writes_only csvs texts (body x)) ->
  writes_only csvs texts (for_ xs body).
Proof.
  induction xs as [|x xs IH]; intros Hb; cbn [for_].
  - apply writes_only_keeps, keeps_files_ret.
  - apply writes_only_bind; [apply Hb; left|]. intros _. apply IH.
    intros y Hy. apply Hb. right. exact Hy.
Qed.

Lemma writes_only_write_text path content : writes_only [] [path] (write_text path content).
Proof.
  intros w. unfold write_text. cbn [snd csv_files text_files]. split; [reflexivity|].
  intros p Hp. apply assoc_set_other. intros ->. apply Hp. left.
Qed.

Section Footprints.
Context {pd : Pandas} {sk : Sklearn} {kr : Keras} {fs : Files}.

Lemma writes_only_to_csv l path : writes_only [path] [] (to_csv l path).
Proof.
  unfold to_csv. apply writes_only_bind; [apply writes_only_keeps, keeps_files_on|].
  intros f. destruct (write_error path); [apply writes_only_keeps, keeps_files_raise|].
  intros w. cbn [snd csv_files text_files]. split; [|reflexivity].
  intros p Hp. apply store_csv_other. intros ->. apply Hp. left.
Qed.

Lemma writes_only_save_block l path msg msg' :
  writes_only [path] []
    (try_except (to_csv l path ;; logging_info msg [])
                (fun e => logging_error msg' (Some e))).
Proof.
  apply writes_only_try_except.
  - apply writes_only_bind; [apply writes_only_to_csv|].
    intros _. apply writes_only_keeps, keeps_files_logging_info.
  - intros e. apply writes_only_keeps, keeps_files_logging_error.
Qed.

Lemma writes_only_run_anomaly_detection input_filepath output_filename contamination
    features :
  writes_only [Path.join TASK1_OUTPUT_DIR [output_filename]] []
    (run_anomaly_detection input_filepath output_filename contamination features).
Proof.
  unfold run_anomaly_detection. apply writes_only_bind.
  - apply writes_only_keeps. keeps_files.
  - intros [df|]; [|apply writes_only_keeps, keeps_files_ret].
    apply writes_only_bind; [apply writes_only_keeps, keeps_files_detect_anomalies|].
    intros df'. apply writes_only_save_block.
Qed.

Lemma writes_only_generate_customer_embeddings feature_cols epochs batch_size :
  writes_only [] ["mnt/output/task3/customer_embeddings.txt"]
    (generate_customer_embeddings feature_cols epochs batch_size).
Proof.
  unfold generate_customer_embeddings. apply writes_only_bind.
  - apply writes_only_keeps, keeps_files_load_kyc_data.
  - intros [df|]; [|apply writes_only_keeps, keeps_files_logging_error].
    apply writes_only_bind; [apply writes_only_keeps, keeps_files_on|]. intros X.
    cbv zeta. apply writes_only_bind;
      [apply writes_only_keeps, keeps_files_logging_info|]. intros _.
    destruct (build_autoencoder (shape1 X) 16) as [autoencoder encoder].
    apply writes_only_bind; [apply writes_only_keeps, keeps_files_logging_info|].
    intros _.
    apply writes_only_bind; [apply writes_only_keeps, keeps_files_lift|]. intros E.
    apply writes_only_bind; [apply writes_only_keeps, keeps_files_on|]. intros c.
    apply writes_only_try_except.
    + apply writes_only_bind; [apply writes_only_write_text|].
      intros _. apply writes_only_keeps, keeps_files_logging_info.
    + intros e. apply writes_only_keeps, keeps_files_logging_error.
Qed.

End Footprints.

(** X23.  However it ends, [main] touches seven files only: the six
    anomaly files of the [task1] directory and the embeddings artifact.
    Every other file is left as it was; in particular [main] never changes
    the cleaned files it reads. *)
Theorem main_footprint {pd : Pandas} {sk : Sklearn} {kr : Keras} {fs : Files} :
  writes_only
    ["mnt/output/task1/anomaly_detected_abm.csv";
     "mnt/output/task1/anomaly_detected_card.csv";
     "mnt/output/task1/anomaly_detected_cheque.csv";
     "mnt/output/task1/anomaly_detected_eft.csv";
     "mnt/output/task1/anomaly_detected_emt.csv";
     "mnt/output/task1/anomaly_detected_wire.csv"]
    ["mnt/output/task3/customer_embeddings.txt"]
    main.
Proof.
  unfold main. cbv zeta.
  apply writes_only_bind; [apply writes_only_keeps, keeps_files_logging_info|]. intros _.
  apply writes_only_bind.
  - apply writes_only_for. intros file_name Hin.
    apply writes_only_bind; [apply writes_only_keeps, keeps_files_logging_info|].
    intros _.
    eapply writes_only_weaken; [| |apply writes_only_run_anomaly_detection].
    + intros p Hp. apply list_elem_of_singleton in Hp as ->.
      rewrite !elem_of_cons in Hin.
      destruct Hin as [->|[->|[->|[->|[->|[->|Hin]]]]]]; [| | | | | |inversion Hin];
        apply (bool_decide_unpack _); vm_compute; exact I.
    + intros p Hp. inversion Hp.
  - intros _.
    apply writes_only_bind; [apply writes_only_keeps, keeps_files_logging_info|].
    intros _. apply writes_only_bind.
    + eapply writes_only_weaken; [| |apply writes_only_generate_customer_embeddings].
      * intros p Hp. inversion Hp.
      * intros p Hp. exact Hp.
    + intros _. apply writes_only_keeps, keeps_files_logging_info.
Qed.

(** ** [main]: missing inputs and a failing model *)

Lemma logging_info_run msg args (w : world) :
  logging_info msg args w
  = (Ok tt, mkWorld (heap w) (log w ++ [LogInfo msg args]) (csv_files w) (text_files w)).
Proof. reflexivity. Qed.

Lemma logging_error_run msg e (w : world) :
  logging_error msg e w
  = (Ok tt, mkWorld (heap w) (log w ++ [LogError msg e]) (csv_files w) (text_files w)).
Proof. reflexivity. Qed.

Section MainRuns.
Context {pd : Pandas} {sk : Sklearn} {kr : Keras} {fs : Files}.

(** the loop of [main] over files none of which loads *)
Lemma scoring_loop_missing clean_dir contamination features files w :
  (forall file_name, file_name ∈ files ->
     assoc (Path.join clean_dir [file_name]) (csv_files w) = None) ->
  exists lg,
    for_ files (fun file_name =>
      logging_info "Running anomaly detection on" [] ;;
      run_anomaly_detection (Path.join clean_dir [file_name]) (output_name file_name)
        contamination features) w
    = (Ok tt, mkWorld (heap w) (log w ++ lg) (csv_files w) (text_files w))
    /\ length (errors lg) = length files.
Proof.
  revert w. induction files as [|file_name files IH]; intros w Hmiss.
  - exists []. rewrite app_nil_r. destruct w. split; reflexivity.
  - cbn [for_]. rewrite bind_run, bind_run, logging_info_run. cbn beta iota.
    rewrite run_anomaly_detection_missing by (cbn [csv_files]; apply Hmiss; left).
    cbn [heap log csv_files text_files]. cbn beta iota.
    destruct (IH (mkWorld (heap w)
                    ((log w ++ [LogInfo "Running anomaly detection on" []])
                     ++ [LogError "Error loading" (Some FileNotFoundError)])
                    (csv_files w) (text_files w))) as (lg & Hrun & Hlen).
    { intros file Hin. cbn [csv_files]. apply Hmiss. right. exact Hin. }
    exists ([LogInfo "Running anomaly detection on" [];
             LogError "Error loading" (Some FileNotFoundError)] ++ lg).
    split; [rewrite Hrun; cbn [heap log csv_files text_files];
            rewrite <- !app_assoc; reflexivity|].
    rewrite errors_app, length_app, Hlen. reflexivity.
Qed.

(** one iteration on a file whose scoring raises *)
Lemma scoring_step_aborts input_filepath output_filename contamination features w f cs e :
  assoc input_filepath (csv_files w) = Some f ->
  available features f <> [] ->
  select_columns (available features f) f = Ok cs ->
  fit_predict contamination 42 (mkDF (index_name f) (index f) cs) = Raise e ->
  exists w',
    run_anomaly_detection input_filepath output_filename contamination features w
    = (Raise e, w').
Proof.
  intros Hf Ha Hcs Hfit.
  rewrite (run_anomaly_detection_loaded _ _ _ _ w f Hf).
  erewrite detect_anomalies_raise;
    [| cbn [heap]; apply list_lookup_middle; reflexivity | exact Ha | exact Hcs | exact Hfit].
  eexists. reflexivity.
Qed.

(** the loop of [main] over files one of which makes the model raise *)
Lemma scoring_loop_aborts clean_dir contamination features files file_name w f cs e :
  file_name ∈ files ->
  (forall file, file ∈ files ->
     Path.join TASK1_OUTPUT_DIR [output_name file] <> Path.join clean_dir [file_name]) ->
  assoc (Path.join clean_dir [file_name]) (csv_files w) = Some f ->
  available features f <> [] ->
  select_columns (available features f) f = Ok cs ->
  fit_predict contamination 42 (mkDF (index_name f) (index f) cs) = Raise e ->
  exists e' w',
    for_ files (fun file =>
      logging_info "Running anomaly detection on" [] ;;
      run_anomaly_detection (Path.join clean_dir [file]) (output_name file)
        contamination features) w
    = (Raise e', w')
    /\ (forall p, assoc p (text_files w') = assoc p (text_files w)).
Proof.
  intros Hin Hpaths Hf Ha Hcs Hfit. revert w Hf.
  induction files as [|file files IH]; intros w Hf; [inversion Hin|].
  cbn [for_]. rewrite bind_run.
  match goal with
  | |- context [(?m ≫= ?k) w] =>
      pose proof (writes_only_bind [Path.join TASK1_OUTPUT_DIR [output_name file]] []
                    m k
                    (writes_only_keeps _ _ _ (keeps_files_logging_info _ _))
                    (fun _ => writes_only_run_anomaly_detection _ _ _ _) w) as [Hcsv Htxt];
      destruct ((m ≫= k) w) as [[[]|e1] w1] eqn:Hstep
  end; cbn [snd] in Hcsv, Htxt.
  - (* the iteration returned: the failing file is a later one *)
    assert (Hne : file_name <> file).
    { intros <-. rewrite bind_run, logging_info_run in Hstep. cbn beta iota in Hstep.
      destruct (scoring_step_aborts (Path.join clean_dir [file_name])
                  (output_name file_name) contamination features
                  (mkWorld (heap w) (log w ++ [LogInfo "Running anomaly detection on" []])
                     (csv_files w) (text_files w)) f cs e Hf Ha Hcs Hfit) as [w2 Hab].
      rewrite Hab in Hstep. discriminate. }
    destruct (IH) with (w := w1) as (e' & w' & Hrun & Ht).
    + apply elem_of_cons in Hin as [?|?]; [contradiction | assumption].
    + intros file' Hin'. apply Hpaths. right. exact Hin'.
    + rewrite Hcsv; [exact Hf|].
      intros Hx. apply list_elem_of_singleton in Hx.
      apply (Hpaths file (list_elem_of_here _ _)). symmetry. exact Hx.
    + exists e', w'. split; [exact Hrun|].
      intros p. rewrite Ht. apply Htxt, not_elem_of_nil.
  - exists e1, w1. split; [reflexivity|]. intros p. apply Htxt, not_elem_of_nil.
Qed.

End MainRuns.

Lemma clean_path file_name :
  file_name ∈ ["cleaned_abm.csv"; "cleaned_card.csv"; "cleaned_cheque.csv";
               "cleaned_eft.csv"; "cleaned_emt.csv"; "cleaned_wire.csv"] ->
  Path.join (Path.join "mnt" ["output"; "clean"]) [file_name]
  = String.append "mnt/output/clean/" file_name.
Proof.
  rewrite !elem_of_cons.
  intros [->|[->|[->|[->|[->|[->|Hin]]]]]]; [| | | | | |inversion Hin]; reflexivity.
Qed.

Lemma generate_customer_embeddings_missing {pd : Pandas} {kr : Keras}
    feature_cols epochs batch_size w :
  assoc "mnt/output/clean/cleaned_kyc.csv" (csv_files w) = None ->
  generate_customer_embeddings feature_cols epochs batch_size w
  = (Ok tt,
     mkWorld (heap w)
       (log w ++ [LogError "Error loading KYC data" (Some FileNotFoundError);
                  LogError "Failed to load KYC data. Exiting embedding generation." None])
       (csv_files w) (text_files w)).
Proof.
  intros Hf. unfold generate_customer_embeddings.
  rewrite bind_run, (load_kyc_data_missing w Hf). cbn beta iota.
  rewrite logging_error_run. cbn [heap log csv_files text_files].
  rewrite <- app_assoc. reflexivity.
Qed.

(** X24.  Missing inputs do not stop [main].  When none of the six cleaned
    transaction files and no cleaned KYC file can be loaded, [main] still
    returns and reports the pipeline as complete: it has logged eight
    errors, created no table and written no file. *)
Theorem main_without_inputs {pd : Pandas} {sk : Sklearn} {kr : Keras} {fs : Files}
    (w : world) :
  (forall file_name,
     file_name ∈ ["cleaned_abm.csv"; "cleaned_card.csv"; "cleaned_cheque.csv";
                  "cleaned_eft.csv"; "cleaned_emt.csv"; "cleaned_wire.csv"] ->
     assoc (String.append "mnt/output/clean/" file_name) (csv_files w) = None) ->
  assoc "mnt/output/clean/cleaned_kyc.csv" (csv_files w) = None ->
  exists w',
    main w = (Ok tt, w')
    /\ heap w' = heap w
    /\ csv_files w' = csv_files w
    /\ text_files w' = text_files w
    /\ length (errors (new_log w w')) = 8
    /\ List.last (new_log w w') (LogError "" None)
       = LogInfo "Production pipeline complete." [].
Proof.
  intros Hfiles Hkyc. unfold main. cbv zeta.
  rewrite bind_run, logging_info_run. cbn beta iota. rewrite bind_run.
  match goal with
  | |- context [for_ ?files _ ?w1] =>
      destruct (scoring_loop_missing (Path.join "mnt" ["output"; "clean"])
                  (Q2Qc (1 # 100)) (Some ["amount_cad"]) files w1) as (lg & Hloop & Hlen)
  end.
  { intros file_name Hin. cbn [csv_files]. rewrite clean_path by exact Hin.
    apply Hfiles, Hin. }
  rewrite Hloop. cbn [heap log csv_files text_files]. cbn beta iota.
  rewrite bind_run, logging_info_run. cbn [heap log csv_files text_files]. cbn beta iota.
  rewrite bind_run, generate_customer_embeddings_missing by exact Hkyc.
  cbn [heap log csv_files text_files]. cbn beta iota.
  rewrite logging_info_run. cbn [heap log csv_files text_files].
  eexists. split; [reflexivity|]. cbn [heap csv_files text_files].
  repeat (split; [reflexivity|]).
  erewrite new_log_app by (cbn [log]; rewrite <- !app_assoc; reflexivity).
  split.
  - rewrite !errors_app, !length_app, Hlen. reflexivity.
  - rewrite !app_assoc. apply last_last.
Qed.

Lemma main_without_inputs_witness :
  (forall file_name,
     file_name ∈ ["cleaned_abm.csv"; "cleaned_card.csv"; "cleaned_cheque.csv";
                  "cleaned_eft.csv"; "cleaned_emt.csv"; "cleaned_wire.csv"] ->
     assoc (String.append "mnt/output/clean/" file_name) (csv_files Cases.empty_disk)
     = None)
  /\ assoc "mnt/output/clean/cleaned_kyc.csv" (csv_files Cases.empty_disk) = None
  /\ exists w',
    main Cases.empty_disk = (Ok tt, w')
    /\ heap w' = heap Cases.empty_disk
    /\ csv_files w' = csv_files Cases.empty_disk
    /\ text_files w' = text_files Cases.empty_disk
    /\ length (errors (new_log Cases.empty_disk w')) = 8
    /\ List.last (new_log Cases.empty_disk w') (LogError "" None)
       = LogInfo "Production pipeline complete." [].
Proof.
  assert (Hfiles : forall file_name,
     file_name ∈ ["cleaned_abm.csv"; "cleaned_card.csv"; "cleaned_cheque.csv";
                  "cleaned_eft.csv"; "cleaned_emt.csv"; "cleaned_wire.csv"] ->
     assoc (String.append "mnt/output/clean/" file_name) (csv_files Cases.empty_disk)
     = None) by (intros; reflexivity).
  split; [exact Hfiles|]. split; [reflexivity|].
  exact (main_without_inputs Cases.empty_disk Hfiles eq_refl).
Defined.

(** X25.  A failing model stops [main].  When one of the cleaned
    transaction files loads with an [amount_cad] column on which the model
    raises, [main] ends with an exception: the files after it are not
    scored, the embeddings are not generated and no text file is written or
    changed. *)
Theorem main_aborts {pd : Pandas} {sk : Sklearn} {kr : Keras} {fs : Files}
    (w : world) (file_name : string) (f : DataFrame) (cs : list (string * Series))
    (e : exn) :
  file_name ∈ ["cleaned_abm.csv"; "cleaned_card.csv"; "cleaned_cheque.csv";
               "cleaned_eft.csv"; "cleaned_emt.csv"; "cleaned_wire.csv"] ->
  assoc (String.append "mnt/output/clean/" file_name) (csv_files w) = Some f ->
  available (Some ["amount_cad"]) f <> [] ->
  select_columns (available (Some ["amount_cad"]) f) f = Ok cs ->
  fit_predict (Q2Qc (1 # 100)) 42 (mkDF (index_name f) (index f) cs) = Raise e ->
  exists e' w',
    main w = (Raise e', w')
    /\ (forall p, assoc p (text_files w') = assoc p (text_files w)).
Proof.
  intros Hin Hf Ha Hcs Hfit. unfold main. cbv zeta.
  rewrite bind_run, logging_info_run. cbn beta iota. rewrite bind_run.
  match goal with
  | |- context [for_ ?files _ ?w1] =>
      destruct (scoring_loop_aborts (Path.join "mnt" ["output"; "clean"])
                  (Q2Qc (1 # 100)) (Some ["amount_cad"]) files file_name w1 f cs e)
        as (e' & w' & Hloop & Htxt)
  end; try assumption.
  - intros file Hfile. rewrite (clean_path file_name Hin).
    rewrite !elem_of_cons in Hin, Hfile.
    destruct Hin as [->|[->|[->|[->|[->|[->|Hin]]]]]]; [| | | | | |inversion Hin];
      (destruct Hfile as [->|[->|[->|[->|[->|[->|Hfile]]]]]]; [| | | | | |inversion Hfile]);
      vm_compute; discriminate.
  - cbn [csv_files]. rewrite clean_path by exact Hin. exact Hf.
  - rewrite Hloop. exists e', w'. split; [reflexivity|]. exact Htxt.
Qed.

Lemma main_aborts_witness :
  exists cs,
    "cleaned_card.csv" ∈ ["cleaned_abm.csv"; "cleaned_card.csv"; "cleaned_cheque.csv";
                          "cleaned_eft.csv"; "cleaned_emt.csv"; "cleaned_wire.csv"]
    /\ assoc (String.append "mnt/output/clean/" "cleaned_card.csv")
         (csv_files Cases.dirty_disk) = Some Examples.card_table
    /\ available (Some ["amount_cad"]) Examples.card_table <> []
    /\ select_columns (available (Some ["amount_cad"]) Examples.card_table)
         Examples.card_table = Ok cs
    /\ fit_predict (Q2Qc (1 # 100)) 42
         (mkDF (index_name Examples.card_table) (index Examples.card_table) cs)
       = Raise ValueError
    /\ exists e' w',
        main Cases.dirty_disk = (Raise e', w')
        /\ (forall p, assoc p (text_files w') = assoc p (text_files Cases.dirty_disk)).
Proof.
  assert (Hin : "cleaned_card.csv" ∈ ["cleaned_abm.csv"; "cleaned_card.csv";
                  "cleaned_cheque.csv"; "cleaned_eft.csv"; "cleaned_emt.csv";
                  "cleaned_wire.csv"])
    by (apply (bool_decide_unpack _); vm_compute; exact I).
  assert (Ha : available (Some ["amount_cad"]) Examples.card_table <> [])
    by (vm_compute; discriminate).
  eexists. split; [exact Hin|]. split; [reflexivity|]. split; [exact Ha|].
  split; [vm_compute; reflexivity|]. split; [vm_compute; reflexivity|].
  exact (main_aborts Cases.dirty_disk "cleaned_card.csv" Examples.card_table _ ValueError
           Hin eq_refl Ha eq_refl eq_refl).
Defined.

(** ** [save_cleaned_data] and the [__main__] block of the cleaning script *)

Lemma keeps_files_for_fold {A B} (xs : list A) (acc : B) (body : A -> B -> M world B) :
  (forall x acc, keeps_files (body x acc)) -> keeps_files (for_fold xs acc body).
Proof.
  intros Hb. revert acc. induction xs as [|x xs IH]; intros acc; cbn [for_fold].
  - apply keeps_files_ret.
  - apply keeps_files_bind; [apply Hb | intros acc'; apply IH].
Qed.

Lemma keeps_files_table_at d key : keeps_files (table_at d key).
Proof.
  unfold table_at. destruct (assoc key d) as [[l|]|];
    [apply keeps_files_ret | apply keeps_files_raise | apply keeps_files_raise].
Qed.

Section ScriptFiles.
Context {pd : Pandas} {fs : Files}.

Lemma keeps_files_os_path_exists path : keeps_files (os_path_exists path).
Proof. intros w. split; reflexivity. Qed.

Lemma keeps_files_read_csv_index0 path : keeps_files (read_csv_index0 path).
Proof.
  intros w. unfold read_csv_index0. destruct (assoc path (csv_files w)); split; reflexivity.
Qed.

Lemma keeps_files_file_exists path : keeps_files (file_exists path).
Proof.
  unfold file_exists. apply keeps_files_bind; [apply keeps_files_os_path_exists|].
  intros b. destruct (negb b); keeps_files.
Qed.

Lemma keeps_files_load_transaction_file file_name acc :
  keeps_files (load_transaction_file file_name acc).
Proof.
  unfold load_transaction_file. cbv zeta.
  apply keeps_files_bind; [apply keeps_files_file_exists|].
  intros b. destruct b; [|apply keeps_files_raise].
  apply keeps_files_try_return.
  - apply keeps_files_bind; [apply keeps_files_read_csv_index0|]. intros df. keeps_files.
  - intros e. keeps_files.
Qed.

Lemma keeps_files_load_transaction_files d : keeps_files (load_transaction_files d).
Proof.
  unfold load_transaction_files. apply keeps_files_for_fold.
  apply keeps_files_load_transaction_file.
Qed.

Lemma keeps_files_load_kyc_files : keeps_files load_kyc_files.
Proof.
  unfold load_kyc_files. cbv zeta.
  apply keeps_files_bind; [apply keeps_files_file_exists|]. intros b1.
  apply keeps_files_bind.
  - destruct (negb b1); [apply keeps_files_ret|].
    apply keeps_files_bind; [apply keeps_files_file_exists | intros; apply keeps_files_ret].
  - intros missing. destruct missing; [apply keeps_files_raise|].
    apply keeps_files_try_return.
    + apply keeps_files_bind; [apply keeps_files_read_csv_index0|]. intros k.
      apply keeps_files_bind; [apply keeps_files_read_csv_index0|]. intros c.
      keeps_files.
    + intros e. keeps_files.
Qed.

Lemma clean_output_path filename :
  Path.join CLEAN_OUTPUT_DIR [filename]
  = if Path.startswith_sep filename then filename
    else String.append "mnt/output/clean/" filename.
Proof.
  unfold Path.join, CLEAN_OUTPUT_DIR, Path.join. cbn [fold_left].
  unfold Path.join2 at 1. destruct (Path.startswith_sep filename); reflexivity.
Qed.

Lemma writes_only_save_cleaned_data l filename :
  writes_only [Path.join CLEAN_OUTPUT_DIR [filename]] [] (save_cleaned_data l filename).
Proof. unfold save_cleaned_data. cbv zeta. apply writes_only_save_block. Qed.

Lemma file_exists_run path w :
  file_exists path w
  = if bool_decide (is_Some (assoc path (csv_files w)))
       || bool_decide (is_Some (assoc path (text_files w)))
       || on_disk path
    then (Ok true, w)
    else (Ok false, mkWorld (heap w) (log w ++ [LogError "File not found" None])
                            (csv_files w) (text_files w)).
Proof.
  unfold file_exists. rewrite bind_run. unfold os_path_exists at 1. cbn beta iota.
  destruct (bool_decide _ || bool_decide _ || on_disk path); reflexivity.
Qed.

(** the loading loop stops at a file that is not there *)
Lemma load_loop_missing names acc name w :
  name ∈ names ->
  assoc (Path.join RAW_DATA_DIR [name]) (csv_files w) = None ->
  assoc (Path.join RAW_DATA_DIR [name]) (text_files w) = None ->
  on_disk (Path.join RAW_DATA_DIR [name]) = false ->
  exists e w', for_fold names acc load_transaction_file w = (Raise e, w').
Proof.
  intros Hin. revert acc w. induction names as [|x names IH]; intros acc w Hf Ht Hd;
    [inversion Hin|].
  cbn [for_fold]. rewrite bind_run.
  destruct (keeps_files_load_transaction_file x acc w) as [Hcsv Htxt].
  destruct (load_transaction_file x acc w) as [[acc'|e] w1] eqn:Hstep; [|eauto].
  cbn [snd] in Hcsv, Htxt.
  assert (Hne : name <> x).
  { intros <-. unfold load_transaction_file in Hstep. cbv zeta in Hstep.
    rewrite bind_run, file_exists_run in Hstep.
    rewrite Hf, Ht, Hd in Hstep. cbn in Hstep. discriminate. }
  apply elem_of_cons in Hin as [?|Hin]; [contradiction|].
  apply (IH Hin acc' w1); [rewrite Hcsv; exact Hf | rewrite Htxt; exact Ht | exact Hd].
Qed.

End ScriptFiles.

(** X26.  [save_cleaned_data] never raises and leaves the table it saves as
    it was.  When the file can be written, it is the file of that name in
    the directory of the cleaned files; it holds the columns of the table,
    without the row index, every other file is as it was, and the save is
    logged; when it cannot, the error is logged and every file is as it
    was. *)
Theorem save_cleaned_data_outcome {fs : Files} (l : loc) (filename : string)
    (w : world) (f : DataFrame) :
  heap w !! l = Some f ->
  exists w',
    save_cleaned_data l filename w = (Ok tt, w')
    /\ heap w' = heap w
    /\ text_files w' = text_files w
    /\ match write_error (Path.join CLEAN_OUTPUT_DIR [filename]) with
       | None =>
           assoc (Path.join CLEAN_OUTPUT_DIR [filename]) (csv_files w')
           = reloaded (columns f)
           /\ (forall p, p <> Path.join CLEAN_OUTPUT_DIR [filename] ->
                 assoc p (csv_files w') = assoc p (csv_files w))
           /\ new_log w w' = [LogInfo "Saved cleaned data to" []]
       | Some e =>
           csv_files w' = csv_files w
           /\ new_log w w' = [LogError "Error saving file" (Some e)]
       end
    /\ (Path.startswith_sep filename = false ->
        Path.join CLEAN_OUTPUT_DIR [filename]
        = String.append "mnt/output/clean/" filename).
Proof.
  intros Hl. unfold save_cleaned_data. cbv zeta.
  rewrite (save_block_run l w f _ _ _ Hl).
  eexists. split; [reflexivity|].
  destruct (write_error (Path.join CLEAN_OUTPUT_DIR [filename])) as [e|];
    cbn [heap csv_files text_files].
  - split; [reflexivity|]. split; [reflexivity|]. split.
    + split; [reflexivity|]. erewrite new_log_app by (cbn [log]; reflexivity). reflexivity.
    + intros Hs. rewrite clean_output_path, Hs. reflexivity.
  - split; [reflexivity|]. split; [reflexivity|]. split.
    + split; [apply store_csv_same|].
      split; [intros p Hp; apply store_csv_other, Hp|].
      erewrite new_log_app by (cbn [log]; reflexivity). reflexivity.
    + intros Hs. rewrite clean_output_path, Hs. reflexivity.
Qed.

Lemma save_cleaned_data_outcome_witness :
  heap (Examples.world_of Examples.amounts_table) !! 0 = Some Examples.amounts_table
  /\ exists w',
    save_cleaned_data 0 "cleaned_abm.csv" (Examples.world_of Examples.amounts_table)
    = (Ok tt, w')
    /\ heap w' = heap (Examples.world_of Examples.amounts_table)
    /\ text_files w' = text_files (Examples.world_of Examples.amounts_table)
    /\ match write_error (Path.join CLEAN_OUTPUT_DIR ["cleaned_abm.csv"]) with
       | None =>
           assoc (Path.join CLEAN_OUTPUT_DIR ["cleaned_abm.csv"]) (csv_files w')
           = reloaded (columns Examples.amounts_table)
           /\ (forall p, p <> Path.join CLEAN_OUTPUT_DIR ["cleaned_abm.csv"] ->
                 assoc p (csv_files w')
                 = assoc p (csv_files (Examples.world_of Examples.amounts_table)))
           /\ new_log (Examples.world_of Examples.amounts_table) w'
              = [LogInfo "Saved cleaned data to" []]
       | Some e =>
           csv_files w' = csv_files (Examples.world_of Examples.amounts_table)
           /\ new_log (Examples.world_of Examples.amounts_table) w'
              = [LogError "Error saving file" (Some e)]
       end
    /\ (Path.startswith_sep "cleaned_abm.csv" = false ->
        Path.join CLEAN_OUTPUT_DIR ["cleaned_abm.csv"]
        = String.append "mnt/output/clean/" "cleaned_abm.csv").
Proof.
  split; [reflexivity|].
  exact (save_cleaned_data_outcome 0 "cleaned_abm.csv"
           (Examples.world_of Examples.amounts_table) Examples.amounts_table eq_refl).
Defined.

Ltac script_keeps :=
  apply writes_only_keeps;
  first [ apply keeps_files_load_transaction_files
        | apply keeps_files_load_kyc_files
        | apply keeps_files_table_at
        | apply keeps_files_clean_transactions
        | apply keeps_files_clean_bool_columns
        | apply keeps_files_clean_kyc_data
        | apply keeps_files_clean_kyc_industry_codes
        | solve [keeps_files] ].

Ltac script_save :=
  eapply writes_only_weaken; [| |apply writes_only_save_cleaned_data];
  [ intros ? Hp; apply list_elem_of_singleton in Hp as ->;
    apply (bool_decide_unpack _); vm_compute; exact I
  | intros ? Hp; inversion Hp ].

(** X27.  However it ends, the [__main__] block of the cleaning script
    touches eight files only, the cleaned files it is there to write; every
    other file is left as it was, and so the raw files are never changed. *)
Theorem preprocessing_footprint {pd : Pandas} {fs : Files} :
  writes_only
    ["mnt/output/clean/cleaned_abm.csv"; "mnt/output/clean/cleaned_card.csv";
     "mnt/output/clean/cleaned_cheque.csv"; "mnt/output/clean/cleaned_eft.csv";
     "mnt/output/clean/cleaned_emt.csv"; "mnt/output/clean/cleaned_wire.csv";
     "mnt/output/clean/cleaned_kyc.csv";
     "mnt/output/clean/cleaned_kyc_industry_codes.csv"]
    []
    preprocessing_main.
Proof.
  unfold preprocessing_main. cbv zeta.
  apply writes_only_bind; [script_keeps|]. intros transaction_files.
  apply writes_only_bind; [script_keeps|]. intros [kyc_data kyc_industry_codes].
  repeat (apply writes_only_bind; [first [script_keeps | script_save]|]; intros ?).
  script_keeps.
Qed.

Lemma raw_path name :
  name ∈ ["abm.csv"; "card.csv"; "cheque.csv"; "eft.csv"; "emt.csv"; "wire.csv";
          "kyc.csv"; "kyc_industry_codes.csv"] ->
  Path.join RAW_DATA_DIR [name] = String.append "mnt/data/" name.
Proof.
  rewrite !elem_of_cons.
  intros [->|[->|[->|[->|[->|[->|[->|[->|Hin]]]]]]]]; [| | | | | | | |inversion Hin];
    reflexivity.
Qed.

Section ScriptLoading.
Context {pd : Pandas} {fs : Files}.

(** the two KYC files are both needed *)
Lemma load_kyc_files_missing name w :
  name ∈ ["kyc.csv"; "kyc_industry_codes.csv"] ->
  assoc (Path.join RAW_DATA_DIR [name]) (csv_files w) = None ->
  assoc (Path.join RAW_DATA_DIR [name]) (text_files w) = None ->
  on_disk (Path.join RAW_DATA_DIR [name]) = false ->
  exists w', load_kyc_files w = (Raise FileNotFoundError, w').
Proof.
  intros Hin Hf Ht Hd. unfold load_kyc_files. cbv zeta.
  rewrite bind_run, file_exists_run.
  rewrite !elem_of_cons in Hin. destruct Hin as [->|[->|Hin]]; [| |inversion Hin].
  - rewrite Hf, Ht, Hd. cbn. eexists. reflexivity.
  - destruct (bool_decide _ || bool_decide _ || on_disk _).
    + cbn beta iota. cbn [negb]. cbn beta iota. rewrite bind_run, bind_run.
      rewrite file_exists_run, Hf, Ht, Hd. cbn. eexists. reflexivity.
    + cbn. eexists. reflexivity.
Qed.

End ScriptLoading.

(** X28.  A raw file that is not there is fatal for the cleaning script.
    When one of the six transaction files or of the two KYC files does not
    exist, the [__main__] block ends with an exception while it loads the
    files, before any cleaning: no file has been written. *)
Theorem preprocessing_missing_file {pd : Pandas} {fs : Files} (w : world) (name : string) :
  name ∈ ["abm.csv"; "card.csv"; "cheque.csv"; "eft.csv"; "emt.csv"; "wire.csv";
          "kyc.csv"; "kyc_industry_codes.csv"] ->
  assoc (String.append "mnt/data/" name) (csv_files w) = None ->
  assoc (String.append "mnt/data/" name) (text_files w) = None ->
  on_disk (String.append "mnt/data/" name) = false ->
  exists e w',
    preprocessing_main w = (Raise e, w')
    /\ csv_files w' = csv_files w
    /\ text_files w' = text_files w.
Proof.
  intros Hin Hf Ht Hd. rewrite <- (raw_path name Hin) in Hf, Ht, Hd.
  unfold preprocessing_main. cbv zeta. rewrite bind_run.
  match goal with
  | |- context [load_transaction_files ?d w] =>
      destruct (keeps_files_load_transaction_files d w) as [Hcsv1 Htxt1];
      destruct (load_transaction_files d w) as [[tf|e] w1] eqn:H1
  end; cbn [snd] in Hcsv1, Htxt1.
  2:{ exists e, w1. auto. }
  assert (Hkyc : name ∈ ["kyc.csv"; "kyc_industry_codes.csv"]).
  { rewrite !elem_of_cons in Hin. rewrite !elem_of_cons.
    destruct Hin as [->|[->|[->|[->|[->|[->|[->|[->|Hin]]]]]]]];
      [| | | | | |left; reflexivity|right; left; reflexivity|inversion Hin];
      exfalso; unfold load_transaction_files in H1;
      match type of Hf with
      | assoc (Path.join RAW_DATA_DIR [?n]) _ = _ =>
          destruct (load_loop_missing
                      ["abm.csv"; "card.csv"; "cheque.csv"; "eft.csv"; "emt.csv"; "wire.csv"]
                      [("abm.csv", None); ("card.csv", None); ("cheque.csv", None);
                       ("eft.csv", None); ("emt.csv", None); ("wire.csv", None)]
                      n w) as (e & w' & Hr);
            [apply (bool_decide_unpack _); vm_compute; exact I
            | exact Hf | exact Ht | exact Hd |];
          change (map fst [("abm.csv", @None loc); ("card.csv", None); ("cheque.csv", None);
                           ("eft.csv", None); ("emt.csv", None); ("wire.csv", None)])
            with ["abm.csv"; "card.csv"; "cheque.csv"; "eft.csv"; "emt.csv"; "wire.csv"]
            in H1;
          rewrite Hr in H1; discriminate
      end. }
  cbn beta iota. rewrite bind_run.
  destruct (keeps_files_load_kyc_files w1) as [Hcsv2 Htxt2].
  destruct (load_kyc_files_missing name w1 Hkyc) as [w2 H2];
    [rewrite Hcsv1; exact Hf | rewrite Htxt1; exact Ht | exact Hd|].
  rewrite H2 in Hcsv2, Htxt2 |- *. cbn [snd] in Hcsv2, Htxt2.
  exists FileNotFoundError, w2. split; [reflexivity|]. split; congruence.
Qed.

Lemma preprocessing_missing_file_witness :
  "card.csv" ∈ ["abm.csv"; "card.csv"; "cheque.csv"; "eft.csv"; "emt.csv"; "wire.csv";
                "kyc.csv"; "kyc_industry_codes.csv"]
  /\ assoc (String.append "mnt/data/" "card.csv") (csv_files Cases.empty_disk) = None
  /\ assoc (String.append "mnt/data/" "card.csv") (text_files Cases.empty_disk) = None
  /\ on_disk (String.append "mnt/data/" "card.csv") = false
  /\ exists e w',
    preprocessing_main Cases.empty_disk = (Raise e, w')
    /\ csv_files w' = csv_files Cases.empty_disk
    /\ text_files w' = text_files Cases.empty_disk.
Proof.
  assert (Hin : "card.csv" ∈ ["abm.csv"; "card.csv"; "cheque.csv"; "eft.csv"; "emt.csv";
                              "wire.csv"; "kyc.csv"; "kyc_industry_codes.csv"])
    by (apply (bool_decide_unpack _); vm_compute; exact I).
  split; [exact Hin|]. split; [reflexivity|]. split; [reflexivity|]. split; [reflexivity|].
  exact (preprocessing_missing_file Cases.empty_disk "card.csv" Hin eq_refl eq_refl eq_refl).
Defined.

(** ** The cleaning script once the files are loaded *)

Lemma returns_bind {S A B} (m : M S A) (k : A -> M S B) :
  returns m -> (forall a, returns (k a)) -> returns (m ≫= k).
Proof.
  intros Hm Hk s. rewrite bind_run. destruct (Hm s) as (a & s1 & ->). apply Hk.
Qed.

Lemma returns_try_except {S} `{Logger S} (body : M S unit) msg :
  returns (try_except body (fun e => logging_error msg (Some e))).
Proof.
  intros s. unfold try_except. destruct (body s) as [[[]|e] s1]; eauto.
Qed.

Lemma returns_len : returns len.
Proof. intros s. unfold len. eauto. Qed.

Lemma returns_logging_info {S} `{Logger S} msg args : returns (logging_info (S := S) msg args).
Proof. intros s. unfold logging_info. eauto. Qed.

Ltac returns :=
  repeat first
    [ apply returns_try_except
    | apply returns_len
    | apply returns_logging_info
    | apply returns_bind; [|intros] ].

Lemma on_fresh_returns {A} (m : M fstate A) h lg cf tf f :
  returns m ->
  exists a f' lg',
    on (length h) m (mkWorld (h ++ [f]) lg cf tf) = (Ok a, mkWorld (h ++ [f']) lg' cf tf).
Proof.
  intros Hm. destruct (Hm (f, lg)) as (a & [f' lg'] & Hrun).
  exists a, f', lg'. apply on_fresh, Hrun.
Qed.

Section ScriptRuns.
Context {pd : Pandas} {fs : Files}.

(** [clean_transactions] returns a new table whatever the table it is
    given *)
Lemma clean_transactions_returns l date_cols numeric_cols w f :
  heap w !! l = Some f ->
  exists out lg,
    clean_transactions l date_cols numeric_cols w
    = (Ok (length (heap w)), mkWorld (heap w ++ [out]) lg (csv_files w) (text_files w)).
Proof.
  intros Hl. unfold clean_transactions.
  rewrite bind_run. erewrite on_read by (try eassumption; reflexivity).
  cbn beta iota. rewrite bind_run. erewrite copy_run by eassumption. cbn beta iota.
  rewrite bind_run.
  match goal with
  | |- context [on _ ?body _] =>
      destruct (on_fresh_returns body (heap w) (log w) (csv_files w) (text_files w) f)
        as ([] & out & lg & Hrun); [returns|]
  end.
  rewrite Hrun. eauto.
Qed.

Lemma clean_kyc_data_returns l w f :
  heap w !! l = Some f ->
  exists out lg,
    clean_kyc_data l w
    = (Ok (length (heap w)), mkWorld (heap w ++ [out]) lg (csv_files w) (text_files w)).
Proof.
  intros Hl. unfold clean_kyc_data.
  rewrite bind_run. erewrite on_read by (try eassumption; reflexivity).
  cbn beta iota. rewrite bind_run. erewrite copy_run by eassumption. cbn beta iota.
  rewrite bind_run.
  match goal with
  | |- context [on _ ?body _] =>
      destruct (on_fresh_returns body (heap w) (log w) (csv_files w) (text_files w) f)
        as ([] & out & lg & Hrun); [returns|]
  end.
  rewrite Hrun. eauto.
Qed.

Lemma load_transaction_file_run file_name acc w f :
  assoc (Path.join RAW_DATA_DIR [file_name]) (csv_files w) = Some f ->
  load_transaction_file file_name acc w
  = (Ok (assoc_set file_name (Some (length (heap w))) acc),
     mkWorld (heap w ++ [index_col0 f]) (log w ++ [LogInfo "Loaded" []])
             (csv_files w) (text_files w)).
Proof.
  intros Hf. unfold load_transaction_file. cbv zeta.
  rewrite bind_run, file_exists_run, Hf.
  rewrite bool_decide_eq_true_2 by eauto. cbn [orb]. cbn beta iota.
  unfold try_return. rewrite bind_run. unfold read_csv_index0 at 1. rewrite Hf.
  unfold alloc at 1. cbn beta iota. rewrite bind_run, logging_info_run. reflexivity.
Qed.

Lemma load_kyc_files_run w fk fi :
  assoc (Path.join RAW_DATA_DIR ["kyc.csv"]) (csv_files w) = Some fk ->
  assoc (Path.join RAW_DATA_DIR ["kyc_industry_codes.csv"]) (csv_files w) = Some fi ->
  load_kyc_files w
  = (Ok (length (heap w), length (heap w ++ [index_col0 fk])),
     mkWorld ((heap w ++ [index_col0 fk]) ++ [index_col0 fi])
             (log w ++ [LogInfo "Loaded KYC data files." []])
             (csv_files w) (text_files w)).
Proof.
  intros Hk Hi. unfold load_kyc_files. cbv zeta.
  rewrite bind_run, file_exists_run, Hk.
  rewrite bool_decide_eq_true_2 by eauto. cbn [orb negb]. cbn beta iota.
  rewrite bind_run, bind_run, file_exists_run, Hi.
  rewrite bool_decide_eq_true_2 by eauto. cbn [orb negb]. cbn beta iota.
  unfold mret at 1, M_ret at 1. cbn beta iota. cbn [negb]. cbn beta iota.
  unfold try_return. rewrite bind_run. unfold read_csv_index0 at 1. rewrite Hk.
  unfold alloc at 1. cbn beta iota. rewrite bind_run.
  unfold read_csv_index0 at 1. cbn [csv_files]. rewrite Hi.
  unfold alloc at 1. cbn [heap log csv_files text_files]. cbn beta iota.
  rewrite bind_run, logging_info_run. cbn [heap log csv_files text_files].
  reflexivity.
Qed.

Lemma table_at_run d key l (w : world) :
  assoc key d = Some (Some l) -> table_at d key w = (Ok l, w).
Proof. intros Hd. unfold table_at. rewrite Hd. reflexivity. Qed.

(** the six transaction files, loaded in the order of the dict *)
Lemma load_transaction_files_run w fa fc fq fe fm fw :
  assoc (Path.join RAW_DATA_DIR ["abm.csv"]) (csv_files w) = Some fa ->
  assoc (Path.join RAW_DATA_DIR ["card.csv"]) (csv_files w) = Some fc ->
  assoc (Path.join RAW_DATA_DIR ["cheque.csv"]) (csv_files w) = Some fq ->
  assoc (Path.join RAW_DATA_DIR ["eft.csv"]) (csv_files w) = Some fe ->
  assoc (Path.join RAW_DATA_DIR ["emt.csv"]) (csv_files w) = Some fm ->
  assoc (Path.join RAW_DATA_DIR ["wire.csv"]) (csv_files w) = Some fw ->
  exists lg,
    load_transaction_files
      [("abm.csv", None); ("card.csv", None); ("cheque.csv", None);
       ("eft.csv", None); ("emt.csv", None); ("wire.csv", None)] w
    = (Ok [("abm.csv", Some (length (heap w)));
           ("card.csv", Some (length (heap w ++ [index_col0 fa])));
           ("cheque.csv", Some (length ((heap w ++ [index_col0 fa]) ++ [index_col0 fc])));
           ("eft.csv",
            Some (length (((heap w ++ [index_col0 fa]) ++ [index_col0 fc])
                          ++ [index_col0 fq])));
           ("emt.csv",
            Some (length ((((heap w ++ [index_col0 fa]) ++ [index_col0 fc])
                           ++ [index_col0 fq]) ++ [index_col0 fe])));
           ("wire.csv",
            Some (length (((((heap w ++ [index_col0 fa]) ++ [index_col0 fc])
                            ++ [index_col0 fq]) ++ [index_col0 fe])
                          ++ [index_col0 fm])))],
       mkWorld ((((((heap w ++ [index_col0 fa]) ++ [index_col0 fc]) ++ [index_col0 fq])
                  ++ [index_col0 fe]) ++ [index_col0 fm]) ++ [index_col0 fw])
               lg (csv_files w) (text_files w)).
Proof.
  intros Ha Hc Hq He Hm Hw. unfold load_transaction_files.
  cbn [map fst for_fold].
  rewrite bind_run, (load_transaction_file_run "abm.csv" _ w fa Ha). cbn beta iota.
  rewrite bind_run.
  rewrite (load_transaction_file_run "card.csv" _ _ fc) by exact Hc.
  cbn [heap log csv_files text_files]. cbn beta iota.
  rewrite bind_run.
  rewrite (load_transaction_file_run "cheque.csv" _ _ fq) by exact Hq.
  cbn [heap log csv_files text_files]. cbn beta iota.
  rewrite bind_run.
  rewrite (load_transaction_file_run "eft.csv" _ _ fe) by exact He.
  cbn [heap log csv_files text_files]. cbn beta iota.
  rewrite bind_run.
  rewrite (load_transaction_file_run "emt.csv" _ _ fm) by exact Hm.
  cbn [heap log csv_files text_files]. cbn beta iota.
  rewrite bind_run.
  rewrite (load_transaction_file_run "wire.csv" _ _ fw) by exact Hw.
  cbn [heap log csv_files text_files]. cbn beta iota.
  eexists. reflexivity.
Qed.

(** the card step of the script: the amounts of a table whose amounts are
    numbers are replaced by their absolute values *)
Lemma card_amounts_step {A} (rest : M world A) l w f :
  heap w !! l = Some f ->
  (forall c, get_col "amount_cad" f = Some c -> is_numeric c) ->
  exists out lg,
    (b ← on l (contains "amount_cad");
     when_ b
       (c ← on l (getitem "amount_cad");
        c ← lift (series_abs c);
        on l (setitem "amount_cad" c) ;;
        logging_info "Converted negative amounts in card_data to absolute values." []) ;;
     rest) w
    = rest (mkWorld (<[l := out]> (heap w)) lg (csv_files w) (text_files w)).
Proof.
  intros Hl Hnum. rewrite bind_run.
  erewrite (on_read _ l w f (has_column "amount_cad" f)) by (try eassumption; reflexivity).
  cbn beta iota.
  rewrite bind_run.
  destruct (has_column "amount_cad" f) eqn:Hc; cbn [when_].
  - apply has_column_true in Hc as [c Hc].
    destruct (series_abs_numeric c (Hnum c Hc)) as [c' [Habs _]].
    rewrite bind_run.
    erewrite on_read by (try eassumption; unfold getitem; cbn [fst]; rewrite Hc; reflexivity).
    cbn beta iota. rewrite bind_run. unfold lift at 1. rewrite Habs. cbn beta iota.
    rewrite bind_run. erewrite on_run by (try eassumption; reflexivity).
    cbn beta iota. rewrite logging_info_run. cbn [heap log csv_files text_files].
    eexists _, _. reflexivity.
  - unfold mret at 1, M_ret at 1. cbn beta iota.
    exists f, (log w). rewrite list_insert_id by exact Hl. destruct w; reflexivity.
Qed.

Lemma save_cleaned_data_returns l filename w f :
  heap w !! l = Some f ->
  exists lg cf,
    save_cleaned_data l filename w = (Ok tt, mkWorld (heap w) lg cf (text_files w)).
Proof.
  intros Hl. unfold save_cleaned_data. cbv zeta.
  rewrite (save_block_run l w f _ _ _ Hl).
  destruct (write_error _); eexists _, _; reflexivity.
Qed.

End ScriptRuns.

Ltac cell :=
  first [ apply list_lookup_middle; reflexivity
        | apply lookup_app_l_Some; cell ].

Ltac alive :=
  cbn [heap]; repeat first [rewrite length_insert | rewrite length_app]; cbn [length]; lia.

Ltac clean_step :=
  rewrite bind_run;
  match goal with
  | |- context [clean_transactions ?l ?d ?n ?W] =>
      let out := fresh "out" in
      let lg := fresh "lg" in
      let Hrun := fresh "Hrun" in
      edestruct (clean_transactions_returns l d n W) as (out & lg & Hrun);
      [cbn [heap]; cell|];
      rewrite Hrun; clear Hrun; cbn [heap log csv_files text_files]; cbn beta iota
  end.

Ltac bool_step :=
  rewrite bind_run;
  match goal with
  | |- context [clean_bool_columns ?l ?c ?W] =>
      let f := fresh "f" in
      let Hf := fresh "Hf" in
      destruct (lookup_lt_is_Some_2 (heap W) l) as [f Hf]; [alive|];
      rewrite (clean_bool_columns_run l c W f Hf); clear Hf;
      cbn [heap log csv_files text_files]; cbn beta iota;
      match goal with
      | |- context [mkWorld _ ?lg _ _] => generalize lg; intro
      end;
      generalize (fst (bool_columns_cleaned c f)); clear f; intro
  end.

Ltac save_step :=
  rewrite bind_run;
  match goal with
  | |- context [save_cleaned_data ?l ?n ?W] =>
      let f := fresh "f" in
      let Hf := fresh "Hf" in
      let lg := fresh "lg" in
      let cf := fresh "cf" in
      let Hrun := fresh "Hrun" in
      destruct (lookup_lt_is_Some_2 (heap W) l) as [f Hf]; [alive|];
      destruct (save_cleaned_data_returns l n W f Hf) as (lg & cf & Hrun);
      rewrite Hrun; clear Hrun Hf; cbn [heap log csv_files text_files]; cbn beta iota
  end.

Section ScriptCompletes.
Context {pd : Pandas} {fs : Files}.

Lemma preprocessing_main_loaded w abm card cheque eft emt wire kyc codes :
  assoc (Path.join RAW_DATA_DIR ["abm.csv"]) (csv_files w) = Some abm ->
  assoc (Path.join RAW_DATA_DIR ["card.csv"]) (csv_files w) = Some card ->
  assoc (Path.join RAW_DATA_DIR ["cheque.csv"]) (csv_files w) = Some cheque ->
  assoc (Path.join RAW_DATA_DIR ["eft.csv"]) (csv_files w) = Some eft ->
  assoc (Path.join RAW_DATA_DIR ["emt.csv"]) (csv_files w) = Some emt ->
  assoc (Path.join RAW_DATA_DIR ["wire.csv"]) (csv_files w) = Some wire ->
  assoc (Path.join RAW_DATA_DIR ["kyc.csv"]) (csv_files w) = Some kyc ->
  assoc (Path.join RAW_DATA_DIR ["kyc_industry_codes.csv"]) (csv_files w) = Some codes ->
  NoDup (column_names (index_col0 card)) ->
  exists w' lg,
    preprocessing_main w = (Ok tt, w')
    /\ log w'
       = lg ++ [LogInfo "Data cleaning complete. Please review the logs for any issues." []].
Proof.
  intros Ha Hc Hq He Hm Hw Hk Hi Hnd.
  pose (P := fun r : outcome unit * world =>
    exists w' lg,
      r = (Ok tt, w')
      /\ log w'
         = lg ++ [LogInfo "Data cleaning complete. Please review the logs for any issues."
                    []]).
  change (P (preprocessing_main w)).
  unfold preprocessing_main. cbv zeta.
  rewrite bind_run.
  destruct (load_transaction_files_run w abm card cheque eft emt wire Ha Hc Hq He Hm Hw)
    as [lg0 H0].
  rewrite H0. clear H0. cbn beta iota.
  rewrite bind_run.
  rewrite (load_kyc_files_run _ kyc codes) by (cbn [csv_files]; assumption).
  cbn [heap log csv_files text_files]. cbn beta iota.
  rewrite bind_run, (table_at_run _ "abm.csv" (length (heap w))) by reflexivity.
  cbn beta iota. clean_step.
  rewrite bind_run.
  rewrite (table_at_run _ "card.csv" (length (heap w ++ [index_col0 abm])))
    by reflexivity.
  cbn beta iota. rewrite bind_run.
  match goal with
  | |- context [clean_transactions ?l ?d ?n ?W] =>
      rewrite (clean_transactions_run l d n W (index_col0 card))
        by first [exact Hnd | cbn [heap]; cell]
  end.
  cbn [heap log csv_files text_files]. cbn beta iota.
  match goal with
  | |- context [?h ++ [fst (transactions_cleaned ?d ?n ?f)]] =>
      set (card_data := length h);
      set (out_card := fst (transactions_cleaned d n f))
  end.
  match goal with
  | |- context [mkWorld _ ?l _ _] => generalize l; intros lg1
  end.
  rewrite bind_run.
  match goal with
  | |- context [table_at ?d "cheque.csv" _] =>
      match d with
      | context [("cheque.csv", Some ?l)] => rewrite (table_at_run d "cheque.csv" l) by reflexivity
      end
  end.
  cbn beta iota. clean_step.
  rewrite bind_run.
  match goal with
  | |- context [table_at ?d "eft.csv" _] =>
      match d with
      | context [("eft.csv", Some ?l)] => rewrite (table_at_run d "eft.csv" l) by reflexivity
      end
  end.
  cbn beta iota. clean_step.
  rewrite bind_run.
  match goal with
  | |- context [table_at ?d "emt.csv" _] =>
      match d with
      | context [("emt.csv", Some ?l)] => rewrite (table_at_run d "emt.csv" l) by reflexivity
      end
  end.
  cbn beta iota. clean_step.
  rewrite bind_run.
  match goal with
  | |- context [table_at ?d "wire.csv" _] =>
      match d with
      | context [("wire.csv", Some ?l)] => rewrite (table_at_run d "wire.csv" l) by reflexivity
      end
  end.
  cbn beta iota. clean_step.
  match goal with
  | |- P ((on ?l (contains _) ≫= (fun b => when_ b _ ≫= fun _ => ?rest)) ?W) =>
      edestruct (card_amounts_step rest l W out_card) as (out_abs & lg_abs & Hstep);
      [ cbn [heap]; cell
      | intros c; apply amount_after_cleaning
      | rewrite Hstep; clear Hstep ]
  end.
  cbn [heap log csv_files text_files]. subst card_data.
  generalize dependent out_card. intros out_card.
  bool_step. bool_step.
  rewrite bind_run.
  match goal with
  | |- context [clean_kyc_data ?l ?W] =>
      destruct (lookup_lt_is_Some_2 (heap W) l) as [f Hf]; [alive|];
      destruct (clean_kyc_data_returns l W f Hf) as (out_kyc & lg_kyc & Hrun);
      rewrite Hrun; clear Hrun Hf; cbn [heap log csv_files text_files]; cbn beta iota
  end.
  rewrite bind_run.
  match goal with
  | |- context [clean_kyc_industry_codes ?l ?W] =>
      destruct (lookup_lt_is_Some_2 (heap W) l) as [f' Hf]; [alive|];
      destruct (clean_kyc_industry_codes_total l W f' Hf)
        as (out_codes & lg_codes & Hrun & _);
      rewrite Hrun; clear Hrun Hf; cbn [heap log csv_files text_files]; cbn beta iota
  end.
  match goal with
  | |- context [mkWorld _ ?lg _ _] => generalize lg; intro
  end.
  do 8 save_step.
  rewrite logging_info_run. cbn [heap log csv_files text_files].
  unfold P. eexists _, _. split; reflexivity.
Qed.

End ScriptCompletes.

(** X29.  Once the eight raw files are loaded, nothing stops the cleaning
    script: whatever the tables hold and whether or not the cleaned files
    can be written, the [__main__] block runs to its end without an
    exception, and the last record of its log is the closing message.  The
    card table is taken with column names that are all different. *)
Theorem preprocessing_completes {pd : Pandas} {fs : Files} (w : world)
    (abm card cheque eft emt wire kyc codes : DataFrame) :
  assoc "mnt/data/abm.csv" (csv_files w) = Some abm ->
  assoc "mnt/data/card.csv" (csv_files w) = Some card ->
  assoc "mnt/data/cheque.csv" (csv_files w) = Some cheque ->
  assoc "mnt/data/eft.csv" (csv_files w) = Some eft ->
  assoc "mnt/data/emt.csv" (csv_files w) = Some emt ->
  assoc "mnt/data/wire.csv" (csv_files w) = Some wire ->
  assoc "mnt/data/kyc.csv" (csv_files w) = Some kyc ->
  assoc "mnt/data/kyc_industry_codes.csv" (csv_files w) = Some codes ->
  NoDup (column_names (index_col0 card)) ->
  exists w' lg,
    preprocessing_main w = (Ok tt, w')
    /\ log w'
       = lg ++ [LogInfo "Data cleaning complete. Please review the logs for any issues." []].
Proof.
  intros Ha Hc Hq He Hm Hw Hk Hi Hnd.
  exact (preprocessing_main_loaded w abm card cheque eft emt wire kyc codes
           Ha Hc Hq He Hm Hw Hk Hi Hnd).
Qed.

Lemma preprocessing_completes_witness :
  assoc "mnt/data/abm.csv" (csv_files Cases.raw_disk) = Some Examples.amounts_table
  /\ assoc "mnt/data/card.csv" (csv_files Cases.raw_disk) = Some Examples.card_table
  /\ assoc "mnt/data/cheque.csv" (csv_files Cases.raw_disk) = Some Cases.dated
  /\ assoc "mnt/data/eft.csv" (csv_files Cases.raw_disk) = Some Cases.numeric_country
  /\ assoc "mnt/data/emt.csv" (csv_files Cases.raw_disk) = Some Examples.trim_twins
  /\ assoc "mnt/data/wire.csv" (csv_files Cases.raw_disk) = Some Examples.amounts_table
  /\ assoc "mnt/data/kyc.csv" (csv_files Cases.raw_disk) = Some Cases.anonymous_kyc
  /\ assoc "mnt/data/kyc_industry_codes.csv" (csv_files Cases.raw_disk)
     = Some Cases.codes_clash
  /\ NoDup (column_names (index_col0 Examples.card_table))
  /\ exists w' lg,
    preprocessing_main Cases.raw_disk = (Ok tt, w')
    /\ log w'
       = lg ++ [LogInfo "Data cleaning complete. Please review the logs for any issues." []].
Proof.
  assert (Hnd : NoDup (column_names (index_col0 Examples.card_table)))
    by (apply (bool_decide_unpack _); vm_compute; exact I).
  repeat (split; [reflexivity|]). split; [exact Hnd|].
  exact (preprocessing_completes Cases.raw_disk _ _ _ _ _ _ _ _
           eq_refl eq_refl eq_refl eq_refl eq_refl eq_refl eq_refl eq_refl Hnd).
Defined.
